(** * LLM Council backend: a shallow embedding of the orchestration core

    The development follows the Python sources of the backend:
    - [config.py]    : the pricing table;
    - [providers.py] : provider routing, the three adapters and their
                       tool-use loops, [query_model], [query_models_parallel];
    - [council.py]   : cost, the ranking parser, the rank aggregator, the
                       four stages, title generation, [run_full_council];
    - [main.py]      : the streaming event generator.

    Conventions.
    - A Python [str] is a sequence of Unicode code points: [str := list N].
      ASCII literals are written [lit "..."].
    - A Python [dict] is an association list in insertion order ([dict V]).
    - A Python [float] is an IEEE-754 binary64 number: the kernel's
      primitive [float].
    - An awaited call that may raise returns a [result]; the monad [M]
      threads the log of provider requests and the emitted events. *)

From Stdlib Require Import Strings.String Strings.Ascii.
From Stdlib Require Import ZArith NArith List Bool Lia Permutation.
From Stdlib Require Import Floats.PrimFloat Floats.FloatOps Floats.SpecFloat.
From Stdlib Require Import Floats.FloatAxioms Floats.FloatLemmas.
Import ListNotations.

Set Implicit Arguments.
Set Warnings "-inexact-float".
Open Scope list_scope.

(* ================================================================== *)
(** * Python strings *)
(* ================================================================== *)

Module PyStr.

Definition str := list N.

(** An ASCII literal as a Python string. *)
Definition lit (s : string) : str := map N_of_ascii (list_ascii_of_string s).

Definition str_eqb (a b : str) : bool :=
  if list_eq_dec N.eq_dec a b then true else false.

(** [s.startswith(p)] *)
Fixpoint startswith (p s : str) : bool :=
  match p, s with
  | [], _ => true
  | _ :: _, [] => false
  | a :: p', b :: s' => N.eqb a b && startswith p' s'
  end.

(** [p in s] *)
Fixpoint contains (p s : str) : bool :=
  startswith p s ||
  match s with
  | [] => false
  | _ :: t => contains p t
  end.

(** [s.split(sep)] for a non-empty separator: the separator's occurrences
    are found left to right and do not overlap.  [skip] counts the
    characters of an occurrence still to be passed over; [cur] is the part
    being read, reversed. *)
Fixpoint split_aux (sep : str) (skip : nat) (cur : str) (s : str) : list str :=
  match s with
  | [] => [rev cur]
  | c :: t =>
      match skip with
      | S k => split_aux sep k cur t
      | O =>
          if startswith sep s
          then rev cur :: split_aux sep (length sep - 1) [] t
          else split_aux sep 0 (c :: cur) t
      end
  end.

Definition split (sep s : str) : list str := split_aux sep 0 [] s.

(** [str.isspace] of one character, which is also the class [\s] of [re]
    on [str] patterns (CPython 3.11). *)
Definition isspace (c : N) : bool :=
  ((9 <=? c) && (c <=? 13) || (28 <=? c) && (c <=? 32) ||
   (c =? 133) || (c =? 160) || (c =? 5760) ||
   (8192 <=? c) && (c <=? 8202) || (c =? 8232) || (c =? 8233) ||
   (c =? 8239) || (c =? 8287) || (c =? 12288))%N.

(** First code points of the runs of ten decimal digits (Unicode category
    Nd) known to CPython 3.11; the mathematical digits U+1D7CE..U+1D7FF
    form one run of fifty. *)
Definition decimal_runs : list N :=
  [48; 1632; 1776; 1984; 2406; 2534; 2662; 2790; 2918; 3046; 3174; 3302;
   3430; 3558; 3664; 3792; 3872; 4160; 4240; 6112; 6160; 6470; 6608; 6784;
   6800; 6992; 7088; 7232; 7248; 42528; 43216; 43264; 43472; 43504; 43600;
   44016; 65296; 66720; 68912; 69734; 69872; 69942; 70096; 70384; 70736;
   70864; 71248; 71360; 71472; 71904; 72016; 72784; 73040; 73120; 92768;
   92864; 93008; 123200; 123632; 125264; 130032]%N.

(** The class [\d] of [re] on [str] patterns. *)
Definition isdecimal (c : N) : bool :=
  (existsb (fun lo => (lo <=? c) && (c <=? lo + 9)) decimal_runs ||
   (120782 <=? c) && (c <=? 120831))%N.

(** The class [[A-Z]]. *)
Definition isupper_ascii (c : N) : bool := ((65 <=? c) && (c <=? 90))%N.

(** [s.lstrip(chars)], [s.rstrip(chars)] and [s.strip(chars)] for a
    predicate on characters. *)
Fixpoint lstrip (f : N -> bool) (s : str) : str :=
  match s with
  | c :: t => if f c then lstrip f t else s
  | [] => []
  end.

Definition rstrip (f : N -> bool) (s : str) : str := rev (lstrip f (rev s)).

Definition strip (f : N -> bool) (s : str) : str := rstrip f (lstrip f s).

(** [sep.join(parts)] *)
Fixpoint join (sep : str) (parts : list str) : str :=
  match parts with
  | [] => []
  | [p] => p
  | p :: rest => p ++ sep ++ join sep rest
  end.

(** [chr(n)]: defined up to U+10FFFF, [ValueError] beyond. *)
Definition chr (n : N) : option N :=
  if (n <=? 1114111)%N then Some n else None.

End PyStr.
Export PyStr.

(* ================================================================== *)
(** * Regular expressions used by the ranking parser *)
(* ================================================================== *)

Module Re.

(** [re.findall(p, s)] for a pattern without groups: the matches are
    searched left to right and do not overlap.  [m s] is the length of the
    match of the pattern at the start of [s], if there is one. *)
Fixpoint findall_aux (m : str -> option nat) (skip : nat) (s : str) : list str :=
  match s with
  | [] => []
  | _ :: t =>
      match skip with
      | S k => findall_aux m k t
      | O =>
          match m s with
          | Some n => firstn n s :: findall_aux m (Nat.pred n) t
          | None => findall_aux m 0 t
          end
      end
  end.

Definition findall (m : str -> option nat) (s : str) : list str :=
  findall_aux m 0 s.

(** [re.search(p, s)]: the leftmost match, [None] without one. *)
Definition search (m : str -> option nat) (s : str) : option str :=
  hd_error (findall m s).

(** The pattern [Response [A-Z]]: nine literal characters and one capital. *)
Definition response_label (s : str) : option nat :=
  if startswith (lit "Response ") s
  then match skipn 9 s with
       | c :: _ => if isupper_ascii c then Some 10 else None
       | [] => None
       end
  else None.

(** Number of leading characters of [s] in the class [f]. *)
Fixpoint span (f : N -> bool) (s : str) : nat :=
  match s with
  | c :: t => if f c then S (span f t) else 0
  | [] => 0
  end.

(** The pattern [\d+\.\s*Response [A-Z]].  The greedy [\d+] takes every
    leading digit; giving one back leaves a digit where the dot must be, so
    no shorter run matches.  In the same way [\s*] takes all the white
    space: the character after it must be the [R] of the literal. *)
Definition numbered_label (s : str) : option nat :=
  let d := span isdecimal s in
  match d with
  | O => None
  | S _ =>
      match skipn d s with
      | dot :: r =>
          if (dot =? 46)%N
          then let w := span isspace r in
               match response_label (skipn w r) with
               | Some n => Some (d + 1 + w + n)
               | None => None
               end
          else None
      | [] => None
      end
  end.

End Re.

(* ================================================================== *)
(** * Exceptions *)
(* ================================================================== *)

(** A raised Python exception.  [PyException] stands for the subclasses of
    [Exception] (what [except Exception] catches); [CancelledError] is
    raised inside a task whose [wait_for] deadline has passed and derives
    from [BaseException] only. *)
Inductive exn : Type :=
| PyException (cls : string) (msg : str)
| CancelledError.

Inductive result (A : Type) : Type :=
| Ok (a : A)
| Raise (e : exn).

Arguments Ok {A} a.
Arguments Raise {A} e.


(* ================================================================== *)
(** * Python dictionaries and numbers *)
(* ================================================================== *)

Module PyDict.

(** A [dict] with [str] keys, in insertion order. *)
Definition dict (V : Type) := list (str * V).

(** [d.get(k)] *)
Fixpoint dict_get {V : Type} (d : dict V) (k : str) : option V :=
  match d with
  | [] => None
  | (k', v) :: t => if str_eqb k' k then Some v else dict_get t k
  end.

(** [d[k] = v]: an existing key keeps its place, a new one goes last. *)
Fixpoint dict_set {V : Type} (d : dict V) (k : str) (v : V) : dict V :=
  match d with
  | [] => [(k, v)]
  | (k', v') :: t =>
      if str_eqb k' k then (k', v) :: t else (k', v') :: dict_set t k v
  end.

(** [k in d] *)
Definition dict_mem {V : Type} (d : dict V) (k : str) : bool :=
  match dict_get d k with Some _ => true | None => false end.

(** [d.get(k, default)] *)
Definition dict_get_default {V : Type} (d : dict V) (k : str) (default : V) : V :=
  match dict_get d k with Some v => v | None => default end.

Definition dict_keys {V : Type} (d : dict V) : list str := map fst d.

End PyDict.
Export PyDict.

Module PyFloat.

(** [a / b] on two [int]s with [b > 0]: the double nearest to the exact
    quotient (ties to even).  The quotient is taken with more than 64
    significant bits and a sticky bit for a non-zero remainder, then
    rounded once. *)
Definition int_truediv (a : Z) (b : positive) : float :=
  let k := (64 + Z.log2 (Zpos b))%Z in
  let n := (Z.abs a * 2 ^ k)%Z in
  let q := (n / Zpos b)%Z in
  let sticky := if (n mod Zpos b =? 0)%Z then 0%Z else 1%Z in
  let m := (2 * q + sticky)%Z in
  SF2Prim (binary_normalize prec emax (if (a <? 0)%Z then (- m)%Z else m)
                            (- k - 1)%Z false).

(** [p / q] rounded to the nearest integer, ties to the even one ([q > 0]). *)
Definition round_half_even (p q : Z) : Z :=
  let fl := (p / q)%Z in
  let r := (p mod q)%Z in
  match (2 * r ?= q)%Z with
  | Lt => fl
  | Gt => (fl + 1)%Z
  | Eq => if Z.even fl then fl else (fl + 1)%Z
  end.

(** [round(x, ndigits)] on a float, for the small positive [ndigits] used
    here: the exact binary value of [x] is rounded to [ndigits] decimals,
    ties to even, and the decimal result is converted back to the nearest
    double. *)
Definition py_round (x : float) (ndigits : nat) : float :=
  match Prim2SF x with
  | S754_finite s m e =>
      let scale := (10 ^ Z.of_nat ndigits)%Z in
      let h := if (0 <=? e)%Z
               then (Zpos m * 2 ^ e * scale)%Z
               else round_half_even (Zpos m * scale) (2 ^ (- e)) in
      if (h =? 0)%Z then (if s then neg_zero else zero)
      else int_truediv (if s then (- h)%Z else h) (Z.to_pos scale)
  | _ => x
  end.

(** [sum(xs)] on [int]s. *)
Definition int_sum (xs : list nat) : Z := fold_left (fun acc x => (acc + Z.of_nat x)%Z) xs 0%Z.

End PyFloat.
Export PyFloat.

(* ================================================================== *)
(** * config.py *)
(* ================================================================== *)

Module Config.

(** Pricing per 1M tokens (USD): model_id -> (input_price, output_price). *)
Definition MODEL_PRICING : dict (float * float) :=
  [ (lit "claude-opus-4-6",           (5.00, 25.00));
    (lit "claude-sonnet-4-6",         (3.00, 15.00));
    (lit "claude-haiku-4-5-20251001", (1.00, 5.00));
    (lit "gpt-5.2-pro",               (21.00, 168.00));
    (lit "gpt-5.2",                   (1.75, 14.00));
    (lit "gpt-5-mini",                (0.25, 2.00));
    (lit "gpt-4.1",                   (2.00, 8.00));
    (lit "gpt-4.1-mini",              (0.40, 1.60));
    (lit "gpt-4.1-nano",              (0.10, 0.40));
    (lit "o4-mini",                   (1.10, 4.40));
    (lit "o3",                        (2.00, 8.00));
    (lit "gemini-3.1-pro-preview",    (2.00, 12.00));
    (lit "gemini-3-flash-preview",    (0.50, 3.00));
    (lit "gemini-2.5-pro",            (1.25, 10.00));
    (lit "gemini-2.5-flash",          (0.30, 2.50));
    (lit "gemini-2.0-flash",          (0.10, 0.40)) ]%float.

End Config.

(* ================================================================== *)
(** * Wire data of the three providers *)
(* ================================================================== *)

Module Wire.

(** A decoded JSON value (tool arguments, a parameter schema), kept as
    its text: the orchestration only passes such values along. *)
Definition json := str.

(** One image of a user turn: [{mime_type, base64_data}]. *)
Record Image : Type := { mime_type : str; base64_data : str }.

(** One generic conversation turn; a missing [images] key and an empty
    list are both [[]]. *)
Record Message : Type := { role : str; content : str; images : list Image }.

(** tools/registry.py: [ToolDefinition].  The awaited handler returns
    its value ([None] or the [str(...)] of anything else) or raises. *)
Record ToolDefinition : Type :=
  { name : str; description : str; parameters : json;
    handler : json -> result (option str) }.

(** One entry of a response's [tool_calls]. *)
Record ToolCallRecord : Type :=
  { tool : str; args : json; tool_result : str }.

(** What an adapter returns on success.  [reasoning_details] is always
    [None] and is left out. *)
Record ModelResponse : Type :=
  { resp_content : str;
    resp_tool_calls : option (list ToolCallRecord);
    resp_usage : dict Z }.

(** A provider's token counts; each may be absent. *)
Record token_counts : Type := { tokens_in : option Z; tokens_out : option Z }.

(** A tool schema as sent to any of the providers. *)
Record tool_schema : Type :=
  { schema_name : str; schema_description : str; schema_parameters : json }.

(** ** OpenAI *)

Inductive oa_content : Type :=
| OaText (text : str)
| OaParts (text : str) (image_urls : list str).

Record oa_tool_call : Type :=
  { oa_tc_id : str; oa_fn_name : str; oa_fn_arguments : str }.

(** [choice.message]; a [tool_calls] of [None] and of [[]] are both [[]]. *)
Record oa_message : Type :=
  { oa_msg_content : option str; oa_msg_tool_calls : list oa_tool_call }.

Inductive oa_turn : Type :=
| OaTurn (role : str) (content : oa_content)
| OaAssistant (message : oa_message)
| OaToolResult (tool_call_id : str) (content : str).

Record oa_request : Type :=
  { oa_model : str; oa_messages : list oa_turn;
    oa_tools : option (list tool_schema);
    oa_reasoning_effort : option str }.

Record oa_response : Type :=
  { oa_choices : list oa_message; oa_usage : option token_counts }.

(** ** Anthropic *)

Record an_block : Type :=
  { an_type : str; an_text : str; an_id : str; an_name : str; an_input : json }.

Inductive an_content : Type :=
| AnText (text : str)
| AnParts (text : str) (imgs : list Image)
| AnBlocks (blocks : list an_block)
| AnToolResults (results : list (str * str)).

Record an_turn : Type := { an_role : str; an_turn_content : an_content }.

Record an_request : Type :=
  { an_model : str; an_messages : list an_turn; an_max_tokens : Z;
    an_system : option str;
    an_tools : option (list tool_schema);
    an_thinking : option Z }.

Record an_response : Type :=
  { an_resp_content : list an_block; an_usage : option token_counts }.

(** ** Google *)

Record g_function_call : Type := { fc_name : str; fc_args : option json }.

Record g_part : Type :=
  { part_text : option str; part_function_call : option g_function_call }.

Inductive g_turn : Type :=
| GTurn (role : str) (text : str) (inline_data : list Image)
| GContent (parts : list g_part)
| GFunctionResponses (responses : list (str * str)).

(** The [config] dictionary; it is empty when no key is set. *)
Record g_config : Type :=
  { g_system_instruction : option str;
    g_thinking_budget : option Z;
    g_tools : option (list tool_schema) }.

Record g_request : Type :=
  { g_model : str; g_contents : list g_turn; g_cfg : option g_config }.

(** [candidate.content]: [None], or a [Content] object whose [parts] is
    a list or [None]. *)
Record g_content : Type := { content_parts : option (list g_part) }.

Record g_candidate : Type := { cand_content : option g_content }.

Record g_response : Type :=
  { g_candidates : list g_candidate; g_text : option str;
    g_usage_metadata : option token_counts }.

(** A request as it left the process. *)
Inductive Request : Type :=
| ReqOpenAI (r : oa_request)
| ReqAnthropic (r : an_request)
| ReqGoogle (r : g_request).

End Wire.
Export Wire.

(* ================================================================== *)
(** * Effects: provider calls, their log, exceptions *)
(* ================================================================== *)

Module Effects.

(** The process environment: which SDK clients were built at import time
    (a client is [None] without its credentials), what each provider
    answers to a request given the requests already sent, the message of
    the [ValidationError] with which the Google SDK refuses to build a
    [FunctionDeclaration] ([None] when it accepts the declaration),
    [json.loads], and the global tool registry.  An answer
    [Raise CancelledError] means that the deadline of the enclosing
    [wait_for] passed while the request was pending. *)
Record Env : Type :=
  { openai_client : bool;
    anthropic_client : bool;
    google_client : bool;
    openai_create : list Request -> oa_request -> result oa_response;
    anthropic_create : list Request -> an_request -> result an_response;
    google_generate_content : list Request -> g_request -> result g_response;
    function_declaration_error : tool_schema -> option str;
    json_loads : str -> result json;
    TOOL_REGISTRY : dict ToolDefinition }.

(** A computation reads the environment, appends to the log of requests
    and returns or raises. *)
Definition M (A : Type) : Type := Env -> list Request -> result A * list Request.

Definition ret {A : Type} (a : A) : M A := fun _ log => (Ok a, log).

Definition raise {A : Type} (e : exn) : M A := fun _ log => (Raise e, log).

Definition bind {A B : Type} (m : M A) (k : A -> M B) : M B :=
  fun env log =>
    match m env log with
    | (Ok a, log') => k a env log'
    | (Raise e, log') => (Raise e, log')
    end.

Definition ask : M Env := fun env log => (Ok env, log).

Definition lift_result {A : Type} (r : result A) : M A := fun _ log => (r, log).

(** [try: m  except Exception as e: h e] *)
Definition try_except {A : Type} (m : M A) (h : str -> M A) : M A :=
  fun env log =>
    match m env log with
    | (Raise (PyException _ msg), log') => h msg env log'
    | other => other
    end.

Declare Scope monad_scope.
Delimit Scope monad_scope with monad.
Notation "x <- m ;; k" := (bind m (fun x => k))
  (at level 61, m at next level, right associativity) : monad_scope.
Notation "' pat <- m ;; k" := (bind m (fun x => match x with pat => k end))
  (at level 61, pat pattern, m at next level, right associativity) : monad_scope.
Open Scope monad_scope.

(** A loop body run over a list, left to right, with an accumulator. *)
Fixpoint foldM {A S : Type} (f : S -> A -> M S) (l : list A) (s : S) : M S :=
  match l with
  | [] => ret s
  | a :: t => s' <- f s a ;; foldM f t s'
  end.

(** [await asyncio.gather(...)] over one coroutine per element, taken here
    in the order of the list.  Without [return_exceptions] the first
    exception goes to the awaiting coroutine; the other tasks are not
    cancelled, so their requests are sent all the same. *)
Fixpoint gather {A B : Type} (f : A -> M B) (l : list A) : M (list B) :=
  match l with
  | [] => ret []
  | a :: t =>
      fun env log =>
        let '(r, log') := f a env log in
        let '(rs, log'') := gather f t env log' in
        (match r, rs with
         | Raise e, _ => Raise e
         | Ok _, Raise e => Raise e
         | Ok b, Ok bs => Ok (b :: bs)
         end, log'')
  end.

(** The three provider requests. *)
Definition chat_completions_create (r : oa_request) : M oa_response :=
  fun env log => (openai_create env log r, log ++ [ReqOpenAI r]).

Definition messages_create (r : an_request) : M an_response :=
  fun env log => (anthropic_create env log r, log ++ [ReqAnthropic r]).

Definition generate_content (r : g_request) : M g_response :=
  fun env log => (google_generate_content env log r, log ++ [ReqGoogle r]).

End Effects.
Export Effects.

(* ================================================================== *)
(** * tools/registry.py *)
(* ================================================================== *)

Module ToolsRegistry.

(** [register_tool(tool)]: [TOOL_REGISTRY[tool.name] = tool]. *)
Definition register_tool (registry : dict ToolDefinition) (tool : ToolDefinition)
  : dict ToolDefinition :=
  dict_set registry (name tool) tool.

(** [get_enabled_tools(names)] *)
Definition get_enabled_tools (registry : dict ToolDefinition) (names : list str)
  : list ToolDefinition :=
  flat_map (fun n => match dict_get registry n with
                     | Some t => [t]
                     | None => []
                     end) names.

Definition execute_tool (tool_name : str) (arguments : json)
  (tool_map : dict ToolDefinition) : M str :=
  env <- ask ;;
  let registry := match tool_map with
                  | [] => TOOL_REGISTRY env
                  | _ :: _ => tool_map
                  end in
  match dict_get registry tool_name with
  | None => ret (lit "Error: Unknown tool '" ++ tool_name ++ lit "'")
  | Some t =>
      try_except
        (r <- lift_result (handler t arguments) ;;
         ret (match r with Some s => s | None => [] end))
        (fun e => ret (lit "Error executing tool '" ++ tool_name ++ lit "': " ++ e))
  end.

End ToolsRegistry.
Export ToolsRegistry.

(* ================================================================== *)
(** * providers.py *)
(* ================================================================== *)

Module Providers.

Definition MAX_TOOL_ROUNDS : nat := 5.

(** Truth value of an optional string ([if system_prompt:]) and of an
    optional list ([if tools:]). *)
Definition truthy {A : Type} (o : option (list A)) : bool :=
  match o with
  | Some (_ :: _) => true
  | _ => false
  end.

(** [x or 0] on an optional count. *)
Definition or_zero (o : option Z) : Z :=
  match o with Some z => z | None => 0%Z end.

Definition usage_dict (i o : Z) : dict Z :=
  [ (lit "input_tokens", i); (lit "output_tokens", o) ].

(** [_extract_openai_usage], [_extract_anthropic_usage] and
    [_extract_google_usage]: the three read differently named attributes
    of the provider's usage object into the same dictionary. *)
Definition _extract_usage (u : option token_counts) : dict Z :=
  match u with
  | None => usage_dict 0 0
  | Some t => usage_dict (or_zero (tokens_in t)) (or_zero (tokens_out t))
  end.

(** The three provider names returned by [get_provider]. *)
Inductive provider : Type := anthropic | google | openai.

Definition get_provider (model_id : str) : provider :=
  if startswith (lit "claude") model_id then anthropic
  else if startswith (lit "gemini") model_id then google
  else openai.

Definition _build_openai_content (msg : Message) : oa_content :=
  match images msg with
  | [] => OaText (content msg)
  | imgs =>
      OaParts (content msg)
        (map (fun img => lit "data:" ++ mime_type img ++ lit ";base64," ++ base64_data img)
             imgs)
  end.

Definition _build_anthropic_content (msg : Message) : an_content :=
  match images msg with
  | [] => AnText (content msg)
  | imgs => AnParts (content msg) imgs
  end.

Definition _build_google_parts (msg : Message) : g_turn :=
  GTurn (if str_eqb (role msg) (lit "assistant") then lit "model" else lit "user")
        (content msg) (images msg).

Definition schema_of (t : ToolDefinition) : tool_schema :=
  {| schema_name := name t; schema_description := description t;
     schema_parameters := parameters t |}.

(** [tool_map[t.name] = t] for every tool, in order. *)
Definition build_tool_map (tools : option (list ToolDefinition)) : dict ToolDefinition :=
  match tools with
  | Some ts => fold_left (fun m t => dict_set m (name t) t) ts []
  | None => []
  end.

Definition build_tool_schemas (tools : option (list ToolDefinition))
  : option (list tool_schema) :=
  if truthy tools
  then match tools with Some ts => Some (map schema_of ts) | None => None end
  else None.

(** [all_tool_calls if all_tool_calls else None] *)
Definition calls_or_none (calls : list ToolCallRecord) : option (list ToolCallRecord) :=
  match calls with [] => None | _ :: _ => Some calls end.

Definition response_of (text : str) (calls : list ToolCallRecord)
  (u : option token_counts) : ModelResponse :=
  {| resp_content := text; resp_tool_calls := calls_or_none calls;
     resp_usage := _extract_usage u |}.

(** [effort_to_budget.get(reasoning_effort, 8192)] *)
Definition effort_to_budget (effort : str) : Z :=
  if str_eqb effort (lit "low") then 2048%Z
  else if str_eqb effort (lit "medium") then 8192%Z
  else if str_eqb effort (lit "high") then 32768%Z
  else 8192%Z.

(** [reasoning_effort and reasoning_effort != "off"] *)
Definition effort_on (reasoning_effort : option str) : option str :=
  match reasoning_effort with
  | Some (c :: e) => if str_eqb (c :: e) (lit "off") then None else Some (c :: e)
  | _ => None
  end.

(** [seq[0]], raising [IndexError] on an empty sequence. *)
Definition first_item {A : Type} (l : list A) : M A :=
  match l with
  | a :: _ => ret a
  | [] => raise (PyException "IndexError" (lit "list index out of range"))
  end.

(** ** The OpenAI adapter *)

(** One tool call of a reply: decode the arguments, run the tool, record
    the call and append the tool-result turn. *)
Definition oa_process_tool_call (tool_map : dict ToolDefinition)
  (st : list oa_turn * list ToolCallRecord) (tc : oa_tool_call)
  : M (list oa_turn * list ToolCallRecord) :=
  let '(full_messages, all_tool_calls) := st in
  env <- ask ;;
  arguments <- match oa_fn_arguments tc with
               | [] => ret (lit "{}")
               | a => lift_result (json_loads env a)
               end ;;
  let tool_name := oa_fn_name tc in
  r <- execute_tool tool_name arguments tool_map ;;
  ret (full_messages ++ [OaToolResult (oa_tc_id tc) r],
       all_tool_calls ++ [{| tool := tool_name; args := arguments;
                             tool_result := firstn 2000 r |}]).

(** The body of [try:] in [_query_openai]: [rounds] passes of the [for]
    loop, then the request after it. *)
Fixpoint oa_tool_loop (rounds : nat) (model : str)
  (openai_tools : option (list tool_schema)) (openai_reasoning : option str)
  (tool_map : dict ToolDefinition)
  (full_messages : list oa_turn) (all_tool_calls : list ToolCallRecord)
  : M (option ModelResponse) :=
  match rounds with
  | S rounds' =>
      response <- chat_completions_create
                    {| oa_model := model; oa_messages := full_messages;
                       oa_tools := openai_tools;
                       oa_reasoning_effort := openai_reasoning |} ;;
      choice <- first_item (oa_choices response) ;;
      match oa_msg_tool_calls choice with
      | [] =>
          ret (Some (response_of
                       (match oa_msg_content choice with Some s => s | None => [] end)
                       all_tool_calls (oa_usage response)))
      | tcs =>
          st <- foldM (oa_process_tool_call tool_map) tcs
                      (full_messages ++ [OaAssistant choice], all_tool_calls) ;;
          oa_tool_loop rounds' model openai_tools openai_reasoning tool_map
                       (fst st) (snd st)
      end
  | O =>
      response <- chat_completions_create
                    {| oa_model := model; oa_messages := full_messages;
                       oa_tools := None; oa_reasoning_effort := None |} ;;
      choice <- first_item (oa_choices response) ;;
      ret (Some (response_of
                   (match oa_msg_content choice with Some s => s | None => [] end)
                   all_tool_calls (oa_usage response)))
  end.

Definition _query_openai (model : str) (messages : list Message)
  (system_prompt : option str) (tools : option (list ToolDefinition))
  (reasoning_effort : option str) : M (option ModelResponse) :=
  env <- ask ;;
  if negb (openai_client env) then ret None
  else
    let full_messages :=
      (if truthy system_prompt
       then match system_prompt with
            | Some p => [OaTurn (lit "system") (OaText p)]
            | None => []
            end
       else [])
      ++ map (fun msg => OaTurn (role msg) (_build_openai_content msg)) messages in
    let openai_tools := build_tool_schemas tools in
    let tool_map := if truthy tools then build_tool_map tools else [] in
    let openai_reasoning :=
      match effort_on reasoning_effort with
      | Some e =>
          if startswith (lit "o3") model || startswith (lit "o4") model
             || startswith (lit "gpt-5") model
          then Some e else None
      | None => None
      end in
    try_except
      (oa_tool_loop MAX_TOOL_ROUNDS model openai_tools openai_reasoning tool_map
                    full_messages [])
      (fun _ => ret None).

(** ** The Anthropic adapter *)

Definition an_is (kind : str) (b : an_block) : bool := str_eqb (an_type b) kind.

Definition an_first_text (blocks : list an_block) : str :=
  match filter (an_is (lit "text")) blocks with
  | b :: _ => an_text b
  | [] => []
  end.

Definition an_process_block (tool_map : dict ToolDefinition)
  (st : list (str * str) * list ToolCallRecord) (block : an_block)
  : M (list (str * str) * list ToolCallRecord) :=
  let '(tool_results, all_tool_calls) := st in
  r <- execute_tool (an_name block) (an_input block) tool_map ;;
  ret (tool_results ++ [(an_id block, r)],
       all_tool_calls ++ [{| tool := an_name block; args := an_input block;
                             tool_result := firstn 2000 r |}]).

(** The body of [try:] in [_query_anthropic].  [kwargs] is the request
    dictionary; its [messages] list grows in place. *)
Fixpoint an_tool_loop (rounds : nat) (kwargs : an_request)
  (tool_map : dict ToolDefinition) (all_tool_calls : list ToolCallRecord)
  : M (option ModelResponse) :=
  match rounds with
  | S rounds' =>
      response <- messages_create kwargs ;;
      let tool_use_blocks := filter (an_is (lit "tool_use")) (an_resp_content response) in
      match tool_use_blocks with
      | [] =>
          ret (Some (response_of (an_first_text (an_resp_content response))
                                 all_tool_calls (an_usage response)))
      | _ :: _ =>
          st <- foldM (an_process_block tool_map) tool_use_blocks ([], all_tool_calls) ;;
          let messages' :=
            an_messages kwargs
            ++ [{| an_role := lit "assistant";
                   an_turn_content := AnBlocks (an_resp_content response) |}]
            ++ [{| an_role := lit "user"; an_turn_content := AnToolResults (fst st) |}] in
          an_tool_loop rounds'
            {| an_model := an_model kwargs; an_messages := messages';
               an_max_tokens := an_max_tokens kwargs; an_system := an_system kwargs;
               an_tools := an_tools kwargs; an_thinking := an_thinking kwargs |}
            tool_map (snd st)
      end
  | O =>
      response <- messages_create
                    {| an_model := an_model kwargs; an_messages := an_messages kwargs;
                       an_max_tokens := an_max_tokens kwargs;
                       an_system := an_system kwargs;
                       an_tools := None; an_thinking := an_thinking kwargs |} ;;
      ret (Some (response_of (an_first_text (an_resp_content response))
                             all_tool_calls (an_usage response)))
  end.

Definition _query_anthropic (model : str) (messages : list Message)
  (system_prompt : option str) (tools : option (list ToolDefinition))
  (reasoning_effort : option str) : M (option ModelResponse) :=
  env <- ask ;;
  if negb (anthropic_client env) then ret None
  else
    let anthropic_messages :=
      map (fun msg => {| an_role := role msg;
                         an_turn_content := _build_anthropic_content msg |}) messages in
    let anthropic_tools := build_tool_schemas tools in
    let tool_map := if truthy tools then build_tool_map tools else [] in
    let budget := option_map effort_to_budget (effort_on reasoning_effort) in
    let kwargs :=
      {| an_model := model; an_messages := anthropic_messages;
         an_max_tokens := match budget with
                          | Some b => Z.max 8192 (b + 8192)
                          | None => 8192%Z
                          end;
         an_system := if truthy system_prompt then system_prompt else None;
         an_tools := anthropic_tools;
         an_thinking := budget |} in
    try_except (an_tool_loop MAX_TOOL_ROUNDS kwargs tool_map [])
               (fun _ => ret None).

(** ** The Google adapter *)

Definition g_config_nonempty (c : g_config) : bool :=
  match g_system_instruction c, g_thinking_budget c, g_tools c with
  | None, None, None => false
  | _, _, _ => true
  end.

Definition g_with_tools (c : g_config) (ts : list tool_schema) : g_config :=
  {| g_system_instruction := g_system_instruction c;
     g_thinking_budget := g_thinking_budget c;
     g_tools := Some ts |}.

Definition g_empty_config : g_config :=
  {| g_system_instruction := None; g_thinking_budget := None; g_tools := None |}.

(** [config if config else None] *)
Definition g_config_or_none (c : g_config) : option g_config :=
  if g_config_nonempty c then Some c else None.

(** The [config] sent in one round, and the adapter's own [config]
    afterwards.  With tools, [call_kwargs["config"]] is [config] itself
    when that dictionary is non-empty, so writing the [tools] key into it
    writes into [config]; when [config] is empty a fresh dictionary takes
    the key and [config] stays empty. *)
Definition g_round_config (config : g_config) (google_tools : option (list tool_schema))
  : option g_config * g_config :=
  match google_tools with
  | Some ts =>
      match g_config_or_none config with
      | Some c => (Some (g_with_tools c ts), g_with_tools c ts)
      | None => (Some (g_with_tools g_empty_config ts), config)
      end
  | None => (g_config_or_none config, config)
  end.

Definition g_function_calls (parts : list g_part) : list g_function_call :=
  flat_map (fun p => match part_function_call p with
                     | Some fc => [fc]
                     | None => []
                     end) parts.

Definition g_process_call (tool_map : dict ToolDefinition)
  (st : list (str * str) * list ToolCallRecord) (fc : g_function_call)
  : M (list (str * str) * list ToolCallRecord) :=
  let '(func_responses, all_tool_calls) := st in
  let arguments := match fc_args fc with
                   | Some (c :: a) => c :: a
                   | _ => lit "{}"
                   end in
  r <- execute_tool (fc_name fc) arguments tool_map ;;
  ret (func_responses ++ [(fc_name fc, r)],
       all_tool_calls ++ [{| tool := fc_name fc; args := arguments;
                             tool_result := firstn 2000 r |}]).

Definition g_text_or_empty (response : g_response) : str :=
  match g_text response with Some s => s | None => [] end.

(** The parts that the check for function calls iterates over:
    [response.candidates[0].content.parts] when there is a candidate with
    a content, nothing otherwise.  Iterating over a [parts] of [None]
    raises [TypeError]. *)
Definition g_first_parts (response : g_response) : M (list g_part) :=
  match g_candidates response with
  | c :: _ =>
      match cand_content c with
      | Some content =>
          match content_parts content with
          | Some parts => ret parts
          | None => raise (PyException "TypeError"
                             (lit "'NoneType' object is not iterable"))
          end
      | None => ret []
      end
  | [] => ret []
  end.

(** [FunctionDeclaration(name=t.name, description=t.description,
    parameters=t.parameters)]: the constructor validates its arguments
    and raises [ValidationError] for a declaration it does not accept. *)
Definition FunctionDeclaration (t : ToolDefinition) : M tool_schema :=
  env <- ask ;;
  match function_declaration_error env (schema_of t) with
  | Some msg => raise (PyException "ValidationError" msg)
  | None => ret (schema_of t)
  end.

(** The loop that fills [func_decls] and [tool_map]. *)
Definition g_declare_tool (st : list tool_schema * dict ToolDefinition)
  (t : ToolDefinition) : M (list tool_schema * dict ToolDefinition) :=
  let '(func_decls, tool_map) := st in
  d <- FunctionDeclaration t ;;
  ret (func_decls ++ [d], dict_set tool_map (name t) t).

(** [google_tools] and [tool_map] of [_query_google];
    [Tool(function_declarations=func_decls)] takes declarations that the
    SDK has built. *)
Definition build_google_tools (tools : option (list ToolDefinition))
  : M (option (list tool_schema) * dict ToolDefinition) :=
  match tools with
  | Some (t :: ts) =>
      st <- foldM g_declare_tool (t :: ts) ([], []) ;;
      ret (Some (fst st), snd st)
  | _ => ret (None, [])
  end.

(** The body of [try:] in [_query_google].  After a function call was
    found, [candidates[0].content] is appended to the contents and its
    parts are gone through again. *)
Fixpoint g_tool_loop (rounds : nat) (model : str)
  (google_tools : option (list tool_schema)) (tool_map : dict ToolDefinition)
  (config : g_config) (google_contents : list g_turn)
  (all_tool_calls : list ToolCallRecord) : M (option ModelResponse) :=
  match rounds with
  | S rounds' =>
      let '(sent, config') := g_round_config config google_tools in
      response <- generate_content
                    {| g_model := model; g_contents := google_contents; g_cfg := sent |} ;;
      parts <- g_first_parts response ;;
      match g_function_calls parts with
      | [] =>
          ret (Some (response_of (g_text_or_empty response) all_tool_calls
                                 (g_usage_metadata response)))
      | fcs =>
          st <- foldM (g_process_call tool_map) fcs ([], all_tool_calls) ;;
          g_tool_loop rounds' model google_tools tool_map config'
            (google_contents ++ [GContent parts] ++ [GFunctionResponses (fst st)])
            (snd st)
      end
  | O =>
      response <- generate_content
                    {| g_model := model; g_contents := google_contents;
                       g_cfg := g_config_or_none config |} ;;
      ret (Some (response_of (g_text_or_empty response) all_tool_calls
                             (g_usage_metadata response)))
  end.

(** After the guard on the client, the message contents, the
    configuration and the thinking budget ([ThinkingConfig] of an [int])
    are built, then the SDK objects of the tools; only what follows them
    is inside [try/except Exception]. *)
Definition _query_google (model : str) (messages : list Message)
  (system_prompt : option str) (tools : option (list ToolDefinition))
  (reasoning_effort : option str) : M (option ModelResponse) :=
  env <- ask ;;
  if negb (google_client env) then ret None
  else
    let google_contents := map _build_google_parts messages in
    let thinking :=
      match effort_on reasoning_effort with
      | Some e =>
          if contains (lit "2.5") model || contains (lit "3") model
          then Some (effort_to_budget e) else None
      | None => None
      end in
    let config :=
      {| g_system_instruction := if truthy system_prompt then system_prompt else None;
         g_thinking_budget := thinking;
         g_tools := None |} in
    built <- build_google_tools tools ;;
    try_except (g_tool_loop MAX_TOOL_ROUNDS model (fst built) (snd built) config
                            google_contents [])
               (fun _ => ret None).

(** ** Dispatch *)

(** [await asyncio.wait_for(coro, timeout)] inside
    [try: ... except asyncio.TimeoutError: return None].  The deadline
    passing shows as the task's [CancelledError], which [wait_for] turns
    into [TimeoutError]; anything else the task raises goes through. *)
Definition wait_for_or_none {A : Type} (coro : M (option A)) : M (option A) :=
  fun env log =>
    match coro env log with
    | (Raise CancelledError, log') => (Ok None, log')
    | other => other
    end.

(** [timeout] is in seconds; its effect is the environment's. *)
Definition query_model (model : str) (messages : list Message)
  (system_prompt : option str) (timeout : Z)
  (tools : option (list ToolDefinition)) (reasoning_effort : option str)
  : M (option ModelResponse) :=
  let query_fn :=
    match get_provider model with
    | anthropic => _query_anthropic model messages system_prompt tools reasoning_effort
    | google => _query_google model messages system_prompt tools reasoning_effort
    | openai => _query_openai model messages system_prompt tools reasoning_effort
    end in
  wait_for_or_none query_fn.

(** [{model: response for model, response in zip(models, responses)}] *)
Definition zip_dict {V : Type} (keys : list str) (values : list V) : dict V :=
  fold_left (fun d kv => dict_set d (fst kv) (snd kv)) (combine keys values) [].

Definition query_models_parallel (models : list str) (messages : list Message)
  (system_prompt : option str) (tools : option (list ToolDefinition))
  (reasoning_effort : option str) : M (dict (option ModelResponse)) :=
  responses <- gather (fun model => query_model model messages system_prompt 120
                                                tools reasoning_effort) models ;;
  ret (zip_dict models responses).

End Providers.
Export Providers.

(* ================================================================== *)
(** * council.py *)
(* ================================================================== *)

Module Council.

Import Config.

Definition nl : str := [10%N].
Definition dq : str := [34%N].

(** [calculate_cost(model, usage)]; [usage] is [None] when absent. *)
Definition calculate_cost (model : str) (usage : option (dict Z)) : float :=
  match usage with
  | None | Some [] => 0
  | Some u =>
      match dict_get MODEL_PRICING model with
      | None => 0
      | Some (input_price, output_price) =>
          let input_cost :=
            int_truediv (dict_get_default u (lit "input_tokens") 0%Z) 1000000
            * input_price in
          let output_cost :=
            int_truediv (dict_get_default u (lit "output_tokens") 0%Z) 1000000
            * output_price in
          input_cost + output_cost
      end
  end%float.

(** ** Stage results *)

Record Stage1Result : Type :=
  { s1_model : str; s1_response : str; s1_usage : dict Z; s1_cost : float;
    s1_tool_calls : option (list ToolCallRecord) }.

Record Stage2Result : Type :=
  { s2_model : str; s2_ranking : str; s2_parsed_ranking : list str;
    s2_usage : dict Z; s2_cost : float }.

Record Stage3Result : Type :=
  { s3_model : str; s3_response : str;
    s3_usage : option (dict Z); s3_cost : option float }.

Record Stage4Result : Type :=
  { s4_model : str; s4_critique : str; s4_comparison : str;
    s4_suggested_system_prompt : str; s4_suggested_query : str;
    s4_raw_response : str; s4_usage : dict Z; s4_cost : float }.

Record AggregateEntry : Type :=
  { agg_model : str; average_rank : float; rankings_count : nat }.

(** ** Stage 1 *)

Definition stage1_of_response (model : str) (response : ModelResponse) : Stage1Result :=
  {| s1_model := model;
     s1_response := resp_content response;
     s1_usage := resp_usage response;
     s1_cost := calculate_cost model (Some (resp_usage response));
     s1_tool_calls := if truthy (resp_tool_calls response)
                      then resp_tool_calls response else None |}.

Definition stage1_collect_responses (user_query : str) (council_models : list str)
  (system_prompt : option str) (file_context : option str)
  (image_attachments : option (list Image)) (tools : option (list ToolDefinition))
  : M (list Stage1Result) :=
  let content :=
    if truthy file_context
    then match file_context with
         | Some fc => lit "[ATTACHED FILES]" ++ nl ++ fc ++ nl
                      ++ lit "[END ATTACHED FILES]" ++ nl ++ nl ++ user_query
         | None => user_query
         end
    else user_query in
  let user_msg :=
    {| role := lit "user"; content := content;
       images := if truthy image_attachments
                 then match image_attachments with Some i => i | None => [] end
                 else [] |} in
  responses <- query_models_parallel council_models [user_msg] system_prompt tools None ;;
  ret (flat_map (fun mr => match snd mr with
                           | Some response => [stage1_of_response (fst mr) response]
                           | None => []
                           end) responses).

(** ** The ranking parser *)

Definition FINAL_RANKING : str := lit "FINAL RANKING:".

(** [[f(x) for x in xs]] where [f] may raise. *)
Fixpoint map_result {A B : Type} (f : A -> result B) (l : list A) : result (list B) :=
  match l with
  | [] => Ok []
  | a :: t =>
      match f a with
      | Raise e => Raise e
      | Ok b => match map_result f t with
                | Raise e => Raise e
                | Ok bs => Ok (b :: bs)
                end
      end
  end.

(** [re.search(r'Response [A-Z]', m).group()]: [.group()] on [None]
    raises [AttributeError]. *)
Definition search_group (m : str) : result str :=
  match Re.search Re.response_label m with
  | Some g => Ok g
  | None => Raise (PyException "AttributeError"
                     (lit "'NoneType' object has no attribute 'group'"))
  end.

Definition parse_ranking_from_text (ranking_text : str) : result (list str) :=
  if contains FINAL_RANKING ranking_text
  then
    let parts := split FINAL_RANKING ranking_text in
    if 2 <=? length parts
    then
      match nth_error parts 1 with
      | Some ranking_section =>
          match Re.findall Re.numbered_label ranking_section with
          | [] => Ok (Re.findall Re.response_label ranking_section)
          | numbered_matches => map_result search_group numbered_matches
          end
      | None => Raise (PyException "IndexError" (lit "list index out of range"))
      end
    else Ok (Re.findall Re.response_label ranking_text)
  else Ok (Re.findall Re.response_label ranking_text).

(** ** The rank aggregator *)

(** [model_positions[model_name].append(position)] on a
    [defaultdict(list)]. *)
Definition append_position (model_positions : dict (list nat))
  (model_name : str) (position : nat) : dict (list nat) :=
  dict_set model_positions model_name
           (dict_get_default model_positions model_name [] ++ [position]).

(** The inner loop over [enumerate(parsed_ranking, start=position)]. *)
Fixpoint record_positions (label_to_model : dict str)
  (model_positions : dict (list nat)) (position : nat) (parsed_ranking : list str)
  : dict (list nat) :=
  match parsed_ranking with
  | [] => model_positions
  | label :: rest =>
      record_positions label_to_model
        (match dict_get label_to_model label with
         | Some model_name => append_position model_positions model_name position
         | None => model_positions
         end)
        (S position) rest
  end.

(** The outer loop over [stage2_results]. *)
Fixpoint collect_positions (label_to_model : dict str)
  (model_positions : dict (list nat)) (stage2_results : list Stage2Result)
  : result (dict (list nat)) :=
  match stage2_results with
  | [] => Ok model_positions
  | ranking :: rest =>
      match parse_ranking_from_text (s2_ranking ranking) with
      | Raise e => Raise e
      | Ok parsed_ranking =>
          collect_positions label_to_model
            (record_positions label_to_model model_positions 1 parsed_ranking) rest
      end
  end.

(** One entry per model with a non-empty list of positions. *)
Definition aggregate_entry (model : str) (positions : list nat) : list AggregateEntry :=
  match positions with
  | [] => []
  | _ :: rest =>
      let avg_rank := int_truediv (int_sum positions) (Pos.of_succ_nat (length rest)) in
      [{| agg_model := model;
          average_rank := py_round avg_rank 2;
          rankings_count := length positions |}]
  end.

(** [list.sort(key=...)]: a stable sort that compares keys with [<]. *)
Fixpoint insert_by {A K : Type} (lt : K -> K -> bool) (key : A -> K) (x : A)
  (l : list A) : list A :=
  match l with
  | [] => [x]
  | y :: t => if lt (key y) (key x) then y :: insert_by lt key x t else x :: l
  end.

Definition sort_by {A K : Type} (lt : K -> K -> bool) (key : A -> K) (l : list A)
  : list A :=
  fold_right (insert_by lt key) [] l.

Definition calculate_aggregate_rankings (stage2_results : list Stage2Result)
  (label_to_model : dict str) : result (list AggregateEntry) :=
  match collect_positions label_to_model [] stage2_results with
  | Raise e => Raise e
  | Ok model_positions =>
      let aggregate :=
        flat_map (fun mp => aggregate_entry (fst mp) (snd mp)) model_positions in
      Ok (sort_by PrimFloat.ltb average_rank aggregate)
  end.

(** ** Stage 2 *)

(** [[chr(65 + i) for i in range(n)]], from [i = start]. *)
Fixpoint labels_from (start : N) (n : nat) : result (list N) :=
  match n with
  | O => Ok []
  | S n' =>
      match chr (65 + start) with
      | None => Raise (PyException "ValueError" (lit "chr() arg not in range(0x110000)"))
      | Some c =>
          match labels_from (N.succ start) n' with
          | Raise e => Raise e
          | Ok cs => Ok (c :: cs)
          end
      end
  end.

Definition response_key (label : N) : str := lit "Response " ++ [label].

Definition build_label_to_model (labels : list N) (stage1_results : list Stage1Result)
  : dict str :=
  fold_left (fun d lr => dict_set d (response_key (fst lr)) (s1_model (snd lr)))
            (combine labels stage1_results) [].

Definition ranking_prompt (user_query responses_text : str) : str :=
lit "You are evaluating different responses to the following question:

Question: " ++
user_query ++
lit "

Here are the responses from different models (anonymized):

" ++
responses_text ++
lit "

Your task:
1. First, evaluate each response individually. For each response, explain what it does well and what it does poorly.
2. Then, at the very end of your response, provide a final ranking.

IMPORTANT: Your final ranking MUST be formatted EXACTLY as follows:
- Start with the line " ++
dq ++
lit "FINAL RANKING:" ++
dq ++
lit " (all caps, with colon)
- Then list the responses from best to worst as a numbered list
- Each line should be: number, period, space, then ONLY the response label (e.g., " ++
dq ++
lit "1. Response A" ++
dq ++
lit ")
- Do not add any other text or explanations in the ranking section

Example of the correct format for your ENTIRE response:

Response A provides good detail on X but misses Y...
Response B is accurate but lacks depth on Z...
Response C offers the most comprehensive answer...

FINAL RANKING:
1. Response C
2. Response A
3. Response B

Now provide your evaluation and ranking:".

Definition stage2_of_response (model : str) (response : ModelResponse)
  : result Stage2Result :=
  match parse_ranking_from_text (resp_content response) with
  | Raise e => Raise e
  | Ok parsed =>
      Ok {| s2_model := model;
            s2_ranking := resp_content response;
            s2_parsed_ranking := parsed;
            s2_usage := resp_usage response;
            s2_cost := calculate_cost model (Some (resp_usage response)) |}
  end.

Definition stage2_collect_rankings (user_query : str)
  (stage1_results : list Stage1Result) (council_models : list str)
  : M (list Stage2Result * dict str) :=
  labels <- lift_result (labels_from 0 (length stage1_results)) ;;
  let label_to_model := build_label_to_model labels stage1_results in
  let responses_text :=
    join (nl ++ nl)
         (map (fun lr => response_key (fst lr) ++ lit ":" ++ nl ++ s1_response (snd lr))
              (combine labels stage1_results)) in
  let messages :=
    [{| role := lit "user"; content := ranking_prompt user_query responses_text;
        images := [] |}] in
  responses <- query_models_parallel council_models messages None None None ;;
  stage2_results <-
    lift_result
      (map_result (fun r => r)
         (flat_map (fun mr => match snd mr with
                              | Some response => [stage2_of_response (fst mr) response]
                              | None => []
                              end) responses)) ;;
  ret (stage2_results, label_to_model).

(** ** Stage 3 *)

Definition chairman_prompt (user_query stage1_text stage2_text : str) : str :=
lit "You are the Chairman of an LLM Council. Multiple AI models have provided responses to a user's question, and then ranked each other's responses.

Original Question: " ++
user_query ++
lit "

STAGE 1 - Individual Responses:
" ++
stage1_text ++
lit "

STAGE 2 - Peer Rankings:
" ++
stage2_text.

Definition previous_iteration_context (previous_iteration : dict str) : str :=
lit "

PREVIOUS ITERATION CONTEXT:
This is a re-analysis. In the previous iteration:
- Previous Query: " ++
dict_get_default previous_iteration (lit "query") (lit "N/A") ++
lit "
- Previous System Prompt: " ++
dict_get_default previous_iteration (lit "system_prompt") (lit "None") ++
lit "
- Previous Synthesis: " ++
dict_get_default previous_iteration (lit "stage3_response") (lit "N/A") ++
lit "
- Critique of Previous Analysis: " ++
dict_get_default previous_iteration (lit "critique") (lit "N/A") ++
lit "

Consider how the current responses compare to the previous iteration. Note improvements or regressions.".

Definition chairman_task : str :=
lit "

Your task as Chairman is to synthesize all of this information into a single, comprehensive, accurate answer to the user's original question. Consider:
- The individual responses and their insights
- The peer rankings and what they reveal about response quality
- Any patterns of agreement or disagreement

Provide a clear, well-reasoned final answer that represents the council's collective wisdom:".

Definition zero_usage : dict Z := usage_dict 0 0.

Definition stage3_synthesize_final (user_query : str)
  (stage1_results : list Stage1Result) (stage2_results : list Stage2Result)
  (chairman_model : str) (previous_iteration : option (dict str))
  : M Stage3Result :=
  let stage1_text :=
    join (nl ++ nl)
         (map (fun r => lit "Model: " ++ s1_model r ++ nl ++ lit "Response: " ++ s1_response r)
              stage1_results) in
  let stage2_text :=
    join (nl ++ nl)
         (map (fun r => lit "Model: " ++ s2_model r ++ nl ++ lit "Ranking: " ++ s2_ranking r)
              stage2_results) in
  let prompt :=
    chairman_prompt user_query stage1_text stage2_text
    ++ (if truthy previous_iteration
        then match previous_iteration with
             | Some p => previous_iteration_context p
             | None => []
             end
        else [])
    ++ chairman_task in
  let messages := [{| role := lit "user"; content := prompt; images := [] |}] in
  response <- query_model chairman_model messages None 120 None None ;;
  match response with
  | None =>
      ret {| s3_model := chairman_model;
             s3_response := lit "Error: Unable to generate final synthesis.";
             s3_usage := Some zero_usage;
             s3_cost := Some 0%float |}
  | Some r =>
      ret {| s3_model := chairman_model;
             s3_response := resp_content r;
             s3_usage := Some (resp_usage r);
             s3_cost := Some (calculate_cost chairman_model (Some (resp_usage r))) |}
  end.

(** ** Stage 4 *)

(** [text.find(header)]: [None] stands for [-1]. *)
Fixpoint find (p s : str) : option nat :=
  if startswith p s then Some 0
  else match s with
       | [] => None
       | _ :: t => option_map S (find p t)
       end.

(** [text[start:stop]] for indices within the text. *)
Definition slice (text : str) (start stop : nat) : str :=
  firstn (stop - start) (skipn start text).

Definition stage4_sections : list (str * str) :=
  [ (lit "CRITIQUE:", lit "critique");
    (lit "COMPARISON:", lit "comparison");
    (lit "SUGGESTED_SYSTEM_PROMPT:", lit "suggested_system_prompt");
    (lit "SUGGESTED_QUERY:", lit "suggested_query") ].

Definition stage4_empty : dict str :=
  [ (lit "critique", []); (lit "comparison", []);
    (lit "suggested_system_prompt", []); (lit "suggested_query", []) ].

(** The loop that cuts the text at the sorted header positions. *)
Fixpoint extract_sections (text : str) (positions : list (nat * (str * str)))
  (parsed : dict str) : dict str :=
  match positions with
  | [] => parsed
  | (pos, (header, key)) :: rest =>
      let start := pos + length header in
      let stop := match rest with
                  | (next, _) :: _ => next
                  | [] => length text
                  end in
      extract_sections text rest
        (dict_set parsed key (strip isspace (slice text start stop)))
  end.

Definition parse_stage4_response (text : str) : dict str :=
  let positions :=
    flat_map (fun hk => match find (fst hk) text with
                        | Some idx => [(idx, hk)]
                        | None => []
                        end) stage4_sections in
  match positions with
  | [] => dict_set stage4_empty (lit "critique") (strip isspace text)
  | _ :: _ => extract_sections text (sort_by Nat.ltb fst positions) stage4_empty
  end.

Definition reflection_prompt (user_query system_prompt_used stage1_summary
  stage3_response : str) : str :=
lit "You are the Chairman of an LLM Council. You just completed a full analysis. Now reflect on how it could be improved.

Original Query: " ++
user_query ++
lit "
System Prompt Used: " ++
system_prompt_used ++
lit "

Stage 1 Responses (summarized):
" ++
stage1_summary ++
lit "

Stage 3 Final Synthesis:
" ++
stage3_response.

Definition reflection_previous (previous_iteration : dict str) : str :=
lit "

PREVIOUS ITERATION:
- Previous Query: " ++
dict_get_default previous_iteration (lit "query") (lit "N/A") ++
lit "
- Previous System Prompt: " ++
dict_get_default previous_iteration (lit "system_prompt") (lit "None") ++
lit "
- Previous Synthesis: " ++
dict_get_default previous_iteration (lit "stage3_response") (lit "N/A").

Definition reflection_critique : str :=
lit "

Provide your self-reflection using EXACTLY these section headers:

CRITIQUE:
What were the weaknesses or gaps in this analysis? What could the council have done better? Be specific and actionable.
".

Definition reflection_comparison : str :=
lit "
COMPARISON:
How does this iteration compare to the previous one? What improved? What regressed or remained unaddressed?
".

Definition reflection_suggestions : str :=
lit "
SUGGESTED_SYSTEM_PROMPT:
Write an improved system prompt that would help the council models produce better responses. If the current system prompt was good, refine it. If none was used, suggest one. Output ONLY the system prompt text.

SUGGESTED_QUERY:
Write an improved version of the user's query that would elicit better responses. Make it more specific, clearer, or better structured. Output ONLY the query text.".

(** [system_prompt or default] *)
Definition str_or (o : option str) (default : str) : str :=
  match o with
  | Some (c :: s) => c :: s
  | _ => default
  end.

Definition stage4_self_reflection (user_query : str) (system_prompt : option str)
  (stage1_results : list Stage1Result) (stage3_result : Stage3Result)
  (chairman_model : str) (previous_iteration : option (dict str))
  : M Stage4Result :=
  let stage1_summary :=
    join nl (map (fun r => lit "- " ++ s1_model r ++ lit ": "
                           ++ firstn 200 (s1_response r) ++ lit "...")
                 stage1_results) in
  let prompt :=
    reflection_prompt user_query (str_or system_prompt (lit "None")) stage1_summary
                      (s3_response stage3_result)
    ++ match previous_iteration with
       | Some p => reflection_previous p
       | None => []
       end
    ++ reflection_critique
    ++ match previous_iteration with
       | Some _ => reflection_comparison
       | None => []
       end
    ++ reflection_suggestions in
  let messages := [{| role := lit "user"; content := prompt; images := [] |}] in
  response <- query_model chairman_model messages None 120 None None ;;
  match response with
  | None =>
      ret {| s4_model := chairman_model;
             s4_critique := lit "Error: Unable to generate self-reflection.";
             s4_comparison := [];
             s4_suggested_system_prompt := str_or system_prompt [];
             s4_suggested_query := user_query;
             s4_raw_response := [];
             s4_usage := zero_usage;
             s4_cost := 0%float |}
  | Some r =>
      let raw_text := resp_content r in
      let parsed := parse_stage4_response raw_text in
      ret {| s4_model := chairman_model;
             s4_critique := dict_get_default parsed (lit "critique") [];
             s4_comparison := dict_get_default parsed (lit "comparison") [];
             s4_suggested_system_prompt :=
               dict_get_default parsed (lit "suggested_system_prompt") [];
             s4_suggested_query := dict_get_default parsed (lit "suggested_query") [];
             s4_raw_response := raw_text;
             s4_usage := resp_usage r;
             s4_cost := calculate_cost chairman_model (Some (resp_usage r)) |}
  end.

(** ** Conversation title *)

Definition title_prompt (user_query : str) : str :=
lit "Generate a very short title (3-5 words maximum) that summarizes the following question.
The title should be concise and descriptive. Do not use quotes or punctuation in the title.

Question: " ++
user_query ++
lit "

Title:".

(** The two quote characters, double and single. *)
Definition is_quote (c : N) : bool := ((c =? 34) || (c =? 39))%N.

(** The clean-up of the model's text: [.strip()], then [.strip(...)] of
    the two quote characters, then the cut at fifty characters. *)
Definition clean_title (text : str) : str :=
  let title := strip isspace text in
  let title := strip is_quote title in
  if 50 <? length title then firstn 47 title ++ lit "..." else title.

Definition generate_conversation_title (user_query model : str) : M str :=
  let messages :=
    [{| role := lit "user"; content := title_prompt user_query; images := [] |}] in
  response <- query_model model messages None 30 None None ;;
  match response with
  | None => ret (lit "New Conversation")
  | Some r => ret (clean_title (resp_content r))
  end.

Definition DEFAULT_TITLE_MODEL : str := lit "gemini-2.0-flash".

(** ** The whole pipeline *)

(** The metadata dictionary: empty ([None]) or with both keys. *)
Definition Metadata : Type := option (dict str * list AggregateEntry).

Definition run_full_council (user_query : str) (council_models : list str)
  (chairman_model : str) (system_prompt : option str)
  : M (list Stage1Result * list Stage2Result * Stage3Result * Metadata) :=
  stage1_results <- stage1_collect_responses user_query council_models system_prompt
                                             None None None ;;
  match stage1_results with
  | [] =>
      ret ([], [],
           {| s3_model := lit "error";
              s3_response := lit "All models failed to respond. Please try again.";
              s3_usage := None; s3_cost := None |},
           None)
  | _ :: _ =>
      '(stage2_results, label_to_model) <-
        stage2_collect_rankings user_query stage1_results council_models ;;
      aggregate_rankings <-
        lift_result (calculate_aggregate_rankings stage2_results label_to_model) ;;
      stage3_result <- stage3_synthesize_final user_query stage1_results stage2_results
                                               chairman_model None ;;
      ret (stage1_results, stage2_results, stage3_result,
           Some (label_to_model, aggregate_rankings))
  end.

End Council.
Export Council.

(* ================================================================== *)
(** * main.py: the streaming endpoint *)
(* ================================================================== *)

Module Main.

(** [SendMessageRequest] *)
Record ConnectorConfig : Type :=
  { cfg_name : option str; cfg_config : option json }.

Record SendMessageRequest : Type :=
  { req_content : str;
    council_models : list str;
    chairman_model : str;
    system_prompt : option str;
    previous_iteration : option (dict str);
    provide_context_to_council : bool;
    enabled_tools : option (list str);
    enabled_connectors : option (list ConnectorConfig) }.

(** The payload of [cost_summary]. *)
Record CostSummary : Type :=
  { cs_stage1 : float; cs_stage2 : float; cs_stage3 : float; cs_stage4 : float;
    cs_total : float; cs_by_model : dict float }.

(** The events of the stream, by their [type] field, with their payload. *)
Inductive Event : Type :=
| stage1_start
| stage1_complete (data : list Stage1Result)
| stage2_start
| stage2_complete (data : list Stage2Result) (label_to_model : dict str)
                  (aggregate_rankings : list AggregateEntry)
| stage3_start
| stage3_complete (data : Stage3Result)
| stage4_start
| stage4_complete (data : Stage4Result)
| title_complete (title : str)
| cost_summary (data : CostSummary)
| complete
| error (message : str).

(** What an awaited collaborator does: it returns, or it fails with an
    [Exception].  (Cancellation of the request's own task is not part of
    the model.) *)
Inductive outcome (A : Type) : Type :=
| Returned (a : A)
| Failed (cls : string) (msg : str).

Arguments Returned {A} a.
Arguments Failed {A} cls msg.

(** The collaborators of the endpoint: storage, the file manager, the
    connector registry, and [str.upper] of the runtime. *)
Record Collaborators : Type :=
  { add_user_message : str -> str -> outcome unit;
    get_file_content_for_context : str -> outcome (str * list Image);
    run_connector : str -> json -> outcome (option str);
    update_conversation_title : str -> str -> outcome unit;
    add_assistant_message :
      str -> list Stage1Result -> list Stage2Result -> Stage3Result ->
      Stage4Result -> outcome unit;
    upper : str -> str }.

(** The state of a running generator: the requests sent so far and the
    events already yielded. *)
Record GState : Type := { sent : list Request; yielded : list Event }.

Definition G (A : Type) : Type :=
  Collaborators -> Env -> GState -> result A * GState.

Definition gret {A : Type} (a : A) : G A := fun _ _ st => (Ok a, st).

Definition gbind {A B : Type} (m : G A) (k : A -> G B) : G B :=
  fun c env st =>
    match m c env st with
    | (Ok a, st') => k a c env st'
    | (Raise e, st') => (Raise e, st')
    end.

Declare Scope gen_scope.
Delimit Scope gen_scope with gen.
Notation "x <~ m ;; k" := (gbind m (fun x => k))
  (at level 61, m at next level, right associativity) : gen_scope.
Notation "' pat <~ m ;; k" := (gbind m (fun x => match x with pat => k end))
  (at level 61, pat pattern, m at next level, right associativity) : gen_scope.
Notation "m ;;; k" := (gbind m (fun _ => k))
  (at level 61, right associativity) : gen_scope.
Open Scope gen_scope.

(** [yield f"data: {json.dumps(event)}\n\n"] *)
Definition yield (ev : Event) : G unit :=
  fun _ _ st => (Ok tt, {| sent := sent st; yielded := yielded st ++ [ev] |}).

(** [await] of a council or provider coroutine. *)
Definition await {A : Type} (m : M A) : G A :=
  fun _ env st =>
    let '(r, log) := m env (sent st) in
    (r, {| sent := log; yielded := yielded st |}).

(** [await] of a collaborator. *)
Definition collab {A : Type} (f : Collaborators -> outcome A) : G A :=
  fun c _ st =>
    match f c with
    | Returned a => (Ok a, st)
    | Failed cls msg => (Raise (PyException cls msg), st)
    end.

Definition gresult {A : Type} (r : result A) : G A := fun _ _ st => (r, st).

(** [asyncio.create_task(coro)]: the task runs at the generator's next
    suspension; what it returns or raises is kept for the [await]. *)
Definition create_task {A : Type} (m : M A) : G (result A) :=
  fun _ env st =>
    let '(r, log) := m env (sent st) in
    (Ok r, {| sent := log; yielded := yielded st |}).

(** [try: m  except Exception as e: h str(e)] around the generator body. *)
Definition gtry_except {A : Type} (m : G A) (h : str -> G A) : G A :=
  fun c env st =>
    match m c env st with
    | (Raise (PyException _ msg), st') => h msg c env st'
    | other => other
    end.

(** [s.replace(" ", "_")] *)
Definition replace_space (s : str) : str :=
  map (fun ch => if (ch =? 32)%N then 95%N else ch) s.

(** One pass of the connector loop: its own [try/except Exception]
    swallows every failure. *)
Definition connector_step (connector_context : str) (conn_cfg : ConnectorConfig)
  : G str :=
  gtry_except
    (r <~ collab (fun c => run_connector c
                             (match cfg_name conn_cfg with Some n => n | None => [] end)
                             (match cfg_config conn_cfg with
                              | Some j => j
                              | None => lit "{}"
                              end)) ;;
     match r with
     | Some (ch :: text) =>
         match cfg_name conn_cfg with
         | None => gresult (Raise (PyException "KeyError" (lit "'name'")))
         | Some n =>
             fun c env st =>
               let tag := replace_space (upper c n) in
               gret (connector_context
                     ++ lit "[" ++ tag ++ lit " DATA]" ++ nl ++ (ch :: text) ++ nl
                     ++ lit "[END " ++ tag ++ lit " DATA]" ++ nl ++ nl) c env st
         end
     | _ => gret connector_context
     end)
    (fun _ => gret connector_context).

Fixpoint connector_loop (cfgs : list ConnectorConfig) (connector_context : str)
  : G str :=
  match cfgs with
  | [] => gret connector_context
  | cfg :: rest =>
      ctx <~ connector_step connector_context cfg ;;
      connector_loop rest ctx
  end.

Definition context_note (previous : dict str) (content : str) : str :=
  lit "[CONTEXT FROM PREVIOUS ANALYSIS]" ++ nl
  ++ lit "This is a re-analysis. The previous query was: " ++ dq
  ++ dict_get_default previous (lit "query") [] ++ dq ++ nl
  ++ lit "The chairman's critique of the previous analysis: "
  ++ dict_get_default previous (lit "critique") (lit "N/A") ++ nl
  ++ lit "[END CONTEXT]" ++ nl ++ nl
  ++ content.

(** [sum(r.get("cost", 0) for r in results)] *)
Definition sum_costs (costs : list float) : float :=
  fold_left PrimFloat.add costs 0%float.

Definition add_model_cost (model_costs : dict float) (m : str) (cost : float)
  : dict float :=
  dict_set model_costs m (dict_get_default model_costs m 0 + cost)%float.

Definition build_cost_summary (request : SendMessageRequest)
  (stage1_results : list Stage1Result) (stage2_results : list Stage2Result)
  (stage3_result : Stage3Result) (stage4_result : Stage4Result) : CostSummary :=
  let stage1_cost := sum_costs (map s1_cost stage1_results) in
  let stage2_cost := sum_costs (map s2_cost stage2_results) in
  let stage3_cost := match s3_cost stage3_result with Some c => c | None => 0%float end in
  let stage4_cost := s4_cost stage4_result in
  let total_cost := (stage1_cost + stage2_cost + stage3_cost + stage4_cost)%float in
  let model_costs :=
    fold_left (fun d mc => add_model_cost d (fst mc) (snd mc))
              (map (fun r => (s1_model r, s1_cost r)) stage1_results
               ++ map (fun r => (s2_model r, s2_cost r)) stage2_results) [] in
  let model_costs :=
    dict_set model_costs (chairman_model request)
             (dict_get_default model_costs (chairman_model request) 0
              + stage3_cost + stage4_cost)%float in
  {| cs_stage1 := py_round stage1_cost 6;
     cs_stage2 := py_round stage2_cost 6;
     cs_stage3 := py_round stage3_cost 6;
     cs_stage4 := py_round stage4_cost 6;
     cs_total := py_round total_cost 6;
     cs_by_model := map (fun mc => (fst mc, py_round (snd mc) 6)) model_costs |}.

(** The body of [try:] in [event_generator]. *)
Definition event_generator_body (conversation_id : str)
  (request : SendMessageRequest) (is_first_message : bool) : G unit :=
  collab (fun c => add_user_message c conversation_id (req_content request)) ;;;
  title_task <~ (if is_first_message
                 then t <~ create_task (generate_conversation_title
                                          (req_content request) DEFAULT_TITLE_MODEL) ;;
                      gret (Some t)
                 else gret None) ;;
  let council_query :=
    if truthy (previous_iteration request) && provide_context_to_council request
    then match previous_iteration request with
         | Some p => context_note p (req_content request)
         | None => req_content request
         end
    else req_content request in
  '(file_context, image_attachments) <~
    collab (fun c => get_file_content_for_context c conversation_id) ;;
  connector_context <~
    (if truthy (enabled_connectors request)
     then match enabled_connectors request with
          | Some cfgs => connector_loop cfgs []
          | None => gret []
          end
     else gret []) ;;
  let file_context :=
    match connector_context with
    | [] => file_context
    | _ :: _ => connector_context ++ file_context
    end in
  tool_defs <~
    (fun c env st =>
       gret (if truthy (enabled_tools request)
             then match enabled_tools request with
                  | Some names => Some (get_enabled_tools (TOOL_REGISTRY env) names)
                  | None => None
                  end
             else None) c env st) ;;
  yield stage1_start ;;;
  stage1_results <~
    await (stage1_collect_responses council_query (council_models request)
             (system_prompt request)
             (match file_context with [] => None | _ :: _ => Some file_context end)
             (match image_attachments with [] => None | _ :: _ => Some image_attachments end)
             tool_defs) ;;
  yield (stage1_complete stage1_results) ;;;
  yield stage2_start ;;;
  '(stage2_results, label_to_model) <~
    await (stage2_collect_rankings (req_content request) stage1_results
             (council_models request)) ;;
  aggregate_rankings <~
    gresult (calculate_aggregate_rankings stage2_results label_to_model) ;;
  yield (stage2_complete stage2_results label_to_model aggregate_rankings) ;;;
  yield stage3_start ;;;
  stage3_result <~
    await (stage3_synthesize_final (req_content request) stage1_results stage2_results
             (chairman_model request) (previous_iteration request)) ;;
  yield (stage3_complete stage3_result) ;;;
  yield stage4_start ;;;
  stage4_result <~
    await (stage4_self_reflection (req_content request) (system_prompt request)
             stage1_results stage3_result (chairman_model request)
             (previous_iteration request)) ;;
  yield (stage4_complete stage4_result) ;;;
  match title_task with
  | Some task =>
      title <~ gresult task ;;
      collab (fun c => update_conversation_title c conversation_id title) ;;;
      yield (title_complete title)
  | None => gret tt
  end ;;;
  yield (cost_summary (build_cost_summary request stage1_results stage2_results
                                          stage3_result stage4_result)) ;;;
  collab (fun c => add_assistant_message c conversation_id stage1_results
                     stage2_results stage3_result stage4_result) ;;;
  yield complete.

Definition event_generator (conversation_id : str) (request : SendMessageRequest)
  (is_first_message : bool) : G unit :=
  gtry_except (event_generator_body conversation_id request is_first_message)
              (fun msg => yield (error msg)).

End Main.
Export Main.

(* ================================================================== *)
(** * storage.py, with JSON files *)
(* ================================================================== *)

Module Storage.

(** A stored message: [{"role": "user", "content": ...}], or
    [{"role": "assistant", "stage1": ..., "stage2": ..., "stage3": ...}]
    with the optional keys [stage4] and [run_config]. *)
Inductive StoredMessage : Type :=
| UserMessage (content : str)
| AssistantMessage (stage1 : list Stage1Result) (stage2 : list Stage2Result)
                   (stage3 : Stage3Result) (stage4 : option Stage4Result)
                   (run_config : option json).

Record Conversation : Type :=
  { conv_id : str; conv_created_at : str; conv_title : str;
    conv_messages : list StoredMessage }.

(** The data directory when [USE_POSTGRES] is off: under each
    conversation id, the content of the file [<DATA_DIR>/<id>.json] as
    [json.dump] wrote it and [json.load] reads it back. *)
Definition Files : Type := dict Conversation.

(** A storage function reads and writes the files and returns or raises. *)
Definition IO (A : Type) : Type := Files -> result A * Files.

(** [utcnow] is what [datetime.utcnow().isoformat()] gives. *)
Definition create_conversation (utcnow : str) (conversation_id : str)
  : IO Conversation :=
  fun files =>
    let conversation :=
      {| conv_id := conversation_id; conv_created_at := utcnow;
         conv_title := lit "New Conversation"; conv_messages := [] |} in
    (Ok conversation, dict_set files conversation_id conversation).

Definition get_conversation (conversation_id : str) : IO (option Conversation) :=
  fun files => (Ok (dict_get files conversation_id), files).

(** The file written is the one of [conversation["id"]]. *)
Definition _save_json (conversation : Conversation) : IO unit :=
  fun files => (Ok tt, dict_set files (conv_id conversation) conversation).

(** [ValueError(f"Conversation {conversation_id} not found")] *)
Definition not_found (conversation_id : str) : exn :=
  PyException "ValueError" (lit "Conversation " ++ conversation_id ++ lit " not found").

Definition add_user_message (conversation_id content : str) : IO unit :=
  fun files =>
    match get_conversation conversation_id files with
    | (Ok (Some conversation), files) =>
        _save_json
          {| conv_id := conv_id conversation;
             conv_created_at := conv_created_at conversation;
             conv_title := conv_title conversation;
             conv_messages := conv_messages conversation ++ [UserMessage content] |}
          files
    | (Ok None, files) => (Raise (not_found conversation_id), files)
    | (Raise e, files) => (Raise e, files)
    end.

Definition add_assistant_message (conversation_id : str)
  (stage1 : list Stage1Result) (stage2 : list Stage2Result) (stage3 : Stage3Result)
  (stage4 : option Stage4Result) (run_config : option json) : IO unit :=
  fun files =>
    match get_conversation conversation_id files with
    | (Ok (Some conversation), files) =>
        _save_json
          {| conv_id := conv_id conversation;
             conv_created_at := conv_created_at conversation;
             conv_title := conv_title conversation;
             conv_messages :=
               conv_messages conversation
               ++ [AssistantMessage stage1 stage2 stage3 stage4 run_config] |}
          files
    | (Ok None, files) => (Raise (not_found conversation_id), files)
    | (Raise e, files) => (Raise e, files)
    end.

Definition update_conversation_title (conversation_id title : str) : IO unit :=
  fun files =>
    match get_conversation conversation_id files with
    | (Ok (Some conversation), files) =>
        _save_json
          {| conv_id := conv_id conversation;
             conv_created_at := conv_created_at conversation;
             conv_title := title;
             conv_messages := conv_messages conversation |}
          files
    | (Ok None, files) => (Raise (not_found conversation_id), files)
    | (Raise e, files) => (Raise e, files)
    end.

(** The entries of the list view. *)
Record ConversationMetadata : Type :=
  { meta_id : str; meta_created_at : str; meta_title : str;
    meta_message_count : nat }.

(** [a < b] on Python strings: by code points, a proper prefix first. *)
Fixpoint str_ltb (a b : str) : bool :=
  match a, b with
  | _, [] => false
  | [], _ :: _ => true
  | x :: a', y :: b' =>
      if (x <? y)%N then true
      else if (y <? x)%N then false
      else str_ltb a' b'
  end.

(** The files are read in the order of the directory listing, here the
    order of [files]; [sort(key=created_at, reverse=True)] is stable.
    Every file that this module writes has a title, so the default of
    [data.get("title", "New Conversation")] is never taken. *)
Definition list_conversations : IO (list ConversationMetadata) :=
  fun files =>
    let conversations :=
      map (fun kv =>
             {| meta_id := conv_id (snd kv);
                meta_created_at := conv_created_at (snd kv);
                meta_title := conv_title (snd kv);
                meta_message_count := length (conv_messages (snd kv)) |})
          files in
    (Ok (sort_by (fun a b => str_ltb b a) meta_created_at conversations), files).

End Storage.

(* ================================================================== *)
(** * main.py: the endpoints that do not stream *)
(* ================================================================== *)

Module Api.

Import Storage.

(** An endpoint over the JSON storage: it reads the environment, reads
    and writes the files, appends to the log of provider requests and
    returns or raises. *)
Definition H (A : Type) : Type :=
  Env -> Files -> list Request -> result A * Files * list Request.

Definition hret {A : Type} (a : A) : H A := fun _ files log => (Ok a, files, log).

Definition hraise {A : Type} (e : exn) : H A := fun _ files log => (Raise e, files, log).

Definition hbind {A B : Type} (m : H A) (k : A -> H B) : H B :=
  fun env files log =>
    match m env files log with
    | (Ok a, files', log') => k a env files' log'
    | (Raise e, files', log') => (Raise e, files', log')
    end.

(** [await storage.f(...)] *)
Definition await_storage {A : Type} (io : IO A) : H A :=
  fun _ files log => let '(r, files') := io files in (r, files', log).

(** [await] of a council or provider coroutine. *)
Definition await_model {A : Type} (m : M A) : H A :=
  fun env files log => let '(r, log') := m env log in (r, files, log').

(** [HTTPException(status_code=..., detail=...)] *)
Definition HTTPException (status_code : string) (detail : str) : exn :=
  PyException "HTTPException" (lit status_code ++ lit ": " ++ detail).

(** [POST /api/conversations/{conversation_id}/message] *)
Definition send_message (conversation_id : str) (request : SendMessageRequest)
  : H (list Stage1Result * list Stage2Result * Stage3Result * Metadata) :=
  hbind (await_storage (get_conversation conversation_id)) (fun conversation =>
  match conversation with
  | None => hraise (HTTPException "404" (lit "Conversation not found"))
  | Some conversation =>
      let is_first_message := Nat.eqb (length (conv_messages conversation)) 0 in
      hbind (await_storage (add_user_message conversation_id (req_content request)))
            (fun _ =>
      hbind (if is_first_message
             then hbind (await_model (generate_conversation_title (req_content request)
                                                            DEFAULT_TITLE_MODEL))
                        (fun title =>
                           await_storage
                             (update_conversation_title conversation_id title))
             else hret tt)
            (fun _ =>
      hbind (await_model (run_full_council (req_content request) (council_models request)
                                     (chairman_model request) (system_prompt request)))
            (fun out =>
      let '(stage1_results, stage2_results, stage3_result, metadata) := out in
      hbind (await_storage (add_assistant_message conversation_id stage1_results
                                            stage2_results stage3_result None None))
            (fun _ =>
      hret (stage1_results, stage2_results, stage3_result, metadata)))))
  end).

(** The system prompt of [optimize_prompt]; the three characters after
    the quoted example are the ones of the source file. *)
Definition optimizer_system_prompt : str :=
lit "You are a prompt engineering expert. Your task is to improve the user's prompt to get better responses from an LLM council.

Rewrite the prompt to be:
- More specific and clear
- Well-structured with context
- Explicit about desired format and depth
- Free of ambiguity

Return ONLY the improved prompt text, nothing else. Do not add preamble like " ++
dq ++
lit "Here's the improved prompt:" ++
dq ++
lit " " ++
[226; 8364; 8221]%N ++
lit " just output the prompt itself.".

(** [POST /api/optimize-prompt] *)
Definition optimize_prompt (prompt model_id : str) : M str :=
  let messages := [{| role := lit "user"; content := prompt; images := [] |}] in
  response <- query_model model_id messages (Some optimizer_system_prompt) 120
                          None None ;;
  match response with
  | None => raise (HTTPException "500" (lit "Failed to optimize prompt"))
  | Some r => ret (resp_content r)
  end.

End Api.

(* ================================================================== *)
(** * Properties *)
(* ================================================================== *)

Unset Implicit Arguments.

(** ** Strings and dictionaries *)

Module PyStrFacts.

Lemma str_eqb_eq (a b : str) : str_eqb a b = true <-> a = b.
Proof.
  unfold str_eqb. destruct (list_eq_dec N.eq_dec a b); split; congruence.
Qed.

Lemma str_eqb_refl (a : str) : str_eqb a a = true.
Proof. now apply str_eqb_eq. Qed.

Lemma str_eqb_neq (a b : str) : str_eqb a b = false <-> a <> b.
Proof.
  unfold str_eqb. destruct (list_eq_dec N.eq_dec a b); split; congruence.
Qed.

(** [startswith p s] holds exactly when [s] is [p] followed by something. *)
Lemma startswith_app (p s : str) :
  startswith p s = true <-> exists r, s = p ++ r.
Proof.
  revert s. induction p as [|a p IH]; intros s; simpl.
  - split; [intros _; now exists s | reflexivity].
  - destruct s as [|b s].
    + split; [discriminate | intros [r E]; discriminate].
    + rewrite andb_true_iff, N.eqb_eq, IH. split.
      * intros [-> [r ->]]. now exists r.
      * intros [r E]. injection E as -> ->. split; [reflexivity | now exists r].
Qed.

(** The parts of a split are never an empty list. *)
Lemma split_aux_nonempty (sep : str) (s : str) :
  forall skip cur, split_aux sep skip cur s <> [].
Proof.
  induction s as [|c t IH]; intros skip cur; simpl.
  - discriminate.
  - destruct skip; [destruct (startswith sep (c :: t))|]; try discriminate; apply IH.
Qed.

(** A text that contains the (non-empty) separator splits into two parts
    at least. *)
Lemma split_aux_two (sep : str) (s : str) :
  sep <> [] ->
  forall cur, contains sep s = true -> 2 <= length (split_aux sep 0 cur s).
Proof.
  intros Hsep. induction s as [|c t IH]; intros cur H.
  - destruct sep; [congruence | discriminate].
  - cbn [contains] in H. cbn [split_aux].
    destruct (startswith sep (c :: t)).
    + cbn [length].
      pose proof (split_aux_nonempty sep t (length sep - 1) []) as Hne.
      destruct (split_aux sep (length sep - 1) [] t); [congruence | simpl; lia].
    + apply IH. exact H.
Qed.

Lemma split_two (sep s : str) :
  sep <> [] -> contains sep s = true -> 2 <= length (split sep s).
Proof. intros Hsep H. now apply split_aux_two. Qed.

(** Without the separator the text is the only part. *)
Lemma split_aux_absent (sep : str) (s : str) :
  forall cur, contains sep s = false -> split_aux sep 0 cur s = [rev cur ++ s].
Proof.
  induction s as [|c t IH]; intros cur H.
  - simpl. now rewrite app_nil_r.
  - cbn [contains] in H. apply orb_false_iff in H as [H1 H2].
    cbn [split_aux]. rewrite H1, IH by exact H2.
    simpl. now rewrite <- app_assoc.
Qed.

(** [strip] cuts a prefix and a suffix made of the stripped characters and
    leaves a text that neither starts nor ends with one. *)
Lemma lstrip_spec (f : N -> bool) (s : str) :
  exists a, s = a ++ lstrip f s /\ forallb f a = true /\
    match lstrip f s with c :: _ => f c = false | [] => True end.
Proof.
  induction s as [|c t (a & E & Fa & Hh)]; simpl.
  - exists []. auto.
  - destruct (f c) eqn:Hc.
    + exists (c :: a). simpl. rewrite Hc, Fa. repeat split; [congruence | exact Hh].
    + exists []. auto.
Qed.

Lemma lstrip_suffix_kept (f : N -> bool) (s : str) :
  exists a, s = a ++ lstrip f s.
Proof. destruct (lstrip_spec f s) as (a & E & _). now exists a. Qed.

Definition head_ok (f : N -> bool) (s : str) : Prop :=
  match s with c :: _ => f c = false | [] => True end.

Definition last_ok (f : N -> bool) (s : str) : Prop := head_ok f (rev s).

Lemma strip_spec (f : N -> bool) (s : str) :
  exists a b, s = a ++ strip f s ++ b /\
    forallb f a = true /\ forallb f b = true /\
    head_ok f (strip f s) /\ last_ok f (strip f s).
Proof.
  unfold strip, rstrip, last_ok.
  destruct (lstrip_spec f s) as (a & Ea & Fa & Ha).
  destruct (lstrip_spec f (rev (lstrip f s))) as (b & Eb & Fb & Hb).
  set (m := lstrip f s) in *. set (r := lstrip f (rev m)) in *.
  exists a, (rev b). rewrite rev_involutive.
  assert (Em : m = rev r ++ rev b).
  { rewrite <- rev_app_distr, <- Eb. now rewrite rev_involutive. }
  repeat split.
  - now rewrite <- Em.
  - exact Fa.
  - rewrite forallb_forall in *. intros x Hx. apply Fb. now apply in_rev.
  - (* the head of [rev r] is the head of [m] unless [rev r] is empty *)
    unfold head_ok. destruct (rev r) as [|c t] eqn:Er; [exact I|].
    rewrite Em in Ha. simpl in Ha. exact Ha.
  - exact Hb.
Qed.

Lemma strip_length (f : N -> bool) (s : str) : length (strip f s) <= length s.
Proof.
  destruct (strip_spec f s) as (a & b & E & _).
  rewrite E at 2. rewrite !length_app. lia.
Qed.

End PyStrFacts.
Import PyStrFacts.

(** ** Routing *)

Module RoutingFacts.

Lemma claude_is_not_gemini (model_id : str) :
  startswith (lit "claude") model_id = true ->
  startswith (lit "gemini") model_id = false.
Proof.
  destruct model_id as [|c t]; [discriminate|].
  cbn -[N.eqb]. destruct (N.eqb_spec 99 c) as [<-|]; [reflexivity | discriminate].
Qed.

(** C4, as the code has it: the rule is by prefix for both families.  A
    name is routed to the Anthropic adapter exactly when it begins with
    "claude", to the Google adapter exactly when it begins with "gemini",
    and to the OpenAI adapter exactly when it begins with neither. *)
Theorem get_provider_by_prefix (model_id : str) :
  (get_provider model_id = anthropic <-> startswith (lit "claude") model_id = true) /\
  (get_provider model_id = google <-> startswith (lit "gemini") model_id = true) /\
  (get_provider model_id = openai <->
     startswith (lit "claude") model_id = false /\
     startswith (lit "gemini") model_id = false).
Proof.
  unfold get_provider.
  destruct (startswith (lit "claude") model_id) eqn:Hc.
  - rewrite (claude_is_not_gemini _ Hc).
    repeat split; try discriminate; try reflexivity.
    intros [H _]. discriminate.
  - destruct (startswith (lit "gemini") model_id) eqn:Hg;
      repeat split; try discriminate; try reflexivity.
    intros [_ H]. discriminate.
Qed.

(** C4 as stated fails: a name that contains "gemini" without beginning
    with it goes to the OpenAI adapter. *)
Lemma get_provider_gemini_inside :
  ~ (get_provider (lit "my-gemini") = google <->
     contains (lit "gemini") (lit "my-gemini") = true).
Proof.
  intros [_ H]. assert (E : get_provider (lit "my-gemini") = openai) by reflexivity.
  rewrite E in H. discriminate H. reflexivity.
Qed.

End RoutingFacts.

(** ** The ranking parser *)

Module ParserFacts.

Import Re.

(** The parser as the specification words it: the section is everything
    after the first occurrence of the marker. *)
Fixpoint after_first (sep s : str) : option str :=
  if startswith sep s then Some (skipn (length sep) s)
  else match s with
       | [] => None
       | _ :: t => after_first sep t
       end.

(** The [Response <Letter>] token that ends a numbered match. *)
Definition label_of_numbered (m : str) : str := skipn (length m - 10) m.

Definition parse_ranking_spec (ranking_text : str) : list str :=
  match after_first FINAL_RANKING ranking_text with
  | Some section =>
      match findall numbered_label section with
      | [] => findall response_label section
      | numbered => map label_of_numbered numbered
      end
  | None => findall response_label ranking_text
  end.

(** *** Matches *)

Lemma response_label_length (s : str) (n : nat) :
  response_label s = Some n -> n = 10 /\ 10 <= length s.
Proof.
  unfold response_label. destruct (startswith (lit "Response ") s) eqn:Hs; [|discriminate].
  apply startswith_app in Hs as [r ->].
  change (skipn 9 (lit "Response " ++ r)) with r.
  destruct r as [|c r]; [discriminate|].
  destruct (isupper_ascii c); [|discriminate].
  intros [= <-]. split; [reflexivity|]. rewrite length_app. simpl. lia.
Qed.

(** The pattern only reads the first ten characters. *)
Lemma response_label_firstn (s : str) :
  response_label s = Some 10 -> response_label (firstn 10 s) = Some 10.
Proof.
  unfold response_label. destruct (startswith (lit "Response ") s) eqn:Hs; [|discriminate].
  apply startswith_app in Hs as [r ->].
  change (skipn 9 (lit "Response " ++ r)) with r.
  destruct r as [|c r]; [discriminate|].
  destruct (isupper_ascii c) eqn:Hc; [|discriminate]. intros _.
  change (firstn 10 (lit "Response " ++ c :: r)) with (lit "Response " ++ [c]).
  assert (Hs : startswith (lit "Response ") (lit "Response " ++ [c]) = true).
  { apply startswith_app. now exists [c]. }
  rewrite Hs. change (skipn 9 (lit "Response " ++ [c])) with [c].
  cbv beta iota. now rewrite Hc.
Qed.

Lemma response_label_head (s : str) (n : nat) :
  response_label s = Some n -> exists t, s = 82%N :: t.
Proof.
  unfold response_label. destruct (startswith (lit "Response ") s) eqn:Hs; [|discriminate].
  apply startswith_app in Hs as [r ->]. intros _. now eexists.
Qed.

(** A match somewhere in the text makes [findall] non-empty; when no
    [R] stands before it, it is the first one found. *)
Lemma findall_response_app (pre suf : str) :
  response_label suf = Some 10 ->
  Forall (fun c => c <> 82%N) pre ->
  exists rest, findall response_label (pre ++ suf) = firstn 10 suf :: rest.
Proof.
  intros Hm Hpre. unfold findall. induction Hpre as [|c pre Hc Hpre IH].
  - simpl. destruct suf as [|c t]; [discriminate|].
    cbn [findall_aux]. rewrite Hm. eauto.
  - cbn [app findall_aux].
    destruct (response_label (c :: pre ++ suf)) eqn:E.
    + apply response_label_head in E as [t0 E]. congruence.
    + exact IH.
Qed.

Lemma findall_response_nonempty (pre suf : str) :
  response_label suf = Some 10 -> findall response_label (pre ++ suf) <> [].
Proof.
  intros Hm. unfold findall. induction pre as [|c pre IH].
  - simpl. destruct suf as [|c t]; [discriminate|].
    cbn [findall_aux]. rewrite Hm. discriminate.
  - cbn [app findall_aux].
    destruct (response_label (c :: pre ++ suf)); [discriminate | exact IH].
Qed.

(** Every element of [findall m s] is a match of [m] at some position. *)
Lemma findall_aux_matches (m : str -> option nat) (s : str) :
  forall skip x, In x (findall_aux m skip s) ->
                 exists s' n, m s' = Some n /\ x = firstn n s'.
Proof.
  induction s as [|c t IH]; intros skip x Hin; [contradiction|].
  cbn [findall_aux] in Hin. destruct skip.
  - destruct (m (c :: t)) eqn:E.
    + destruct Hin as [<-|Hin]; [eauto | eapply IH; eauto].
    + eapply IH; eauto.
  - eapply IH; eauto.
Qed.

Lemma span_firstn (f : N -> bool) (s : str) :
  Forall (fun c => f c = true) (firstn (span f s) s).
Proof.
  induction s as [|c t IH]; simpl; [constructor|].
  destruct (f c) eqn:E; simpl; constructor; assumption.
Qed.

Lemma span_le (f : N -> bool) (s : str) : span f s <= length s.
Proof. induction s as [|c t IH]; simpl; [|destruct (f c); simpl]; lia. Qed.

(** A numbered match is digits, a dot, white space, and the label. *)
Lemma numbered_label_shape (s : str) (n : nat) :
  numbered_label s = Some n ->
  exists pre lab,
    firstn n s = pre ++ lab /\ length lab = 10 /\
    response_label lab = Some 10 /\ Forall (fun c => c <> 82%N) pre.
Proof.
  unfold numbered_label. cbv zeta.
  remember (span isdecimal s) as d0 eqn:Hd.
  destruct d0 as [|d']; [discriminate|].
  remember (S d') as d eqn:Hd0. clear Hd0 d'.
  destruct (skipn d s) as [|dot r] eqn:Hsk; [discriminate|].
  destruct (N.eqb_spec dot 46) as [->|]; [|discriminate].
  set (w := span isspace r).
  destruct (response_label (skipn w r)) as [k|] eqn:Hl; [|discriminate].
  intros [= <-].
  destruct (response_label_length _ _ Hl) as [-> Hlen].
  assert (Es : s = firstn d s ++ 46%N :: firstn w r ++ skipn w r).
  { rewrite firstn_skipn, <- Hsk. now rewrite firstn_skipn. }
  assert (Hd' : length (firstn d s) = d).
  { apply firstn_length_le. subst d. apply span_le. }
  assert (Hw' : length (firstn w r) = w).
  { apply firstn_length_le. apply span_le. }
  exists (firstn d s ++ 46%N :: firstn w r), (firstn 10 (skipn w r)).
  repeat split.
  - rewrite Es at 1.
    replace (d + 1 + w + 10) with (length (firstn d s ++ 46%N :: firstn w r) + 10)
      by (rewrite length_app; simpl; lia).
    change (firstn d s ++ 46%N :: firstn w r ++ skipn w r)
      with (firstn d s ++ (46%N :: firstn w r) ++ skipn w r).
    rewrite app_assoc, firstn_app_2. reflexivity.
  - apply firstn_length_le. exact Hlen.
  - now apply response_label_firstn.
  - apply Forall_app. split.
    + eapply Forall_impl; [|subst d; apply span_firstn].
      intros c Hc ->. discriminate Hc.
    + constructor; [discriminate|].
      eapply Forall_impl; [|apply span_firstn].
      intros c Hc ->. discriminate Hc.
Qed.

(** [.group()] never fails on a numbered match, and gives its last ten
    characters. *)
Lemma search_group_numbered (section x : str) :
  In x (findall numbered_label section) ->
  search_group x = Ok (label_of_numbered x).
Proof.
  intros Hin. apply findall_aux_matches in Hin as (s' & n & Hm & ->).
  destruct (numbered_label_shape _ _ Hm) as (pre & lab & -> & Hlen & Hlab & Hpre).
  unfold search_group, search.
  destruct (findall_response_app pre lab Hlab Hpre) as [rest ->].
  cbn [hd_error]. unfold label_of_numbered.
  rewrite length_app, Hlen, Nat.add_sub, skipn_app, skipn_all, Nat.sub_diag.
  cbn [app skipn]. rewrite firstn_all2 by lia. reflexivity.
Qed.

Lemma map_result_ok {A B : Type} (f : A -> result B) (g : A -> B) (l : list A) :
  (forall x, In x l -> f x = Ok (g x)) -> map_result f l = Ok (map g l).
Proof.
  induction l as [|a l IH]; intros H; simpl; [reflexivity|].
  rewrite (H a) by now left. rewrite IH; [reflexivity|].
  intros x Hx. apply H. now right.
Qed.

Lemma FINAL_RANKING_nonempty : FINAL_RANKING <> [].
Proof. discriminate. Qed.

(** What the parser returns: it reads the second element of the split. *)
Definition ranking_of (ranking_text : str) : list str :=
  if contains FINAL_RANKING ranking_text
  then match findall numbered_label (nth 1 (split FINAL_RANKING ranking_text) []) with
       | [] => findall response_label (nth 1 (split FINAL_RANKING ranking_text) [])
       | numbered => map label_of_numbered numbered
       end
  else findall response_label ranking_text.

(** The parser never raises. *)
Lemma parse_ranking_total (ranking_text : str) :
  parse_ranking_from_text ranking_text = Ok (ranking_of ranking_text).
Proof.
  unfold parse_ranking_from_text, ranking_of.
  destruct (contains FINAL_RANKING ranking_text) eqn:Hc; [|reflexivity].
  pose proof (split_two _ _ FINAL_RANKING_nonempty Hc) as Hlen.
  destruct (split FINAL_RANKING ranking_text) as [|p0 [|p1 ps]] eqn:Hs;
    simpl in Hlen; try lia.
  cbn [length Nat.leb nth_error nth].
  destruct (findall numbered_label p1) as [|m ms] eqn:Hn; [reflexivity|].
  apply map_result_ok. intros x Hx. apply search_group_numbered with (section := p1).
  now rewrite Hn.
Qed.

(** *** The section the parser reads *)

Lemma split_aux_skip (sep : str) (s : str) :
  forall k cur, k <= length s ->
                split_aux sep k cur s = split_aux sep 0 cur (skipn k s).
Proof.
  induction s as [|c t IH]; intros k cur Hk.
  - destruct k; [reflexivity | simpl in Hk; lia].
  - destruct k; [reflexivity|]. cbn [split_aux skipn]. apply IH. simpl in Hk. lia.
Qed.

Lemma after_first_none (sep s : str) :
  after_first sep s = None <-> contains sep s = false.
Proof.
  induction s as [|c t IH]; cbn [after_first contains].
  - destruct (startswith sep []); simpl; split; congruence.
  - destruct (startswith sep (c :: t)); simpl; [split; congruence | exact IH].
Qed.

(** With one occurrence of the separator only, the second part of the
    split is everything after it. *)
Lemma split_aux_single (sep : str) (s rest : str) :
  sep <> [] ->
  forall cur,
    after_first sep s = Some rest -> contains sep rest = false ->
    exists p0, split_aux sep 0 cur s = [p0; rest].
Proof.
  intros Hsep. induction s as [|c t IH]; intros cur Ha Hr.
  - cbn [after_first] in Ha. destruct sep; [congruence | discriminate].
  - cbn [after_first] in Ha. cbn [split_aux].
    destruct (startswith sep (c :: t)) eqn:Hs.
    + injection Ha as <-. exists (rev cur). f_equal.
      apply startswith_app in Hs as [r Hs].
      destruct sep as [|a sep']; [congruence|].
      injection Hs as -> ->.
      clear IH.
      replace (length (a :: sep') - 1) with (length sep') by (simpl; lia).
      change (skipn (length (a :: sep')) (a :: sep' ++ r))
        with (skipn (length sep') (sep' ++ r)) in *.
      rewrite split_aux_skip by (rewrite length_app; lia).
      rewrite split_aux_absent by exact Hr. reflexivity.
    + apply IH; assumption.
Qed.

(** Where the marker is absent, or occurs once, the parser does what the
    specification says. *)
Lemma parse_ranking_single_marker (ranking_text : str) :
  (forall section, after_first FINAL_RANKING ranking_text = Some section ->
                   contains FINAL_RANKING section = false) ->
  parse_ranking_from_text ranking_text = Ok (parse_ranking_spec ranking_text).
Proof.
  intros H. rewrite parse_ranking_total. f_equal.
  unfold ranking_of, parse_ranking_spec.
  destruct (after_first FINAL_RANKING ranking_text) as [section|] eqn:Ha.
  - assert (Hc : contains FINAL_RANKING ranking_text = true).
    { destruct (contains FINAL_RANKING ranking_text) eqn:Hc; [reflexivity|].
      apply after_first_none in Hc. congruence. }
    rewrite Hc.
    destruct (split_aux_single FINAL_RANKING ranking_text section
                FINAL_RANKING_nonempty [] Ha (H _ eq_refl)) as [p0 Hs].
    unfold split. rewrite Hs. reflexivity.
  - apply after_first_none in Ha. now rewrite Ha.
Qed.

(** The two examples of the specification. *)
Example parse_ranking_numbered :
  parse_ranking_from_text (lit "Both are fine. FINAL RANKING:
1. Response B
2. Response A
") = Ok [lit "Response B"; lit "Response A"].
Proof. vm_compute. reflexivity. Qed.

Example parse_ranking_no_marker :
  parse_ranking_from_text (lit "Response C is good. Response A is ok.")
  = Ok [lit "Response C"; lit "Response A"].
Proof. vm_compute. reflexivity. Qed.

(** A reply that names the marker before the ranking proper. *)
Definition reply_with_two_markers : str :=
lit "I will close with FINAL RANKING: as asked.

FINAL RANKING:
1. Response B
2. Response A".

(** C1 at a reply with two markers.  The parser reads the text between
    the first and the second marker, finds no label there and returns the
    empty list; everything after the first marker holds the numbered
    ranking, which the claim says is returned. *)
Theorem parse_ranking_second_marker :
  parse_ranking_from_text reply_with_two_markers = Ok [] /\
  after_first FINAL_RANKING reply_with_two_markers
  = Some (lit " as asked.

FINAL RANKING:
1. Response B
2. Response A") /\
  parse_ranking_spec reply_with_two_markers = [lit "Response B"; lit "Response A"].
Proof. repeat split; vm_compute; reflexivity. Qed.

End ParserFacts.

(** ** Computations *)

Module EffectFacts.

(** [m] returns a value whatever the environment. *)
Definition total {A : Type} (m : M A) : Prop :=
  forall env log, exists a log', m env log = (Ok a, log').

(** [m] lets no [Exception] out (a [CancelledError] may still pass). *)
Definition no_exception {A : Type} (m : M A) : Prop :=
  forall env log cls msg log', m env log <> (Raise (PyException cls msg), log').

(** [m] is never cancelled: what it raises is an [Exception]. *)
Definition no_cancel {A : Type} (m : M A) : Prop :=
  forall env log log', m env log <> (Raise CancelledError, log').

(** [m] sends no request. *)
Definition silent {A : Type} (m : M A) : Prop :=
  forall env log, snd (m env log) = log.

(** The provider answers the request [req], sent after [pre], by raising. *)
Definition answer_raises (env : Env) (pre : list Request) (req : Request) : Prop :=
  match req with
  | ReqOpenAI r => exists e, openai_create env pre r = Raise e
  | ReqAnthropic r => exists e, anthropic_create env pre r = Raise e
  | ReqGoogle r => exists e, google_generate_content env pre r = Raise e
  end.

(** [m] only appends to the log, and a request of its own that the
    provider answers by raising makes [m] raise. *)
Definition tracks {A : Type} (m : M A) : Prop :=
  forall env log,
  exists ext,
    snd (m env log) = log ++ ext /\
    forall pre req post,
      ext = pre ++ req :: post -> answer_raises env (log ++ pre) req ->
      exists e, fst (m env log) = Raise e.

Lemma silent_tracks {A : Type} (m : M A) : silent m -> tracks m.
Proof.
  intros H env log. exists []. rewrite app_nil_r. split; [apply H|].
  intros pre req post E. destruct pre; discriminate E.
Qed.

Lemma silent_ret {A : Type} (a : A) : silent (ret a).
Proof. intros env log. reflexivity. Qed.

Lemma silent_raise {A : Type} (e : exn) : silent (@raise A e).
Proof. intros env log. reflexivity. Qed.

Lemma silent_lift_result {A : Type} (r : result A) : silent (lift_result r).
Proof. intros env log. reflexivity. Qed.

Lemma silent_ask : silent ask.
Proof. intros env log. reflexivity. Qed.

Lemma silent_bind {A B : Type} (m : M A) (k : A -> M B) :
  silent m -> (forall a, silent (k a)) -> silent (bind m k).
Proof.
  intros Hm Hk env log. unfold bind. specialize (Hm env log).
  destruct (m env log) as [[a|e] log']; simpl in Hm; subst; [apply Hk | reflexivity].
Qed.

Lemma silent_try_except {A : Type} (m : M A) (h : str -> M A) :
  silent m -> (forall msg, silent (h msg)) -> silent (try_except m h).
Proof.
  intros Hm Hh env log. unfold try_except. specialize (Hm env log).
  destruct (m env log) as [[a|[cls msg|]] log']; simpl in Hm; subst;
    [reflexivity | apply Hh | reflexivity].
Qed.

Lemma tracks_bind {A B : Type} (m : M A) (k : A -> M B) :
  tracks m -> (forall a, tracks (k a)) -> tracks (bind m k).
Proof.
  intros Hm Hk env log. unfold bind.
  destruct (Hm env log) as (ext1 & E1 & F1).
  destruct (m env log) as [[a|e] log1] eqn:Em; simpl in E1; subst log1.
  - destruct (Hk a env (log ++ ext1)) as (ext2 & E2 & F2).
    exists (ext1 ++ ext2). rewrite E2, app_assoc. split; [reflexivity|].
    intros pre req post E Hr.
    (* the request lies in the first or in the second extension *)
    apply app_eq_app in E as [l [[Ea Eb]|[Ea Eb]]].
    + destruct l as [|x l].
      * rewrite app_nil_r in Ea. subst pre. simpl in Eb.
        apply (F2 [] req post); [now symmetry|]. now rewrite app_nil_r.
      * injection Eb as <- Eb.
        destruct (F1 pre req l Ea Hr) as [e He]. simpl in He. discriminate He.
    + subst pre. apply (F2 l req post Eb). now rewrite <- app_assoc.
  - exists ext1. split; [reflexivity|]. intros pre req post E Hr. now exists e.
Qed.

Lemma tracks_foldM {A S : Type} (f : S -> A -> M S) (l : list A) :
  (forall s a, tracks (f s a)) -> forall s, tracks (foldM f l s).
Proof.
  intros Hf. induction l as [|a l IH]; intros s; simpl.
  - apply silent_tracks, silent_ret.
  - apply tracks_bind; [apply Hf | exact IH].
Qed.

Lemma tracks_openai (r : oa_request) : tracks (chat_completions_create r).
Proof.
  intros env log. exists [ReqOpenAI r]. split; [reflexivity|].
  intros pre req post E Hr.
  destruct pre as [|x pre]; [|destruct pre; discriminate E].
  injection E as <- _. rewrite app_nil_r in Hr. exact Hr.
Qed.

Lemma tracks_anthropic (r : an_request) : tracks (messages_create r).
Proof.
  intros env log. exists [ReqAnthropic r]. split; [reflexivity|].
  intros pre req post E Hr.
  destruct pre as [|x pre]; [|destruct pre; discriminate E].
  injection E as <- _. rewrite app_nil_r in Hr. exact Hr.
Qed.

Lemma tracks_google (r : g_request) : tracks (generate_content r).
Proof.
  intros env log. exists [ReqGoogle r]. split; [reflexivity|].
  intros pre req post E Hr.
  destruct pre as [|x pre]; [|destruct pre; discriminate E].
  injection E as <- _. rewrite app_nil_r in Hr. exact Hr.
Qed.

Lemma silent_execute_tool (n : str) (a : json) (tool_map : dict ToolDefinition) :
  silent (execute_tool n a tool_map).
Proof.
  unfold execute_tool. apply silent_bind; [apply silent_ask|]. intros env.
  destruct (dict_get _ n); [|apply silent_ret].
  apply silent_try_except.
  - apply silent_bind; [apply silent_lift_result | intros; apply silent_ret].
  - intros; apply silent_ret.
Qed.

Lemma silent_first_item {A : Type} (l : list A) : silent (first_item l).
Proof. destruct l; [apply silent_raise | apply silent_ret]. Qed.

Lemma silent_g_first_parts (response : g_response) : silent (g_first_parts response).
Proof.
  unfold g_first_parts. destruct (g_candidates response) as [|c _]; [apply silent_ret|].
  destruct (cand_content c) as [content|]; [|apply silent_ret].
  destruct (content_parts content); [apply silent_ret | apply silent_raise].
Qed.

Create HintDb effects.

#[export] Hint Resolve silent_tracks silent_ret silent_raise silent_lift_result
  silent_ask silent_execute_tool silent_first_item silent_g_first_parts
  tracks_openai tracks_anthropic tracks_google : effects.

(** *** The three loops track their requests *)

Lemma tracks_oa_process (tool_map : dict ToolDefinition)
  (st : list oa_turn * list ToolCallRecord) (tc : oa_tool_call) :
  tracks (oa_process_tool_call tool_map st tc).
Proof.
  apply silent_tracks. unfold oa_process_tool_call. destruct st as [fm atc].
  apply silent_bind; [apply silent_ask|]. intros env.
  apply silent_bind.
  - destruct (oa_fn_arguments tc); [apply silent_ret | apply silent_lift_result].
  - intros a. apply silent_bind; [apply silent_execute_tool | intros; apply silent_ret].
Qed.

Lemma tracks_oa_tool_loop (rounds : nat) (model : str)
  (openai_tools : option (list tool_schema)) (openai_reasoning : option str)
  (tool_map : dict ToolDefinition) :
  forall full_messages all_tool_calls,
    tracks (oa_tool_loop rounds model openai_tools openai_reasoning tool_map
                         full_messages all_tool_calls).
Proof.
  induction rounds as [|rounds IH]; intros fm atc; cbn [oa_tool_loop].
  - apply tracks_bind; [auto with effects|]. intros response.
    apply tracks_bind; [auto with effects|]. intros choice. auto with effects.
  - apply tracks_bind; [auto with effects|]. intros response.
    apply tracks_bind; [auto with effects|]. intros choice.
    destruct (oa_msg_tool_calls choice); [auto with effects|].
    apply tracks_bind; [|intros st; apply IH].
    apply tracks_foldM. intros. apply tracks_oa_process.
Qed.

Lemma tracks_an_process (tool_map : dict ToolDefinition)
  (st : list (str * str) * list ToolCallRecord) (b : an_block) :
  tracks (an_process_block tool_map st b).
Proof.
  apply silent_tracks. unfold an_process_block. destruct st as [tr atc].
  apply silent_bind; [apply silent_execute_tool | intros; apply silent_ret].
Qed.

Lemma tracks_an_tool_loop (rounds : nat) (tool_map : dict ToolDefinition) :
  forall kwargs all_tool_calls,
    tracks (an_tool_loop rounds kwargs tool_map all_tool_calls).
Proof.
  induction rounds as [|rounds IH]; intros kwargs atc; cbn [an_tool_loop].
  - apply tracks_bind; [auto with effects|]. intros response. auto with effects.
  - apply tracks_bind; [auto with effects|]. intros response.
    destruct (filter _ (an_resp_content response)); [auto with effects|].
    apply tracks_bind; [|intros st; apply IH].
    apply tracks_foldM. intros. apply tracks_an_process.
Qed.

Lemma tracks_g_process (tool_map : dict ToolDefinition)
  (st : list (str * str) * list ToolCallRecord) (fc : g_function_call) :
  tracks (g_process_call tool_map st fc).
Proof.
  apply silent_tracks. unfold g_process_call. destruct st as [fr atc].
  apply silent_bind; [apply silent_execute_tool | intros; apply silent_ret].
Qed.

Lemma tracks_g_tool_loop (rounds : nat) (model : str)
  (google_tools : option (list tool_schema)) (tool_map : dict ToolDefinition) :
  forall config google_contents all_tool_calls,
    tracks (g_tool_loop rounds model google_tools tool_map config google_contents
                        all_tool_calls).
Proof.
  induction rounds as [|rounds IH]; intros config gc atc; cbn [g_tool_loop].
  - apply tracks_bind; [auto with effects|]. intros response. auto with effects.
  - destruct (g_round_config config google_tools) as [sent config'].
    apply tracks_bind; [auto with effects|]. intros response.
    apply tracks_bind; [auto with effects|]. intros parts.
    destruct (g_function_calls parts); [auto with effects|].
    apply tracks_bind; [|intros st; apply IH].
    apply tracks_foldM. intros. apply tracks_g_process.
Qed.

(** *** What the adapters let out *)

(** Is the SDK client of a provider configured? *)
Definition client_of (env : Env) (p : provider) : bool :=
  match p with
  | anthropic => anthropic_client env
  | google => google_client env
  | openai => openai_client env
  end.

(** The message with which the Google SDK refuses the first of the tools
    that it does not accept. *)
Fixpoint first_refusal (env : Env) (ts : list ToolDefinition) : option str :=
  match ts with
  | [] => None
  | t :: ts' =>
      match function_declaration_error env (schema_of t) with
      | Some msg => Some msg
      | None => first_refusal env ts'
      end
  end.

(** The refusal that the Google adapter runs into: it builds the SDK
    objects of the tools only after the guard on its client. *)
Definition google_refusal (env : Env) (tools : option (list ToolDefinition))
  : option str :=
  if google_client env
  then match tools with Some ts => first_refusal env ts | None => None end
  else None.

(** The refusal that a call of [query_model] runs into: the other two
    adapters build no SDK object. *)
Definition refusal (env : Env) (model : str) (tools : option (list ToolDefinition))
  : option str :=
  match get_provider model with
  | google => google_refusal env tools
  | _ => None
  end.

Lemma refusal_no_tools (env : Env) (model : str) : refusal env model None = None.
Proof.
  unfold refusal, google_refusal.
  destruct (get_provider model); try reflexivity. now destruct (google_client env).
Qed.

Lemma refusal_no_client (env : Env) (model : str)
  (tools : option (list ToolDefinition)) :
  client_of env (get_provider model) = false -> refusal env model tools = None.
Proof.
  unfold refusal, google_refusal.
  destruct (get_provider model); cbn [client_of]; try reflexivity.
  now intros ->.
Qed.

Lemma first_refusal_none (env : Env) (ts : list ToolDefinition) :
  first_refusal env ts = None <->
  (forall t, In t ts -> function_declaration_error env (schema_of t) = None).
Proof.
  induction ts as [|t ts IH]; simpl; [now split|].
  destruct (function_declaration_error env (schema_of t)) eqn:E.
  - split; [discriminate|]. intros H. specialize (H t (or_introl eq_refl)).
    congruence.
  - rewrite IH. split.
    + intros H t' [<-|Hin]; [exact E | now apply H].
    + intros H t' Hin. apply H. now right.
Qed.

Lemma first_refusal_some (env : Env) (ts : list ToolDefinition) (msg : str) :
  first_refusal env ts = Some msg ->
  exists t, In t ts /\ function_declaration_error env (schema_of t) = Some msg.
Proof.
  induction ts as [|t ts IH]; simpl; [discriminate|].
  destruct (function_declaration_error env (schema_of t)) eqn:E.
  - intros [= <-]. exists t. split; [now left | exact E].
  - intros H. destruct (IH H) as (t' & Hin & Ht). exists t'.
    split; [now right | exact Ht].
Qed.

(** No refusal: another provider, no client, or only tools that the SDK
    accepts. *)
Lemma refusal_none (env : Env) (model : str) (tools : option (list ToolDefinition)) :
  refusal env model tools = None <->
  (get_provider model <> google \/ google_client env = false \/
   forall ts t, tools = Some ts -> In t ts ->
                function_declaration_error env (schema_of t) = None).
Proof.
  unfold refusal, google_refusal. split.
  - destruct (get_provider model); try (intros _; left; discriminate).
    destruct (google_client env); [|intros _; right; now left].
    destruct tools as [ts|].
    + intros H. right. right. intros ts' t [= <-]. now apply first_refusal_none.
    + intros _. right. right. discriminate.
  - destruct (get_provider model); try reflexivity.
    intros [H|[->|H]]; [congruence | reflexivity |].
    destruct (google_client env); [|reflexivity].
    destruct tools as [ts|]; [|reflexivity].
    apply first_refusal_none. intros t. now apply H.
Qed.

(** The Google SDK accepts every tool of the call. *)
Definition sdk_accepts (env : Env) (tools : option (list ToolDefinition)) : Prop :=
  forall ts t, tools = Some ts -> In t ts ->
               function_declaration_error env (schema_of t) = None.

Lemma sdk_accepts_no_tools (env : Env) : sdk_accepts env None.
Proof. intros ts t H. discriminate H. Qed.

Lemma accepted_no_refusal (env : Env) (model : str)
  (tools : option (list ToolDefinition)) :
  (get_provider model = google -> sdk_accepts env tools) ->
  refusal env model tools = None.
Proof.
  intros H. apply refusal_none.
  destruct (get_provider model) eqn:E; try (left; discriminate).
  right. right. now apply H.
Qed.

(** The models of the Google family have no client, or the SDK accepts
    every tool. *)
Definition tools_accepted (env : Env) (models : list str)
  (tools : option (list ToolDefinition)) : Prop :=
  forall m, In m models -> get_provider m = google -> google_client env = true ->
            sdk_accepts env tools.

Lemma tools_accepted_no_refusal (env : Env) (models : list str)
  (tools : option (list ToolDefinition)) :
  tools_accepted env models tools ->
  forall m, In m models -> refusal env m tools = None.
Proof.
  intros H m Hm. apply refusal_none.
  destruct (get_provider m) eqn:Ep; try (left; discriminate).
  destruct (google_client env) eqn:Ec; [|right; now left].
  right. right. exact (H m Hm Ep Ec).
Qed.

Lemma tools_accepted_no_tools (env : Env) (models : list str) :
  tools_accepted env models None.
Proof. intros m _ _ _. apply sdk_accepts_no_tools. Qed.

(** The parts of a reply that the Google adapter goes through; [None]
    when the first candidate has a content without a list of parts. *)
Definition g_parts_of (response : g_response) : option (list g_part) :=
  match g_candidates response with
  | c :: _ =>
      match cand_content c with
      | Some content => content_parts content
      | None => Some []
      end
  | [] => Some []
  end.

Lemma g_first_parts_spec (response : g_response) (env : Env) (log : list Request) :
  g_first_parts response env log
  = (match g_parts_of response with
     | Some parts => Ok parts
     | None => Raise (PyException "TypeError" (lit "'NoneType' object is not iterable"))
     end, log).
Proof.
  unfold g_first_parts, g_parts_of.
  destruct (g_candidates response) as [|c _]; [reflexivity|].
  destruct (cand_content c) as [content|]; [|reflexivity].
  destruct (content_parts content); reflexivity.
Qed.

(** The loop over the tools: it stops at the first refusal, and otherwise
    builds the schemas and the tool map of the other two adapters. *)
Lemma declare_tools (env : Env) (log : list Request) (ts : list ToolDefinition) :
  forall func_decls tool_map,
    foldM g_declare_tool ts (func_decls, tool_map) env log
    = match first_refusal env ts with
      | Some msg => (Raise (PyException "ValidationError" msg), log)
      | None => (Ok (func_decls ++ map schema_of ts,
                     fold_left (fun m t => dict_set m (name t) t) ts tool_map), log)
      end.
Proof.
  induction ts as [|t ts IH]; intros func_decls tool_map; cbn [foldM first_refusal].
  - unfold ret. now rewrite app_nil_r.
  - unfold bind at 1. unfold g_declare_tool at 1, FunctionDeclaration, bind, ask.
    destruct (function_declaration_error env (schema_of t)) as [msg|]; [reflexivity|].
    unfold ret. rewrite IH. destruct (first_refusal env ts); [reflexivity|].
    cbn [map fold_left]. now rewrite <- app_assoc.
Qed.

Lemma build_google_tools_spec (env : Env) (log : list Request)
  (tools : option (list ToolDefinition)) :
  build_google_tools tools env log
  = match (match tools with Some ts => first_refusal env ts | None => None end) with
    | Some msg => (Raise (PyException "ValidationError" msg), log)
    | None => (Ok (build_tool_schemas tools,
                   if truthy tools then build_tool_map tools else []), log)
    end.
Proof.
  unfold build_google_tools. destruct tools as [[|t ts]|]; try reflexivity.
  unfold bind. rewrite declare_tools.
  destruct (first_refusal env (t :: ts)); reflexivity.
Qed.

Lemma silent_build_google_tools (tools : option (list ToolDefinition)) :
  silent (build_google_tools tools).
Proof.
  intros env log. rewrite build_google_tools_spec.
  destruct (match tools with Some ts => first_refusal env ts | None => None end);
    reflexivity.
Qed.

(** The Google adapter once the SDK has accepted the tools: the guard on
    the client and the loop inside [try/except Exception], as in the other
    two adapters. *)
Definition google_after_tools (model : str) (messages : list Message)
  (system_prompt : option str) (tools : option (list ToolDefinition))
  (reasoning_effort : option str) : M (option ModelResponse) :=
  env <- ask ;;
  if negb (google_client env) then ret None
  else
    try_except
      (g_tool_loop MAX_TOOL_ROUNDS model (build_tool_schemas tools)
         (if truthy tools then build_tool_map tools else [])
         {| g_system_instruction := if truthy system_prompt then system_prompt else None;
            g_thinking_budget :=
              match effort_on reasoning_effort with
              | Some e =>
                  if contains (lit "2.5") model || contains (lit "3") model
                  then Some (effort_to_budget e) else None
              | None => None
              end;
            g_tools := None |}
         (map _build_google_parts messages) [])
      (fun _ => ret None).

Lemma query_google_cases (model : str) (messages : list Message)
  (system_prompt : option str) (tools : option (list ToolDefinition))
  (reasoning_effort : option str) (env : Env) (log : list Request) :
  _query_google model messages system_prompt tools reasoning_effort env log
  = match google_refusal env tools with
    | Some msg => (Raise (PyException "ValidationError" msg), log)
    | None => google_after_tools model messages system_prompt tools reasoning_effort
                                 env log
    end.
Proof.
  unfold _query_google, google_after_tools, google_refusal, bind at 1, ask.
  unfold bind at 2, ask.
  destruct (google_client env); cbn [negb].
  - unfold bind at 1. rewrite build_google_tools_spec.
    destruct (match tools with Some ts => first_refusal env ts | None => None end);
      reflexivity.
  - reflexivity.
Qed.

(** [query_model] when nothing is refused. *)
Definition query_model_after_tools (model : str) (messages : list Message)
  (system_prompt : option str)
  (tools : option (list ToolDefinition)) (reasoning_effort : option str)
  : M (option ModelResponse) :=
  wait_for_or_none
    match get_provider model with
    | anthropic => _query_anthropic model messages system_prompt tools reasoning_effort
    | google => google_after_tools model messages system_prompt tools reasoning_effort
    | openai => _query_openai model messages system_prompt tools reasoning_effort
    end.

Lemma query_model_cases (model : str) (messages : list Message)
  (system_prompt : option str) (timeout : Z)
  (tools : option (list ToolDefinition)) (reasoning_effort : option str)
  (env : Env) (log : list Request) :
  query_model model messages system_prompt timeout tools reasoning_effort env log
  = match refusal env model tools with
    | Some msg => (Raise (PyException "ValidationError" msg), log)
    | None => query_model_after_tools model messages system_prompt tools
                                      reasoning_effort env log
    end.
Proof.
  unfold query_model, query_model_after_tools, refusal, wait_for_or_none.
  destruct (get_provider model); try reflexivity.
  rewrite query_google_cases. destruct (google_refusal env tools); reflexivity.
Qed.

(** What [query_model] guarantees when it returns: no request without a
    client, and [None] as soon as a request of the call is answered by
    raising. *)
Definition abstains_on_failure (guard : bool) (env : Env) (log : list Request)
  (out : result (option ModelResponse) * list Request) : Prop :=
  exists response ext,
    out = (Ok response, log ++ ext) /\
    (guard = false -> response = None /\ ext = []) /\
    (forall pre req post,
        ext = pre ++ req :: post -> answer_raises env (log ++ pre) req ->
        response = None).

(** The shape shared by the three adapters, under [wait_for]: a guard on
    the client, then a body inside [try/except Exception]. *)
Lemma guarded_adapter (guard : Env -> bool) (body : Env -> M (option ModelResponse))
  (env : Env) (log : list Request) :
  (forall e, tracks (body e)) ->
  abstains_on_failure (guard env) env log
    (wait_for_or_none
       (bind ask (fun e => if negb (guard e) then ret None
                           else try_except (body e) (fun _ => ret None)))
       env log).
Proof.
  intros Hb. unfold wait_for_or_none, bind, ask, try_except, ret.
  destruct (guard env) eqn:Hg; cbn [negb].
  - destruct (Hb env env log) as (ext & E & F).
    destruct (body env env log) as [[a|[cls msg|]] log'] eqn:Eb;
      simpl in E; subst log'.
    + exists a, ext. repeat split; try discriminate.
      intros pre req post Ee Hr. destruct (F pre req post Ee Hr) as [e He].
      discriminate He.
    + exists None, ext. repeat split; discriminate.
    + exists None, ext. repeat split; discriminate.
  - exists None, []. rewrite app_nil_r. repeat split.
Qed.

Lemma query_model_after_tools_abstains (model : str) (messages : list Message)
  (system_prompt : option str)
  (tools : option (list ToolDefinition)) (reasoning_effort : option str)
  (env : Env) (log : list Request) :
  abstains_on_failure (client_of env (get_provider model)) env log
    (query_model_after_tools model messages system_prompt tools reasoning_effort
                             env log).
Proof.
  unfold query_model_after_tools.
  destruct (get_provider model); cbn [client_of].
  - unfold _query_anthropic.
    apply (guarded_adapter anthropic_client
             (fun _ => an_tool_loop MAX_TOOL_ROUNDS _ _ [])).
    intros e. apply tracks_an_tool_loop.
  - unfold google_after_tools.
    apply (guarded_adapter google_client
             (fun _ => g_tool_loop MAX_TOOL_ROUNDS model _ _ _ _ [])).
    intros e. apply tracks_g_tool_loop.
  - unfold _query_openai.
    apply (guarded_adapter openai_client
             (fun _ => oa_tool_loop MAX_TOOL_ROUNDS model _ _ _ _ [])).
    intros e. apply tracks_oa_tool_loop.
Qed.

Lemma query_model_abstains (model : str) (messages : list Message)
  (system_prompt : option str) (timeout : Z)
  (tools : option (list ToolDefinition)) (reasoning_effort : option str)
  (env : Env) (log : list Request) :
  refusal env model tools = None ->
  abstains_on_failure (client_of env (get_provider model)) env log
    (query_model model messages system_prompt timeout tools reasoning_effort env log).
Proof.
  intros H. rewrite query_model_cases, H. apply query_model_after_tools_abstains.
Qed.


(** *** A tool that the SDK refuses *)

(** An SDK that refuses a parameter schema with a "$schema" key, and
    providers that are down. *)
Definition strict_sdk_env : Env :=
  {| openai_client := true; anthropic_client := true; google_client := true;
     openai_create := fun _ _ =>
       Raise (PyException "APIConnectionError" (lit "Connection error."));
     anthropic_create := fun _ _ =>
       Raise (PyException "APIConnectionError" (lit "Connection error."));
     google_generate_content := fun _ _ =>
       Raise (PyException "ServerError" (lit "503 UNAVAILABLE"));
     function_declaration_error := fun s =>
       if contains (lit "$schema") (schema_parameters s)
       then Some (lit "1 validation error for FunctionDeclaration")
       else None;
     json_loads := fun s => Ok s;
     TOOL_REGISTRY := [] |}.

(** A tool whose parameters are a JSON Schema document of draft 7. *)
Definition draft7_tool : ToolDefinition :=
  {| name := lit "lookup";
     description := lit "Look a word up.";
     parameters :=
       lit "{'$schema': 'http://json-schema.org/draft-07/schema#', 'type': 'object'}";
     handler := fun _ => Ok (Some (lit "found")) |}.

Definition one_question : list Message :=
  [{| role := lit "user"; content := lit "What is 2 + 2?"; images := [] |}].



Lemma query_model_total (model : str) (messages : list Message)
  (system_prompt : option str) (timeout : Z) (reasoning_effort : option str) :
  total (query_model model messages system_prompt timeout None reasoning_effort).
Proof.
  intros env log.
  destruct (query_model_abstains model messages system_prompt timeout None
              reasoning_effort env log (refusal_no_tools env model))
    as (r & ext & E & _).
  exists r, (log ++ ext). exact E.
Qed.

End EffectFacts.
Import EffectFacts.

(** ** The tool-use loop *)

Module ToolLoopFacts.

(** Does a request carry tool schemas? *)
Definition request_has_tools (req : Request) : bool :=
  match req with
  | ReqOpenAI r => match oa_tools r with Some _ => true | None => false end
  | ReqAnthropic r => match an_tools r with Some _ => true | None => false end
  | ReqGoogle r =>
      match g_cfg r with
      | Some c => match g_tools c with Some _ => true | None => false end
      | None => false
      end
  end.

(** The text that the reply to a request carries, as each adapter reads it. *)
Definition reply_text (env : Env) (pre : list Request) (req : Request) : option str :=
  match req with
  | ReqOpenAI r =>
      match openai_create env pre r with
      | Ok resp =>
          match oa_choices resp with
          | c :: _ => Some (match oa_msg_content c with Some s => s | None => [] end)
          | [] => None
          end
      | Raise _ => None
      end
  | ReqAnthropic r =>
      match anthropic_create env pre r with
      | Ok resp => Some (an_first_text (an_resp_content resp))
      | Raise _ => None
      end
  | ReqGoogle r =>
      match google_generate_content env pre r with
      | Ok resp => Some (g_text_or_empty resp)
      | Raise _ => None
      end
  end.

(** Every reply of the OpenAI and of the Anthropic provider asks for a tool. *)
Definition always_tool_call (env : Env) : Prop :=
  (forall pre r, exists resp choice rest tc tcs,
      openai_create env pre r = Ok resp /\
      oa_choices resp = choice :: rest /\
      oa_msg_tool_calls choice = tc :: tcs) /\
  (forall pre r, exists resp b bs,
      anthropic_create env pre r = Ok resp /\
      filter (an_is (lit "tool_use")) (an_resp_content resp) = b :: bs).

(** The arguments of every tool call decode. *)
Definition arguments_decode (env : Env) : Prop :=
  forall s, exists j, json_loads env s = Ok j.

(** No deadline passes while a tool runs. *)
Definition not_cancelled (t : ToolDefinition) : Prop :=
  forall a, handler t a <> Raise CancelledError.

Lemma dict_set_nonempty {V : Type} (d : dict V) (k : str) (v : V) :
  dict_set d k v <> [].
Proof. destruct d as [|[k' v'] d]; simpl; [|destruct (str_eqb k' k)]; discriminate. Qed.

Lemma dict_get_set {V : Type} (d : dict V) (k k' : str) (v v' : V) :
  dict_get (dict_set d k v) k' = Some v' -> v' = v \/ dict_get d k' = Some v'.
Proof.
  induction d as [|[k0 v0] d IH]; simpl.
  - destruct (str_eqb k k'); [intros [= <-]; now left | discriminate].
  - destruct (str_eqb k0 k) eqn:E0; simpl.
    + destruct (str_eqb k0 k'); [intros [= <-]; now left | now right].
    + destruct (str_eqb k0 k'); [now right | exact IH].
Qed.

Lemma tool_map_from_list (ts : list ToolDefinition) (n : str) (t : ToolDefinition) :
  forall d,
    dict_get (fold_left (fun m t0 => dict_set m (name t0) t0) ts d) n = Some t ->
    In t ts \/ dict_get d n = Some t.
Proof.
  induction ts as [|t0 ts IH]; intros d H; simpl in *.
  - now right.
  - destruct (IH _ H) as [Hin|Hd]; [now left; right|].
    apply dict_get_set in Hd as [->|Hd]; [left; now left | now right].
Qed.

Lemma build_tool_map_in (ts : list ToolDefinition) (n : str) (t : ToolDefinition) :
  dict_get (build_tool_map (Some ts)) n = Some t -> In t ts.
Proof.
  intros H. apply tool_map_from_list in H as [H|H]; [exact H | discriminate H].
Qed.

Lemma fold_dict_set_nonempty (ts : list ToolDefinition) :
  forall d, d <> [] ->
            fold_left (fun m t0 => dict_set m (name t0) t0) ts d <> [].
Proof.
  induction ts as [|t0 ts IH]; intros d Hd; simpl; [exact Hd|].
  apply IH, dict_set_nonempty.
Qed.

Lemma build_tool_map_nonempty (t : ToolDefinition) (ts : list ToolDefinition) :
  build_tool_map (Some (t :: ts)) <> [].
Proof. simpl. apply fold_dict_set_nonempty. discriminate. Qed.

(** With its tools never cancelled, [execute_tool] returns a text. *)
Lemma execute_tool_ok (tool_map : dict ToolDefinition) (n : str) (a : json)
  (env : Env) (log : list Request) :
  tool_map <> [] ->
  (forall n' t, dict_get tool_map n' = Some t -> not_cancelled t) ->
  exists r, execute_tool n a tool_map env log = (Ok r, log).
Proof.
  intros Hne Hh. unfold execute_tool, bind, ask.
  destruct tool_map as [|kv tm] eqn:Etm; [congruence|]. rewrite <- Etm in *.
  destruct (dict_get tool_map n) as [t|] eqn:Eg; [|eexists; reflexivity].
  unfold try_except, bind, lift_result, ret.
  specialize (Hh n t Eg a).
  destruct (handler t a) as [[s|]|[cls msg|]]; try (eexists; reflexivity).
  congruence.
Qed.

Lemma foldM_ok {A S : Type} (f : S -> A -> M S) (l : list A) (env : Env) :
  (forall s a log, exists s', f s a env log = (Ok s', log)) ->
  forall s log, exists s', foldM f l s env log = (Ok s', log).
Proof.
  intros Hf. induction l as [|a l IH]; intros s log; simpl.
  - eexists; reflexivity.
  - unfold bind. destruct (Hf s a log) as [s' ->]. apply IH.
Qed.

Section AlwaysTools.

Variable env : Env.
Variable tool_map : dict ToolDefinition.
Hypothesis Hreply : always_tool_call env.
Hypothesis Hjson : arguments_decode env.
Hypothesis Hmap : tool_map <> [].
Hypothesis Htools : forall n t, dict_get tool_map n = Some t -> not_cancelled t.

Lemma oa_process_ok (st : list oa_turn * list ToolCallRecord) (tc : oa_tool_call)
  (log : list Request) :
  exists st', oa_process_tool_call tool_map st tc env log = (Ok st', log).
Proof.
  unfold oa_process_tool_call. destruct st as [fm atc]. unfold bind at 1, ask.
  assert (Ha : exists j, (match oa_fn_arguments tc with
                          | [] => ret (lit "{}")
                          | a => lift_result (json_loads env a)
                          end) env log = (Ok j, log)).
  { destruct (oa_fn_arguments tc) as [|c a]; [eexists; reflexivity|].
    destruct (Hjson (c :: a)) as [j Hj]. exists j. unfold lift_result. now rewrite Hj. }
  destruct Ha as [j Ha]. unfold bind at 1. rewrite Ha.
  unfold bind. destruct (execute_tool_ok tool_map (oa_fn_name tc) j env log Hmap Htools)
    as [r ->].
  eexists. reflexivity.
Qed.

Lemma an_process_ok (st : list (str * str) * list ToolCallRecord) (b : an_block)
  (log : list Request) :
  exists st', an_process_block tool_map st b env log = (Ok st', log).
Proof.
  unfold an_process_block. destruct st as [tr atc]. unfold bind.
  destruct (execute_tool_ok tool_map (an_name b) (an_input b) env log Hmap Htools)
    as [r ->].
  eexists. reflexivity.
Qed.

(** The OpenAI loop: [rounds] requests with the schemas, then one
    without, whose text is returned. *)
Lemma oa_tool_loop_always (model : str) (schemas : list tool_schema)
  (reasoning : option str) (rounds : nat) :
  forall fm atc log,
  exists R reqs last,
    oa_tool_loop rounds model (Some schemas) reasoning tool_map fm atc env log
    = (Ok (Some R), log ++ reqs ++ [last]) /\
    map request_has_tools reqs = repeat true rounds /\
    request_has_tools last = false /\
    reply_text env (log ++ reqs) last = Some (resp_content R).
Proof.
  induction rounds as [|rounds IH]; intros fm atc log; cbn [oa_tool_loop].
  - unfold bind, chat_completions_create, first_item, ret.
    match goal with |- context [openai_create env log ?r] =>
      destruct (proj1 Hreply log r) as (resp & choice & rest & tc & tcs & E1 & E2 & E3);
      rewrite E1, E2; exists (response_of
                (match oa_msg_content choice with Some s => s | None => [] end)
                atc (oa_usage resp)), [], (ReqOpenAI r)
    end.
    cbn [app map repeat]. rewrite app_nil_r. repeat split.
    cbn [reply_text]. now rewrite E1, E2.
  - unfold bind at 1, chat_completions_create.
    match goal with |- context [openai_create env log ?r] =>
      destruct (proj1 Hreply log r) as (resp & choice & rest & tc & tcs & E1 & E2 & E3);
      rewrite E1; set (req := r)
    end.
    unfold bind at 1, first_item. rewrite E2. unfold ret at 1. rewrite E3.
    unfold bind at 1.
    destruct (foldM_ok (oa_process_tool_call tool_map) (tc :: tcs) env
                (fun s a l => oa_process_ok s a l)
                (fm ++ [OaAssistant choice], atc) (log ++ [ReqOpenAI req]))
      as [st ->].
    destruct (IH (fst st) (snd st) (log ++ [ReqOpenAI req]))
      as (R & reqs & last & E & Ht & Hl & Hr).
    exists R, (ReqOpenAI req :: reqs), last. rewrite E.
    repeat split.
    + now rewrite <- app_assoc.
    + cbn [map repeat]. now rewrite Ht.
    + exact Hl.
    + rewrite <- Hr. f_equal. now rewrite <- app_assoc.
Qed.

(** The Anthropic loop, in the same way. *)
Lemma an_tool_loop_always (rounds : nat) :
  forall kwargs atc log,
  an_tools kwargs <> None ->
  exists R reqs last,
    an_tool_loop rounds kwargs tool_map atc env log
    = (Ok (Some R), log ++ reqs ++ [last]) /\
    map request_has_tools reqs = repeat true rounds /\
    request_has_tools last = false /\
    reply_text env (log ++ reqs) last = Some (resp_content R).
Proof.
  induction rounds as [|rounds IH]; intros kwargs atc log Hk; cbn [an_tool_loop].
  - unfold bind, messages_create, ret.
    match goal with |- context [anthropic_create env log ?r] =>
      destruct (proj2 Hreply log r) as (resp & b & bs & E1 & E2);
      rewrite E1; exists (response_of (an_first_text (an_resp_content resp))
                                      atc (an_usage resp)), [], (ReqAnthropic r)
    end.
    cbn [app map repeat]. rewrite app_nil_r. repeat split.
    cbn [reply_text]. now rewrite E1.
  - unfold bind at 1, messages_create.
    destruct (proj2 Hreply log kwargs) as (resp & b & bs & E1 & E2).
    rewrite E1, E2. unfold bind at 1.
    destruct (foldM_ok (an_process_block tool_map) (b :: bs) env
                (fun s a l => an_process_ok s a l)
                ([], atc) (log ++ [ReqAnthropic kwargs]))
      as [st ->].
    match goal with |- context [an_tool_loop rounds ?k tool_map (snd st)] =>
      destruct (IH k (snd st) (log ++ [ReqAnthropic kwargs]) Hk)
        as (R & reqs & last & E & Ht & Hl & Hr)
    end.
    exists R, (ReqAnthropic kwargs :: reqs), last. rewrite E.
    repeat split.
    + now rewrite <- app_assoc.
    + cbn [map repeat]. rewrite Ht. f_equal.
      cbn [request_has_tools]. destruct (an_tools kwargs); [reflexivity | congruence].
    + exact Hl.
    + rewrite <- Hr. f_equal. now rewrite <- app_assoc.
Qed.

End AlwaysTools.


(** *** A provider that always asks for a tool *)

Definition sample_tool : ToolDefinition :=
  {| name := lit "calculator"; description := lit "Evaluate an expression";
     parameters := lit "{}"; handler := fun _ => Ok (Some (lit "4")) |}.

Definition sample_tool_call : oa_tool_call :=
  {| oa_tc_id := lit "call_1"; oa_fn_name := lit "calculator";
     oa_fn_arguments := lit "{}" |}.

Definition sample_tool_use : an_block :=
  {| an_type := lit "tool_use"; an_text := []; an_id := lit "toolu_1";
     an_name := lit "calculator"; an_input := lit "{}" |}.

Definition sample_function_call : g_part :=
  {| part_text := None;
     part_function_call := Some {| fc_name := lit "calculator"; fc_args := None |} |}.

Definition tool_hungry_env : Env :=
  {| openai_client := true; anthropic_client := true; google_client := true;
     openai_create := fun _ _ =>
       Ok {| oa_choices := [{| oa_msg_content := Some (lit "one more step");
                               oa_msg_tool_calls := [sample_tool_call] |}];
             oa_usage := None |};
     anthropic_create := fun _ _ =>
       Ok {| an_resp_content := [sample_tool_use]; an_usage := None |};
     google_generate_content := fun _ _ =>
       Ok {| g_candidates := [{| cand_content :=
                                 Some {| content_parts := Some [sample_function_call] |} |}];
             g_text := Some (lit "one more step"); g_usage_metadata := None |};
     function_declaration_error := fun _ => None;
     json_loads := fun s => Ok s;
     TOOL_REGISTRY := [] |}.

Definition sample_messages : list Message :=
  [{| role := lit "user"; content := lit "What is 2 + 2?"; images := [] |}].

Lemma tool_hungry_always : always_tool_call tool_hungry_env.
Proof.
  split; intros pre r; simpl.
  - repeat eexists.
  - repeat eexists.
Qed.

Lemma tool_hungry_decodes : arguments_decode tool_hungry_env.
Proof. intros s. now exists s. Qed.

Lemma sample_tool_not_cancelled : Forall not_cancelled [sample_tool].
Proof. constructor; [|constructor]. intros a. discriminate. Qed.



(** The Google adapter with a system prompt: writing the tools into the
    request's configuration writes them into the adapter's own, so the
    request after the loop carries them too. *)
Example google_final_request_keeps_tools :
  map request_has_tools
      (snd (query_model (lit "gemini-2.5-pro") sample_messages (Some (lit "Be brief."))
                        120 (Some [sample_tool]) None tool_hungry_env []))
  = [true; true; true; true; true; true].
Proof. vm_compute. reflexivity. Qed.

(** Without a system prompt (an empty configuration) it does not. *)
Example google_final_request_without_config :
  map request_has_tools
      (snd (query_model (lit "gemini-2.5-pro") sample_messages None
                        120 (Some [sample_tool]) None tool_hungry_env []))
  = [true; true; true; true; true; false].
Proof. vm_compute. reflexivity. Qed.

End ToolLoopFacts.

(** ** Cost *)

Module CostFacts.

Import Config.

(** C6.  Without usage (absent or empty) and for a model that the pricing
    table does not know the cost is [0.0]; otherwise it is
    [input_tokens / 1e6 * price_in + output_tokens / 1e6 * price_out] with
    the prices of the table, a missing count being [0].  One million
    tokens each way on "gpt-4.1" cost [10.0]. *)
Theorem calculate_cost_formula (model : str) (usage : dict Z) :
  calculate_cost model None = 0%float /\
  calculate_cost model (Some []) = 0%float /\
  (dict_get MODEL_PRICING model = None ->
   calculate_cost model (Some usage) = 0%float) /\
  (forall price_in price_out,
      usage <> [] ->
      dict_get MODEL_PRICING model = Some (price_in, price_out) ->
      calculate_cost model (Some usage)
      = (int_truediv (dict_get_default usage (lit "input_tokens") 0%Z) 1000000
         * price_in
         + int_truediv (dict_get_default usage (lit "output_tokens") 0%Z) 1000000
           * price_out)%float) /\
  calculate_cost (lit "gpt-4.1")
    (Some [(lit "input_tokens", 1000000%Z); (lit "output_tokens", 1000000%Z)])
  = 10%float /\
  calculate_cost (lit "unknown-model")
    (Some [(lit "input_tokens", 1000000%Z); (lit "output_tokens", 1000000%Z)])
  = 0%float.
Proof.
  split; [reflexivity|]. split; [reflexivity|].
  split; [|split; [|split; vm_compute; reflexivity]].
  - intros H. unfold calculate_cost. destruct usage; [reflexivity|]. now rewrite H.
  - intros price_in price_out Hu H. unfold calculate_cost.
    destruct usage; [congruence|]. now rewrite H.
Qed.

(** Every entry of the table is a pair of prices: [if not pricing] only
    sees an unknown model. *)
Example pricing_of_gpt_4_1 :
  dict_get MODEL_PRICING (lit "gpt-4.1") = Some (2%float, 8%float).
Proof. vm_compute. reflexivity. Qed.

End CostFacts.

(** ** Title *)

Module TitleFacts.

(** The title for each outcome of the model call. *)
Definition title_of (response : option ModelResponse) : str :=
  match response with
  | None => lit "New Conversation"
  | Some r => clean_title (resp_content r)
  end.

Lemma clean_title_length (text : str) : length (clean_title text) <= 50.
Proof.
  unfold clean_title.
  destruct (Nat.ltb_spec 50 (length (strip is_quote (strip isspace text)))) as [H|H].
  - rewrite length_app, firstn_length_le by lia. simpl. lia.
  - exact H.
Qed.

(** C10.  [generate_conversation_title] always returns a title.  When
    the model call abstains it is "New Conversation".  Otherwise the
    content loses its surrounding white space, then the result loses its
    surrounding quote characters; a text [s] so obtained of at most fifty
    characters is the title, and a longer one gives its first 47
    characters followed by "...".  The title never has more than fifty
    characters. *)
Theorem generate_conversation_title_total (user_query model : str)
  (env : Env) (log : list Request) :
  exists response log',
    query_model model
      [{| role := lit "user"; content := title_prompt user_query; images := [] |}]
      None 30 None None env log = (Ok response, log') /\
    generate_conversation_title user_query model env log
    = (Ok (title_of response), log') /\
    length (title_of response) <= 50 /\
    (response = None -> title_of response = lit "New Conversation") /\
    (forall r, response = Some r ->
       exists a b a' b',
         resp_content r = a ++ strip isspace (resp_content r) ++ b /\
         forallb isspace a = true /\ forallb isspace b = true /\
         head_ok isspace (strip isspace (resp_content r)) /\
         last_ok isspace (strip isspace (resp_content r)) /\
         let s := strip is_quote (strip isspace (resp_content r)) in
         strip isspace (resp_content r) = a' ++ s ++ b' /\
         forallb is_quote a' = true /\ forallb is_quote b' = true /\
         head_ok is_quote s /\ last_ok is_quote s /\
         (length s <= 50 -> title_of response = s) /\
         (50 < length s -> title_of response = firstn 47 s ++ lit "...")).
Proof.
  destruct (query_model_total model
              [{| role := lit "user"; content := title_prompt user_query; images := [] |}]
              None 30 None env log) as (response & log' & E).
  exists response, log'. split; [exact E|]. split.
  - unfold generate_conversation_title, bind. rewrite E.
    destruct response; reflexivity.
  - split.
    + destruct response; [apply clean_title_length | simpl; lia].
    + split; [intros ->; reflexivity|].
      intros r ->.
      destruct (strip_spec isspace (resp_content r)) as (a & b & Ea & Fa & Fb & Ha & Hb).
      destruct (strip_spec is_quote (strip isspace (resp_content r)))
        as (a' & b' & Ea' & Fa' & Fb' & Ha' & Hb').
      exists a, b, a', b'. repeat split; try assumption.
      * intros Hlen. cbn [title_of]. unfold clean_title.
        destruct (Nat.ltb_spec 50 (length (strip is_quote (strip isspace (resp_content r)))));
          [lia | reflexivity].
      * intros Hlen. cbn [title_of]. unfold clean_title.
        destruct (Nat.ltb_spec 50 (length (strip is_quote (strip isspace (resp_content r)))));
          [reflexivity | lia].
Qed.

(** A reply in quotes with white space inside them. *)
Example clean_title_quoted :
  clean_title [32; 34; 72; 105; 32; 34; 10]%N = lit "Hi ".
Proof. vm_compute. reflexivity. Qed.

End TitleFacts.

(** ** The order of doubles *)

Module FloatOrder.

(** Rounding a mantissa that is not negative never gives a NaN. *)
Lemma shr_1_nonneg (mrs : shr_record) :
  (0 <= shr_m mrs)%Z -> (0 <= shr_m (shr_1 mrs))%Z.
Proof.
  destruct mrs as [m r s]. cbn [shr_m]. intros H.
  destruct m as [|p|p]; [simpl; lia | | lia].
  destruct p; simpl; lia.
Qed.

Lemma iter_shr_1_nonneg (p : positive) :
  forall mrs, (0 <= shr_m mrs)%Z -> (0 <= shr_m (iter_pos shr_1 p mrs))%Z.
Proof.
  induction p as [p IH|p IH|]; intros mrs H; cbn [iter_pos].
  - apply IH, IH, shr_1_nonneg, H.
  - apply IH, IH, H.
  - apply shr_1_nonneg, H.
Qed.

Lemma shr_fexp_nonneg (m e : Z) (l : location) :
  (0 <= m)%Z -> (0 <= shr_m (fst (shr_fexp prec emax m e l)))%Z.
Proof.
  intros H. unfold shr_fexp, shr.
  assert (H0 : (0 <= shr_m (shr_record_of_loc m l))%Z)
    by (destruct l as [|[]]; exact H).
  destruct (_ - e)%Z; cbn [fst]; [exact H0 | | exact H0].
  now apply iter_shr_1_nonneg.
Qed.

Lemma round_nearest_even_nonneg (m : Z) (l : location) :
  (0 <= m)%Z -> (0 <= round_nearest_even m l)%Z.
Proof.
  intros H. unfold round_nearest_even.
  destruct l as [|[]]; try destruct (Z.even m); lia.
Qed.

Lemma binary_round_aux_not_nan (sx : bool) (mx ex : Z) (lx : location) :
  (0 <= mx)%Z -> binary_round_aux prec emax sx mx ex lx <> S754_nan.
Proof.
  intros H. unfold binary_round_aux.
  pose proof (shr_fexp_nonneg mx ex lx H) as H1.
  destruct (shr_fexp prec emax mx ex lx) as [mrs' e']. cbn [fst] in H1.
  pose proof (shr_fexp_nonneg
                (round_nearest_even (shr_m mrs') (loc_of_shr_record mrs')) e'
                loc_Exact (round_nearest_even_nonneg _ _ H1)) as H2.
  destruct (shr_fexp prec emax _ e' loc_Exact) as [mrs'' e'']. cbn [fst] in H2.
  destruct (shr_m mrs''); [discriminate | | lia].
  destruct (e'' <=? emax - prec)%Z; discriminate.
Qed.

Lemma binary_round_not_nan (sx : bool) (mx : positive) (ex : Z) :
  binary_round prec emax sx mx ex <> S754_nan.
Proof.
  unfold binary_round. destruct (shl_align _ _ _) as [mz ez].
  apply binary_round_aux_not_nan. lia.
Qed.

Lemma binary_normalize_not_nan (m e : Z) (szero : bool) :
  binary_normalize prec emax m e szero <> S754_nan.
Proof.
  destruct m; cbn [binary_normalize];
    [discriminate | apply binary_round_not_nan | apply binary_round_not_nan].
Qed.

Definition not_nan (x : float) : Prop := Prim2SF x <> S754_nan.

Lemma SF2Prim_not_nan (v : spec_float) : v <> S754_nan -> not_nan (SF2Prim v).
Proof.
  intros Hv. unfold not_nan.
  destruct v as [[]|[]| |s m e]; try (vm_compute; discriminate); [congruence|].
  unfold SF2Prim.
  assert (H : Prim2SF (Z.ldexp (of_uint63 (Uint63.of_Z (Z.pos m))) e) <> S754_nan).
  { rewrite Z_ldexp_spec, of_uint63_spec. unfold SFldexp.
    pose proof (binary_normalize_not_nan
                  (Uint63.to_Z (Uint63.of_Z (Z.pos m))) 0 false) as Hn.
    destruct (binary_normalize _ _ _ _ _); try congruence; try discriminate.
    apply binary_round_not_nan. }
  destruct s; [|exact H].
  rewrite opp_spec. destruct (Prim2SF _); try discriminate. congruence.
Qed.

Lemma int_truediv_not_nan (a : Z) (b : positive) : not_nan (int_truediv a b).
Proof. unfold int_truediv. apply SF2Prim_not_nan, binary_normalize_not_nan. Qed.

Lemma py_round_not_nan (x : float) (ndigits : nat) :
  not_nan x -> not_nan (py_round x ndigits).
Proof.
  unfold not_nan, py_round. intros H.
  destruct (Prim2SF x) as [s|s| |s m e] eqn:E; try (rewrite E; discriminate);
    [congruence|].
  match goal with |- context [if ?b then _ else _] => destruct b end.
  - destruct s; vm_compute; discriminate.
  - apply int_truediv_not_nan.
Qed.

(** [<] on doubles that are not NaN is a strict weak order: it is the
    lexicographic order of (sign class, exponent, mantissa). *)
Definition ord (v : spec_float) : Z * Z * Z :=
  match v with
  | S754_nan => (0, 0, 0)
  | S754_zero _ => (0, 0, 0)
  | S754_infinity s => (if s then -2 else 2, 0, 0)
  | S754_finite s m e => if s then (-1, - e, - Z.pos m) else (1, e, Z.pos m)
  end%Z.

Definition lex_lt (a b : Z * Z * Z) : Prop :=
  let '(a1, a2, a3) := a in
  let '(b1, b2, b3) := b in
  (a1 < b1 \/ (a1 = b1 /\ (a2 < b2 \/ (a2 = b2 /\ a3 < b3))))%Z.

Lemma SFltb_lex (x y : spec_float) :
  x <> S754_nan -> y <> S754_nan ->
  (SFltb x y = true <-> lex_lt (ord x) (ord y)).
Proof.
  intros Hx Hy. unfold SFltb.
  destruct x as [sx|sx| |sx mx ex], y as [sy|sy| |sy my ey]; try congruence;
    cbn [SFcompare ord lex_lt];
    try (destruct sx; try destruct sy; cbn; split; (discriminate || lia || reflexivity)).
  change (Pos.compare_cont Eq mx my) with (Pos.compare mx my).
  destruct sx, sy; cbn [lex_lt];
    try (split; (discriminate || lia || reflexivity));
    destruct (Z.compare_spec ex ey) as [He|He|He];
    destruct (Pos.compare_spec mx my) as [Hm|Hm|Hm]; cbn [CompOpp];
    split; try discriminate; try reflexivity; lia.
Qed.

Lemma SFltb_not_nan (x y : spec_float) :
  SFltb x y = true -> x <> S754_nan /\ y <> S754_nan.
Proof.
  unfold SFltb. destruct x as [?|?| |? ? ?], y as [?|?| |? ? ?];
    cbn [SFcompare]; try discriminate; split; discriminate.
Qed.

Lemma ltb_not_nan (x y : float) :
  (x <? y)%float = true -> not_nan x /\ not_nan y.
Proof. rewrite ltb_spec. apply SFltb_not_nan. Qed.

Lemma ltb_lex (x y : float) :
  not_nan x -> not_nan y ->
  ((x <? y)%float = true <-> lex_lt (ord (Prim2SF x)) (ord (Prim2SF y))).
Proof. intros Hx Hy. rewrite ltb_spec. now apply SFltb_lex. Qed.

Lemma ltb_asym (x y : float) : (x <? y)%float = true -> (y <? x)%float = false.
Proof.
  intros H. destruct (ltb_not_nan x y H) as [Hx Hy].
  apply (ltb_lex x y Hx Hy) in H.
  destruct (y <? x)%float eqn:E; [|reflexivity].
  apply (ltb_lex y x Hy Hx) in E.
  destruct (ord (Prim2SF x)) as [[a1 a2] a3], (ord (Prim2SF y)) as [[b1 b2] b3].
  cbn [lex_lt] in *. lia.
Qed.

(** What is smaller than [x] is smaller than everything that is not
    smaller than [x]. *)
Lemma ltb_below (x y z : float) :
  not_nan y ->
  (z <? x)%float = true -> (y <? x)%float = false -> (z <? y)%float = true.
Proof.
  intros Hy Hzx Hyx. destruct (ltb_not_nan z x Hzx) as [Hz Hx].
  apply (ltb_lex z x Hz Hx) in Hzx. apply (ltb_lex z y Hz Hy).
  assert (Hn : ~ lex_lt (ord (Prim2SF y)) (ord (Prim2SF x))).
  { intros H. apply (ltb_lex y x Hy Hx) in H. congruence. }
  destruct (ord (Prim2SF x)) as [[a1 a2] a3], (ord (Prim2SF y)) as [[b1 b2] b3],
    (ord (Prim2SF z)) as [[c1 c2] c3].
  cbn [lex_lt] in *. lia.
Qed.

End FloatOrder.

(** ** The rank aggregator *)

Module AggregatorFacts.

Import ParserFacts FloatOrder.

(** *** Dictionaries *)

Lemma dict_get_set_eq {V : Type} (d : dict V) (k : str) (v : V) :
  dict_get (dict_set d k v) k = Some v.
Proof.
  induction d as [|[k0 v0] d IH]; simpl.
  - now rewrite str_eqb_refl.
  - destruct (str_eqb k0 k) eqn:E; simpl; rewrite E; [reflexivity | exact IH].
Qed.

Lemma dict_get_set_neq {V : Type} (d : dict V) (k k' : str) (v : V) :
  k <> k' -> dict_get (dict_set d k v) k' = dict_get d k'.
Proof.
  intros Hn. induction d as [|[k0 v0] d IH]; simpl.
  - apply str_eqb_neq in Hn. now rewrite Hn.
  - destruct (str_eqb k0 k) eqn:E; simpl.
    + apply str_eqb_eq in E. subst k0.
      apply str_eqb_neq in Hn. now rewrite Hn.
    + destruct (str_eqb k0 k'); [reflexivity | exact IH].
Qed.

Lemma in_keys_get {V : Type} (d : dict V) (k : str) :
  In k (dict_keys d) <-> dict_get d k <> None.
Proof.
  induction d as [|[k0 v0] d IH]; simpl.
  - split; [contradiction | congruence].
  - destruct (str_eqb k0 k) eqn:E.
    + apply str_eqb_eq in E. split; [discriminate | now left].
    + apply str_eqb_neq in E. rewrite <- IH. split; [intros [?|?]; congruence | now right].
Qed.

Lemma keys_dict_set {V : Type} (d : dict V) (k : str) (v : V) :
  dict_keys (dict_set d k v)
  = if dict_mem d k then dict_keys d else dict_keys d ++ [k].
Proof.
  unfold dict_mem. induction d as [|[k0 v0] d IH]; simpl; [reflexivity|].
  destruct (str_eqb k0 k) eqn:E; simpl; [reflexivity|].
  unfold dict_keys in *. rewrite IH. now destruct (dict_get d k).
Qed.

Lemma nodup_dict_set {V : Type} (d : dict V) (k : str) (v : V) :
  NoDup (dict_keys d) -> NoDup (dict_keys (dict_set d k v)).
Proof.
  intros Hd. rewrite keys_dict_set. unfold dict_mem.
  destruct (dict_get d k) eqn:E; [exact Hd|].
  apply NoDup_app; [exact Hd | repeat constructor; intros [] |].
  intros a Ha [<-|[]]. apply in_keys_get in Ha. congruence.
Qed.

Lemma dict_get_in {V : Type} (d : dict V) (k : str) (v : V) :
  NoDup (dict_keys d) -> (In (k, v) d <-> dict_get d k = Some v).
Proof.
  induction d as [|[k0 v0] d IH]; simpl; intros Hd.
  - split; [contradiction | discriminate].
  - apply NoDup_cons_iff in Hd as [Hk0 Hd]. specialize (IH Hd).
    destruct (str_eqb k0 k) eqn:E.
    + apply str_eqb_eq in E. subst k0. split.
      * intros [[= <-]|Hin]; [reflexivity|].
        exfalso. apply Hk0. change k with (fst (k, v)). now apply in_map.
      * intros [= <-]. now left.
    + apply str_eqb_neq in E. rewrite <- IH. split.
      * intros [[= -> _]|Hin]; [congruence | exact Hin].
      * now right.
Qed.

(** *** What the two loops record *)

(** The positions recorded from one parsed ranking, as (model, position)
    pairs in order. *)
Fixpoint contributions (label_to_model : dict str) (position : nat)
  (parsed_ranking : list str) : list (str * nat) :=
  match parsed_ranking with
  | [] => []
  | label :: rest =>
      match dict_get label_to_model label with
      | Some model_name => [(model_name, position)]
      | None => []
      end ++ contributions label_to_model (S position) rest
  end.

Definition record (model_positions : dict (list nat)) (mp : str * nat)
  : dict (list nat) :=
  append_position model_positions (fst mp) (snd mp).

Lemma record_positions_fold (label_to_model : dict str) (parsed : list str) :
  forall model_positions position,
    record_positions label_to_model model_positions position parsed
    = fold_left record (contributions label_to_model position parsed) model_positions.
Proof.
  induction parsed as [|label rest IH]; intros d position; simpl; [reflexivity|].
  rewrite IH. destruct (dict_get label_to_model label); reflexivity.
Qed.

(** All the pairs recorded from the raters, in order. *)
Definition all_contributions (label_to_model : dict str)
  (stage2_results : list Stage2Result) : list (str * nat) :=
  flat_map (fun r => contributions label_to_model 1 (ranking_of (s2_ranking r)))
           stage2_results.

Lemma collect_positions_fold (label_to_model : dict str)
  (stage2_results : list Stage2Result) :
  forall model_positions,
    collect_positions label_to_model model_positions stage2_results
    = Ok (fold_left record (all_contributions label_to_model stage2_results)
                    model_positions).
Proof.
  induction stage2_results as [|r rest IH]; intros d; simpl; [reflexivity|].
  rewrite parse_ranking_total, IH, record_positions_fold.
  unfold all_contributions. simpl. now rewrite fold_left_app.
Qed.

(** How often, and with what sum of positions, a model occurs. *)
Definition mentions (k : str) (E : list (str * nat)) : list nat :=
  map snd (filter (fun e => str_eqb (fst e) k) E).

Definition count (k : str) (E : list (str * nat)) : nat := length (mentions k E).

Definition position_sum (k : str) (E : list (str * nat)) : Z := int_sum (mentions k E).

Lemma int_sum_from (xs : list nat) :
  forall a, fold_left (fun acc x => (acc + Z.of_nat x)%Z) xs a = (a + int_sum xs)%Z.
Proof.
  unfold int_sum. induction xs as [|x xs IH]; intros a; simpl; [lia|].
  rewrite IH, (IH (Z.of_nat x)). lia.
Qed.

Lemma int_sum_app (xs ys : list nat) : int_sum (xs ++ ys) = (int_sum xs + int_sum ys)%Z.
Proof. unfold int_sum at 1. rewrite fold_left_app. fold (int_sum xs). apply int_sum_from. Qed.

Lemma int_sum_cons (x : nat) (xs : list nat) :
  int_sum (x :: xs) = (Z.of_nat x + int_sum xs)%Z.
Proof. apply (int_sum_app [x] xs). Qed.

Lemma mentions_app (k : str) (E F : list (str * nat)) :
  mentions k (E ++ F) = mentions k E ++ mentions k F.
Proof. unfold mentions. now rewrite filter_app, map_app. Qed.

Lemma mentions_permutation (k : str) (E F : list (str * nat)) :
  Permutation E F -> Permutation (mentions k E) (mentions k F).
Proof.
  unfold mentions. induction 1 as [|e E F HP IH|e e' E|E F G H1 IH1 H2 IH2]; simpl.
  - constructor.
  - destruct (str_eqb (fst e) k); simpl; [now constructor | exact IH].
  - destruct (str_eqb (fst e) k), (str_eqb (fst e') k); simpl;
      try reflexivity. constructor.
  - now transitivity (map snd (filter (fun e => str_eqb (fst e) k) F)).
Qed.

Lemma int_sum_permutation (xs ys : list nat) :
  Permutation xs ys -> int_sum xs = int_sum ys.
Proof.
  induction 1 as [|x xs ys HP IH|x y xs|xs ys zs H1 IH1 H2 IH2].
  - reflexivity.
  - rewrite !int_sum_cons. now rewrite IH.
  - rewrite !int_sum_cons. lia.
  - congruence.
Qed.

Lemma count_permutation (k : str) (E F : list (str * nat)) :
  Permutation E F -> count k E = count k F.
Proof. intros H. apply Permutation_length, mentions_permutation, H. Qed.

Lemma position_sum_permutation (k : str) (E F : list (str * nat)) :
  Permutation E F -> position_sum k E = position_sum k F.
Proof. intros H. apply int_sum_permutation, mentions_permutation, H. Qed.

(** The dictionary built from the pairs [E]: one key per model that
    occurs, with as many positions as it occurs, of the same sum. *)
Definition represents (d : dict (list nat)) (E : list (str * nat)) : Prop :=
  NoDup (dict_keys d) /\
  forall k,
    match dict_get d k with
    | None => count k E = 0
    | Some ps => ps <> [] /\ int_sum ps = position_sum k E /\ length ps = count k E
    end.

Lemma represents_nil : represents [] [].
Proof. split; [constructor | intros k; reflexivity]. Qed.

Lemma mentions_one (k m : str) (p : nat) :
  mentions k [(m, p)] = if str_eqb m k then [p] else [].
Proof. unfold mentions. simpl. now destruct (str_eqb m k). Qed.

Lemma represents_record (d : dict (list nat)) (E : list (str * nat)) (mp : str * nat) :
  represents d E -> represents (record d mp) (E ++ [mp]).
Proof.
  intros [Hn Hd]. destruct mp as [m p]. unfold record, append_position. cbn [fst snd].
  split; [now apply nodup_dict_set|].
  intros k. specialize (Hd k). unfold count, position_sum in *.
  rewrite mentions_app, mentions_one.
  destruct (str_eqb m k) eqn:E1.
  - apply str_eqb_eq in E1. subst k. rewrite dict_get_set_eq.
    rewrite int_sum_app, length_app. unfold dict_get_default.
    destruct (dict_get d m) as [ps|].
    + destruct Hd as (_ & Hs & Hl).
      repeat split; [now destruct ps | rewrite int_sum_app; lia | rewrite length_app; lia].
    + apply length_zero_iff_nil in Hd. rewrite Hd. repeat split. discriminate.
  - apply str_eqb_neq in E1. rewrite dict_get_set_neq by exact E1.
    rewrite app_nil_r. exact Hd.
Qed.

Lemma represents_fold (E : list (str * nat)) :
  forall d E0, represents d E0 -> represents (fold_left record E d) (E0 ++ E).
Proof.
  induction E as [|mp E IH]; intros d E0 H; simpl.
  - now rewrite app_nil_r.
  - change (mp :: E) with ([mp] ++ E). rewrite app_assoc.
    apply IH. now apply represents_record.
Qed.

(** *** The entries *)

(** The entry of a model mentioned [n] times with positions of sum [s]. *)
Definition entry_from (k : str) (s : Z) (n : nat) : list AggregateEntry :=
  match n with
  | O => []
  | S n' =>
      [{| agg_model := k;
          average_rank := py_round (int_truediv s (Pos.of_succ_nat n')) 2;
          rankings_count := n |}]
  end.

Definition aggregate_of (model_positions : dict (list nat)) : list AggregateEntry :=
  flat_map (fun mp => aggregate_entry (fst mp) (snd mp)) model_positions.

Lemma aggregate_entry_from (k : str) (ps : list nat) :
  aggregate_entry k ps = entry_from k (int_sum ps) (length ps).
Proof. destruct ps; reflexivity. Qed.

Lemma in_aggregate (d : dict (list nat)) (E : list (str * nat)) (x : AggregateEntry) :
  represents d E ->
  (In x (aggregate_of d) <-> exists k, In x (entry_from k (position_sum k E) (count k E))).
Proof.
  intros [Hn Hd]. unfold aggregate_of. rewrite in_flat_map. split.
  - intros [[k ps] [Hin Hx]]. cbn [fst snd] in Hx.
    apply dict_get_in in Hin; [|exact Hn].
    specialize (Hd k). rewrite Hin in Hd. destruct Hd as (_ & Hs & Hl).
    exists k. now rewrite <- Hs, <- Hl, <- aggregate_entry_from.
  - intros [k Hx]. specialize (Hd k).
    destruct (dict_get d k) as [ps|] eqn:Eg.
    + destruct Hd as (_ & Hs & Hl). exists (k, ps). split.
      * now apply dict_get_in.
      * cbn [fst snd]. now rewrite aggregate_entry_from, Hs, Hl.
    + rewrite Hd in Hx. contradiction.
Qed.

Lemma aggregate_entry_model (k : str) (ps : list nat) (x : AggregateEntry) :
  In x (aggregate_entry k ps) -> agg_model x = k.
Proof. destruct ps; simpl; [contradiction | intros [<-|[]]; reflexivity]. Qed.

Lemma aggregate_model_in_keys (d : dict (list nat)) (x : AggregateEntry) :
  In x (aggregate_of d) -> In (agg_model x) (dict_keys d).
Proof.
  unfold aggregate_of. rewrite in_flat_map. intros [[k ps] [Hin Hx]].
  apply aggregate_entry_model in Hx. cbn [fst] in Hx. rewrite Hx.
  change k with (fst (k, ps)). now apply in_map.
Qed.

Lemma nodup_aggregate (d : dict (list nat)) :
  NoDup (dict_keys d) -> NoDup (aggregate_of d).
Proof.
  induction d as [|[k ps] d IH]; simpl; intros Hd; [constructor|].
  apply NoDup_cons_iff in Hd as [Hk Hd].
  apply NoDup_app.
  - destruct ps; simpl; repeat constructor; intros [].
  - now apply IH.
  - intros a Ha Hb. apply aggregate_entry_model in Ha.
    apply aggregate_model_in_keys in Hb. rewrite Ha in Hb. contradiction.
Qed.

(** *** The sort *)

Lemma insert_by_permutation {A K : Type} (lt : K -> K -> bool) (key : A -> K)
  (x : A) (l : list A) :
  Permutation (insert_by lt key x l) (x :: l).
Proof.
  induction l as [|y l IH]; simpl; [reflexivity|].
  destruct (lt (key y) (key x)); [|reflexivity].
  rewrite IH. apply perm_swap.
Qed.

Lemma sort_by_permutation {A K : Type} (lt : K -> K -> bool) (key : A -> K)
  (l : list A) :
  Permutation (sort_by lt key l) l.
Proof.
  induction l as [|x l IH]; simpl; [reflexivity|].
  rewrite insert_by_permutation. now constructor.
Qed.

(** *** The aggregate *)

Lemma calculate_aggregate_rankings_total (stage2_results : list Stage2Result)
  (label_to_model : dict str) :
  calculate_aggregate_rankings stage2_results label_to_model
  = Ok (sort_by PrimFloat.ltb average_rank
          (aggregate_of (fold_left record
                           (all_contributions label_to_model stage2_results) []))).
Proof.
  unfold calculate_aggregate_rankings. now rewrite collect_positions_fold.
Qed.

Lemma aggregate_permutation (label_to_model : dict str)
  (raters raters' : list Stage2Result) :
  Permutation raters raters' ->
  Permutation
    (aggregate_of (fold_left record (all_contributions label_to_model raters) []))
    (aggregate_of (fold_left record (all_contributions label_to_model raters') [])).
Proof.
  intros HP.
  assert (HE : Permutation (all_contributions label_to_model raters)
                           (all_contributions label_to_model raters')).
  { unfold all_contributions. now apply Permutation_flat_map. }
  pose proof (represents_fold (all_contributions label_to_model raters) [] []
                represents_nil) as R1.
  pose proof (represents_fold (all_contributions label_to_model raters') [] []
                represents_nil) as R2.
  cbn [app] in R1, R2.
  apply NoDup_Permutation.
  - apply nodup_aggregate, R1.
  - apply nodup_aggregate, R2.
  - intros x. rewrite (in_aggregate _ _ x R1), (in_aggregate _ _ x R2).
    split; intros [k Hk]; exists k.
    + now rewrite <- (position_sum_permutation k _ _ HE), <- (count_permutation k _ _ HE).
    + now rewrite (position_sum_permutation k _ _ HE), (count_permutation k _ _ HE).
Qed.

(** *** The order of the aggregate *)

(** [a] stands before [b] in [l]. *)
Definition before {A : Type} (l : list A) (a b : A) : Prop :=
  exists pre mid post, l = pre ++ a :: mid ++ b :: post.

Lemma before_nil {A : Type} (a b : A) : ~ before [] a b.
Proof. intros (pre & mid & post & E). destruct pre; discriminate E. Qed.

Lemma before_cons {A : Type} (x : A) (l : list A) (a b : A) :
  before (x :: l) a b <-> (a = x /\ In b l) \/ before l a b.
Proof.
  split.
  - intros (pre & mid & post & E). destruct pre as [|y pre]; simpl in E.
    + injection E as -> ->. left. split; [reflexivity|].
      apply in_or_app. right. now left.
    + injection E as -> ->. right. now exists pre, mid, post.
  - intros [[-> Hin]|(pre & mid & post & ->)].
    + apply in_split in Hin as (mid & post & ->). now exists [], mid, post.
    + now exists (x :: pre), mid, post.
Qed.

Lemma before_in {A : Type} (l : list A) (a b : A) :
  before l a b -> In a l /\ In b l.
Proof.
  intros (pre & mid & post & ->). split; apply in_or_app; right.
  - now left.
  - right. apply in_or_app. right. now left.
Qed.

Lemma before_app_r {A : Type} (l1 l2 : list A) (a b : A) :
  before l2 a b -> before (l1 ++ l2) a b.
Proof.
  intros (pre & mid & post & ->). exists (l1 ++ pre), mid, post.
  now rewrite <- app_assoc.
Qed.

Lemma before_app_lr {A : Type} (l1 l2 : list A) (a b : A) :
  In a l1 -> In b l2 -> before (l1 ++ l2) a b.
Proof.
  intros Ha Hb. apply in_split in Ha as (p1 & q1 & ->).
  apply in_split in Hb as (p2 & q2 & ->).
  exists p1, (q1 ++ p2), q2. now rewrite <- !app_assoc.
Qed.

Lemma before_total {A : Type} (l : list A) (a b : A) :
  In a l -> In b l -> a <> b -> before l a b \/ before l b a.
Proof.
  induction l as [|x l IH]; intros Ha Hb Hn; [contradiction|].
  rewrite !before_cons.
  destruct Ha as [<-|Ha], Hb as [<-|Hb]; [congruence | tauto | tauto |].
  destruct (IH Ha Hb Hn); tauto.
Qed.

Lemma before_map {A B : Type} (f : A -> B) (l : list A) (a b : A) :
  before l a b -> before (map f l) (f a) (f b).
Proof.
  intros (pre & mid & post & ->). exists (map f pre), (map f mid), (map f post).
  now rewrite map_app, map_cons, map_app.
Qed.

(** Where the list [l1 ++ l2] takes one more element in the middle. *)
Lemma before_middle {A : Type} (x : A) (l2 : list A) (a b : A) :
  forall l1,
    before (l1 ++ x :: l2) a b ->
    before (l1 ++ l2) a b \/ (a = x /\ In b l2) \/ (b = x /\ In a l1).
Proof.
  induction l1 as [|y l1 IH]; cbn [app]; rewrite before_cons.
  - tauto.
  - rewrite before_cons. intros [[-> Hb]|H].
    + apply in_app_or in Hb as [Hb|[<-|Hb]].
      * left. left. split; [reflexivity | apply in_or_app; now left].
      * right. right. split; [reflexivity | now left].
      * left. left. split; [reflexivity | apply in_or_app; now right].
    + destruct (IH H) as [H1|[H1|[H1 H2]]]; [tauto | tauto |].
      right. right. split; [exact H1 | now right].
Qed.

(** Where [insert_by] puts the new element: after the elements with a
    smaller key, before the first one whose key is not smaller. *)
Lemma insert_by_split {A K : Type} (lt : K -> K -> bool) (key : A -> K) (x : A)
  (l : list A) :
  exists l1 l2,
    l = l1 ++ l2 /\ insert_by lt key x l = l1 ++ x :: l2 /\
    (forall y, In y l1 -> lt (key y) (key x) = true) /\
    match l2 with
    | [] => True
    | y :: _ => lt (key y) (key x) = false
    end.
Proof.
  induction l as [|y l (l1 & l2 & E & Ei & H1 & H2)]; cbn [insert_by].
  - exists [], []. repeat split. intros y [].
  - destruct (lt (key y) (key x)) eqn:Ey.
    + exists (y :: l1), l2. cbn [app]. rewrite Ei, E. repeat split; [|exact H2].
      intros z [<-|Hz]; [exact Ey | now apply H1].
    + exists [], (y :: l). repeat split; [|exact Ey]. intros z [].
Qed.

Section SortBy.

Variable A : Type.
Variable key : A -> float.

(** Ascending: nothing stands before an element of a smaller key. *)
Definition ascending (l : list A) : Prop :=
  forall a b, before l a b -> (key b <? key a)%float = false.

(** Stable: what stands before an element without a smaller key stood
    before it in the list [orig]. *)
Definition stable (orig l : list A) : Prop :=
  forall a b, before l a b -> (key a <? key b)%float = false -> before orig a b.

Lemma insert_by_ascending (x : A) (l : list A) :
  (forall y, In y l -> not_nan (key y)) ->
  ascending l -> ascending (insert_by PrimFloat.ltb key x l).
Proof.
  intros Hn Hl a b Hb.
  destruct (insert_by_split PrimFloat.ltb key x l) as (l1 & l2 & E & Ei & H1 & H2).
  rewrite Ei in Hb. apply before_middle in Hb as [Hb|[[-> Hb]|[-> Ha]]].
  - apply Hl. now rewrite E.
  - destruct l2 as [|y0 l2]; [contradiction|].
    destruct Hb as [<-|Hb]; [exact H2|].
    destruct (key b <? key x)%float eqn:Eb; [|reflexivity].
    assert (Hy : not_nan (key y0)).
    { apply Hn. rewrite E. apply in_or_app. right. now left. }
    pose proof (ltb_below (key x) (key y0) (key b) Hy Eb H2) as Hlt.
    assert (H0 : before l y0 b).
    { rewrite E. apply before_app_r, before_cons. now left. }
    apply Hl in H0. congruence.
  - apply ltb_asym. now apply H1.
Qed.

Lemma insert_by_stable (x : A) (orig l : list A) :
  (forall y, In y l -> In y orig) ->
  stable orig l -> stable (x :: orig) (insert_by PrimFloat.ltb key x l).
Proof.
  intros Hin Hl a b Hb Hk.
  destruct (insert_by_split PrimFloat.ltb key x l) as (l1 & l2 & E & Ei & H1 & H2).
  rewrite Ei in Hb. apply before_middle in Hb as [Hb|[[-> Hb]|[-> Ha]]].
  - apply before_cons. right. apply Hl; [now rewrite E | exact Hk].
  - apply before_cons. left. split; [reflexivity|].
    apply Hin. rewrite E. apply in_or_app. now right.
  - rewrite (H1 a Ha) in Hk. discriminate Hk.
Qed.

Lemma sort_by_ascending_stable (l : list A) :
  (forall y, In y l -> not_nan (key y)) ->
  ascending (sort_by PrimFloat.ltb key l) /\ stable l (sort_by PrimFloat.ltb key l).
Proof.
  induction l as [|x l IH]; intros Hn; cbn [sort_by fold_right].
  - split; intros a b Hb; now apply before_nil in Hb.
  - destruct IH as [Ha Hs]; [intros y Hy; apply Hn; now right|].
    fold (sort_by PrimFloat.ltb key l).
    assert (Hp : forall y, In y (sort_by PrimFloat.ltb key l) -> In y l).
    { intros y. apply Permutation_in, sort_by_permutation. }
    split.
    + apply insert_by_ascending; [|exact Ha].
      intros y Hy. apply Hn. right. now apply Hp.
    + now apply insert_by_stable.
Qed.

End SortBy.

(** *** The order of first mention *)

(** The keys [ks] without those in [seen] and without repetitions, each
    at its first place. *)
Fixpoint first_mentions (seen ks : list str) : list str :=
  match ks with
  | [] => []
  | k :: rest =>
      if existsb (str_eqb k) seen then first_mentions seen rest
      else k :: first_mentions (k :: seen) rest
  end.

(** The models that one rater mentions, in order: the labels that the
    parser reads in the rater's text, as far as the label map knows
    them. *)
Definition mentioned (label_to_model : dict str) (rater : Stage2Result) : list str :=
  match parse_ranking_from_text (s2_ranking rater) with
  | Ok labels =>
      flat_map (fun label => match dict_get label_to_model label with
                             | Some model => [model]
                             | None => []
                             end) labels
  | Raise _ => []
  end.

(** The models in the order in which the raters first mention them. *)
Definition mention_order (label_to_model : dict str) (raters : list Stage2Result)
  : list str :=
  first_mentions [] (flat_map (mentioned label_to_model) raters).

Lemma contributions_models (label_to_model : dict str) (parsed : list str) :
  forall position,
    map fst (contributions label_to_model position parsed)
    = flat_map (fun label => match dict_get label_to_model label with
                             | Some model => [model]
                             | None => []
                             end) parsed.
Proof.
  induction parsed as [|label rest IH]; intros position;
    cbn [contributions flat_map]; [reflexivity|].
  rewrite map_app, IH. now destruct (dict_get label_to_model label).
Qed.

Lemma all_contributions_models (label_to_model : dict str)
  (raters : list Stage2Result) :
  map fst (all_contributions label_to_model raters)
  = flat_map (mentioned label_to_model) raters.
Proof.
  unfold all_contributions.
  induction raters as [|r raters IH]; cbn [flat_map]; [reflexivity|].
  rewrite map_app, IH, contributions_models. unfold mentioned.
  now rewrite parse_ranking_total.
Qed.

Lemma existsb_str_eqb (k : str) (l : list str) :
  existsb (str_eqb k) l = true <-> In k l.
Proof.
  rewrite existsb_exists. split.
  - intros (x & Hx & E). apply str_eqb_eq in E. now subst x.
  - intros H. exists k. split; [exact H | apply str_eqb_refl].
Qed.

Lemma first_mentions_ext (ks : list str) :
  forall s1 s2, (forall k, In k s1 <-> In k s2) ->
                first_mentions s1 ks = first_mentions s2 ks.
Proof.
  induction ks as [|k ks IH]; intros s1 s2 H; cbn [first_mentions]; [reflexivity|].
  assert (E : existsb (str_eqb k) s1 = existsb (str_eqb k) s2).
  { apply eq_true_iff_eq. rewrite !existsb_str_eqb. apply H. }
  rewrite E. destruct (existsb (str_eqb k) s2); [now apply IH|].
  f_equal. apply IH. intros k'. simpl. rewrite H. tauto.
Qed.

Lemma keys_fold_record (E : list (str * nat)) :
  forall d,
    dict_keys (fold_left record E d)
    = dict_keys d ++ first_mentions (dict_keys d) (map fst E).
Proof.
  induction E as [|[k p] E IH]; intros d; cbn [fold_left map first_mentions fst].
  - now rewrite app_nil_r.
  - rewrite IH.
    assert (Ek : dict_keys (record d (k, p))
                 = if dict_mem d k then dict_keys d else dict_keys d ++ [k])
      by (unfold record, append_position; apply keys_dict_set).
    rewrite Ek.
    assert (Em : dict_mem d k = existsb (str_eqb k) (dict_keys d)).
    { apply eq_true_iff_eq. rewrite existsb_str_eqb, in_keys_get.
      unfold dict_mem. destruct (dict_get d k); split; congruence. }
    rewrite <- Em. destruct (dict_mem d k) eqn:Ed; [reflexivity|].
    rewrite <- app_assoc. cbn [app]. do 2 f_equal.
    apply first_mentions_ext. intros k'. rewrite in_app_iff. simpl. tauto.
Qed.

(** The aggregate before the sort has one entry per key, in the order of
    the keys. *)
Lemma before_aggregate (d : dict (list nat)) (a b : AggregateEntry) :
  before (aggregate_of d) a b -> before (dict_keys d) (agg_model a) (agg_model b).
Proof.
  induction d as [|[k ps] d IH]; cbn [aggregate_of flat_map fst snd dict_keys map].
  - intros H. now apply before_nil in H.
  - fold (aggregate_of d). fold (dict_keys d). intros H. apply before_cons.
    destruct ps as [|p ps]; cbn [aggregate_entry app] in H.
    + right. now apply IH.
    + apply before_cons in H as [[-> Hb]|H]; [|right; now apply IH].
      left. split; [reflexivity|]. now apply aggregate_model_in_keys.
Qed.

Lemma aggregate_not_nan (d : dict (list nat)) (e : AggregateEntry) :
  In e (aggregate_of d) -> not_nan (average_rank e).
Proof.
  unfold aggregate_of. rewrite in_flat_map. intros [[k ps] [_ He]].
  cbn [fst snd] in He. destruct ps as [|p ps]; [contradiction|].
  destruct He as [<-|[]]. cbn [average_rank].
  apply py_round_not_nan, int_truediv_not_nan.
Qed.

(** The aggregate is in ascending order of the average rank, and an
    entry that stands before another one without a smaller average rank
    is of the model mentioned first. *)
Lemma aggregate_order (raters : list Stage2Result) (label_to_model : dict str) :
  exists out,
    calculate_aggregate_rankings raters label_to_model = Ok out /\
    NoDup out /\
    ascending AggregateEntry average_rank out /\
    (forall a b,
        before out a b -> (average_rank a <? average_rank b)%float = false ->
        before (mention_order label_to_model raters) (agg_model a) (agg_model b)).
Proof.
  rewrite calculate_aggregate_rankings_total. eexists. split; [reflexivity|].
  set (E := all_contributions label_to_model raters).
  pose proof (represents_fold E [] [] represents_nil) as R. cbn [app] in R.
  destruct (sort_by_ascending_stable AggregateEntry average_rank
              (aggregate_of (fold_left record E []))
              (aggregate_not_nan (fold_left record E [])))
    as [Ha Hs].
  split; [|split; [exact Ha|]].
  - eapply Permutation_NoDup; [symmetry; apply sort_by_permutation|].
    apply nodup_aggregate, R.
  - intros a b Hb Hk. pose proof (Hs a b Hb Hk) as H0.
    apply before_aggregate in H0.
    rewrite keys_fold_record in H0. unfold E in H0.
    rewrite all_contributions_models in H0. exact H0.
Qed.

(** C5, amended.  The aggregator always returns.  Permuting the raters
    gives the same entries: every model with the same average rank and
    the same count.  Either output is in ascending order of the average
    rank, so two entries of different average rank stand in the same
    order in both.  Entries of equal average rank stand in the order in
    which the raters first mention their models, which the permutation
    can change. *)
Theorem aggregate_rankings_up_to_ties (raters raters' : list Stage2Result)
  (label_to_model : dict str) :
  Permutation raters raters' ->
  exists out out',
    calculate_aggregate_rankings raters label_to_model = Ok out /\
    calculate_aggregate_rankings raters' label_to_model = Ok out' /\
    Permutation out out' /\
    (forall a b, before out a b -> (average_rank b <? average_rank a)%float = false) /\
    (forall a b, before out' a b -> (average_rank b <? average_rank a)%float = false) /\
    (forall a b,
        before out a b -> (average_rank a <? average_rank b)%float = true ->
        before out' a b) /\
    (forall a b,
        before out a b -> (average_rank a <? average_rank b)%float = false ->
        before (mention_order label_to_model raters) (agg_model a) (agg_model b)) /\
    (forall a b,
        before out' a b -> (average_rank a <? average_rank b)%float = false ->
        before (mention_order label_to_model raters') (agg_model a) (agg_model b)).
Proof.
  intros HP.
  destruct (aggregate_order raters label_to_model) as (out & E & Hn & Ha & Hm).
  destruct (aggregate_order raters' label_to_model) as (out' & E' & Hn' & Ha' & Hm').
  exists out, out'. split; [exact E|]. split; [exact E'|].
  assert (Hperm : Permutation out out').
  { rewrite calculate_aggregate_rankings_total in E, E'.
    injection E as <-. injection E' as <-.
    rewrite !sort_by_permutation. now apply aggregate_permutation. }
  split; [exact Hperm|]. split; [exact Ha|]. split; [exact Ha'|].
  split; [|split; [exact Hm | exact Hm']].
  intros a b Hb Hlt.
  destruct (before_in _ _ _ Hb) as [Hina Hinb].
  assert (Hne : a <> b).
  { intros ->. apply ltb_asym in Hlt as Hlt'. congruence. }
  destruct (before_total out' a b) as [H|H];
    [eapply Permutation_in; eassumption | eapply Permutation_in; eassumption
    | exact Hne | exact H |].
  apply Ha' in H. congruence.
Qed.

(** *** Two raters who disagree *)

Definition rater (model ranking : str) : Stage2Result :=
  {| s2_model := model; s2_ranking := ranking;
     s2_parsed_ranking := ranking_of ranking;
     s2_usage := zero_usage; s2_cost := 0%float |}.

Definition rater_ab : Stage2Result :=
  rater (lit "gpt-4.1") (lit "FINAL RANKING:
1. Response A
2. Response B").

Definition rater_ba : Stage2Result :=
  rater (lit "o3") (lit "FINAL RANKING:
1. Response B
2. Response A").

Definition two_labels : dict str :=
  [ (lit "Response A", lit "gpt-4.1"); (lit "Response B", lit "o3") ].

Lemma aggregate_rankings_up_to_ties_witness :
  exists out out',
    calculate_aggregate_rankings [rater_ab; rater_ba] two_labels = Ok out /\
    calculate_aggregate_rankings [rater_ba; rater_ab] two_labels = Ok out' /\
    Permutation out out' /\
    (forall a b, before out a b -> (average_rank b <? average_rank a)%float = false) /\
    (forall a b, before out' a b -> (average_rank b <? average_rank a)%float = false) /\
    (forall a b,
        before out a b -> (average_rank a <? average_rank b)%float = true ->
        before out' a b) /\
    (forall a b,
        before out a b -> (average_rank a <? average_rank b)%float = false ->
        before (mention_order two_labels [rater_ab; rater_ba])
               (agg_model a) (agg_model b)) /\
    (forall a b,
        before out' a b -> (average_rank a <? average_rank b)%float = false ->
        before (mention_order two_labels [rater_ba; rater_ab])
               (agg_model a) (agg_model b)).
Proof.
  apply (aggregate_rankings_up_to_ties [rater_ab; rater_ba] [rater_ba; rater_ab]
           two_labels).
  apply perm_swap.
Defined.

(** The order of first mention follows the raters. *)
Example mention_order_follows_raters :
  mention_order two_labels [rater_ab; rater_ba] = [lit "gpt-4.1"; lit "o3"] /\
  mention_order two_labels [rater_ba; rater_ab] = [lit "o3"; lit "gpt-4.1"].
Proof. split; vm_compute; reflexivity. Qed.

Example tied_models_in_rater_order :
  calculate_aggregate_rankings [rater_ab; rater_ba] two_labels
  = Ok [ {| agg_model := lit "gpt-4.1"; average_rank := 1.5; rankings_count := 2 |};
         {| agg_model := lit "o3"; average_rank := 1.5; rankings_count := 2 |} ].
Proof. vm_compute. reflexivity. Qed.

(** C5 as stated fails: both models have the average rank 1.5, and the
    stable sort keeps them in the order in which the raters first name
    them, which the permutation changes. *)
Lemma aggregate_rankings_order_depends_on_raters :
  Permutation [rater_ab; rater_ba] [rater_ba; rater_ab] /\
  calculate_aggregate_rankings [rater_ab; rater_ba] two_labels
  <> calculate_aggregate_rankings [rater_ba; rater_ab] two_labels.
Proof.
  split; [apply perm_swap|].
  intros H.
  assert (H1 : calculate_aggregate_rankings [rater_ab; rater_ba] two_labels
               = Ok [ {| agg_model := lit "gpt-4.1"; average_rank := 1.5;
                         rankings_count := 2 |};
                      {| agg_model := lit "o3"; average_rank := 1.5;
                         rankings_count := 2 |} ])
    by (vm_compute; reflexivity).
  assert (H2 : calculate_aggregate_rankings [rater_ba; rater_ab] two_labels
               = Ok [ {| agg_model := lit "o3"; average_rank := 1.5;
                         rankings_count := 2 |};
                      {| agg_model := lit "gpt-4.1"; average_rank := 1.5;
                         rankings_count := 2 |} ])
    by (vm_compute; reflexivity).
  rewrite H1, H2 in H. vm_compute in H. discriminate H.
Qed.

End AggregatorFacts.

(** ** The stages *)

Module StageFacts.

Import ParserFacts AggregatorFacts.

(** *** Totality *)

Lemma total_ret {A : Type} (a : A) : total (ret a).
Proof. intros env log. now exists a, log. Qed.

Lemma total_bind {A B : Type} (m : M A) (k : A -> M B) :
  total m -> (forall a, total (k a)) -> total (bind m k).
Proof.
  intros Hm Hk env log. unfold bind.
  destruct (Hm env log) as (a & log' & ->). apply Hk.
Qed.

(** [m] returns a value in the environment [env]. *)
Definition returns_in {A : Type} (env : Env) (m : M A) : Prop :=
  forall log, exists a log', m env log = (Ok a, log').

Lemma total_returns_in {A : Type} (env : Env) (m : M A) : total m -> returns_in env m.
Proof. intros H log. apply H. Qed.

Lemma returns_in_bind {A B : Type} (env : Env) (m : M A) (k : A -> M B) :
  returns_in env m -> (forall a, returns_in env (k a)) -> returns_in env (bind m k).
Proof.
  intros Hm Hk log. unfold bind.
  destruct (Hm log) as (a & log' & ->). apply Hk.
Qed.

Lemma returns_in_gather {A B : Type} (env : Env) (f : A -> M B) (l : list A) :
  (forall a, In a l -> returns_in env (f a)) -> returns_in env (gather f l).
Proof.
  induction l as [|a l IH]; intros Hf log; cbn [gather].
  - now exists [], log.
  - destruct (Hf a (or_introl eq_refl) log) as (b & log1 & ->).
    destruct (IH (fun x Hx => Hf x (or_intror Hx)) log1) as (bs & log2 & ->).
    now exists (b :: bs), log2.
Qed.

Lemma total_gather {A B : Type} (f : A -> M B) (l : list A) :
  (forall a, total (f a)) -> total (gather f l).
Proof.
  intros Hf env log. apply returns_in_gather. intros a _ log'. apply Hf.
Qed.

Lemma total_no_cancel {A : Type} (m : M A) : total m -> no_cancel m.
Proof.
  intros Hm env log log' H. destruct (Hm env log) as (a & l & E). congruence.
Qed.

Lemma no_cancel_bind {A B : Type} (m : M A) (k : A -> M B) :
  no_cancel m -> (forall a, no_cancel (k a)) -> no_cancel (bind m k).
Proof.
  intros Hm Hk env log log'. unfold bind.
  destruct (m env log) as [[a|e] l] eqn:E; [apply Hk|].
  intros H. injection H as He Hl. subst e. now apply (Hm env log l).
Qed.

Lemma no_cancel_lift_result {A : Type} (r : result A) :
  r <> Raise CancelledError -> no_cancel (lift_result r).
Proof. intros H env log log' [= E _]. contradiction. Qed.

Lemma no_cancel_gather {A B : Type} (f : A -> M B) (l : list A) :
  (forall a, no_cancel (f a)) -> no_cancel (gather f l).
Proof.
  intros Hf. induction l as [|a l IH]; intros env log log'; cbn [gather];
    [discriminate|].
  destruct (f a env log) as [[b|e] log1] eqn:Ea;
    destruct (gather f l env log1) as [[bs|e'] log2] eqn:El; try discriminate.
  - intros [= -> _]. exact (IH env log1 log2 El).
  - intros [= -> _]. exact (Hf a env log log1 Ea).
  - intros [= -> _]. exact (Hf a env log log1 Ea).
Qed.

(** [query_model] is never cancelled: [wait_for] turns the cancellation
    at the deadline into [None].  So what it raises is an [Exception]. *)
Lemma no_cancel_query_model (model : str) (messages : list Message)
  (system_prompt : option str) (timeout : Z)
  (tools : option (list ToolDefinition)) (reasoning_effort : option str) :
  no_cancel (query_model model messages system_prompt timeout tools reasoning_effort).
Proof.
  intros env log log'. rewrite query_model_cases.
  destruct (refusal env model tools); [discriminate|].
  destruct (query_model_after_tools_abstains model messages system_prompt tools
              reasoning_effort env log) as (r & ext & -> & _).
  discriminate.
Qed.

Lemma returns_in_query_model (env : Env) (model : str) (messages : list Message)
  (system_prompt : option str) (timeout : Z)
  (tools : option (list ToolDefinition)) (reasoning_effort : option str) :
  refusal env model tools = None ->
  returns_in env (query_model model messages system_prompt timeout tools
                              reasoning_effort).
Proof.
  intros H log.
  destruct (query_model_abstains model messages system_prompt timeout tools
              reasoning_effort env log H) as (r & ext & E & _).
  now exists r, (log ++ ext).
Qed.

Lemma returns_in_query_models_parallel (env : Env) (models : list str)
  (messages : list Message) (system_prompt : option str)
  (tools : option (list ToolDefinition)) (reasoning_effort : option str) :
  (forall model, In model models -> refusal env model tools = None) ->
  returns_in env (query_models_parallel models messages system_prompt tools
                                        reasoning_effort).
Proof.
  intros H. unfold query_models_parallel. apply returns_in_bind.
  - apply returns_in_gather. intros model Hm.
    now apply returns_in_query_model, H.
  - intros rs log. now exists (zip_dict models rs), log.
Qed.

Lemma total_query_models_parallel (models : list str) (messages : list Message)
  (system_prompt : option str) (reasoning_effort : option str) :
  total (query_models_parallel models messages system_prompt None reasoning_effort).
Proof.
  intros env. apply returns_in_query_models_parallel.
  intros model _. apply refusal_no_tools.
Qed.

Lemma no_cancel_query_models_parallel (models : list str) (messages : list Message)
  (system_prompt : option str) (tools : option (list ToolDefinition))
  (reasoning_effort : option str) :
  no_cancel (query_models_parallel models messages system_prompt tools
                                   reasoning_effort).
Proof.
  unfold query_models_parallel. apply no_cancel_bind.
  - apply no_cancel_gather. intros model. apply no_cancel_query_model.
  - intros rs. apply total_no_cancel, total_ret.
Qed.

(** Stage 1 returns when the SDK refuses no tool of a council model. *)
Lemma returns_in_stage1 (env : Env) (user_query : str) (council_models : list str)
  (system_prompt file_context : option str)
  (image_attachments : option (list Image)) (tools : option (list ToolDefinition)) :
  (forall model, In model council_models -> refusal env model tools = None) ->
  returns_in env (stage1_collect_responses user_query council_models system_prompt
                    file_context image_attachments tools).
Proof.
  intros H. unfold stage1_collect_responses. apply returns_in_bind.
  - now apply returns_in_query_models_parallel.
  - intros rs log. eexists. exists log. reflexivity.
Qed.

Lemma total_stage1 (user_query : str) (council_models : list str)
  (system_prompt file_context : option str)
  (image_attachments : option (list Image)) :
  total (stage1_collect_responses user_query council_models system_prompt
           file_context image_attachments None).
Proof.
  intros env. apply returns_in_stage1. intros model _. apply refusal_no_tools.
Qed.

Lemma no_cancel_stage1 (user_query : str) (council_models : list str)
  (system_prompt file_context : option str)
  (image_attachments : option (list Image)) (tools : option (list ToolDefinition)) :
  no_cancel (stage1_collect_responses user_query council_models system_prompt
               file_context image_attachments tools).
Proof.
  unfold stage1_collect_responses. apply no_cancel_bind.
  - apply no_cancel_query_models_parallel.
  - intros rs. apply total_no_cancel, total_ret.
Qed.

Lemma labels_from_not_cancelled (n : nat) :
  forall start, labels_from start n <> Raise CancelledError.
Proof.
  induction n as [|n IH]; intros start; cbn [labels_from]; [discriminate|].
  specialize (IH (N.succ start)).
  destruct (chr (65 + start)); [|discriminate].
  destruct (labels_from (N.succ start) n) as [cs|e]; [discriminate | congruence].
Qed.

Lemma stage2_of_response_ok (model : str) (response : ModelResponse) :
  exists r, stage2_of_response model response = Ok r.
Proof.
  unfold stage2_of_response. rewrite parse_ranking_total. eexists. reflexivity.
Qed.

Lemma map_result_all_ok {A : Type} (l : list (result A)) :
  Forall (fun r => exists a, r = Ok a) l ->
  exists xs, map_result (fun r => r) l = Ok xs.
Proof.
  induction 1 as [|r l [a ->] _ [xs IH]]; simpl.
  - now exists [].
  - rewrite IH. now exists (a :: xs).
Qed.

Lemma stage2_results_ok (responses : dict (option ModelResponse)) :
  exists xs,
    map_result (fun r => r)
      (flat_map (fun mr => match snd mr with
                           | Some response => [stage2_of_response (fst mr) response]
                           | None => []
                           end) responses) = Ok xs.
Proof.
  apply map_result_all_ok. apply Forall_forall. intros r Hr.
  apply in_flat_map in Hr as [[m [resp|]] [_ Hr]]; simpl in Hr; [|contradiction].
  destruct Hr as [<-|[]]. apply stage2_of_response_ok.
Qed.

Lemma no_cancel_stage2 (user_query : str) (stage1_results : list Stage1Result)
  (council_models : list str) :
  no_cancel (stage2_collect_rankings user_query stage1_results council_models).
Proof.
  unfold stage2_collect_rankings.
  apply no_cancel_bind; [apply no_cancel_lift_result, labels_from_not_cancelled|].
  intros labels.
  apply no_cancel_bind; [apply total_no_cancel, total_query_models_parallel|].
  intros responses.
  apply no_cancel_bind; [|intros; apply total_no_cancel, total_ret].
  apply no_cancel_lift_result.
  destruct (stage2_results_ok responses) as [xs ->]. discriminate.
Qed.

Lemma total_stage3 (user_query : str) (stage1_results : list Stage1Result)
  (stage2_results : list Stage2Result) (chairman : str)
  (previous : option (dict str)) :
  total (stage3_synthesize_final user_query stage1_results stage2_results chairman
           previous).
Proof.
  unfold stage3_synthesize_final. apply total_bind; [apply query_model_total|].
  intros [r|]; apply total_ret.
Qed.

Lemma total_stage4 (user_query : str) (system_prompt : option str)
  (stage1_results : list Stage1Result) (stage3_result : Stage3Result)
  (chairman : str) (previous : option (dict str)) :
  total (stage4_self_reflection user_query system_prompt stage1_results
           stage3_result chairman previous).
Proof.
  unfold stage4_self_reflection. apply total_bind; [apply query_model_total|].
  intros [r|]; apply total_ret.
Qed.

Lemma total_title (user_query model : str) :
  total (generate_conversation_title user_query model).
Proof.
  unfold generate_conversation_title. apply total_bind; [apply query_model_total|].
  intros [r|]; apply total_ret.
Qed.

(** *** The short circuit of [run_full_council] *)

Definition all_failed : Stage3Result :=
  {| s3_model := lit "error";
     s3_response := lit "All models failed to respond. Please try again.";
     s3_usage := None; s3_cost := None |}.

(** When Stage 1 has no success, [run_full_council] returns the error
    result and sends nothing after the requests of Stage 1. *)
Lemma run_full_council_short_circuit (user_query : str) (council_models : list str)
  (chairman : str) (system_prompt : option str) (env : Env)
  (log log1 : list Request) :
  stage1_collect_responses user_query council_models system_prompt None None None
                           env log = (Ok [], log1) ->
  run_full_council user_query council_models chairman system_prompt env log
  = (Ok ([], [], all_failed, None), log1).
Proof. intros H. unfold run_full_council, bind. now rewrite H. Qed.

End StageFacts.

(** ** Labels of Stage 2 *)

Module LabelFacts.

Import AggregatorFacts.

Definition label_at (start : N) (i : nat) : N := (65 + start + N.of_nat i)%N.

(** While [chr] is defined the labels are the code points from [A] on. *)
Lemma labels_from_ok (n : nat) :
  forall start,
    (65 + start + N.of_nat n <= 1114112)%N ->
    labels_from start n = Ok (map (label_at start) (seq 0 n)).
Proof.
  induction n as [|n IH]; intros start Hn; cbn [labels_from]; [reflexivity|].
  unfold chr. destruct (N.leb_spec (65 + start) 1114111) as [_|H]; [|lia].
  rewrite IH by lia. cbn [seq map]. f_equal. f_equal.
  - unfold label_at. lia.
  - rewrite <- seq_shift, map_map. apply map_ext. intros i. unfold label_at. lia.
Qed.

Lemma NoDup_map_injective {A B : Type} (f : A -> B) (l : list A) :
  (forall x y, f x = f y -> x = y) -> NoDup l -> NoDup (map f l).
Proof.
  intros Hf. induction 1 as [|x l Hx Hl IH]; simpl; constructor; [|exact IH].
  intros Hin. apply in_map_iff in Hin as (y & Hy & Hin).
  apply Hf in Hy. now subst y.
Qed.

Lemma labels_distinct (n : nat) : NoDup (map (label_at 0) (seq 0 n)).
Proof.
  apply NoDup_map_injective; [|apply seq_NoDup].
  unfold label_at. intros x y H. lia.
Qed.

Lemma labels_letters (n : nat) :
  n <= 26 -> Forall (fun c => isupper_ascii c = true) (map (label_at 0) (seq 0 n)).
Proof.
  intros Hn. apply Forall_forall. intros c Hc.
  apply in_map_iff in Hc as (i & <- & Hi). apply in_seq in Hi.
  unfold isupper_ascii, label_at. apply andb_true_iff. split; apply N.leb_le; lia.
Qed.

(** Writing fresh keys into a dictionary appends them. *)
Lemma dict_set_fresh {V : Type} (d : dict V) (k : str) (v : V) :
  ~ In k (dict_keys d) -> dict_set d k v = d ++ [(k, v)].
Proof.
  induction d as [|[k0 v0] d IH]; simpl; intros Hk; [reflexivity|].
  destruct (str_eqb k0 k) eqn:E.
  - apply str_eqb_eq in E. exfalso. apply Hk. now left.
  - rewrite IH; [reflexivity|]. intros Hin. apply Hk. now right.
Qed.

Lemma fold_dict_set_fresh {V : Type} (kvs : list (str * V)) :
  forall d,
    NoDup (dict_keys d ++ map fst kvs) ->
    fold_left (fun m kv => dict_set m (fst kv) (snd kv)) kvs d = d ++ kvs.
Proof.
  induction kvs as [|[k v] kvs IH]; intros d Hd; simpl.
  - now rewrite app_nil_r.
  - simpl in Hd. rewrite dict_set_fresh.
    + rewrite IH; [now rewrite <- app_assoc|].
      unfold dict_keys. rewrite map_app. simpl. now rewrite <- app_assoc.
    + apply NoDup_remove_2 in Hd. intros Hin. apply Hd. apply in_or_app. now left.
Qed.

Lemma response_key_injective (a b : N) : response_key a = response_key b -> a = b.
Proof. unfold response_key. intros H. apply app_inv_head in H. congruence. Qed.

Definition label_entries (labels : list N) (stage1_results : list Stage1Result)
  : dict str :=
  map (fun lr => (response_key (fst lr), s1_model (snd lr)))
      (combine labels stage1_results).

Lemma build_label_to_model_fold (labels : list N) (stage1_results : list Stage1Result) :
  build_label_to_model labels stage1_results
  = fold_left (fun m kv => dict_set m (fst kv) (snd kv))
              (label_entries labels stage1_results) [].
Proof.
  unfold build_label_to_model, label_entries.
  generalize (@nil (str * str)). induction (combine labels stage1_results) as [|x l IH];
    intros d; simpl; [reflexivity | apply IH].
Qed.

Lemma keys_label_entries (labels : list N) :
  forall stage1_results,
    length labels = length stage1_results ->
    map fst (label_entries labels stage1_results) = map response_key labels.
Proof.
  unfold label_entries.
  induction labels as [|c labels IH]; intros [|r rs] H; simpl in *;
    try reflexivity; try discriminate.
  f_equal. apply IH. lia.
Qed.

(** With distinct labels the map has one entry per Stage 1 result, in
    order: the i-th label is the key of the i-th model. *)
Lemma build_label_to_model_entries (labels : list N)
  (stage1_results : list Stage1Result) :
  NoDup labels -> length labels = length stage1_results ->
  build_label_to_model labels stage1_results = label_entries labels stage1_results.
Proof.
  intros Hn Hl. rewrite build_label_to_model_fold.
  rewrite fold_dict_set_fresh; [reflexivity|].
  cbn [dict_keys map app]. rewrite keys_label_entries by exact Hl.
  apply NoDup_map_injective; [apply response_key_injective | exact Hn].
Qed.

(** Up to twenty-six successes, Stage 2 does what C8 says: the labels
    are the first letters of the alphabet, all different, and the map
    holds exactly the pairs (label of the i-th result, its model). *)
Lemma stage2_labels_up_to_z (stage1_results : list Stage1Result) :
  length stage1_results <= 26 ->
  exists labels,
    labels_from 0 (length stage1_results) = Ok labels /\
    labels = map (label_at 0) (seq 0 (length stage1_results)) /\
    Forall (fun c => isupper_ascii c = true) labels /\
    NoDup labels /\
    build_label_to_model labels stage1_results
    = label_entries labels stage1_results /\
    length (build_label_to_model labels stage1_results) = length stage1_results.
Proof.
  intros Hn. exists (map (label_at 0) (seq 0 (length stage1_results))).
  assert (Hlen : length (map (label_at 0) (seq 0 (length stage1_results)))
                 = length stage1_results) by now rewrite length_map, length_seq.
  split; [apply labels_from_ok; lia|]. split; [reflexivity|].
  split; [now apply labels_letters|]. split; [apply labels_distinct|].
  rewrite build_label_to_model_entries by (apply labels_distinct || exact Hlen).
  split; [reflexivity|].
  unfold label_entries. rewrite length_map, length_combine, Hlen. lia.
Qed.

(** The models of Stage 1 results are all different: they are keys of
    one dictionary. *)
Lemma nodup_zip_dict {V : Type} (keys : list str) (values : list V) :
  NoDup (dict_keys (zip_dict keys values)).
Proof.
  unfold zip_dict. generalize (combine keys values). intros kvs.
  assert (G : forall d : dict V, NoDup (dict_keys d) ->
              NoDup (dict_keys (fold_left (fun d kv => dict_set d (fst kv) (snd kv))
                                          kvs d))).
  { induction kvs as [|kv kvs IH]; intros d Hd; simpl; [exact Hd|].
    apply IH. now apply nodup_dict_set. }
  apply G. constructor.
Qed.

Lemma stage1_models_of_keys (responses : dict (option ModelResponse)) :
  NoDup (dict_keys responses) ->
  NoDup (map s1_model
           (flat_map (fun mr => match snd mr with
                                | Some response => [stage1_of_response (fst mr) response]
                                | None => []
                                end) responses)) /\
  incl (map s1_model
          (flat_map (fun mr => match snd mr with
                               | Some response => [stage1_of_response (fst mr) response]
                               | None => []
                               end) responses))
       (dict_keys responses).
Proof.
  induction responses as [|[k [r|]] d IH]; simpl; intros Hd.
  - split; [constructor | intros x []].
  - apply NoDup_cons_iff in Hd as [Hk Hd]. destruct (IH Hd) as [Hn Hi].
    split.
    + constructor; [|exact Hn]. intros Hin. apply Hk. now apply Hi.
    + intros x [<-|Hx]; [now left | right; now apply Hi].
  - apply NoDup_cons_iff in Hd as [Hk Hd]. destruct (IH Hd) as [Hn Hi].
    split; [exact Hn|]. intros x Hx. right. now apply Hi.
Qed.

Lemma stage1_models_distinct (user_query : str) (council_models : list str)
  (system_prompt file_context : option str)
  (image_attachments : option (list Image)) (tools : option (list ToolDefinition))
  (env : Env) (log log' : list Request) (stage1_results : list Stage1Result) :
  stage1_collect_responses user_query council_models system_prompt file_context
                           image_attachments tools env log
  = (Ok stage1_results, log') ->
  NoDup (map s1_model stage1_results).
Proof.
  unfold stage1_collect_responses. unfold bind at 1.
  destruct (query_models_parallel council_models _ system_prompt tools None env log)
    as [[responses|e] l] eqn:E; [|discriminate].
  unfold ret. intros [= <- _]. apply stage1_models_of_keys.
  unfold query_models_parallel, bind in E.
  match type of E with
  | context [gather ?f council_models env log] =>
      destruct (gather f council_models env log) as [[rs|e] l0]; [|discriminate]
  end.
  unfold ret in E. injection E as <- _. apply nodup_zip_dict.
Qed.

(** Stage 1 has at most one result per council model. *)
Lemma stage1_at_most_council (user_query : str) (council_models : list str)
  (system_prompt file_context : option str)
  (image_attachments : option (list Image)) (tools : option (list ToolDefinition))
  (env : Env) (log log' : list Request) (stage1_results : list Stage1Result) :
  stage1_collect_responses user_query council_models system_prompt file_context
                           image_attachments tools env log
  = (Ok stage1_results, log') ->
  length stage1_results <= length council_models.
Proof.
  unfold stage1_collect_responses. unfold bind at 1.
  destruct (query_models_parallel council_models _ system_prompt tools None env log)
    as [[responses|e] l] eqn:E; [|discriminate].
  unfold ret. intros [= <- _].
  unfold query_models_parallel, bind in E.
  match type of E with
  | context [gather ?f council_models env log] =>
      destruct (gather f council_models env log) as [[rs|e] l0]; [|discriminate]
  end.
  unfold ret in E. injection E as <- _.
  match goal with |- length (flat_map ?f ?d) <= _ =>
    assert (H1 : length (flat_map f d) <= length d)
  end.
  { induction (zip_dict council_models rs) as [|[k [r|]] d IH];
      cbn [flat_map fst snd app length]; lia. }
  assert (H2 : forall (kvs : list (str * option ModelResponse)) d,
             length (fold_left (fun d kv => dict_set d (fst kv) (snd kv)) kvs d)
             <= length d + length kvs).
  { induction kvs as [|kv kvs IH]; intros d; simpl; [lia|].
    specialize (IH (dict_set d (fst kv) (snd kv))).
    assert (Hd : length (dict_set d (fst kv) (snd kv)) <= S (length d)).
    { clear. induction d as [|[k0 v0] d IH]; simpl; [lia|].
      destruct (str_eqb k0 (fst kv)); simpl; lia. }
    lia. }
  assert (H3 : length (zip_dict council_models rs) <= length council_models).
  { unfold zip_dict. specialize (H2 (combine council_models rs) []).
    simpl in H2. rewrite length_combine in H2. lia. }
  lia.
Qed.

(** *** Twenty-seven successes *)

Definition numbered_result (i : nat) : Stage1Result :=
  {| s1_model := lit "model-" ++ [(97 + N.of_nat i)%N];
     s1_response := lit "An answer.";
     s1_usage := zero_usage; s1_cost := 0%float; s1_tool_calls := None |}.

Definition twenty_seven_results : list Stage1Result := map numbered_result (seq 0 27).

Definition offline_env : Env :=
  {| openai_client := false; anthropic_client := false; google_client := false;
     openai_create := fun _ _ => Raise (PyException "APIConnectionError" []);
     anthropic_create := fun _ _ => Raise (PyException "APIConnectionError" []);
     google_generate_content := fun _ _ => Raise (PyException "APIConnectionError" []);
     function_declaration_error := fun _ => None;
     json_loads := fun s => Ok s;
     TOOL_REGISTRY := [] |}.

(** C8 at twenty-seven Stage 1 successes.  The twenty-seventh label is
    [chr(65 + 26)], the bracket "[", which is no capital letter, and the
    ranking parser does not read "Response [" as a label. *)
Theorem stage2_label_after_z :
  exists label_to_model,
    stage2_collect_rankings (lit "Which is best?") twenty_seven_results []
                            offline_env []
    = (Ok ([], label_to_model), []) /\
    length label_to_model = 27 /\
    nth_error label_to_model 26 = Some (lit "Response [", lit "model-{") /\
    isupper_ascii 91 = false /\
    Re.response_label (lit "Response [") = None.
Proof.
  eexists. split; [vm_compute; reflexivity|].
  repeat split; vm_compute; reflexivity.
Qed.

End LabelFacts.

(** ** The event stream *)

Module MainFacts.

Import StageFacts LabelFacts.

(** The [type] field of an event. *)
Definition event_type (ev : Event) : str :=
  match ev with
  | stage1_start => lit "stage1_start"
  | stage1_complete _ => lit "stage1_complete"
  | stage2_start => lit "stage2_start"
  | stage2_complete _ _ _ => lit "stage2_complete"
  | stage3_start => lit "stage3_start"
  | stage3_complete _ => lit "stage3_complete"
  | stage4_start => lit "stage4_start"
  | stage4_complete _ => lit "stage4_complete"
  | title_complete _ => lit "title_complete"
  | cost_summary _ => lit "cost_summary"
  | complete => lit "complete"
  | error _ => lit "error"
  end.

Definition types (evs : list Event) : list str := map event_type evs.

(** The order of a turn that runs to its end. *)
Definition expected_types (is_first_message : bool) : list str :=
  [ lit "stage1_start"; lit "stage1_complete"; lit "stage2_start";
    lit "stage2_complete"; lit "stage3_start"; lit "stage3_complete";
    lit "stage4_start"; lit "stage4_complete" ]
  ++ (if is_first_message then [lit "title_complete"] else [])
  ++ [ lit "cost_summary"; lit "complete" ].

(** What a piece of the generator may do, given the types [tys] it is to
    yield: yield exactly them and return, or raise an [Exception] after a
    prefix of them ([strict]: a proper prefix); it is never cancelled. *)
Definition outcome_ok {A : Type} (strict : bool) (tys : list str)
  (r : result A) (evs : list Event) : Prop :=
  match r with
  | Ok _ => types evs = tys
  | Raise (PyException _ _) =>
      exists rest, tys = types evs ++ rest /\ (strict = true -> rest <> [])
  | Raise CancelledError => False
  end.

Definition emits {A : Type} (strict : bool) (m : G A) (tys : list str) : Prop :=
  forall c env st,
  exists evs,
    yielded (snd (m c env st)) = yielded st ++ evs /\
    outcome_ok strict tys (fst (m c env st)) evs.

(** A piece that yields nothing and is never cancelled. *)
Definition quiet {A : Type} (m : G A) : Prop :=
  forall c env st,
    yielded (snd (m c env st)) = yielded st /\
    fst (m c env st) <> Raise CancelledError.

(** A piece that yields nothing and returns a value satisfying [P]. *)
Definition returns {A : Type} (m : G A) (P : A -> Prop) : Prop :=
  forall c env st,
  exists a st', m c env st = (Ok a, st') /\ yielded st' = yielded st /\ P a.

Lemma emits_yield (strict : bool) (ev : Event) :
  emits strict (yield ev) [event_type ev].
Proof. intros c env st. exists [ev]. split; reflexivity. Qed.

Lemma emits_bind {A B : Type} (strict : bool) (m : G A) (k : A -> G B)
  (t1 t2 : list str) :
  emits false m t1 -> (forall a, emits strict (k a) t2) ->
  (strict = true -> t2 <> []) ->
  emits strict (gbind m k) (t1 ++ t2).
Proof.
  intros Hm Hk Ht c env st. unfold gbind.
  destruct (Hm c env st) as (evs1 & E1 & O1).
  destruct (m c env st) as [[a|[cls msg|]] st1]; simpl in E1, O1.
  - destruct (Hk a c env st1) as (evs2 & E2 & O2).
    exists (evs1 ++ evs2). rewrite E2, E1, app_assoc. split; [reflexivity|].
    destruct (fst (k a c env st1)) as [b|[cls msg|]]; simpl in *.
    + unfold types in *. rewrite map_app. congruence.
    + destruct O2 as (rest & -> & Hs). exists rest. unfold types in *.
      rewrite map_app, <- app_assoc, O1. split; [reflexivity | exact Hs].
    + exact O2.
  - exists evs1. split; [exact E1|]. simpl.
    destruct O1 as (rest & -> & _). exists (rest ++ t2).
    rewrite <- app_assoc. split; [reflexivity|].
    intros Hs Hr. apply app_eq_nil in Hr as [_ Hr]. now apply Ht.
  - contradiction.
Qed.

Lemma quiet_emits {A : Type} (m : G A) : quiet m -> emits false m [].
Proof.
  intros Hq c env st. destruct (Hq c env st) as [E N].
  exists []. rewrite app_nil_r. split; [exact E|].
  destruct (fst (m c env st)) as [a|[cls msg|]]; simpl.
  - reflexivity.
  - exists []. split; [reflexivity | discriminate].
  - congruence.
Qed.

Lemma emits_bind_quiet {A B : Type} (strict : bool) (m : G A) (k : A -> G B)
  (tys : list str) :
  quiet m -> (forall a, emits strict (k a) tys) -> (strict = true -> tys <> []) ->
  emits strict (gbind m k) tys.
Proof.
  intros Hm Hk Ht. apply (emits_bind strict m k [] tys); [|exact Hk | exact Ht].
  now apply quiet_emits.
Qed.

Lemma emits_bind_yield {B : Type} (strict : bool) (ev : Event) (k : unit -> G B)
  (tys : list str) :
  emits strict (k tt) tys -> (strict = true -> tys <> []) ->
  emits strict (gbind (yield ev) k) (event_type ev :: tys).
Proof.
  intros Hk Ht. apply (emits_bind strict (yield ev) k [event_type ev] tys).
  - apply emits_yield.
  - intros []. exact Hk.
  - exact Ht.
Qed.

Lemma emits_bind_returns {A B : Type} (strict : bool) (m : G A) (P : A -> Prop)
  (k : A -> G B) (tys : list str) :
  returns m P -> (forall a, P a -> emits strict (k a) tys) ->
  emits strict (gbind m k) tys.
Proof.
  intros Hm Hk c env st. unfold gbind.
  destruct (Hm c env st) as (a & st' & -> & Ey & Pa).
  destruct (Hk a Pa c env st') as (evs & E & O).
  exists evs. now rewrite <- Ey.
Qed.

Lemma quiet_gret {A : Type} (a : A) : quiet (gret a).
Proof. intros c env st. split; [reflexivity | discriminate]. Qed.

Lemma quiet_collab {A : Type} (f : Collaborators -> outcome A) : quiet (collab f).
Proof.
  intros c env st. unfold collab. destruct (f c); split;
    try reflexivity; discriminate.
Qed.

Lemma quiet_gresult {A : Type} (r : result A) :
  r <> Raise CancelledError -> quiet (gresult r).
Proof. intros H c env st. split; [reflexivity | exact H]. Qed.

Lemma quiet_await {A : Type} (m : M A) : no_cancel m -> quiet (await m).
Proof.
  intros H c env st. unfold await.
  destruct (m env (sent st)) as [r log] eqn:E. split; [reflexivity|].
  simpl. intros ->. exact (H env (sent st) log E).
Qed.

Lemma quiet_env {A : Type} (f : Env -> A) :
  quiet (fun c env st => gret (f env) c env st).
Proof. intros c env st. split; [reflexivity | discriminate]. Qed.

(** The connector loop swallows every failure and yields nothing. *)
Lemma connector_step_returns (ctx : str) (cfg : ConnectorConfig) :
  returns (connector_step ctx cfg) (fun _ => True).
Proof.
  intros c env st. unfold connector_step, gtry_except, gbind, collab.
  destruct (run_connector c _ _) as [[[|ch text]|]|cls msg];
    try (eexists; eexists; repeat split; reflexivity).
  destruct (cfg_name cfg); eexists; eexists; repeat split; reflexivity.
Qed.

Lemma connector_loop_returns (cfgs : list ConnectorConfig) :
  forall ctx, returns (connector_loop cfgs ctx) (fun _ => True).
Proof.
  induction cfgs as [|cfg cfgs IH]; intros ctx c env st; simpl.
  - exists ctx, st. repeat split.
  - unfold gbind. destruct (connector_step_returns ctx cfg c env st)
      as (ctx' & st' & -> & Ey & _).
    destruct (IH ctx' c env st') as (a & st'' & -> & Ey' & _).
    exists a, st''. repeat split. congruence.
Qed.

Lemma returns_quiet {A : Type} (m : G A) (P : A -> Prop) : returns m P -> quiet m.
Proof.
  intros H c env st. destruct (H c env st) as (a & st' & -> & Ey & _).
  split; [exact Ey | discriminate].
Qed.

(** The title task, when started, has finished with a title. *)
Definition title_task_ok (is_first_message : bool) (task : option (result str))
  : Prop :=
  if is_first_message then exists title, task = Some (Ok title) else task = None.

Lemma title_task_returns (is_first_message : bool) (user_query : str) :
  returns (if is_first_message
           then gbind (create_task (generate_conversation_title user_query
                                      DEFAULT_TITLE_MODEL))
                      (fun t => gret (Some t))
           else gret None)
          (title_task_ok is_first_message).
Proof.
  intros c env st. destruct is_first_message; simpl.
  - unfold gbind, create_task, gret.
    destruct (total_title user_query DEFAULT_TITLE_MODEL env (sent st))
      as (title & log' & ->).
    eexists. eexists. repeat split. now exists title.
  - exists None, st. repeat split.
Qed.

(** The types from the title on. *)
Definition closing_types (is_first_message : bool) : list str :=
  (if is_first_message then [lit "title_complete"] else [])
  ++ [ lit "cost_summary"; lit "complete" ].

Ltac side_condition :=
  first [ intros H; discriminate H
        | intros _; discriminate
        | intros _; unfold closing_types;
          match goal with |- context [if ?b then _ else _] => destruct b end;
          discriminate ].

(** The body of the generator yields the expected types in order; when
    it raises, it has yielded a proper prefix of them. *)
Lemma event_generator_body_emits (conversation_id : str)
  (request : SendMessageRequest) (is_first_message : bool) :
  emits true (event_generator_body conversation_id request is_first_message)
        (expected_types is_first_message).
Proof.
  unfold event_generator_body.
  change (expected_types is_first_message)
    with (lit "stage1_start" :: lit "stage1_complete" :: lit "stage2_start"
          :: lit "stage2_complete" :: lit "stage3_start" :: lit "stage3_complete"
          :: lit "stage4_start" :: lit "stage4_complete"
          :: closing_types is_first_message).
  apply emits_bind_quiet; [apply quiet_collab | intros _ | side_condition].
  apply emits_bind_returns with (P := title_task_ok is_first_message);
    [apply title_task_returns | intros title_task Htask].
  cbv zeta.
  apply emits_bind_quiet; [apply quiet_collab | intros [file_context image_attachments]
                           | side_condition].
  cbv beta iota.
  apply emits_bind_quiet; [| intros connector_context | side_condition].
  { destruct (truthy (enabled_connectors request)); [|apply quiet_gret].
    destruct (enabled_connectors request); [|apply quiet_gret].
    eapply returns_quiet, connector_loop_returns. }
  cbv zeta.
  apply emits_bind_quiet; [apply quiet_env | intros tool_defs | side_condition].
  apply (emits_bind_yield true stage1_start); [|side_condition].
  apply emits_bind_quiet; [apply quiet_await, no_cancel_stage1
                          | intros stage1_results | side_condition].
  apply (emits_bind_yield true (stage1_complete stage1_results)); [|side_condition].
  apply (emits_bind_yield true stage2_start); [|side_condition].
  apply emits_bind_quiet; [apply quiet_await, no_cancel_stage2
                          | intros [stage2_results label_to_model] | side_condition].
  cbv beta iota.
  apply emits_bind_quiet; [| intros aggregate_rankings | side_condition].
  { apply quiet_gresult.
    rewrite AggregatorFacts.calculate_aggregate_rankings_total. discriminate. }
  apply (emits_bind_yield true
           (stage2_complete stage2_results label_to_model aggregate_rankings));
    [|side_condition].
  apply (emits_bind_yield true stage3_start); [|side_condition].
  apply emits_bind_quiet; [apply quiet_await, total_no_cancel, total_stage3
                          | intros stage3_result | side_condition].
  apply (emits_bind_yield true (stage3_complete stage3_result)); [|side_condition].
  apply (emits_bind_yield true stage4_start); [|side_condition].
  apply emits_bind_quiet; [apply quiet_await, total_no_cancel, total_stage4
                          | intros stage4_result | side_condition].
  apply (emits_bind_yield true (stage4_complete stage4_result)); [|side_condition].
  unfold closing_types.
  apply emits_bind.
  - (* the title, on a first turn *)
    destruct is_first_message; cbn [title_task_ok] in Htask.
    + destruct Htask as [title ->].
      apply emits_bind_quiet; [apply quiet_gresult; discriminate | intros t
                              | side_condition].
      apply emits_bind_quiet; [apply quiet_collab | intros _ | side_condition].
      apply emits_yield.
    + subst title_task. apply quiet_emits, quiet_gret.
  - intros _.
    apply (emits_bind_yield true (cost_summary _)); [|side_condition].
    apply emits_bind_quiet; [apply quiet_collab | intros _ | side_condition].
    apply emits_yield.
  - side_condition.
Qed.

(** Does [title_complete] come only after [stage4_complete]? *)
Fixpoint title_after_stage4 (seen : bool) (tys : list str) : bool :=
  match tys with
  | [] => true
  | t :: rest =>
      if str_eqb t (lit "title_complete")
      then seen && title_after_stage4 seen rest
      else title_after_stage4 (seen || str_eqb t (lit "stage4_complete")) rest
  end.

Lemma title_after_stage4_sound (tys : list str) :
  forall seen,
    title_after_stage4 seen tys = true ->
    forall pre post,
      tys = pre ++ lit "title_complete" :: post ->
      seen = true \/ In (lit "stage4_complete") pre.
Proof.
  induction tys as [|t tys IH]; intros seen H pre post E.
  - destruct pre; discriminate E.
  - cbn [title_after_stage4] in H. destruct pre as [|p pre]; simpl in E.
    + injection E as -> _. rewrite str_eqb_refl in H.
      apply andb_true_iff in H as [H _]. now left.
    + injection E as -> E.
      destruct (str_eqb p (lit "title_complete")).
      * apply andb_true_iff in H as [H _]. now left.
      * destruct (IH _ H pre post E) as [Hs|Hin]; [|right; now right].
        apply orb_true_iff in Hs as [Hs|Hs]; [now left|].
        apply str_eqb_eq in Hs. right. now left.
Qed.

Lemma in_existsb (x : str) (l : list str) :
  In x l -> existsb (str_eqb x) l = true.
Proof.
  intros H. apply existsb_exists. exists x. split; [exact H | apply str_eqb_refl].
Qed.

(** The streams of a turn: the expected types, or [n] of them and [error]. *)
Definition stream_shape (is_first_message : bool) (tys : list str) : Prop :=
  tys = expected_types is_first_message \/
  exists n, n < length (expected_types is_first_message) /\
            tys = firstn n (expected_types is_first_message) ++ [lit "error"].

Lemma stream_shape_title (is_first_message : bool) (tys : list str) :
  stream_shape is_first_message tys ->
  (In (lit "title_complete") tys -> is_first_message = true) /\
  (forall pre post, tys = pre ++ lit "title_complete" :: post ->
                    In (lit "stage4_complete") pre).
Proof.
  intros H.
  assert (Hc : (existsb (str_eqb (lit "title_complete")) tys = true ->
                is_first_message = true) /\
               title_after_stage4 false tys = true).
  { destruct H as [->|(n & Hn & ->)].
    - destruct is_first_message; split; vm_compute; congruence.
    - destruct is_first_message;
        do 12 (destruct n as [|n]; [split; vm_compute; congruence|]);
        simpl in Hn; lia. }
  destruct Hc as [H1 H2]. split.
  - intros Hin. apply H1. now apply in_existsb.
  - intros pre post E.
    destruct (title_after_stage4_sound tys false H2 pre post E) as [Hs|Hin];
      [discriminate | exact Hin].
Qed.

(** *** What the events carry *)

(** The query that the council gets. *)
Definition council_query (request : SendMessageRequest) : str :=
  if truthy (previous_iteration request) && provide_context_to_council request
  then match previous_iteration request with
       | Some p => context_note p (req_content request)
       | None => req_content request
       end
  else req_content request.

(** The tools of the turn. *)
Definition tool_defs (env : Env) (request : SendMessageRequest)
  : option (list ToolDefinition) :=
  if truthy (enabled_tools request)
  then match enabled_tools request with
       | Some names => Some (get_enabled_tools (TOOL_REGISTRY env) names)
       | None => None
       end
  else None.

(** Every event with a payload carries what its stage returned for the
    payloads of the events before it: [stage1_complete] the results of
    Stage 1, [stage2_complete] the rankings and the label map of Stage 2
    for these results, with the aggregate of these rankings,
    [stage3_complete] and [stage4_complete] the results of Stages 3 and 4,
    [title_complete] the generated title, and [cost_summary] the summary
    of the four payloads. *)
Definition stream_payloads (request : SendMessageRequest) (env : Env)
  (evs : list Event) : Prop :=
  (forall s1, In (stage1_complete s1) evs ->
     exists file_context image_attachments log log',
       stage1_collect_responses (council_query request) (council_models request)
         (system_prompt request) file_context image_attachments
         (tool_defs env request) env log = (Ok s1, log')) /\
  (forall s2 label_to_model aggregate_rankings,
     In (stage2_complete s2 label_to_model aggregate_rankings) evs ->
     calculate_aggregate_rankings s2 label_to_model = Ok aggregate_rankings /\
     exists s1 log log',
       In (stage1_complete s1) evs /\
       stage2_collect_rankings (req_content request) s1 (council_models request)
                               env log = (Ok (s2, label_to_model), log')) /\
  (forall s3, In (stage3_complete s3) evs ->
     exists s1 s2 label_to_model aggregate_rankings log log',
       In (stage1_complete s1) evs /\
       In (stage2_complete s2 label_to_model aggregate_rankings) evs /\
       stage3_synthesize_final (req_content request) s1 s2 (chairman_model request)
                               (previous_iteration request) env log
       = (Ok s3, log')) /\
  (forall s4, In (stage4_complete s4) evs ->
     exists s1 s3 log log',
       In (stage1_complete s1) evs /\ In (stage3_complete s3) evs /\
       stage4_self_reflection (req_content request) (system_prompt request) s1 s3
                              (chairman_model request) (previous_iteration request)
                              env log
       = (Ok s4, log')) /\
  (forall title, In (title_complete title) evs ->
     exists log log',
       generate_conversation_title (req_content request) DEFAULT_TITLE_MODEL env log
       = (Ok title, log')) /\
  (forall data, In (cost_summary data) evs ->
     exists s1 s2 label_to_model aggregate_rankings s3 s4,
       In (stage1_complete s1) evs /\
       In (stage2_complete s2 label_to_model aggregate_rankings) evs /\
       In (stage3_complete s3) evs /\ In (stage4_complete s4) evs /\
       data = build_cost_summary request s1 s2 s3 s4).

(** Nothing fails: the collaborators return, the SDK accepts the tools of
    the council models of the Google family, and there are labels for all
    council models ([chr] is defined up to 1114111). *)
Definition nothing_fails (c : Collaborators) (env : Env) (conversation_id : str)
  (request : SendMessageRequest) : Prop :=
  add_user_message c conversation_id (req_content request) = Returned tt /\
  (exists file_context image_attachments,
      get_file_content_for_context c conversation_id
      = Returned (file_context, image_attachments)) /\
  (forall title, update_conversation_title c conversation_id title = Returned tt) /\
  (forall s1 s2 s3 s4,
      add_assistant_message c conversation_id s1 s2 s3 s4 = Returned tt) /\
  (forall m, In m (council_models request) -> get_provider m = google ->
             google_client env = true ->
             forall names t,
               enabled_tools request = Some names ->
               In t (get_enabled_tools (TOOL_REGISTRY env) names) ->
               function_declaration_error env (schema_of t) = None) /\
  (N.of_nat (length (council_models request)) <= 1114047)%N.

(** Stage 2 returns while there are labels. *)
Lemma returns_in_stage2 (env : Env) (user_query : str)
  (stage1_results : list Stage1Result) (council_models : list str) :
  (N.of_nat (length stage1_results) <= 1114047)%N ->
  returns_in env (stage2_collect_rankings user_query stage1_results council_models).
Proof.
  intros Hn log. unfold stage2_collect_rankings.
  unfold bind at 1, lift_result. rewrite labels_from_ok by lia.
  match goal with |- context [query_models_parallel _ ?msgs None None None] =>
    destruct (total_query_models_parallel council_models msgs None None env log)
      as (responses & l1 & E)
  end.
  unfold bind at 1. rewrite E.
  destruct (stage2_results_ok responses) as [xs Ex].
  unfold bind, lift_result. rewrite Ex. unfold ret.
  eexists. eexists. reflexivity.
Qed.

(** A weakest precondition over the events yielded so far. *)
Section Wp.

Variable c : Collaborators.
Variable env : Env.
Variable before : list Event.

Definition wp {A : Type} (m : G A) (Q : result A -> list Event -> Prop)
  (evs : list Event) : Prop :=
  forall st,
    yielded st = before ++ evs ->
    exists evs',
      yielded (snd (m c env st)) = before ++ evs' /\ Q (fst (m c env st)) evs'.

Lemma wp_gret {A : Type} (a : A) (Q : result A -> list Event -> Prop)
  (evs : list Event) :
  Q (Ok a) evs -> wp (gret a) Q evs.
Proof. intros H st E. now exists evs. Qed.

Lemma wp_env {A : Type} (f : Env -> A) (Q : result A -> list Event -> Prop)
  (evs : list Event) :
  Q (Ok (f env)) evs -> wp (fun c' env' st => gret (f env') c' env' st) Q evs.
Proof. intros H st E. now exists evs. Qed.

Lemma wp_gresult {A : Type} (r : result A) (Q : result A -> list Event -> Prop)
  (evs : list Event) :
  Q r evs -> wp (gresult r) Q evs.
Proof. intros H st E. now exists evs. Qed.

Lemma wp_yield (ev : Event) (Q : result unit -> list Event -> Prop)
  (evs : list Event) :
  Q (Ok tt) (evs ++ [ev]) -> wp (yield ev) Q evs.
Proof.
  intros H st E. exists (evs ++ [ev]). cbn [yield snd fst yielded].
  rewrite E, app_assoc. now split.
Qed.

Lemma wp_collab {A : Type} (f : Collaborators -> outcome A)
  (Q : result A -> list Event -> Prop) (evs : list Event) :
  match f c with
  | Returned a => Q (Ok a) evs
  | Failed cls msg => Q (Raise (PyException cls msg)) evs
  end ->
  wp (collab f) Q evs.
Proof.
  intros H st E. exists evs. unfold collab. destruct (f c); now split.
Qed.

Lemma wp_await {A : Type} (m : M A) (Q : result A -> list Event -> Prop)
  (evs : list Event) :
  (forall log, Q (fst (m env log)) evs) -> wp (await m) Q evs.
Proof.
  intros H st E. exists evs. unfold await. specialize (H (sent st)).
  destruct (m env (sent st)) as [r log]. now split.
Qed.

Lemma wp_create_task {A : Type} (m : M A)
  (Q : result (result A) -> list Event -> Prop) (evs : list Event) :
  (forall log, Q (Ok (fst (m env log))) evs) -> wp (create_task m) Q evs.
Proof.
  intros H st E. exists evs. unfold create_task. specialize (H (sent st)).
  destruct (m env (sent st)) as [r log]. now split.
Qed.

Lemma wp_returns {A : Type} (m : G A) (P : A -> Prop)
  (Q : result A -> list Event -> Prop) (evs : list Event) :
  returns m P -> (forall a, Q (Ok a) evs) -> wp m Q evs.
Proof.
  intros Hm H st E. destruct (Hm c env st) as (a & st' & -> & Ey & _).
  exists evs. cbn [fst snd]. split; [congruence | apply H].
Qed.

Lemma wp_bind {A B : Type} (m : G A) (k : A -> G B)
  (Q : result B -> list Event -> Prop) (evs : list Event) :
  wp m (fun r evs' => match r with
                      | Ok a => wp (k a) Q evs'
                      | Raise e => Q (Raise e) evs'
                      end) evs ->
  wp (gbind m k) Q evs.
Proof.
  intros H st E. destruct (H st E) as (evs1 & E1 & H1). unfold gbind.
  destruct (m c env st) as [[a|e] st1]; cbn [fst snd] in *.
  - now apply H1.
  - now exists evs1.
Qed.

Lemma wp_try {A : Type} (m : G A) (h : str -> G A)
  (Q : result A -> list Event -> Prop) (evs : list Event) :
  wp m (fun r evs' => match r with
                      | Raise (PyException _ msg) => wp (h msg) Q evs'
                      | other => Q other evs'
                      end) evs ->
  wp (gtry_except m h) Q evs.
Proof.
  intros H st E. destruct (H st E) as (evs1 & E1 & H1). unfold gtry_except.
  destruct (m c env st) as [[a|[cls msg|]] st1]; cbn [fst snd] in *.
  - now exists evs1.
  - now apply H1.
  - now exists evs1.
Qed.

End Wp.

(** The facts about the events of an explicit stream. *)
Ltac one_event H :=
  cbn [In app] in H;
  repeat match type of H with
         | _ \/ _ => destruct H as [H|H]; [try discriminate H|]
         | False => contradiction
         end.

Ltac in_stream := cbn [In app]; eauto 20.

Ltac payloads :=
  unfold stream_payloads; cbn [app];
  repeat match goal with |- _ /\ _ => split end;
  intros;
  match goal with H : In _ _ |- _ => one_event H end;
  repeat match goal with
         | H : _ = _ :> Event |- _ => injection H as H; subst
         end;
  repeat match goal with
         | |- _ /\ _ => split
         | |- exists _, _ => eexists
         | |- In _ _ => solve [in_stream]
         | |- _ = _ => solve [eassumption | reflexivity]
         end.

Lemma nothing_fails_accepts (c : Collaborators) (env : Env) (conversation_id : str)
  (request : SendMessageRequest) :
  nothing_fails c env conversation_id request ->
  tools_accepted env (council_models request) (tool_defs env request).
Proof.
  intros (_ & _ & _ & _ & H & _) m Hm Hp Hc ts t Hts Hin.
  unfold tool_defs in Hts.
  destruct (enabled_tools request) as [[|n names]|] eqn:En; cbn [truthy] in Hts;
    try discriminate Hts.
  injection Hts as <-. exact (H m Hm Hp Hc (n :: names) t eq_refl Hin).
Qed.

(** The title task of a first turn has finished with a title. *)
Definition title_task_done (env : Env) (request : SendMessageRequest)
  (is_first_message : bool) (task : option (result str)) : Prop :=
  if is_first_message
  then exists title log log',
         task = Some (Ok title) /\
         generate_conversation_title (req_content request) DEFAULT_TITLE_MODEL env log
         = (Ok title, log')
  else task = None.

Lemma wp_title_task (c : Collaborators) (env : Env) (before : list Event)
  (request : SendMessageRequest) (is_first_message : bool)
  (Q : result (option (result str)) -> list Event -> Prop) (evs : list Event) :
  (forall task, title_task_done env request is_first_message task ->
                Q (Ok task) evs) ->
  wp c env before
     (if is_first_message
      then gbind (create_task (generate_conversation_title (req_content request)
                                 DEFAULT_TITLE_MODEL))
                 (fun t => gret (Some t))
      else gret None) Q evs.
Proof.
  intros H. destruct is_first_message.
  - apply wp_bind, wp_create_task. intros log.
    destruct (total_title (req_content request) DEFAULT_TITLE_MODEL env log)
      as (title & log' & E).
    rewrite E. cbn [fst]. apply wp_gret, H. now exists title, log, log'.
  - apply wp_gret, H. reflexivity.
Qed.

Ltac failed_leaf :=
  apply wp_yield; split;
  [ payloads
  | let H := fresh in
    intros H; unfold nothing_fails in H;
    decompose record H; try congruence ].

Lemma event_generator_run (conversation_id : str) (request : SendMessageRequest)
  (is_first_message : bool) (c : Collaborators) (env : Env) (st : GState) :
  exists evs,
    yielded (snd (event_generator conversation_id request is_first_message c env st))
    = yielded st ++ evs /\
    stream_payloads request env evs /\
    (nothing_fails c env conversation_id request ->
     types evs = expected_types is_first_message).
Proof.
  assert (H : wp c env (yielded st)
                (event_generator conversation_id request is_first_message)
                (fun r evs => stream_payloads request env evs /\
                              (nothing_fails c env conversation_id request ->
                               types evs = expected_types is_first_message)) []).
  2: { destruct (H st) as (evs & E & P); [now rewrite app_nil_r|]. now exists evs. }
  unfold event_generator, event_generator_body.
  apply wp_try, wp_bind, wp_collab.
  destruct (add_user_message c conversation_id (req_content request)) as [[]|cls msg]
    eqn:Eu; [|failed_leaf].
  apply wp_bind, wp_title_task. intros title_task Htask.
  cbv zeta. fold (council_query request).
  apply wp_bind, wp_collab.
  destruct (get_file_content_for_context c conversation_id)
    as [[file_context image_attachments]|cls msg] eqn:Ef; [|failed_leaf].
  apply wp_bind.
  match goal with |- wp _ _ _ ?m _ _ =>
    apply (wp_returns c env (yielded st) m (fun _ => True))
  end.
  { destruct (truthy (enabled_connectors request));
      [|intros c' env' st'; exists [], st'; now repeat split].
    destruct (enabled_connectors request);
      [apply connector_loop_returns
      |intros c' env' st'; exists [], st'; now repeat split]. }
  intros connector_context.
  apply wp_bind.
  apply (wp_env c env (yielded st) (fun env => tool_defs env request)).
  fold (tool_defs env request).
  apply wp_bind, wp_yield, wp_bind, wp_await. intros log1.
  match goal with |- context [stage1_collect_responses ?q ?ms ?sp ?fc ?im ?td env log1] =>
    destruct (stage1_collect_responses q ms sp fc im td env log1)
      as [[s1|[cls msg|]] l1] eqn:E1
  end; cbn [fst].
  2: { apply wp_yield. split; [payloads|]. intros Hnf. exfalso.
       match type of E1 with
       | stage1_collect_responses ?q _ ?sp ?fc ?im _ _ _ = _ =>
           destruct (returns_in_stage1 env q (council_models request) sp fc im
                       (tool_defs env request)
                       (tools_accepted_no_refusal _ _ _
                          (nothing_fails_accepts _ _ _ _ Hnf)) log1)
             as (a & l & Ea)
       end.
       rewrite E1 in Ea. discriminate Ea. }
  2: { exfalso. eapply no_cancel_stage1. exact E1. }
  apply wp_bind, wp_yield, wp_bind, wp_yield, wp_bind, wp_await. intros log2.
  destruct (stage2_collect_rankings (req_content request) s1 (council_models request)
              env log2) as [[[s2 label_to_model]|[cls msg|]] l2] eqn:E2; cbn [fst].
  2: { apply wp_yield. split; [payloads|]. intros Hnf. exfalso.
       apply stage1_at_most_council in E1.
       destruct Hnf as (_ & _ & _ & _ & _ & Hn).
       destruct (returns_in_stage2 env (req_content request) s1
                   (council_models request)) with (log := log2) as (a & l & Ea);
         [lia|].
       rewrite E2 in Ea. discriminate Ea. }
  2: { exfalso. eapply no_cancel_stage2. exact E2. }
  apply wp_bind, wp_gresult.
  destruct (calculate_aggregate_rankings s2 label_to_model) as [agg|e] eqn:Ea.
  2: { rewrite AggregatorFacts.calculate_aggregate_rankings_total in Ea.
       discriminate Ea. }
  apply wp_bind, wp_yield, wp_bind, wp_yield, wp_bind, wp_await. intros log3.
  destruct (total_stage3 (req_content request) s1 s2 (chairman_model request)
              (previous_iteration request) env log3) as (s3 & l3 & E3).
  rewrite E3. cbn [fst].
  apply wp_bind, wp_yield, wp_bind, wp_yield, wp_bind, wp_await. intros log4.
  destruct (total_stage4 (req_content request) (system_prompt request) s1 s3
              (chairman_model request) (previous_iteration request) env log4)
    as (s4 & l4 & E4).
  rewrite E4. cbn [fst].
  apply wp_bind, wp_yield, wp_bind.
  destruct is_first_message; cbn [title_task_done] in Htask.
  - destruct Htask as (title & log0 & log0' & -> & Et).
    apply wp_bind, wp_gresult, wp_bind, wp_collab.
    destruct (update_conversation_title c conversation_id title) as [[]|cls msg]
      eqn:Eupd; [|failed_leaf].
    apply wp_yield, wp_bind, wp_yield, wp_bind, wp_collab.
    destruct (add_assistant_message c conversation_id s1 s2 s3 s4) as [[]|cls msg]
      eqn:Eadd; [|failed_leaf].
    apply wp_yield. split; [payloads | intros _; reflexivity].
  - subst title_task. apply wp_gret.
    apply wp_bind, wp_yield, wp_bind, wp_collab.
    destruct (add_assistant_message c conversation_id s1 s2 s3 s4) as [[]|cls msg]
      eqn:Eadd; [|failed_leaf].
    apply wp_yield. split; [payloads | intros _; reflexivity].
Qed.

(** The generator never raises, and its stream has the expected shape. *)
Lemma event_generator_shape (conversation_id : str) (request : SendMessageRequest)
  (is_first_message : bool) (c : Collaborators) (env : Env) (st : GState) :
  exists evs,
    event_generator conversation_id request is_first_message c env st
    = (Ok tt, {| sent := sent (snd (event_generator conversation_id request
                                      is_first_message c env st));
                 yielded := yielded st ++ evs |}) /\
    stream_shape is_first_message (types evs).
Proof.
  unfold event_generator, gtry_except.
  destruct (event_generator_body_emits conversation_id request is_first_message
              c env st) as (evs & E & O).
  destruct (event_generator_body conversation_id request is_first_message c env st)
    as [[[]|[cls msg|]] [log ys]]; simpl in E, O; subst ys.
  - exists evs. split; [reflexivity | now left].
  - exists (evs ++ [error msg]). split.
    + unfold yield. simpl. now rewrite app_assoc.
    + right. destruct O as (rest & Er & Hr).
      exists (length (types evs)). rewrite Er. split.
      * rewrite length_app. destruct rest; [now specialize (Hr eq_refl) | simpl; lia].
      * unfold types. rewrite map_app. simpl. f_equal.
        now rewrite firstn_app, firstn_all, Nat.sub_diag, firstn_O, app_nil_r.
  - contradiction.
Qed.

(** C9.  A streamed turn never raises.  Its events are, in this order,
    stage1_start, stage1_complete, stage2_start, stage2_complete,
    stage3_start, stage3_complete, stage4_start, stage4_complete,
    title_complete on a first turn, cost_summary, complete; or, when
    something fails, a proper prefix of that sequence followed by one
    error event, which is the last.  title_complete only occurs on a first
    turn and only after stage4_complete.  Every event carries what its
    stage returned for the payloads of the events before it; in
    particular stage2_complete carries the rankings and the label map of
    Stage 2 with the aggregate of these rankings.  When nothing fails -
    the storage and the file manager return, and the Google SDK accepts
    the tools - the stream is the whole sequence, up to complete. *)
Theorem event_generator_order (conversation_id : str) (request : SendMessageRequest)
  (is_first_message : bool) (c : Collaborators) (env : Env) (st : GState) :
  exists evs,
    event_generator conversation_id request is_first_message c env st
    = (Ok tt, {| sent := sent (snd (event_generator conversation_id request
                                      is_first_message c env st));
                 yielded := yielded st ++ evs |}) /\
    stream_shape is_first_message (types evs) /\
    (In (lit "title_complete") (types evs) -> is_first_message = true) /\
    (forall pre post, types evs = pre ++ lit "title_complete" :: post ->
                      In (lit "stage4_complete") pre) /\
    stream_payloads request env evs /\
    (nothing_fails c env conversation_id request ->
     types evs = expected_types is_first_message).
Proof.
  destruct (event_generator_shape conversation_id request is_first_message c env st)
    as (evs & E & Hs).
  destruct (event_generator_run conversation_id request is_first_message c env st)
    as (evs' & E' & Hp & Hc).
  rewrite E in E'. cbn [snd yielded] in E'. apply app_inv_head in E'. subst evs'.
  exists evs. split; [exact E|]. split; [exact Hs|].
  destruct (stream_shape_title is_first_message (types evs) Hs) as [H1 H2].
  split; [exact H1|]. split; [exact H2|]. split; [exact Hp | exact Hc].
Qed.

(** *** A turn in which every model fails *)

(** The OpenAI client is configured and every request fails. *)
Definition provider_down_env : Env :=
  {| openai_client := true; anthropic_client := false; google_client := false;
     openai_create := fun _ _ =>
       Raise (PyException "APIConnectionError" (lit "Connection error."));
     anthropic_create := fun _ _ =>
       Raise (PyException "APIConnectionError" (lit "Connection error."));
     google_generate_content := fun _ _ =>
       Raise (PyException "APIConnectionError" (lit "Connection error."));
     function_declaration_error := fun _ => None;
     json_loads := fun s => Ok s;
     TOOL_REGISTRY := [] |}.

Definition working_collaborators : Collaborators :=
  {| add_user_message := fun _ _ => Returned tt;
     get_file_content_for_context := fun _ => Returned ([], []);
     run_connector := fun _ _ => Returned None;
     update_conversation_title := fun _ _ => Returned tt;
     add_assistant_message := fun _ _ _ _ _ => Returned tt;
     upper := fun s => s |}.

Definition sample_request : SendMessageRequest :=
  {| req_content := lit "What is 2 + 2?";
     council_models := [lit "gpt-4.1"; lit "o3"];
     chairman_model := lit "gpt-4.1";
     system_prompt := None;
     previous_iteration := None;
     provide_context_to_council := false;
     enabled_tools := None;
     enabled_connectors := None |}.

Definition fresh_stream : GState := {| sent := []; yielded := [] |}.

Lemma working_nothing_fails :
  nothing_fails working_collaborators provider_down_env (lit "c1") sample_request.
Proof.
  unfold nothing_fails.
  split; [reflexivity|]. split; [now exists [], []|].
  split; [intros; reflexivity|]. split; [intros; reflexivity|]. split.
  - intros m Hm Hp Hc. discriminate Hc.
  - vm_compute. discriminate.
Qed.

Lemma event_generator_order_witness :
  exists evs,
    yielded (snd (event_generator (lit "c1") sample_request true
                    working_collaborators provider_down_env fresh_stream)) = evs /\
    types evs = expected_types true /\
    stream_payloads sample_request provider_down_env evs.
Proof.
  destruct (event_generator_order (lit "c1") sample_request true
              working_collaborators provider_down_env fresh_stream)
    as (evs & E & _ & _ & _ & Hp & Hc).
  exists evs. split; [now rewrite E|].
  split; [exact (Hc working_nothing_fails) | exact Hp].
Defined.

(** C2 on the streaming path.  With both council models failing, Stage 1
    has no success.  [run_full_council] stops there, after the two
    requests of Stage 1, with the error result.  The event generator goes
    on: it yields the events of Stages 2, 3 and 4 and sends four more
    requests (two for Stage 2, one each for Stages 3 and 4). *)
Theorem streaming_runs_stages_without_responses :
  fst (stage1_collect_responses (lit "What is 2 + 2?") [lit "gpt-4.1"; lit "o3"]
                                None None None None provider_down_env [])
  = Ok [] /\
  fst (run_full_council (lit "What is 2 + 2?") [lit "gpt-4.1"; lit "o3"]
                        (lit "gpt-4.1") None provider_down_env [])
  = Ok ([], [], all_failed, None) /\
  length (snd (run_full_council (lit "What is 2 + 2?") [lit "gpt-4.1"; lit "o3"]
                                (lit "gpt-4.1") None provider_down_env [])) = 2 /\
  nth_error (yielded (snd (event_generator (lit "c1") sample_request false
                             working_collaborators provider_down_env fresh_stream))) 1
  = Some (stage1_complete []) /\
  types (yielded (snd (event_generator (lit "c1") sample_request false
                         working_collaborators provider_down_env fresh_stream)))
  = expected_types false /\
  length (sent (snd (event_generator (lit "c1") sample_request false
                       working_collaborators provider_down_env fresh_stream))) = 6.
Proof. repeat split; vm_compute; reflexivity. Qed.

End MainFacts.

(** ** More on the ranking parser and the aggregator *)

Module RankingFacts.

Import Re ParserFacts AggregatorFacts.

(** A label as the parser returns it: "Response " and one capital. *)
Definition is_label (x : str) : Prop :=
  exists c, isupper_ascii c = true /\ x = lit "Response " ++ [c].

Lemma response_label_shape (s : str) (n : nat) :
  response_label s = Some n ->
  exists c r, s = lit "Response " ++ c :: r /\ isupper_ascii c = true.
Proof.
  unfold response_label. destruct (startswith (lit "Response ") s) eqn:Hs; [|discriminate].
  apply startswith_app in Hs as [r ->].
  change (skipn 9 (lit "Response " ++ r)) with r.
  destruct r as [|c r]; [discriminate|].
  destruct (isupper_ascii c) eqn:Hc; [|discriminate]. intros _. now exists c, r.
Qed.

Lemma findall_response_labels (s : str) :
  Forall is_label (findall response_label s).
Proof.
  apply Forall_forall. intros x Hx.
  apply findall_aux_matches in Hx as (s' & n & Hm & ->).
  destruct (response_label_length _ _ Hm) as [-> _].
  apply response_label_shape in Hm as (c & r & -> & Hc).
  exists c. split; [exact Hc | reflexivity].
Qed.

Lemma numbered_labels (section : str) :
  Forall is_label (map label_of_numbered (findall numbered_label section)).
Proof.
  apply Forall_forall. intros x Hx. apply in_map_iff in Hx as (m & <- & Hm).
  apply findall_aux_matches in Hm as (s' & n & Hm & ->).
  destruct (numbered_label_shape _ _ Hm) as (pre & lab & -> & Hlen & Hlab & _).
  unfold label_of_numbered.
  rewrite length_app, Hlen, Nat.add_sub, skipn_app, skipn_all, Nat.sub_diag.
  cbn [app skipn].
  apply response_label_shape in Hlab as (c & r & -> & Hc).
  rewrite length_app in Hlen. simpl in Hlen.
  destruct r; [|simpl in Hlen; lia].
  exists c. now split.
Qed.

Lemma ranking_of_labels (ranking_text : str) :
  Forall is_label (ranking_of ranking_text).
Proof.
  unfold ranking_of. destruct (contains FINAL_RANKING ranking_text).
  - destruct (findall numbered_label (nth 1 (split FINAL_RANKING ranking_text) []))
      as [|m ms] eqn:E.
    + apply findall_response_labels.
    + rewrite <- E. apply numbered_labels.
  - apply findall_response_labels.
Qed.

(** Whatever the text, every element of the parsed ranking is "Response "
    followed by one capital letter. *)
Theorem parse_ranking_only_labels (ranking_text : str) :
  exists parsed,
    parse_ranking_from_text ranking_text = Ok parsed /\ Forall is_label parsed.
Proof.
  exists (ranking_of ranking_text).
  split; [apply parse_ranking_total | apply ranking_of_labels].
Qed.

(** Where the marker occurs once: a numbered list after it is returned
    in order, also when other labels stand before the marker. *)
Lemma parse_ranking_single_marker_witness :
  parse_ranking_from_text (lit "Response A is weak. FINAL RANKING:
1. Response C
2. Response A")
  = Ok (parse_ranking_spec (lit "Response A is weak. FINAL RANKING:
1. Response C
2. Response A")).
Proof.
  apply parse_ranking_single_marker.
  intros section H. vm_compute in H. injection H as <-. vm_compute. reflexivity.
Defined.

(** *** The entries of the aggregate *)

Lemma in_contributions (label_to_model : dict str) (parsed : list str) :
  forall position k p,
    In (k, p) (contributions label_to_model position parsed) ->
    position <= p /\
    exists label, In label parsed /\ dict_get label_to_model label = Some k.
Proof.
  induction parsed as [|label rest IH]; intros position k p Hin; simpl in Hin;
    [contradiction|].
  apply in_app_or in Hin as [Hin|Hin].
  - destruct (dict_get label_to_model label) as [m|] eqn:E; [|contradiction].
    destruct Hin as [[= <- <-]|[]]. split; [lia|]. exists label. split; [now left | exact E].
  - destruct (IH _ _ _ Hin) as [Hp (l & Hl & Hd)]. split; [lia|].
    exists l. split; [now right | exact Hd].
Qed.

Lemma count_positive_in (k : str) (E : list (str * nat)) :
  0 < count k E -> exists p, In (k, p) E.
Proof.
  unfold count, mentions. intros H.
  destruct (filter (fun e => str_eqb (fst e) k) E) as [|[k' p] l] eqn:Ef;
    [simpl in H; lia|].
  assert (Hin : In (k', p) (filter (fun e => str_eqb (fst e) k) E))
    by (rewrite Ef; now left).
  apply filter_In in Hin as [Hin Hk]. apply str_eqb_eq in Hk. simpl in Hk. subst k'.
  now exists p.
Qed.

Lemma nodup_aggregate_models (d : dict (list nat)) :
  NoDup (dict_keys d) -> NoDup (map agg_model (aggregate_of d)).
Proof.
  induction d as [|[k ps] d IH]; simpl; intros Hd; [constructor|].
  apply NoDup_cons_iff in Hd as [Hk Hd]. unfold aggregate_of in *. cbn [flat_map fst snd].
  rewrite map_app. apply NoDup_app.
  - destruct ps; simpl; repeat constructor; intros [].
  - now apply IH.
  - intros a Ha Hb. apply in_map_iff in Ha as (x & <- & Hx).
    apply aggregate_entry_model in Hx. rewrite Hx in Hb.
    apply in_map_iff in Hb as (y & Hy & Hin).
    apply aggregate_model_in_keys in Hin. rewrite Hy in Hin. contradiction.
Qed.

(** The aggregate has one entry per model that some rater's parsed
    ranking mentions through the label map, and none for any other model:
    the entries have pairwise different models, each entry counts the
    mentions of its model (at least one), averages their positions to two
    decimals, and names a model that the label map holds. *)
Theorem aggregate_rankings_entries (stage2_results : list Stage2Result)
  (label_to_model : dict str) :
  exists out,
    calculate_aggregate_rankings stage2_results label_to_model = Ok out /\
    NoDup (map agg_model out) /\
    (forall e, In e out <->
       exists k n,
         count k (all_contributions label_to_model stage2_results) = S n /\
         e = {| agg_model := k;
                average_rank :=
                  py_round
                    (int_truediv
                       (position_sum k (all_contributions label_to_model stage2_results))
                       (Pos.of_succ_nat n)) 2;
                rankings_count := S n |}) /\
    (forall e, In e out ->
       exists label, dict_get label_to_model label = Some (agg_model e)).
Proof.
  rewrite calculate_aggregate_rankings_total. eexists. split; [reflexivity|].
  set (E := all_contributions label_to_model stage2_results).
  pose proof (represents_fold E [] [] represents_nil) as R. cbn [app] in R.
  assert (Hin : forall e,
             In e (sort_by PrimFloat.ltb average_rank
                     (aggregate_of (fold_left record E []))) <->
             exists k n,
               count k E = S n /\
               e = {| agg_model := k;
                      average_rank :=
                        py_round (int_truediv (position_sum k E) (Pos.of_succ_nat n)) 2;
                      rankings_count := S n |}).
  { intros e. split.
    - intros H. apply (Permutation_in _ (sort_by_permutation _ _ _)) in H.
      apply (in_aggregate _ _ e R) in H as [k Hk].
      unfold entry_from in Hk. destruct (count k E) as [|n] eqn:Ec; [contradiction|].
      destruct Hk as [<-|[]]. now exists k, n.
    - intros (k & n & Ec & ->).
      apply (Permutation_in _ (Permutation_sym (sort_by_permutation _ _ _))).
      apply (in_aggregate _ _ _ R). exists k. unfold entry_from. rewrite Ec. now left. }
  split; [|split; [exact Hin|]].
  - eapply Permutation_NoDup.
    + apply Permutation_map, Permutation_sym, sort_by_permutation.
    + apply nodup_aggregate_models, R.
  - intros e He. apply Hin in He as (k & n & Ec & ->). cbn [agg_model].
    destruct (count_positive_in k E) as [p Hp]; [lia|].
    unfold E, all_contributions in Hp. apply in_flat_map in Hp as (r & _ & Hp).
    apply in_contributions in Hp as (_ & label & _ & Hl). now exists label.
Qed.

End RankingFacts.

(** ** The adapters: how many requests, to whom, and what they record *)

Module AdapterFacts.

Import EffectFacts ToolLoopFacts.

(** The provider a request goes to. *)
Definition provider_of (req : Request) : provider :=
  match req with
  | ReqOpenAI _ => openai
  | ReqAnthropic _ => anthropic
  | ReqGoogle _ => google
  end.

(** [m] keeps the log and appends at most [n] requests, all within [P]. *)
Definition sends {A : Type} (P : Request -> Prop) (n : nat) (m : M A) : Prop :=
  forall env log,
  exists ext, snd (m env log) = log ++ ext /\ length ext <= n /\ Forall P ext.

Lemma sends_silent {A : Type} (P : Request -> Prop) (n : nat) (m : M A) :
  silent m -> sends P n m.
Proof.
  intros H env log. exists []. rewrite app_nil_r. repeat split.
  - apply H.
  - simpl. lia.
  - constructor.
Qed.

Lemma sends_weaken {A : Type} (P : Request -> Prop) (a b : nat) (m : M A) :
  a <= b -> sends P a m -> sends P b m.
Proof.
  intros Hab H env log. destruct (H env log) as (ext & E & L & F).
  exists ext. repeat split; [exact E | lia | exact F].
Qed.

Lemma sends_bind {A B : Type} (P : Request -> Prop) (a b : nat)
  (m : M A) (k : A -> M B) :
  sends P a m -> (forall x, sends P b (k x)) -> sends P (a + b) (bind m k).
Proof.
  intros Hm Hk env log. unfold bind.
  destruct (Hm env log) as (ext1 & E1 & L1 & F1).
  destruct (m env log) as [[x|e] log1]; simpl in E1; subst log1.
  - destruct (Hk x env (log ++ ext1)) as (ext2 & E2 & L2 & F2).
    exists (ext1 ++ ext2). rewrite E2, app_assoc, length_app.
    repeat split; [lia | now apply Forall_app].
  - exists ext1. repeat split; [simpl; lia | exact F1].
Qed.

Lemma sends_try_except {A : Type} (P : Request -> Prop) (n : nat)
  (m : M A) (h : str -> M A) :
  sends P n m -> (forall msg, silent (h msg)) -> sends P n (try_except m h).
Proof.
  intros Hm Hh env log. unfold try_except.
  destruct (Hm env log) as (ext & E & L & F).
  destruct (m env log) as [[x|[cls msg|]] log1]; simpl in E; subst log1.
  - now exists ext.
  - exists ext. rewrite (Hh msg env (log ++ ext)). now repeat split.
  - now exists ext.
Qed.

Lemma sends_wait_for {A : Type} (P : Request -> Prop) (n : nat) (m : M (option A)) :
  sends P n m -> sends P n (wait_for_or_none m).
Proof.
  intros Hm env log. unfold wait_for_or_none.
  destruct (Hm env log) as (ext & E & L & F).
  destruct (m env log) as [[x|[cls msg|]] log1]; simpl in E; subst log1; now exists ext.
Qed.

Lemma silent_foldM {A S : Type} (f : S -> A -> M S) (l : list A) :
  (forall s a, silent (f s a)) -> forall s, silent (foldM f l s).
Proof.
  intros Hf. induction l as [|a l IH]; intros s; simpl.
  - apply silent_ret.
  - apply silent_bind; [apply Hf | exact IH].
Qed.

Lemma silent_oa_process (tool_map : dict ToolDefinition)
  (st : list oa_turn * list ToolCallRecord) (tc : oa_tool_call) :
  silent (oa_process_tool_call tool_map st tc).
Proof.
  unfold oa_process_tool_call. destruct st as [fm atc].
  apply silent_bind; [apply silent_ask|]. intros env.
  apply silent_bind.
  - destruct (oa_fn_arguments tc); [apply silent_ret | apply silent_lift_result].
  - intros a. apply silent_bind; [apply silent_execute_tool | intros; apply silent_ret].
Qed.

Lemma silent_an_process (tool_map : dict ToolDefinition)
  (st : list (str * str) * list ToolCallRecord) (b : an_block) :
  silent (an_process_block tool_map st b).
Proof.
  unfold an_process_block. destruct st as [tr atc].
  apply silent_bind; [apply silent_execute_tool | intros; apply silent_ret].
Qed.

Lemma silent_g_process (tool_map : dict ToolDefinition)
  (st : list (str * str) * list ToolCallRecord) (fc : g_function_call) :
  silent (g_process_call tool_map st fc).
Proof.
  unfold g_process_call. destruct st as [fr atc].
  apply silent_bind; [apply silent_execute_tool | intros; apply silent_ret].
Qed.

(** The model that a request names. *)
Definition request_model (req : Request) : str :=
  match req with
  | ReqOpenAI r => oa_model r
  | ReqAnthropic r => an_model r
  | ReqGoogle r => g_model r
  end.

Lemma sends_openai (P : Request -> Prop) (r : oa_request) :
  P (ReqOpenAI r) -> sends P 1 (chat_completions_create r).
Proof.
  intros H env log. exists [ReqOpenAI r]. repeat split; [simpl; lia|].
  now repeat constructor.
Qed.

Lemma sends_anthropic (P : Request -> Prop) (r : an_request) :
  P (ReqAnthropic r) -> sends P 1 (messages_create r).
Proof.
  intros H env log. exists [ReqAnthropic r]. repeat split; [simpl; lia|].
  now repeat constructor.
Qed.

Lemma sends_google (P : Request -> Prop) (r : g_request) :
  P (ReqGoogle r) -> sends P 1 (generate_content r).
Proof.
  intros H env log. exists [ReqGoogle r]. repeat split; [simpl; lia|].
  now repeat constructor.
Qed.

(** The OpenAI loop only varies the messages, the tools and the
    reasoning effort of its requests. *)
Lemma sends_oa_tool_loop (P : Request -> Prop) (rounds : nat) (model : str)
  (openai_tools : option (list tool_schema)) (openai_reasoning : option str)
  (tool_map : dict ToolDefinition) :
  (forall msgs tools effort,
      P (ReqOpenAI {| oa_model := model; oa_messages := msgs; oa_tools := tools;
                      oa_reasoning_effort := effort |})) ->
  forall full_messages all_tool_calls,
    sends P (S rounds)
      (oa_tool_loop rounds model openai_tools openai_reasoning tool_map
                    full_messages all_tool_calls).
Proof.
  intros HP.
  induction rounds as [|rounds IH]; intros fm atc; cbn [oa_tool_loop].
  - apply (sends_bind _ 1 0); [apply sends_openai, HP|]. intros response.
    apply sends_silent, silent_bind; [apply silent_first_item | intros; apply silent_ret].
  - apply (sends_bind _ 1 (S rounds)); [apply sends_openai, HP|]. intros response.
    apply (sends_bind _ 0 (S rounds)); [apply sends_silent, silent_first_item|].
    intros choice.
    destruct (oa_msg_tool_calls choice); [apply sends_silent, silent_ret|].
    apply (sends_bind _ 0 (S rounds)); [|intros st; apply IH].
    apply sends_silent, silent_foldM. intros. apply silent_oa_process.
Qed.

(** The Anthropic loop only varies the messages and the tools. *)
Lemma sends_an_tool_loop (P : Request -> Prop) (rounds : nat)
  (tool_map : dict ToolDefinition) (model : str) (max_tokens : Z)
  (system : option str) (thinking : option Z) :
  (forall msgs tools,
      P (ReqAnthropic {| an_model := model; an_messages := msgs;
                         an_max_tokens := max_tokens; an_system := system;
                         an_tools := tools; an_thinking := thinking |})) ->
  forall msgs tools all_tool_calls,
    sends P (S rounds)
      (an_tool_loop rounds
         {| an_model := model; an_messages := msgs; an_max_tokens := max_tokens;
            an_system := system; an_tools := tools; an_thinking := thinking |}
         tool_map all_tool_calls).
Proof.
  intros HP.
  induction rounds as [|rounds IH]; intros msgs tools atc;
    cbn [an_tool_loop an_model an_messages an_max_tokens an_system an_tools
         an_thinking].
  - apply (sends_bind _ 1 0); [apply sends_anthropic, HP|]. intros response.
    apply sends_silent, silent_ret.
  - apply (sends_bind _ 1 (S rounds)); [apply sends_anthropic, HP|]. intros response.
    destruct (filter _ (an_resp_content response)); [apply sends_silent, silent_ret|].
    apply (sends_bind _ 0 (S rounds)); [|intros st; apply IH].
    apply sends_silent, silent_foldM. intros. apply silent_an_process.
Qed.

(** The Google loop only varies the contents and the configuration. *)
Lemma sends_g_tool_loop (P : Request -> Prop) (rounds : nat) (model : str)
  (google_tools : option (list tool_schema)) (tool_map : dict ToolDefinition) :
  (forall contents cfg,
      P (ReqGoogle {| g_model := model; g_contents := contents; g_cfg := cfg |})) ->
  forall config google_contents all_tool_calls,
    sends P (S rounds)
      (g_tool_loop rounds model google_tools tool_map config google_contents
                   all_tool_calls).
Proof.
  intros HP.
  induction rounds as [|rounds IH]; intros config gc atc; cbn [g_tool_loop].
  - apply (sends_bind _ 1 0); [apply sends_google, HP|]. intros response.
    apply sends_silent, silent_ret.
  - destruct (g_round_config config google_tools) as [sent config'].
    apply (sends_bind _ 1 (S rounds)); [apply sends_google, HP|]. intros response.
    apply (sends_bind _ 0 (S rounds)); [apply sends_silent, silent_g_first_parts|].
    intros parts.
    destruct (g_function_calls parts); [apply sends_silent, silent_ret|].
    apply (sends_bind _ 0 (S rounds)); [|intros st; apply IH].
    apply sends_silent, silent_foldM. intros. apply silent_g_process.
Qed.

Lemma sends_guarded {A : Type} (P : Request -> Prop) (n : nat) (guard : Env -> bool)
  (body : Env -> M (option A)) :
  (forall e, sends P n (body e)) ->
  sends P n (wait_for_or_none
               (bind ask (fun e => if negb (guard e) then ret None
                                   else try_except (body e) (fun _ => ret None)))).
Proof.
  intros Hb. apply sends_wait_for.
  apply (sends_bind P 0 n); [apply sends_silent, silent_ask|]. intros e.
  destruct (negb (guard e)); [apply sends_silent, silent_ret|].
  apply sends_try_except; [apply Hb | intros; apply silent_ret].
Qed.

Lemma sends_query_model (model : str) (messages : list Message)
  (system_prompt : option str) (timeout : Z)
  (tools : option (list ToolDefinition)) (reasoning_effort : option str) :
  sends (fun req => provider_of req = get_provider model /\ request_model req = model)
    (S MAX_TOOL_ROUNDS)
    (query_model model messages system_prompt timeout tools reasoning_effort).
Proof.
  unfold query_model. destruct (get_provider model).
  - unfold _query_anthropic.
    apply (sends_guarded _ _ anthropic_client
             (fun _ => an_tool_loop MAX_TOOL_ROUNDS _ _ [])).
    intros e. apply sends_an_tool_loop. intros msgs ts. now split.
  - unfold _query_google. apply sends_wait_for.
    apply (sends_bind _ 0 _); [apply sends_silent, silent_ask|]. intros e.
    destruct (negb (google_client e)); [apply sends_silent, silent_ret|].
    apply (sends_bind _ 0 _); [apply sends_silent, silent_build_google_tools|].
    intros built. apply sends_try_except; [|intros; apply silent_ret].
    apply sends_g_tool_loop. intros contents cfg. now split.
  - unfold _query_openai.
    apply (sends_guarded _ _ openai_client
             (fun _ => oa_tool_loop MAX_TOOL_ROUNDS model _ _ _ _ [])).
    intros e. apply sends_oa_tool_loop. intros msgs ts effort. now split.
Qed.

(** One call of [query_model] keeps the requests sent before it, adds at
    most [MAX_TOOL_ROUNDS + 1 = 6] requests whatever the provider replies,
    and sends all of them to the provider that routing chose for the
    model, each naming that model. *)
Theorem query_model_request_bound (model : str) (messages : list Message)
  (system_prompt : option str) (timeout : Z)
  (tools : option (list ToolDefinition)) (reasoning_effort : option str)
  (env : Env) (log : list Request) :
  exists ext,
    snd (query_model model messages system_prompt timeout tools reasoning_effort
                     env log) = log ++ ext /\
    length ext <= MAX_TOOL_ROUNDS + 1 /\
    Forall (fun req => provider_of req = get_provider model /\
                       request_model req = model) ext.
Proof.
  rewrite Nat.add_1_r.
  exact (sends_query_model model messages system_prompt timeout tools
           reasoning_effort env log).
Qed.

(** What every request of an Anthropic call carries, as figures: the
    system prompt unless it is empty; no thinking and 8192 [max_tokens]
    for no effort, an empty one or "off"; the budgets 2048, 8192 and 32768
    for "low", "medium" and "high", 8192 for any other word, each with
    [max_tokens] = budget + 8192. *)
Definition anthropic_figures (system_prompt reasoning_effort : option str)
  (req : Request) : Prop :=
  exists r,
    req = ReqAnthropic r /\
    (system_prompt = None \/ system_prompt = Some [] -> an_system r = None) /\
    (forall c p, system_prompt = Some (c :: p) -> an_system r = Some (c :: p)) /\
    (reasoning_effort = None \/ reasoning_effort = Some []
     \/ reasoning_effort = Some (lit "off") ->
     an_thinking r = None /\ an_max_tokens r = 8192%Z) /\
    (reasoning_effort = Some (lit "low") ->
     an_thinking r = Some 2048%Z /\ an_max_tokens r = 10240%Z) /\
    (reasoning_effort = Some (lit "medium") ->
     an_thinking r = Some 8192%Z /\ an_max_tokens r = 16384%Z) /\
    (reasoning_effort = Some (lit "high") ->
     an_thinking r = Some 32768%Z /\ an_max_tokens r = 40960%Z) /\
    (forall e, reasoning_effort = Some e ->
               e <> [] -> e <> lit "off" -> e <> lit "low" -> e <> lit "medium" ->
               e <> lit "high" ->
               an_thinking r = Some 8192%Z /\ an_max_tokens r = 16384%Z).

Lemma anthropic_kwargs_figures (model : str) (system_prompt reasoning_effort : option str)
  (msgs : list an_turn) (ts : option (list tool_schema)) :
  anthropic_figures system_prompt reasoning_effort
    (ReqAnthropic
       {| an_model := model; an_messages := msgs;
          an_max_tokens :=
            match option_map effort_to_budget (effort_on reasoning_effort) with
            | Some b => Z.max 8192 (b + 8192)
            | None => 8192%Z
            end;
          an_system := if truthy system_prompt then system_prompt else None;
          an_tools := ts;
          an_thinking := option_map effort_to_budget (effort_on reasoning_effort) |}).
Proof.
  eexists. split; [reflexivity|].
  cbn [an_system an_thinking an_max_tokens].
  split; [intros [->| ->]; reflexivity|].
  split; [intros c p ->; reflexivity|].
  split; [intros [->|[->| ->]]; split; reflexivity|].
  split; [intros ->; split; reflexivity|].
  split; [intros ->; split; reflexivity|].
  split; [intros ->; split; reflexivity|].
  intros e -> H0 H1 H2 H3 H4.
  destruct e as [|c e]; [congruence|]. cbn [effort_on].
  apply str_eqb_neq in H1, H2, H3, H4.
  rewrite H1. cbn [option_map]. unfold effort_to_budget. rewrite H2, H3, H4.
  split; reflexivity.
Qed.

(** All requests of one call to the Anthropic adapter carry the same
    system prompt (none when it is empty) and the same thinking budget:
    2048, 8192 or 32768 tokens for the efforts "low", "medium", "high",
    8192 for any other word, and none for "off", an empty or a missing
    effort.  Their [max_tokens] is 8192 without thinking and the budget
    plus 8192 with it: 10240, 16384 or 40960. *)
Theorem anthropic_requests_settings (model : str) (messages : list Message)
  (system_prompt : option str) (tools : option (list ToolDefinition))
  (reasoning_effort : option str) (env : Env) (log : list Request) :
  exists ext,
    snd (_query_anthropic model messages system_prompt tools reasoning_effort env log)
    = log ++ ext /\
    Forall
      (fun req =>
         exists r,
           req = ReqAnthropic r /\
           (system_prompt = None \/ system_prompt = Some [] -> an_system r = None) /\
           (forall c p, system_prompt = Some (c :: p) ->
                        an_system r = Some (c :: p)) /\
           (reasoning_effort = None \/ reasoning_effort = Some []
            \/ reasoning_effort = Some (lit "off") ->
            an_thinking r = None /\ an_max_tokens r = 8192%Z) /\
           (reasoning_effort = Some (lit "low") ->
            an_thinking r = Some 2048%Z /\ an_max_tokens r = 10240%Z) /\
           (reasoning_effort = Some (lit "medium") ->
            an_thinking r = Some 8192%Z /\ an_max_tokens r = 16384%Z) /\
           (reasoning_effort = Some (lit "high") ->
            an_thinking r = Some 32768%Z /\ an_max_tokens r = 40960%Z) /\
           (forall e, reasoning_effort = Some e ->
                      e <> [] -> e <> lit "off" -> e <> lit "low" ->
                      e <> lit "medium" -> e <> lit "high" ->
                      an_thinking r = Some 8192%Z /\ an_max_tokens r = 16384%Z))
      ext.
Proof.
  assert (H : sends (anthropic_figures system_prompt reasoning_effort)
                (S MAX_TOOL_ROUNDS)
                (_query_anthropic model messages system_prompt tools
                                  reasoning_effort)).
  { unfold _query_anthropic.
    apply (sends_bind _ 0 _); [apply sends_silent, silent_ask|]. intros e.
    destruct (negb (anthropic_client e)); [apply sends_silent, silent_ret|].
    apply sends_try_except; [|intros; apply silent_ret].
    apply sends_an_tool_loop. intros msgs ts.
    apply anthropic_kwargs_figures. }
  destruct (H env log) as (ext & E & _ & F). exists ext. split; [exact E | exact F].
Qed.

(** *** What a response records of its tool calls *)

Definition records (R : ModelResponse) : list ToolCallRecord :=
  match resp_tool_calls R with Some l => l | None => [] end.

Definition short (c : ToolCallRecord) : Prop := length (tool_result c) <= 2000.

Lemma records_response_of (text : str) (calls : list ToolCallRecord)
  (u : option token_counts) :
  records (response_of text calls u) = calls.
Proof. destruct calls; reflexivity. Qed.

Lemma bind_ok {A B : Type} (m : M A) (k : A -> M B) (env : Env)
  (log log' : list Request) (b : B) :
  bind m k env log = (Ok b, log') ->
  exists a log1, m env log = (Ok a, log1) /\ k a env log1 = (Ok b, log').
Proof.
  unfold bind. destruct (m env log) as [[a|e] log1]; [|discriminate].
  intros H. now exists a, log1.
Qed.

Lemma foldM_invariant {A S : Type} (I : S -> Prop) (f : S -> A -> M S) :
  (forall s a env log s' log', f s a env log = (Ok s', log') -> I s -> I s') ->
  forall l s env log s' log',
    foldM f l s env log = (Ok s', log') -> I s -> I s'.
Proof.
  intros Hf. induction l as [|a l IH]; intros s env log s' log' H Hs; simpl in H.
  - injection H as <- _. exact Hs.
  - apply bind_ok in H as (s1 & log1 & H1 & H2).
    eapply IH; [exact H2|]. eapply Hf; eassumption.
Qed.

Lemma short_snoc (calls : list ToolCallRecord) (n : str) (a : json) (r : str) :
  Forall short calls ->
  Forall short (calls ++ [{| tool := n; args := a; tool_result := firstn 2000 r |}]).
Proof.
  intros H. apply Forall_app. split; [exact H|].
  constructor; [|constructor]. unfold short. cbn [tool_result]. apply firstn_le_length.
Qed.

Lemma short_oa_process (tool_map : dict ToolDefinition)
  (st st' : list oa_turn * list ToolCallRecord) (tc : oa_tool_call)
  (env : Env) (log log' : list Request) :
  oa_process_tool_call tool_map st tc env log = (Ok st', log') ->
  Forall short (snd st) -> Forall short (snd st').
Proof.
  unfold oa_process_tool_call. destruct st as [fm atc]. intros H Hs.
  apply bind_ok in H as (e & l1 & _ & H).
  apply bind_ok in H as (a & l2 & _ & H).
  apply bind_ok in H as (r & l3 & _ & H).
  injection H as <- _. now apply short_snoc.
Qed.

Lemma short_an_process (tool_map : dict ToolDefinition)
  (st st' : list (str * str) * list ToolCallRecord) (b : an_block)
  (env : Env) (log log' : list Request) :
  an_process_block tool_map st b env log = (Ok st', log') ->
  Forall short (snd st) -> Forall short (snd st').
Proof.
  unfold an_process_block. destruct st as [tr atc]. intros H Hs.
  apply bind_ok in H as (r & l3 & _ & H).
  injection H as <- _. now apply short_snoc.
Qed.

Lemma short_g_process (tool_map : dict ToolDefinition)
  (st st' : list (str * str) * list ToolCallRecord) (fc : g_function_call)
  (env : Env) (log log' : list Request) :
  g_process_call tool_map st fc env log = (Ok st', log') ->
  Forall short (snd st) -> Forall short (snd st').
Proof.
  unfold g_process_call. destruct st as [fr atc]. intros H Hs.
  apply bind_ok in H as (r & l3 & _ & H).
  injection H as <- _. now apply short_snoc.
Qed.

(** A computation whose response, if any, records short results only. *)
Definition keeps_short (m : M (option ModelResponse)) : Prop :=
  forall env log R log', m env log = (Ok (Some R), log') -> Forall short (records R).

Lemma keeps_short_oa_tool_loop (rounds : nat) (model : str)
  (openai_tools : option (list tool_schema)) (openai_reasoning : option str)
  (tool_map : dict ToolDefinition) :
  forall full_messages all_tool_calls,
    Forall short all_tool_calls ->
    keeps_short (oa_tool_loop rounds model openai_tools openai_reasoning tool_map
                              full_messages all_tool_calls).
Proof.
  induction rounds as [|rounds IH]; intros fm atc Hs env log R log' H;
    cbn [oa_tool_loop] in H.
  - apply bind_ok in H as (resp & l1 & _ & H).
    apply bind_ok in H as (choice & l2 & _ & H).
    injection H as <- _. now rewrite records_response_of.
  - apply bind_ok in H as (resp & l1 & _ & H).
    apply bind_ok in H as (choice & l2 & _ & H).
    destruct (oa_msg_tool_calls choice) as [|tc tcs].
    + injection H as <- _. now rewrite records_response_of.
    + apply bind_ok in H as (st & l3 & Hf & H).
      eapply IH; [|exact H].
      eapply (foldM_invariant (fun s => Forall short (snd s))); [|exact Hf|exact Hs].
      intros. eapply short_oa_process; eassumption.
Qed.

Lemma keeps_short_an_tool_loop (rounds : nat) (tool_map : dict ToolDefinition) :
  forall kwargs all_tool_calls,
    Forall short all_tool_calls ->
    keeps_short (an_tool_loop rounds kwargs tool_map all_tool_calls).
Proof.
  induction rounds as [|rounds IH]; intros kwargs atc Hs env log R log' H;
    cbn [an_tool_loop] in H.
  - apply bind_ok in H as (resp & l1 & _ & H).
    injection H as <- _. now rewrite records_response_of.
  - apply bind_ok in H as (resp & l1 & _ & H).
    destruct (filter _ (an_resp_content resp)) as [|b bs].
    + injection H as <- _. now rewrite records_response_of.
    + apply bind_ok in H as (st & l3 & Hf & H).
      eapply IH; [|exact H].
      eapply (foldM_invariant (fun s => Forall short (snd s))); [|exact Hf|exact Hs].
      intros. eapply short_an_process; eassumption.
Qed.

Lemma keeps_short_g_tool_loop (rounds : nat) (model : str)
  (google_tools : option (list tool_schema)) (tool_map : dict ToolDefinition) :
  forall config google_contents all_tool_calls,
    Forall short all_tool_calls ->
    keeps_short (g_tool_loop rounds model google_tools tool_map config google_contents
                             all_tool_calls).
Proof.
  induction rounds as [|rounds IH]; intros config gc atc Hs env log R log' H;
    cbn [g_tool_loop] in H.
  - apply bind_ok in H as (resp & l1 & _ & H).
    injection H as <- _. now rewrite records_response_of.
  - destruct (g_round_config config google_tools) as [sent config'].
    apply bind_ok in H as (resp & l1 & _ & H).
    apply bind_ok in H as (parts & l2 & _ & H).
    destruct (g_function_calls parts) as [|fc fcs].
    + injection H as <- _. now rewrite records_response_of.
    + apply bind_ok in H as (st & l3 & Hf & H).
      eapply IH; [|exact H].
      eapply (foldM_invariant (fun s => Forall short (snd s))); [|exact Hf|exact Hs].
      intros. eapply short_g_process; eassumption.
Qed.

Lemma keeps_short_guarded (guard : Env -> bool) (body : Env -> M (option ModelResponse)) :
  (forall e, keeps_short (body e)) ->
  keeps_short (wait_for_or_none
                 (bind ask (fun e => if negb (guard e) then ret None
                                     else try_except (body e) (fun _ => ret None)))).
Proof.
  intros Hb env log R log' H.
  unfold wait_for_or_none, bind, ask, try_except, ret in H.
  destruct (negb (guard env)); [discriminate|].
  destruct (body env env log) as [[a|[cls msg|]] l1] eqn:Eb; try discriminate.
  injection H as -> ->. eapply Hb. exact Eb.
Qed.

Lemma query_model_keeps_short (model : str) (messages : list Message)
  (system_prompt : option str) (timeout : Z)
  (tools : option (list ToolDefinition)) (reasoning_effort : option str) :
  keeps_short (query_model model messages system_prompt timeout tools reasoning_effort).
Proof.
  intros env log R log' H. rewrite query_model_cases in H.
  destruct (refusal env model tools); [discriminate|].
  revert env log R log' H.
  unfold query_model_after_tools. destruct (get_provider model).
  - unfold _query_anthropic.
    apply (keeps_short_guarded anthropic_client
             (fun _ => an_tool_loop MAX_TOOL_ROUNDS _ _ [])).
    intros e. apply keeps_short_an_tool_loop. constructor.
  - unfold google_after_tools.
    apply (keeps_short_guarded google_client
             (fun _ => g_tool_loop MAX_TOOL_ROUNDS model _ _ _ _ [])).
    intros e. apply keeps_short_g_tool_loop. constructor.
  - unfold _query_openai.
    apply (keeps_short_guarded openai_client
             (fun _ => oa_tool_loop MAX_TOOL_ROUNDS model _ _ _ _ [])).
    intros e. apply keeps_short_oa_tool_loop. constructor.
Qed.

(** Every tool call that a response of [query_model] records carries at
    most 2000 characters of the tool's result. *)
Theorem query_model_records_are_short (model : str) (messages : list Message)
  (system_prompt : option str) (timeout : Z)
  (tools : option (list ToolDefinition)) (reasoning_effort : option str)
  (env : Env) (log log' : list Request) (R : ModelResponse) :
  query_model model messages system_prompt timeout tools reasoning_effort env log
  = (Ok (Some R), log') ->
  forall c, In c (records R) -> length (tool_result c) <= 2000.
Proof.
  intros H. apply Forall_forall.
  exact (query_model_keeps_short model messages system_prompt timeout tools
           reasoning_effort env log R log' H).
Qed.

End AdapterFacts.

(** ** The first reply, and the Google loop *)

Module ReplyFacts.

Import EffectFacts ToolLoopFacts AdapterFacts.

Lemma query_model_records_are_short_witness :
  exists R log',
    query_model (lit "gpt-4.1") sample_messages None 120 (Some [sample_tool]) None
                tool_hungry_env [] = (Ok (Some R), log') /\
    length (records R) = 5 /\
    forall c, In c (records R) -> length (tool_result c) <= 2000.
Proof.
  eexists. eexists. split; [vm_compute; reflexivity|].
  split; [vm_compute; reflexivity|].
  eapply (query_model_records_are_short (lit "gpt-4.1") sample_messages None 120
            (Some [sample_tool]) None tool_hungry_env []).
  vm_compute. reflexivity.
Defined.

(** Does the reply to a request ask for a tool, as each adapter reads it? *)
Definition reply_asks_tool (env : Env) (pre : list Request) (req : Request) : bool :=
  match req with
  | ReqOpenAI r =>
      match openai_create env pre r with
      | Ok resp =>
          match oa_choices resp with
          | c :: _ => match oa_msg_tool_calls c with [] => false | _ :: _ => true end
          | [] => false
          end
      | Raise _ => false
      end
  | ReqAnthropic r =>
      match anthropic_create env pre r with
      | Ok resp =>
          match filter (an_is (lit "tool_use")) (an_resp_content resp) with
          | [] => false
          | _ :: _ => true
          end
      | Raise _ => false
      end
  | ReqGoogle r =>
      match google_generate_content env pre r with
      | Ok resp =>
          match g_parts_of resp with
          | Some parts =>
              match g_function_calls parts with [] => false | _ :: _ => true end
          | None => false
          end
      | Raise _ => false
      end
  end.

(** Can the adapter go through the reply?  Only the Google adapter
    cannot, when the first candidate has a content without a list of
    parts. *)
Definition reply_unreadable (env : Env) (pre : list Request) (req : Request) : bool :=
  match req with
  | ReqGoogle r =>
      match google_generate_content env pre r with
      | Ok resp => match g_parts_of resp with Some _ => false | None => true end
      | Raise _ => false
      end
  | _ => false
  end.

(** The token counts that the reply to a request carries. *)
Definition reply_usage (env : Env) (pre : list Request) (req : Request) : dict Z :=
  match req with
  | ReqOpenAI r =>
      match openai_create env pre r with
      | Ok resp => _extract_usage (oa_usage resp)
      | Raise _ => _extract_usage None
      end
  | ReqAnthropic r =>
      match anthropic_create env pre r with
      | Ok resp => _extract_usage (an_usage resp)
      | Raise _ => _extract_usage None
      end
  | ReqGoogle r =>
      match google_generate_content env pre r with
      | Ok resp => _extract_usage (g_usage_metadata resp)
      | Raise _ => _extract_usage None
      end
  end.

(** What a call returns when the reply to its first request asks for no
    tool: the reply's text and token counts, or [None] without a reply or
    with one that the adapter cannot go through. *)
Definition plain_response (env : Env) (pre : list Request) (req : Request)
  : option ModelResponse :=
  if reply_unreadable env pre req then None
  else option_map (fun text => {| resp_content := text; resp_tool_calls := None;
                                  resp_usage := reply_usage env pre req |})
                  (reply_text env pre req).

(** The first round of a loop: the request [req] goes out; when its
    reply asks for no tool nothing else is sent. *)
Definition first_round (env : Env) (log : list Request) (req : Request)
  (out : result (option ModelResponse) * list Request) : Prop :=
  exists ext,
    snd out = log ++ req :: ext /\
    (reply_asks_tool env log req = false ->
     ext = [] /\
     match plain_response env log req with
     | Some R => fst out = Ok (Some R)
     | None => exists e, fst out = Raise e
     end).

Lemma tracks_snd {A : Type} (m : M A) (env : Env) (log : list Request) (req : Request) :
  tracks m -> exists ext, snd (m env (log ++ [req])) = log ++ req :: ext.
Proof.
  intros H. destruct (H env (log ++ [req])) as (ext & E & _).
  exists ext. rewrite E, <- app_assoc. reflexivity.
Qed.

Lemma oa_first_round (rounds : nat) (model : str)
  (openai_tools : option (list tool_schema)) (openai_reasoning : option str)
  (tool_map : dict ToolDefinition) (full_messages : list oa_turn)
  (env : Env) (log : list Request) :
  first_round env log
    (ReqOpenAI {| oa_model := model; oa_messages := full_messages;
                  oa_tools := openai_tools; oa_reasoning_effort := openai_reasoning |})
    (oa_tool_loop (S rounds) model openai_tools openai_reasoning tool_map
                  full_messages [] env log).
Proof.
  unfold first_round, plain_response.
  cbn [reply_asks_tool reply_text reply_usage reply_unreadable].
  destruct (oa_tool_loop (S rounds) _ _ _ _ _ _ env log) as [o l] eqn:E.
  revert E. cbn [oa_tool_loop fst snd]. unfold bind at 1, chat_completions_create.
  destruct (openai_create env log _) as [resp|e].
  - unfold bind at 1, first_item.
    destruct (oa_choices resp) as [|choice rest].
    + intros [= <- <-]. exists []. split; [reflexivity|]. intros _.
      split; [reflexivity|]. cbn [option_map]. eexists. reflexivity.
    + unfold ret at 1. destruct (oa_msg_tool_calls choice) as [|tc tcs].
      * intros [= <- <-]. exists []. split; [reflexivity|]. intros _.
        split; reflexivity.
      * intros E.
        match type of E with bind ?m ?k env (log ++ [?req]) = _ =>
          destruct (tracks_snd (bind m k) env log req) as [ext Ee]
        end.
        { apply tracks_bind.
          - apply tracks_foldM. intros. apply tracks_oa_process.
          - intros st. apply tracks_oa_tool_loop. }
        rewrite E in Ee. exists ext. split; [exact Ee | discriminate].
  - intros [= <- <-]. exists []. split; [reflexivity|]. intros _.
    split; [reflexivity|]. cbn [option_map]. eexists. reflexivity.
Qed.

Lemma an_first_round (rounds : nat) (kwargs : an_request)
  (tool_map : dict ToolDefinition) (env : Env) (log : list Request) :
  first_round env log (ReqAnthropic kwargs)
    (an_tool_loop (S rounds) kwargs tool_map [] env log).
Proof.
  unfold first_round, plain_response.
  cbn [reply_asks_tool reply_text reply_usage reply_unreadable].
  destruct (an_tool_loop (S rounds) _ _ _ env log) as [o l] eqn:E.
  revert E. cbn [an_tool_loop fst snd]. unfold bind at 1, messages_create.
  destruct (anthropic_create env log kwargs) as [resp|e].
  - destruct (filter (an_is (lit "tool_use")) (an_resp_content resp)) as [|b bs].
    + intros [= <- <-]. exists []. split; [reflexivity|]. intros _.
      split; reflexivity.
    + intros E.
      match type of E with bind ?m ?k env (log ++ [?req]) = _ =>
        destruct (tracks_snd (bind m k) env log req) as [ext Ee]
      end.
      { apply tracks_bind.
        - apply tracks_foldM. intros. apply tracks_an_process.
        - intros st. apply tracks_an_tool_loop. }
      rewrite E in Ee. exists ext. split; [exact Ee | discriminate].
  - intros [= <- <-]. exists []. split; [reflexivity|]. intros _.
    split; [reflexivity|]. cbn [option_map]. eexists. reflexivity.
Qed.

Lemma g_first_round (rounds : nat) (model : str)
  (google_tools : option (list tool_schema)) (tool_map : dict ToolDefinition)
  (config : g_config) (google_contents : list g_turn)
  (env : Env) (log : list Request) :
  first_round env log
    (ReqGoogle {| g_model := model; g_contents := google_contents;
                  g_cfg := fst (g_round_config config google_tools) |})
    (g_tool_loop (S rounds) model google_tools tool_map config google_contents []
                 env log).
Proof.
  unfold first_round, plain_response.
  cbn [reply_asks_tool reply_text reply_usage reply_unreadable].
  destruct (g_tool_loop (S rounds) _ _ _ _ _ _ env log) as [o l] eqn:E.
  revert E. cbn [g_tool_loop fst snd].
  destruct (g_round_config config google_tools) as [sent config']. cbn [fst].
  unfold bind at 1, generate_content.
  destruct (google_generate_content env log _) as [resp|e].
  - unfold bind at 1. rewrite g_first_parts_spec.
    destruct (g_parts_of resp) as [parts|].
    2: { intros [= <- <-]. exists []. split; [reflexivity|]. intros _.
         split; [reflexivity|]. eexists. reflexivity. }
    destruct (g_function_calls parts) as [|fc fcs].
    + intros [= <- <-]. exists []. split; [reflexivity|]. intros _.
      split; reflexivity.
    + intros E.
      match type of E with bind ?m ?k env (log ++ [?req]) = _ =>
        destruct (tracks_snd (bind m k) env log req) as [ext Ee]
      end.
      { apply tracks_bind.
        - apply tracks_foldM. intros. apply tracks_g_process.
        - intros st. apply tracks_g_tool_loop. }
      rewrite E in Ee. exists ext. split; [exact Ee | discriminate].
  - intros [= <- <-]. exists []. split; [reflexivity|]. intros _.
    split; [reflexivity|]. cbn [option_map]. eexists. reflexivity.
Qed.

(** The adapter around a first round: what the body raises becomes [None]. *)
Lemma first_round_guarded (env : Env) (log : list Request) (req : Request)
  (body : M (option ModelResponse)) :
  first_round env log req (body env log) ->
  exists ext response,
    wait_for_or_none (try_except body (fun _ => ret None)) env log
    = (Ok response, log ++ req :: ext) /\
    (reply_asks_tool env log req = false ->
     ext = [] /\ response = plain_response env log req).
Proof.
  intros (ext & E & H). unfold wait_for_or_none, try_except, ret.
  destruct (body env log) as [[a|[cls msg|]] l1]; simpl in E; subst l1.
  - exists ext, a. split; [reflexivity|]. intros Ha. destruct (H Ha) as [-> Hr].
    split; [reflexivity|].
    destruct (plain_response env log req) as [R|].
    + simpl in Hr. now injection Hr as ->.
    + destruct Hr as [e He]. discriminate He.
  - exists ext, None. split; [reflexivity|]. intros Ha. destruct (H Ha) as [-> Hr].
    split; [reflexivity|].
    destruct (plain_response env log req) as [R|]; [discriminate Hr | reflexivity].
  - exists ext, None. split; [reflexivity|]. intros Ha. destruct (H Ha) as [-> Hr].
    split; [reflexivity|].
    destruct (plain_response env log req) as [R|]; [discriminate Hr | reflexivity].
Qed.

Lemma build_tool_schemas_some (tools : option (list ToolDefinition)) :
  match build_tool_schemas tools with Some _ => true | None => false end = truthy tools.
Proof. destruct tools as [[|t ts]|]; reflexivity. Qed.

(** With the provider's client configured, [query_model] sends a first
    request to the model's provider, carrying the tool schemas exactly
    when the list of tools is non-empty.  When the reply to it asks for
    no tool, the call ends there: no other request is sent, and the
    response is the reply's text with its token counts and no tool call -
    or [None] when the request failed or brought nothing to read. *)
Theorem query_model_plain_reply (model : str) (messages : list Message)
  (system_prompt : option str) (timeout : Z)
  (tools : option (list ToolDefinition)) (reasoning_effort : option str)
  (env : Env) (log : list Request) :
  client_of env (get_provider model) = true ->
  (get_provider model = google -> sdk_accepts env tools) ->
  exists req ext response,
    query_model model messages system_prompt timeout tools reasoning_effort env log
    = (Ok response, log ++ req :: ext) /\
    provider_of req = get_provider model /\
    request_has_tools req = truthy tools /\
    (reply_asks_tool env log req = false ->
     ext = [] /\ response = plain_response env log req).
Proof.
  intros Hc Ha. rewrite query_model_cases, (accepted_no_refusal _ _ _ Ha).
  clear Ha. unfold query_model_after_tools.
  destruct (get_provider model); cbn [client_of] in Hc.
  - unfold _query_anthropic, wait_for_or_none at 1, bind at 1, ask.
    rewrite Hc. cbn [negb].
    match goal with |- context [an_tool_loop _ ?k ?m _] =>
      destruct (first_round_guarded env log (ReqAnthropic k)
                  (an_tool_loop MAX_TOOL_ROUNDS k m [])
                  (an_first_round _ k m env log)) as (ext & response & E & H);
      exists (ReqAnthropic k), ext, response
    end.
    unfold wait_for_or_none in E. rewrite E.
    split; [reflexivity|]. split; [reflexivity|]. split; [|exact H].
    cbn [request_has_tools an_tools]. apply build_tool_schemas_some.
  - unfold google_after_tools, wait_for_or_none at 1, bind at 1, ask.
    rewrite Hc. cbn [negb].
    match goal with |- context [g_tool_loop _ _ ?gt ?m ?c ?gc _] =>
      destruct (first_round_guarded env log
                  (ReqGoogle {| g_model := model; g_contents := gc;
                                g_cfg := fst (g_round_config c gt) |})
                  (g_tool_loop MAX_TOOL_ROUNDS model gt m c gc [])
                  (g_first_round _ model gt m c gc env log)) as (ext & response & E & H);
      exists (ReqGoogle {| g_model := model; g_contents := gc;
                           g_cfg := fst (g_round_config c gt) |}), ext, response
    end.
    unfold wait_for_or_none in E. rewrite E.
    split; [reflexivity|]. split; [reflexivity|]. split; [|exact H].
    cbn [request_has_tools g_cfg].
    destruct tools as [[|t ts]|]; cbn [build_tool_schemas truthy g_round_config fst];
      unfold g_config_or_none;
      match goal with |- context [g_config_nonempty ?c] =>
        destruct (g_config_nonempty c); reflexivity
      end.
  - unfold _query_openai, wait_for_or_none at 1, bind at 1, ask.
    rewrite Hc. cbn [negb].
    match goal with |- context [oa_tool_loop _ _ ?ot ?r ?m ?fm _] =>
      destruct (first_round_guarded env log
                  (ReqOpenAI {| oa_model := model; oa_messages := fm;
                                oa_tools := ot; oa_reasoning_effort := r |})
                  (oa_tool_loop MAX_TOOL_ROUNDS model ot r m fm [])
                  (oa_first_round _ model ot r m fm env log)) as (ext & response & E & H);
      exists (ReqOpenAI {| oa_model := model; oa_messages := fm;
                           oa_tools := ot; oa_reasoning_effort := r |}), ext, response
    end.
    unfold wait_for_or_none in E. rewrite E.
    split; [reflexivity|]. split; [reflexivity|]. split; [|exact H].
    cbn [request_has_tools oa_tools]. apply build_tool_schemas_some.
Qed.

(** A provider whose replies are plain text. *)
Definition plain_env : Env :=
  {| openai_client := true; anthropic_client := true; google_client := true;
     openai_create := fun _ _ =>
       Ok {| oa_choices := [{| oa_msg_content := Some (lit "4");
                               oa_msg_tool_calls := [] |}];
             oa_usage := Some {| tokens_in := Some 12%Z; tokens_out := Some 1%Z |} |};
     anthropic_create := fun _ _ =>
       Ok {| an_resp_content := [{| an_type := lit "text"; an_text := lit "4";
                                    an_id := []; an_name := []; an_input := [] |}];
             an_usage := Some {| tokens_in := Some 12%Z; tokens_out := Some 1%Z |} |};
     google_generate_content := fun _ _ =>
       Ok {| g_candidates :=
               [{| cand_content :=
                     Some {| content_parts :=
                               Some [{| part_text := Some (lit "4");
                                        part_function_call := None |}] |} |}];
             g_text := Some (lit "4");
             g_usage_metadata := Some {| tokens_in := Some 12%Z; tokens_out := Some 1%Z |} |};
     function_declaration_error := fun _ => None;
     json_loads := fun s => Ok s;
     TOOL_REGISTRY := [] |}.

Lemma query_model_plain_reply_witness :
  exists req ext response,
    query_model (lit "gemini-2.5-pro") sample_messages None 120 (Some [sample_tool])
                None plain_env []
    = (Ok response, [] ++ req :: ext) /\
    provider_of req = get_provider (lit "gemini-2.5-pro") /\
    request_has_tools req = truthy (Some [sample_tool]) /\
    (reply_asks_tool plain_env [] req = false ->
     ext = [] /\ response = plain_response plain_env [] req).
Proof.
  apply (query_model_plain_reply (lit "gemini-2.5-pro") sample_messages None 120
           (Some [sample_tool]) None plain_env []).
  - reflexivity.
  - intros _ ts t _ _. reflexivity.
Defined.

(** A reply of the Google provider whose content has no list of parts:
    going through the parts fails inside the [try], and the call returns
    [None] after its one request. *)
Definition no_parts_env : Env :=
  {| openai_client := true; anthropic_client := true; google_client := true;
     openai_create := openai_create plain_env;
     anthropic_create := anthropic_create plain_env;
     google_generate_content := fun _ _ =>
       Ok {| g_candidates := [{| cand_content := Some {| content_parts := None |} |}];
             g_text := None; g_usage_metadata := None |};
     function_declaration_error := fun _ => None;
     json_loads := fun s => Ok s;
     TOOL_REGISTRY := [] |}.

Example google_content_without_parts :
  fst (query_model (lit "gemini-2.5-pro") sample_messages None 120 None None
                   no_parts_env []) = Ok None /\
  length (snd (query_model (lit "gemini-2.5-pro") sample_messages None 120 None None
                           no_parts_env [])) = 1.
Proof. split; vm_compute; reflexivity. Qed.

(** *** The Google loop with tools *)

(** Every reply of the Google provider asks for a function call. *)
Definition always_function_call (env : Env) : Prop :=
  forall pre r, exists resp parts fc fcs,
    google_generate_content env pre r = Ok resp /\
    g_parts_of resp = Some parts /\
    g_function_calls parts = fc :: fcs.

(** Does the request after the loop carry tools, for a loop of [rounds]
    passes started with the configuration [config]? *)
Definition final_tools (rounds : nat) (config : g_config) : bool :=
  match rounds with
  | O => match g_tools config with Some _ => true | None => false end
  | S _ => g_config_nonempty config
  end.

Section AlwaysFunctionCall.

Variable env : Env.
Variable tool_map : dict ToolDefinition.
Hypothesis Hreply : always_function_call env.
Hypothesis Hmap : tool_map <> [].
Hypothesis Htools : forall n t, dict_get tool_map n = Some t -> not_cancelled t.

Lemma g_process_ok (st : list (str * str) * list ToolCallRecord) (fc : g_function_call)
  (log : list Request) :
  exists st', g_process_call tool_map st fc env log = (Ok st', log).
Proof.
  unfold g_process_call. destruct st as [fr atc]. unfold bind.
  match goal with |- context [execute_tool ?n ?a tool_map env log] =>
    destruct (execute_tool_ok tool_map n a env log Hmap Htools) as [r ->]
  end.
  eexists. reflexivity.
Qed.

Lemma final_tools_round (rounds : nat) (config : g_config) (ts : list tool_schema) :
  final_tools rounds (snd (g_round_config config (Some ts))) = g_config_nonempty config.
Proof.
  unfold g_round_config, g_config_or_none.
  destruct (g_config_nonempty config) eqn:E; cbn [snd].
  - destruct rounds; cbn [final_tools]; [reflexivity|].
    unfold g_config_nonempty, g_with_tools. cbn [g_system_instruction g_thinking_budget g_tools].
    destruct (g_system_instruction config), (g_thinking_budget config); reflexivity.
  - destruct rounds; cbn [final_tools]; [|exact E].
    unfold g_config_nonempty in E.
    destruct (g_system_instruction config), (g_thinking_budget config), (g_tools config);
      try discriminate E; reflexivity.
Qed.

Lemma g_tool_loop_always (model : str) (schemas : list tool_schema) (rounds : nat) :
  forall config gc atc log,
  exists R reqs last,
    g_tool_loop rounds model (Some schemas) tool_map config gc atc env log
    = (Ok (Some R), log ++ reqs ++ [last]) /\
    map request_has_tools reqs = repeat true rounds /\
    request_has_tools last = final_tools rounds config /\
    reply_text env (log ++ reqs) last = Some (resp_content R).
Proof.
  induction rounds as [|rounds IH]; intros config gc atc log; cbn [g_tool_loop].
  - unfold bind, generate_content, ret.
    match goal with |- context [google_generate_content env log ?r] =>
      destruct (Hreply log r) as (resp & parts & fc & fcs & E1 & E2 & E3);
      rewrite E1;
      exists (response_of (g_text_or_empty resp) atc (g_usage_metadata resp)), [],
             (ReqGoogle r)
    end.
    cbn [app map repeat]. rewrite app_nil_r. split; [reflexivity|].
    split; [reflexivity|]. split.
    + cbn [request_has_tools g_cfg final_tools]. unfold g_config_or_none.
      destruct (g_config_nonempty config) eqn:En; [reflexivity|].
      unfold g_config_nonempty in En.
      destruct (g_system_instruction config), (g_thinking_budget config),
        (g_tools config); try discriminate En; reflexivity.
    + cbn [reply_text]. now rewrite E1.
  - pose proof (final_tools_round rounds config schemas) as Hf.
    assert (Hs : match fst (g_round_config config (Some schemas)) with
                 | Some c => match g_tools c with Some _ => true | None => false end
                 | None => false
                 end = true).
    { unfold g_round_config. destruct (g_config_or_none config); reflexivity. }
    destruct (g_round_config config (Some schemas)) as [sent config'].
    cbn [fst snd] in Hf, Hs.
    unfold bind at 1, generate_content.
    match goal with |- context [google_generate_content env log ?r] =>
      destruct (Hreply log r) as (resp & parts & fc & fcs & E1 & E2 & E3);
      rewrite E1; set (req := r)
    end.
    unfold bind at 1. rewrite g_first_parts_spec, E2, E3. unfold bind at 1.
    destruct (foldM_ok (g_process_call tool_map) (fc :: fcs) env
                (fun s a l => g_process_ok s a l)
                ([], atc) (log ++ [ReqGoogle req]))
      as [st ->].
    match goal with |- context [g_tool_loop rounds _ _ _ _ ?gc' (snd st)] =>
      destruct (IH config' gc' (snd st) (log ++ [ReqGoogle req]))
        as (R & reqs & last & E & Ht & Hl & Hr)
    end.
    exists R, (ReqGoogle req :: reqs), last. rewrite E.
    split; [now rewrite <- app_assoc|]. split; [|split].
    + cbn [map repeat]. rewrite Ht. f_equal. exact Hs.
    + rewrite Hl. exact Hf.
    + rewrite <- Hr. f_equal. now rewrite <- app_assoc.
Qed.

End AlwaysFunctionCall.

(** Take a call with a non-empty list of tools to a model of the Google
    family, whose client is configured, where every reply asks for a
    function call and no tool is cancelled.  The loop sends five requests
    that carry the tools and then a sixth one, whose reply's text is
    returned.  The sixth request carries the tools too exactly when the
    call has a system prompt or a thinking budget: the tools are written
    into the adapter's own configuration unless that one is empty. *)
Theorem google_loop_final_request (model : str) (messages : list Message)
  (system_prompt : option str) (timeout : Z)
  (t : ToolDefinition) (ts : list ToolDefinition) (reasoning_effort : option str)
  (env : Env) (log : list Request) :
  get_provider model = google ->
  google_client env = true ->
  sdk_accepts env (Some (t :: ts)) ->
  always_function_call env ->
  Forall not_cancelled (t :: ts) ->
  exists R reqs last,
    query_model model messages system_prompt timeout (Some (t :: ts))
                reasoning_effort env log
    = (Ok (Some R), log ++ reqs ++ [last]) /\
    map request_has_tools reqs = [true; true; true; true; true] /\
    request_has_tools last
    = (truthy system_prompt
       || match effort_on reasoning_effort with
          | Some _ => contains (lit "2.5") model || contains (lit "3") model
          | None => false
          end) /\
    reply_text env (log ++ reqs) last = Some (resp_content R).
Proof.
  intros Hp Hc Ha Hreply Hcancel.
  assert (Hmap : build_tool_map (Some (t :: ts)) <> [])
    by apply build_tool_map_nonempty.
  assert (Htools : forall n t', dict_get (build_tool_map (Some (t :: ts))) n = Some t' ->
                                not_cancelled t').
  { intros n t' H. apply build_tool_map_in in H.
    rewrite Forall_forall in Hcancel. now apply Hcancel. }
  rewrite query_model_cases, (accepted_no_refusal _ _ _ (fun _ => Ha)).
  unfold query_model_after_tools, wait_for_or_none. rewrite Hp.
  unfold google_after_tools, bind at 1, ask. rewrite Hc. cbn [negb].
  unfold try_except.
  change (build_tool_schemas (Some (t :: ts))) with (Some (map schema_of (t :: ts))).
  cbn [truthy].
  match goal with |- context [g_tool_loop _ _ _ ?m ?c ?gc _ env log] =>
    destruct (g_tool_loop_always env m Hreply Hmap Htools model
                (map schema_of (t :: ts)) MAX_TOOL_ROUNDS c gc [] log)
      as (R & reqs & last & E & Ht & Hl & Hr)
  end.
  rewrite E. exists R, reqs, last.
  split; [reflexivity|]. split; [exact Ht|]. split; [|exact Hr].
  rewrite Hl. cbn [final_tools MAX_TOOL_ROUNDS]. unfold g_config_nonempty.
  cbn [g_system_instruction g_thinking_budget g_tools].
  destruct system_prompt as [[|c p]|]; cbn [truthy orb];
    destruct (effort_on reasoning_effort) as [e|]; try reflexivity;
    destruct (contains (lit "2.5") model || contains (lit "3") model); reflexivity.
Qed.

Lemma tool_hungry_function_calls : always_function_call tool_hungry_env.
Proof. intros pre r. simpl. repeat eexists. Qed.

Lemma google_loop_final_request_witness :
  exists R reqs last,
    query_model (lit "gemini-2.5-pro") sample_messages (Some (lit "Be brief.")) 120
                (Some [sample_tool]) None tool_hungry_env []
    = (Ok (Some R), [] ++ reqs ++ [last]) /\
    map request_has_tools reqs = [true; true; true; true; true] /\
    request_has_tools last
    = (truthy (Some (lit "Be brief."))
       || match effort_on None with
          | Some _ => contains (lit "2.5") (lit "gemini-2.5-pro")
                      || contains (lit "3") (lit "gemini-2.5-pro")
          | None => false
          end) /\
    reply_text tool_hungry_env ([] ++ reqs) last = Some (resp_content R).
Proof.
  apply (google_loop_final_request (lit "gemini-2.5-pro") sample_messages
           (Some (lit "Be brief.")) 120 sample_tool [] None tool_hungry_env []).
  - reflexivity.
  - reflexivity.
  - intros ts t _ _. reflexivity.
  - exact tool_hungry_function_calls.
  - constructor; [|constructor]. intros a. discriminate.
Defined.

End ReplyFacts.

(** ** The tool registry *)

Module RegistryFacts.

Import EffectFacts ToolLoopFacts AggregatorFacts.

(** The dictionary in which [execute_tool] looks a name up: the given
    tool map, or the global registry when that map is empty. *)
Definition registry_of (env : Env) (tool_map : dict ToolDefinition)
  : dict ToolDefinition :=
  match tool_map with
  | [] => TOOL_REGISTRY env
  | _ :: _ => tool_map
  end.

(** [execute_tool] sends no request and lets no [Exception] out.  For a
    name that is not in the dictionary it returns the text
    "Error: Unknown tool '<name>'"; when the handler raises an exception
    it returns "Error executing tool '<name>': <message>"; when the
    handler returns [None] it returns the empty text. *)
Theorem execute_tool_reports_failures (tool_name : str) (arguments : json)
  (tool_map : dict ToolDefinition) (env : Env) (log : list Request) :
  exists out,
    execute_tool tool_name arguments tool_map env log = (out, log) /\
    (forall cls msg, out <> Raise (PyException cls msg)) /\
    (dict_get (registry_of env tool_map) tool_name = None ->
     out = Ok (lit "Error: Unknown tool '" ++ tool_name ++ lit "'")) /\
    (forall t cls msg,
        dict_get (registry_of env tool_map) tool_name = Some t ->
        handler t arguments = Raise (PyException cls msg) ->
        out = Ok (lit "Error executing tool '" ++ tool_name ++ lit "': " ++ msg)) /\
    (forall t,
        dict_get (registry_of env tool_map) tool_name = Some t ->
        handler t arguments = Ok None -> out = Ok []).
Proof.
  unfold execute_tool, bind, ask. fold (registry_of env tool_map).
  destruct (dict_get (registry_of env tool_map) tool_name) as [t|].
  - unfold try_except, bind, lift_result, ret.
    destruct (handler t arguments) as [[s|]|[cls msg|]] eqn:Eh;
      eexists; (split; [reflexivity|]);
      (split; [discriminate|]); (split; [discriminate|]);
      split; intros; first [reflexivity | congruence].
  - eexists. split; [reflexivity|]. split; [discriminate|].
    split; [reflexivity|]. split; discriminate.
Qed.

(** *** Registering and enabling *)

(** Every tool of the registry stands under its own name. *)
Definition well_keyed (registry : dict ToolDefinition) : Prop :=
  forall n t, dict_get registry n = Some t -> name t = n.

Lemma well_keyed_empty : well_keyed [].
Proof. intros n t H. discriminate H. Qed.

Lemma well_keyed_register (registry : dict ToolDefinition) (t : ToolDefinition) :
  well_keyed registry -> well_keyed (register_tool registry t).
Proof.
  intros Hw n t' H. unfold register_tool in H.
  destruct (list_eq_dec N.eq_dec (name t) n) as [E|E].
  - subst n. rewrite dict_get_set_eq in H. now injection H as <-.
  - rewrite dict_get_set_neq in H by exact E. now apply Hw.
Qed.

(** After [register_tool(tool)], [get_enabled_tools] answers the tool's
    name with that tool - also when another tool stood under the name -
    and every other name as before. *)
Theorem register_then_enable (registry : dict ToolDefinition) (t : ToolDefinition)
  (names : list str) :
  get_enabled_tools (register_tool registry t) names
  = flat_map (fun n => if str_eqb (name t) n then [t]
                       else get_enabled_tools registry [n]) names.
Proof.
  unfold get_enabled_tools, register_tool. apply flat_map_ext. intros n.
  destruct (str_eqb (name t) n) eqn:E.
  - apply str_eqb_eq in E. subst n. now rewrite dict_get_set_eq.
  - apply str_eqb_neq in E. rewrite dict_get_set_neq by exact E.
    cbn [flat_map]. now rewrite app_nil_r.
Qed.

Lemma enabled_tools_fold (registry : dict ToolDefinition) (n : str) :
  well_keyed registry ->
  forall names d,
    dict_get (fold_left (fun m t => dict_set m (name t) t)
                        (get_enabled_tools registry names) d) n
    = match dict_get registry n with
      | Some t => if existsb (str_eqb n) names then Some t else dict_get d n
      | None => dict_get d n
      end.
Proof.
  intros Hw. unfold get_enabled_tools.
  induction names as [|a names IH]; intros d; cbn [flat_map existsb].
  - cbn [fold_left]. now destruct (dict_get registry n).
  - rewrite fold_left_app, IH.
    destruct (dict_get registry a) as [ta|] eqn:Ea; cbn [fold_left].
    + rewrite (Hw a ta Ea).
      destruct (str_eqb n a) eqn:E.
      * apply str_eqb_eq in E. subst a. rewrite Ea. cbn [orb].
        rewrite dict_get_set_eq. now destruct (existsb (str_eqb n) names).
      * apply str_eqb_neq in E. cbn [orb].
        rewrite dict_get_set_neq by congruence. reflexivity.
    + destruct (str_eqb n a) eqn:E; [|reflexivity].
      apply str_eqb_eq in E. subst a. now rewrite Ea.
Qed.

(** In a registry filled by [register_tool], the tool map that an
    adapter builds from [get_enabled_tools(names)] holds the registered
    tool of every requested name, and nothing under any other name. *)
Theorem enabled_tool_map (registry : dict ToolDefinition) (names : list str)
  (n : str) :
  well_keyed registry ->
  dict_get (build_tool_map (Some (get_enabled_tools registry names))) n
  = if existsb (str_eqb n) names then dict_get registry n else None.
Proof.
  intros Hw. unfold build_tool_map. rewrite (enabled_tools_fold registry n Hw).
  cbn [dict_get]. destruct (dict_get registry n); [reflexivity|].
  now destruct (existsb (str_eqb n) names).
Qed.

Lemma enabled_tool_map_witness :
  dict_get (build_tool_map
              (Some (get_enabled_tools (register_tool [] sample_tool)
                                       [lit "web_search"; lit "calculator"])))
           (lit "calculator")
  = if existsb (str_eqb (lit "calculator")) [lit "web_search"; lit "calculator"]
    then dict_get (register_tool [] sample_tool) (lit "calculator")
    else None.
Proof.
  apply (enabled_tool_map (register_tool [] sample_tool)
           [lit "web_search"; lit "calculator"] (lit "calculator")).
  apply well_keyed_register, well_keyed_empty.
Defined.

(** A registered tool that the request did not enable.  When some other
    enabled tool exists, a call of it is refused as unknown.  When no
    requested name is registered the tool map is empty, [execute_tool]
    falls back to the global registry, and the tool runs. *)
Theorem execute_tool_not_enabled (names : list str) (n : str) (arguments : json)
  (t : ToolDefinition) (env : Env) (log : list Request) :
  well_keyed (TOOL_REGISTRY env) ->
  dict_get (TOOL_REGISTRY env) n = Some t ->
  existsb (str_eqb n) names = false ->
  match get_enabled_tools (TOOL_REGISTRY env) names with
  | _ :: _ =>
      execute_tool n arguments
        (build_tool_map (Some (get_enabled_tools (TOOL_REGISTRY env) names))) env log
      = (Ok (lit "Error: Unknown tool '" ++ n ++ lit "'"), log)
  | [] =>
      execute_tool n arguments
        (build_tool_map (Some (get_enabled_tools (TOOL_REGISTRY env) names))) env log
      = execute_tool n arguments (TOOL_REGISTRY env) env log /\
      forall s, handler t arguments = Ok (Some s) ->
                execute_tool n arguments
                  (build_tool_map (Some (get_enabled_tools (TOOL_REGISTRY env) names)))
                  env log
                = (Ok s, log)
  end.
Proof.
  intros Hw Ht Hn.
  pose proof (enabled_tool_map (TOOL_REGISTRY env) names n Hw) as Hm.
  rewrite Hn in Hm.
  destruct (get_enabled_tools (TOOL_REGISTRY env) names) as [|t0 ts] eqn:Ee.
  - cbn [build_tool_map fold_left]. split.
    + unfold execute_tool, bind, ask. now destruct (TOOL_REGISTRY env).
    + intros s Hs. unfold execute_tool, bind, ask. rewrite Ht.
      unfold try_except, lift_result, ret. now rewrite Hs.
  - pose proof (build_tool_map_nonempty t0 ts) as Hne.
    unfold execute_tool, bind, ask.
    destruct (build_tool_map (Some (t0 :: ts))) as [|kv tm] eqn:Eb; [congruence|].
    rewrite Hm. reflexivity.
Qed.

(** An environment whose registry holds the calculator. *)
Definition calculator_env : Env :=
  {| openai_client := true; anthropic_client := true; google_client := true;
     openai_create := openai_create tool_hungry_env;
     anthropic_create := anthropic_create tool_hungry_env;
     google_generate_content := google_generate_content tool_hungry_env;
     function_declaration_error := fun _ => None;
     json_loads := json_loads tool_hungry_env;
     TOOL_REGISTRY := register_tool [] sample_tool |}.

Lemma execute_tool_not_enabled_witness :
  get_enabled_tools (TOOL_REGISTRY calculator_env) [lit "web_search"] = [] /\
  execute_tool (lit "calculator") (lit "{}")
    (build_tool_map (Some (get_enabled_tools (TOOL_REGISTRY calculator_env)
                                             [lit "web_search"])))
    calculator_env []
  = (Ok (lit "4"), []).
Proof.
  split; [reflexivity|].
  exact (proj2 (execute_tool_not_enabled [lit "web_search"] (lit "calculator")
                  (lit "{}") sample_tool calculator_env []
                  (well_keyed_register [] sample_tool well_keyed_empty)
                  eq_refl eq_refl)
               (lit "4") eq_refl).
Defined.

End RegistryFacts.

(** ** Parallel queries, Stage 1 and Stage 2 *)

Module CouncilFacts.

Import EffectFacts ToolLoopFacts AggregatorFacts StageFacts LabelFacts.
Import ParserFacts RankingFacts AdapterFacts.

(** *** [gather] and [zip_dict] *)

Lemma sends_gather {A B : Type} (P : Request -> Prop) (n : nat) (f : A -> M B)
  (l : list A) :
  (forall a, sends P n (f a)) -> sends P (n * length l) (gather f l).
Proof.
  intros Hf. induction l as [|a l IH]; intros env log; cbn [gather length].
  - exists []. rewrite app_nil_r. repeat split; [simpl; lia | constructor].
  - destruct (Hf a env log) as (e1 & E1 & L1 & F1).
    destruct (f a env log) as [r log1]. simpl in E1. subst log1.
    destruct (IH env (log ++ e1)) as (e2 & E2 & L2 & F2).
    destruct (gather f l env (log ++ e1)) as [rs log2]. simpl in E2. subst log2.
    exists (e1 ++ e2). cbn [snd]. rewrite app_assoc, length_app, Nat.mul_succ_r.
    repeat split; [lia | now apply Forall_app].
Qed.

Lemma sends_any {A : Type} (P : Request -> Prop) (n : nat) (m : M A) :
  sends P n m -> sends (fun _ => True) n m.
Proof.
  intros H env log. destruct (H env log) as (ext & E & L & _).
  exists ext. repeat split; [exact E | exact L |].
  apply Forall_forall. intros; exact I.
Qed.

(** What [gather] returns comes, element by element, from a call of [f]. *)
Lemma gather_provenance {A B : Type} (f : A -> M B) (env : Env) (l : list A) :
  forall log rs log',
    gather f l env log = (Ok rs, log') ->
    Forall2 (fun a r => exists l1 l2, f a env l1 = (Ok r, l2)) l rs.
Proof.
  induction l as [|a l IH]; intros log rs log' H; cbn [gather] in H.
  - injection H as <- _. constructor.
  - destruct (f a env log) as [[b|e] l1] eqn:Ea;
      destruct (gather f l env l1) as [[bs|e'] l2] eqn:El; try discriminate H.
    injection H as <- _. constructor; [now exists log, l1 | eapply IH; exact El].
Qed.

(** When the tasks can raise one exception only, and one of them raises
    it whatever was sent before, [gather] raises it. *)
Lemma gather_raises {A B : Type} (f : A -> M B) (env : Env) (e0 : exn) (l : list A) :
  (forall a log e log', In a l -> f a env log = (Raise e, log') -> e = e0) ->
  (exists a, In a l /\ forall log, fst (f a env log) = Raise e0) ->
  forall log, fst (gather f l env log) = Raise e0.
Proof.
  induction l as [|a l IH]; intros Hone [x [Hx Hr]] log; [contradiction|].
  cbn [gather].
  destruct (f a env log) as [[b|e] l1] eqn:Ea.
  - destruct Hx as [<-|Hx]; [specialize (Hr log); rewrite Ea in Hr; discriminate Hr|].
    assert (Hl : fst (gather f l env l1) = Raise e0).
    { apply IH; [|now exists x].
      intros a' log' e log'' Hin. apply Hone. now right. }
    destruct (gather f l env l1) as [[bs|e'] l2]; simpl in Hl; [discriminate Hl|].
    cbn [fst]. exact Hl.
  - destruct (gather f l env l1) as [rs l2]. cbn [fst].
    f_equal. eapply Hone; [now left | exact Ea].
Qed.

Lemma Forall2_combine_in {A B : Type} (R : A -> B -> Prop) (l1 : list A) (l2 : list B) :
  Forall2 R l1 l2 -> forall a b, In (a, b) (combine l1 l2) -> R a b.
Proof.
  induction 1 as [|x y l1 l2 Hxy _ IH]; intros a b Hin; simpl in Hin; [contradiction|].
  destruct Hin as [[= <- <-]|Hin]; [exact Hxy | now apply IH].
Qed.

Lemma fold_dict_set_get {V : Type} (kvs : list (str * V)) (k : str) (v : V) :
  forall d,
    dict_get (fold_left (fun m kv => dict_set m (fst kv) (snd kv)) kvs d) k = Some v ->
    In (k, v) kvs \/ dict_get d k = Some v.
Proof.
  induction kvs as [|[k0 v0] kvs IH]; intros d H; simpl in H.
  - now right.
  - destruct (IH _ H) as [Hin|Hd]; [left; now right|].
    destruct (list_eq_dec N.eq_dec k0 k) as [E|E].
    + subst k0. rewrite dict_get_set_eq in Hd. injection Hd as <-. left. now left.
    + rewrite dict_get_set_neq in Hd by exact E. now right.
Qed.

Lemma fold_dict_set_keys {V : Type} (kvs : list (str * V)) (k : str) :
  forall d,
    In k (dict_keys (fold_left (fun m kv => dict_set m (fst kv) (snd kv)) kvs d))
    <-> In k (dict_keys d) \/ In k (map fst kvs).
Proof.
  induction kvs as [|[k0 v0] kvs IH]; intros d; simpl.
  - tauto.
  - rewrite IH, keys_dict_set. destruct (dict_mem d k0) eqn:Em.
    + unfold dict_mem in Em. split; [tauto|].
      intros [H|[<-|H]]; [tauto | | tauto].
      left. apply in_keys_get. destruct (dict_get d k0); [discriminate | discriminate Em].
    + rewrite in_app_iff. simpl. tauto.
Qed.

Lemma zip_dict_get {V : Type} (keys : list str) (values : list V) (k : str) (v : V) :
  dict_get (zip_dict keys values) k = Some v -> In (k, v) (combine keys values).
Proof.
  intros H. apply fold_dict_set_get in H as [H|H]; [exact H | discriminate H].
Qed.

Lemma zip_dict_keys {V : Type} (keys : list str) (values : list V) (k : str) :
  length keys = length values ->
  (In k (dict_keys (zip_dict keys values)) <-> In k keys).
Proof.
  intros Hl. unfold zip_dict. rewrite fold_dict_set_keys.
  assert (E : map fst (combine keys values) = keys).
  { revert values Hl. induction keys as [|a keys IH]; intros [|b values] Hl;
      simpl in *; try discriminate; [reflexivity|].
    f_equal. apply IH. lia. }
  rewrite E. simpl. tauto.
Qed.

(** *** [query_models_parallel] *)

(** The response of [model] comes from a call of [query_model] for it. *)
Definition answer_of (messages : list Message) (system_prompt : option str)
  (tools : option (list ToolDefinition)) (reasoning_effort : option str)
  (env : Env) (model : str) (response : option ModelResponse) : Prop :=
  exists l1 l2,
    query_model model messages system_prompt 120 tools reasoning_effort env l1
    = (Ok response, l2).

Lemma sends_query_models_parallel (models : list str) (messages : list Message)
  (system_prompt : option str) (tools : option (list ToolDefinition))
  (reasoning_effort : option str) :
  sends (fun _ => True) (S MAX_TOOL_ROUNDS * length models)
    (query_models_parallel models messages system_prompt tools reasoning_effort).
Proof.
  unfold query_models_parallel.
  rewrite <- (Nat.add_0_r (S MAX_TOOL_ROUNDS * length models)).
  apply sends_bind; [|intros; apply sends_silent, silent_ret].
  apply sends_gather. intros model. eapply sends_any, sends_query_model.
Qed.

(** Without a refusal [query_models_parallel] returns a dictionary. *)
Lemma query_models_parallel_spec (models : list str) (messages : list Message)
  (system_prompt : option str) (tools : option (list ToolDefinition))
  (reasoning_effort : option str) (env : Env) (log : list Request) :
  (forall m, In m models -> refusal env m tools = None) ->
  exists responses ext,
    query_models_parallel models messages system_prompt tools reasoning_effort env log
    = (Ok responses, log ++ ext) /\
    length ext <= S MAX_TOOL_ROUNDS * length models /\
    NoDup (dict_keys responses) /\
    (forall m, In m (dict_keys responses) <-> In m models) /\
    (forall m r, dict_get responses m = Some r ->
                 answer_of messages system_prompt tools reasoning_effort env m r).
Proof.
  intros Ha.
  destruct (returns_in_query_models_parallel env models messages system_prompt tools
              reasoning_effort Ha log) as (responses & log' & E).
  destruct (sends_query_models_parallel models messages system_prompt tools
              reasoning_effort env log) as (ext & Ee & Hl & _).
  rewrite E in Ee. simpl in Ee. subst log'.
  exists responses, ext. split; [exact E|]. split; [exact Hl|].
  unfold query_models_parallel, bind in E.
  match type of E with
  | context [gather ?f models env log] =>
      destruct (gather f models env log) as [[rs|e] l1] eqn:Hm; [|discriminate E]
  end.
  injection E as <- _.
  pose proof (gather_provenance _ env models log rs l1 Hm) as Hp.
  split; [apply nodup_zip_dict|]. split.
  - intros m. apply zip_dict_keys. eapply Forall2_length. exact Hp.
  - intros m r Hg. apply zip_dict_get in Hg.
    exact (Forall2_combine_in _ models rs Hp m r Hg).
Qed.

Lemma query_models_parallel_no_tools (models : list str) (messages : list Message)
  (system_prompt : option str) (reasoning_effort : option str)
  (env : Env) (log : list Request) :
  exists responses ext,
    query_models_parallel models messages system_prompt None reasoning_effort env log
    = (Ok responses, log ++ ext) /\
    length ext <= S MAX_TOOL_ROUNDS * length models /\
    NoDup (dict_keys responses) /\
    (forall m, In m (dict_keys responses) <-> In m models) /\
    (forall m r, dict_get responses m = Some r ->
                 answer_of messages system_prompt None reasoning_effort env m r).
Proof.
  apply query_models_parallel_spec. intros m _. apply refusal_no_tools.
Qed.

(** The refusal of a tool is the same for every model of the Google
    family. *)
Lemma refusal_google (env : Env) (model : str) (tools : option (list ToolDefinition))
  (msg : str) :
  refusal env model tools = Some msg -> google_refusal env tools = Some msg.
Proof. unfold refusal. destruct (get_provider model); (discriminate || easy). Qed.

Lemma refusal_first (env : Env) (model : str) (ts : list ToolDefinition) (msg : str) :
  get_provider model = google -> google_client env = true ->
  first_refusal env ts = Some msg ->
  refusal env model (Some ts) = Some msg.
Proof. intros Hp Hc Hr. unfold refusal, google_refusal. now rewrite Hp, Hc. Qed.

(** With a refusal [query_models_parallel] raises it. *)
Lemma query_models_parallel_raises (models : list str) (messages : list Message)
  (system_prompt : option str) (tools : option (list ToolDefinition))
  (reasoning_effort : option str) (env : Env) (log : list Request)
  (m : str) (msg : str) :
  In m models -> refusal env m tools = Some msg ->
  fst (query_models_parallel models messages system_prompt tools reasoning_effort
                             env log)
  = Raise (PyException "ValidationError" msg).
Proof.
  intros Hin Hr. unfold query_models_parallel, bind.
  match goal with
  | |- context [gather ?f models env log] =>
      pose proof (gather_raises f env (PyException "ValidationError" msg) models)
        as Hg
  end.
  cbv beta in Hg.
  rewrite (surjective_pairing (gather _ models env log)), Hg; [reflexivity| |].
  - intros a l e l' _. rewrite query_model_cases.
    destruct (refusal env a tools) as [msg'|] eqn:Ea.
    + apply refusal_google in Ea. apply refusal_google in Hr.
      intros [= <- _]. congruence.
    + destruct (query_model_after_tools_abstains a messages system_prompt tools
                  reasoning_effort env l) as (r & ext & -> & _).
      discriminate.
  - exists m. split; [exact Hin|]. intros l. now rewrite query_model_cases, Hr.
Qed.


(** *** Stage 1 *)

(** The message that Stage 1 sends to every council model. *)
Definition stage1_messages (user_query : str) (file_context : option str)
  (image_attachments : option (list Image)) : list Message :=
  [{| role := lit "user";
      content :=
        match file_context with
        | Some (c :: fc) =>
            lit "[ATTACHED FILES]" ++ nl ++ (c :: fc) ++ nl
            ++ lit "[END ATTACHED FILES]" ++ nl ++ nl ++ user_query
        | _ => user_query
        end;
      images := match image_attachments with Some imgs => imgs | None => [] end |}].

Lemma stage1_collect_responses_unfold (user_query : str) (council_models : list str)
  (system_prompt file_context : option str)
  (image_attachments : option (list Image)) (tools : option (list ToolDefinition)) :
  stage1_collect_responses user_query council_models system_prompt file_context
                           image_attachments tools
  = bind (query_models_parallel council_models
            (stage1_messages user_query file_context image_attachments)
            system_prompt tools None)
         (fun responses =>
            ret (flat_map (fun mr => match snd mr with
                                     | Some response =>
                                         [stage1_of_response (fst mr) response]
                                     | None => []
                                     end) responses)).
Proof.
  unfold stage1_collect_responses, stage1_messages.
  destruct file_context as [[|c fc]|], image_attachments as [[|i imgs]|]; reflexivity.
Qed.

(** Stage 1 sends at most six requests per council model.  When a
    council model is of the Google family, with a client, and the SDK
    refuses one of the tools, Stage 1 raises that [ValidationError].
    Otherwise it returns.  Its results have pairwise different models, all
    of them council models whose provider has a client; each result is
    made of a response that [query_model] gave for its model to the one
    message of Stage 1: its text, its usage, and [calculate_cost] of them;
    each tool call it records carries at most 2000 characters of result. *)
Theorem stage1_results_sound (user_query : str) (council_models : list str)
  (system_prompt file_context : option str)
  (image_attachments : option (list Image)) (tools : option (list ToolDefinition))
  (env : Env) (log : list Request) :
  exists ext,
    snd (stage1_collect_responses user_query council_models system_prompt
           file_context image_attachments tools env log) = log ++ ext /\
    length ext <= (MAX_TOOL_ROUNDS + 1) * length council_models /\
    (forall m ts msg,
        In m council_models -> get_provider m = google -> google_client env = true ->
        tools = Some ts -> first_refusal env ts = Some msg ->
        fst (stage1_collect_responses user_query council_models system_prompt
               file_context image_attachments tools env log)
        = Raise (PyException "ValidationError" msg)) /\
    ((forall m, In m council_models -> get_provider m = google ->
                google_client env = true ->
                forall ts t, tools = Some ts -> In t ts ->
                             function_declaration_error env (schema_of t) = None) ->
     exists stage1_results,
       fst (stage1_collect_responses user_query council_models system_prompt
              file_context image_attachments tools env log) = Ok stage1_results /\
       NoDup (map s1_model stage1_results) /\
       (forall r, In r stage1_results ->
          In (s1_model r) council_models /\
          client_of env (get_provider (s1_model r)) = true /\
          (exists response l1 l2,
              query_model (s1_model r)
                (stage1_messages user_query file_context image_attachments)
                system_prompt 120 tools None env l1 = (Ok (Some response), l2) /\
              s1_response r = resp_content response /\
              s1_usage r = resp_usage response) /\
          s1_cost r = calculate_cost (s1_model r) (Some (s1_usage r)) /\
          forall calls c, s1_tool_calls r = Some calls -> In c calls ->
                          length (tool_result c) <= 2000)).
Proof.
  rewrite stage1_collect_responses_unfold.
  set (messages := stage1_messages user_query file_context image_attachments).
  destruct (sends_query_models_parallel council_models messages system_prompt tools
              None env log) as (ext & Ee & Hl & _).
  exists ext. rewrite Nat.add_1_r. split; [|split; [exact Hl|split]].
  - unfold bind. destruct (query_models_parallel _ _ _ _ _ env log) as [[rs|e] l];
      exact Ee.
  - intros m ts msg Hm Hp Hc -> Hr.
    pose proof (query_models_parallel_raises council_models messages system_prompt
                  (Some ts) None env log m msg Hm (refusal_first _ _ _ _ Hp Hc Hr))
      as Hq.
    unfold bind. destruct (query_models_parallel _ _ _ _ _ env log) as [[rs|e] l];
      simpl in Hq; [discriminate Hq | now injection Hq as ->].
  - intros Ha.
    destruct (query_models_parallel_spec council_models messages system_prompt tools
                None env log (tools_accepted_no_refusal _ _ _ Ha))
      as (responses & ext' & E & _ & Hn & Hk & Hp).
    unfold bind. rewrite E. unfold ret. eexists. split; [reflexivity|].
    split; [now apply stage1_models_of_keys|].
    intros r Hr. apply in_flat_map in Hr as ([m [resp|]] & Hin & Hr);
      cbn [fst snd] in Hr; [|contradiction].
    destruct Hr as [<-|[]].
    cbn [stage1_of_response s1_model s1_cost s1_usage s1_tool_calls s1_response].
    apply (dict_get_in responses m (Some resp) Hn) in Hin.
    destruct (Hp m (Some resp) Hin) as (l1 & l2 & Hq).
    split; [|split; [|split; [|split; [reflexivity|]]]].
    + apply Hk, in_keys_get. congruence.
    + destruct (client_of env (get_provider m)) eqn:Hc; [reflexivity|].
      destruct (query_model_abstains m messages system_prompt 120 tools None env l1
                  (refusal_no_client _ _ _ Hc))
        as (r' & ext'' & Hq' & Hnone & _).
      rewrite Hq in Hq'. injection Hq' as <- _.
      destruct (Hnone Hc) as [Habs _]. discriminate Habs.
    + exists resp, l1, l2. split; [exact Hq|]. split; reflexivity.
    + intros calls c Hcalls Hc.
      pose proof (query_model_keeps_short m messages system_prompt 120 tools None
                    env l1 resp l2 Hq) as Hs.
      rewrite Forall_forall in Hs. apply Hs. unfold records.
      destruct (resp_tool_calls resp) as [[|c0 cs]|]; cbn [truthy] in Hcalls;
        try discriminate Hcalls.
      injection Hcalls as <-. exact Hc.
Qed.

(** *** Stage 2 *)

(** The record that Stage 2 keeps of a response. *)
Definition stage2_record (model : str) (response : ModelResponse) : Stage2Result :=
  {| s2_model := model;
     s2_ranking := resp_content response;
     s2_parsed_ranking := ranking_of (resp_content response);
     s2_usage := resp_usage response;
     s2_cost := calculate_cost model (Some (resp_usage response)) |}.

Lemma stage2_of_response_record (model : str) (response : ModelResponse) :
  stage2_of_response model response = Ok (stage2_record model response).
Proof. unfold stage2_of_response. now rewrite parse_ranking_total. Qed.

Lemma stage2_records (responses : dict (option ModelResponse)) :
  map_result (fun r => r)
    (flat_map (fun mr => match snd mr with
                         | Some response => [stage2_of_response (fst mr) response]
                         | None => []
                         end) responses)
  = Ok (flat_map (fun mr => match snd mr with
                            | Some response => [stage2_record (fst mr) response]
                            | None => []
                            end) responses).
Proof.
  induction responses as [|[m [resp|]] d IH]; cbn [flat_map fst snd app]; [reflexivity| |].
  - cbn [map_result]. now rewrite stage2_of_response_record, IH.
  - exact IH.
Qed.

Lemma stage2_models_of_keys (responses : dict (option ModelResponse)) :
  NoDup (dict_keys responses) ->
  NoDup (map s2_model
           (flat_map (fun mr => match snd mr with
                                | Some response => [stage2_record (fst mr) response]
                                | None => []
                                end) responses)) /\
  incl (map s2_model
          (flat_map (fun mr => match snd mr with
                               | Some response => [stage2_record (fst mr) response]
                               | None => []
                               end) responses))
       (dict_keys responses).
Proof.
  induction responses as [|[k [r|]] d IH]; simpl; intros Hd.
  - split; [constructor | intros x []].
  - apply NoDup_cons_iff in Hd as [Hk Hd]. destruct (IH Hd) as [Hn Hi].
    split.
    + constructor; [|exact Hn]. intros Hin. apply Hk. now apply Hi.
    + intros x [<-|Hx]; [now left | right; now apply Hi].
  - apply NoDup_cons_iff in Hd as [Hk Hd]. destruct (IH Hd) as [Hn Hi].
    split; [exact Hn|]. intros x Hx. right. now apply Hi.
Qed.

Lemma dict_get_some_in {V : Type} (d : dict V) (k : str) (v : V) :
  dict_get d k = Some v -> In (k, v) d.
Proof.
  induction d as [|[k0 v0] d IH]; simpl; [discriminate|].
  destruct (str_eqb k0 k) eqn:E.
  - intros [= <-]. apply str_eqb_eq in E. subst k0. now left.
  - intros H. right. now apply IH.
Qed.

(** The message that Stage 2 sends to every council model: the ranking
    prompt over the answers of Stage 1, each under its label. *)
Definition stage2_messages (user_query : str) (stage1_results : list Stage1Result)
  : list Message :=
  [{| role := lit "user";
      content :=
        ranking_prompt user_query
          (join (nl ++ nl)
             (map (fun lr => response_key (fst lr) ++ lit ":" ++ nl
                             ++ s1_response (snd lr))
                  (combine (map (label_at 0) (seq 0 (length stage1_results)))
                           stage1_results)));
      images := [] |}].

(** Stage 2 over at most twenty-six Stage 1 results always returns.
    The label map pairs "Response A", "Response B", ... in order with the
    models of the results, one entry per result.  The council models are
    asked in parallel, with at most six requests each.  Every response
    that comes back gives a ranking, and every ranking is made of the
    response of its model: it keeps the rater's full text, the usage and
    the cost of it, and the parse of that text, whose elements are labels
    "Response X".  The rankings come from pairwise different council
    models. *)
Theorem stage2_rankings_sound (user_query : str) (stage1_results : list Stage1Result)
  (council_models : list str) (env : Env) (log : list Request) :
  length stage1_results <= 26 ->
  exists stage2_results responses ext,
    stage2_collect_rankings user_query stage1_results council_models env log
    = (Ok (stage2_results,
           label_entries (map (label_at 0) (seq 0 (length stage1_results)))
                         stage1_results),
       log ++ ext) /\
    length ext <= (MAX_TOOL_ROUNDS + 1) * length council_models /\
    query_models_parallel council_models (stage2_messages user_query stage1_results)
                          None None None env log
    = (Ok responses, log ++ ext) /\
    (forall m response,
        dict_get responses m = Some (Some response) ->
        exists r, In r stage2_results /\ s2_model r = m /\
                  s2_ranking r = resp_content response) /\
    NoDup (map s2_model stage2_results) /\
    (forall r, In r stage2_results ->
       In (s2_model r) council_models /\
       (exists response l1 l2,
           dict_get responses (s2_model r) = Some (Some response) /\
           query_model (s2_model r) (stage2_messages user_query stage1_results)
                       None 120 None None env l1 = (Ok (Some response), l2) /\
           s2_ranking r = resp_content response /\
           s2_usage r = resp_usage response) /\
       s2_cost r = calculate_cost (s2_model r) (Some (s2_usage r)) /\
       parse_ranking_from_text (s2_ranking r) = Ok (s2_parsed_ranking r) /\
       Forall is_label (s2_parsed_ranking r)).
Proof.
  intros Hn. unfold stage2_collect_rankings.
  destruct (stage2_labels_up_to_z stage1_results Hn)
    as (labels & El & -> & _ & _ & Eb & _).
  unfold bind at 1, lift_result. rewrite El. rewrite Eb.
  fold (stage2_messages user_query stage1_results).
  destruct (query_models_parallel_no_tools council_models
              (stage2_messages user_query stage1_results) None None env log)
    as (responses & ext & E & Hl & Hd & Hk & Hp).
  unfold bind at 1. rewrite E.
  unfold bind, lift_result. rewrite stage2_records. unfold ret.
  eexists. exists responses, ext. split; [reflexivity|]. rewrite Nat.add_1_r.
  split; [exact Hl|]. split; [reflexivity|].
  destruct (stage2_models_of_keys responses Hd) as [Hnd Hincl].
  split; [|split; [exact Hnd|]].
  - intros m response Hg. exists (stage2_record m response).
    split; [|split; reflexivity].
    apply in_flat_map. exists (m, Some response).
    split; [now apply dict_get_some_in | now left].
  - intros r Hr. split.
    + apply Hk, Hincl, in_map. exact Hr.
    + apply in_flat_map in Hr as ([m [resp|]] & Hin & Hr); cbn [fst snd] in Hr;
        [|contradiction].
      destruct Hr as [<-|[]].
      cbn [stage2_record s2_model s2_ranking s2_parsed_ranking s2_usage s2_cost].
      apply (dict_get_in responses m (Some resp) Hd) in Hin.
      destruct (Hp m (Some resp) Hin) as (l1 & l2 & Hq).
      split; [|split; [reflexivity|]].
      * exists resp, l1, l2. repeat split; assumption.
      * split; [apply parse_ranking_total | apply ranking_of_labels].
Qed.

End CouncilFacts.

(** ** The chairman: Stage 3, Stage 4 and its parser *)

Module ChairmanFacts.

Import Config EffectFacts ToolLoopFacts AggregatorFacts StageFacts AdapterFacts.

(** No tokens cost nothing, whatever the model. *)
Lemma calculate_cost_zero_usage (model : str) :
  calculate_cost model (Some zero_usage) = 0%float.
Proof.
  unfold calculate_cost, zero_usage, usage_dict.
  destruct (dict_get MODEL_PRICING model) as [[price_in price_out]|] eqn:E;
    [|reflexivity].
  revert E. unfold MODEL_PRICING. cbn [dict_get].
  repeat (destruct (str_eqb _ model); [intros [= <- <-]; vm_compute; reflexivity|]).
  discriminate.
Qed.

(** What one call of [query_model] for the chairman gives. *)
Lemma chairman_call (chairman : str) (messages : list Message)
  (env : Env) (log : list Request) :
  exists response ext,
    query_model chairman messages None 120 None None env log
    = (Ok response, log ++ ext) /\
    length ext <= MAX_TOOL_ROUNDS + 1 /\
    (client_of env (get_provider chairman) = false -> response = None /\ ext = []) /\
    (forall pre req post,
        ext = pre ++ req :: post -> answer_raises env (log ++ pre) req ->
        response = None).
Proof.
  destruct (query_model_abstains chairman messages None 120 None None env log
              (refusal_no_tools env chairman))
    as (response & ext & E & Hc & Hf).
  destruct (sends_query_model chairman messages None 120 None None env log)
    as (ext' & Es & Hl & _).
  rewrite E in Es. simpl in Es. apply app_inv_head in Es. subst ext'.
  exists response, ext. rewrite Nat.add_1_r.
  split; [exact E|]. split; [exact Hl|]. split; [exact Hc | exact Hf].
Qed.

(** *** Stage 3 *)

Definition stage3_fallback (chairman : str) : Stage3Result :=
  {| s3_model := chairman;
     s3_response := lit "Error: Unable to generate final synthesis.";
     s3_usage := Some zero_usage;
     s3_cost := Some 0%float |}.

(** Stage 3 always returns a result of the chairman model, after at most
    six requests, whose cost is [calculate_cost] of its usage.  Without a
    client for the chairman's provider, or when a request of the call is
    answered by raising, the result is the fixed text
    "Error: Unable to generate final synthesis." with zero usage and
    cost. *)
Theorem stage3_always_answers (user_query : str)
  (stage1_results : list Stage1Result) (stage2_results : list Stage2Result)
  (chairman : str) (previous : option (dict str)) (env : Env) (log : list Request) :
  exists result ext,
    stage3_synthesize_final user_query stage1_results stage2_results chairman
                            previous env log
    = (Ok result, log ++ ext) /\
    length ext <= MAX_TOOL_ROUNDS + 1 /\
    s3_model result = chairman /\
    (exists usage, s3_usage result = Some usage /\
                   s3_cost result = Some (calculate_cost chairman (Some usage))) /\
    (client_of env (get_provider chairman) = false ->
     ext = [] /\ result = stage3_fallback chairman) /\
    (forall pre req post,
        ext = pre ++ req :: post -> answer_raises env (log ++ pre) req ->
        result = stage3_fallback chairman).
Proof.
  unfold stage3_synthesize_final.
  match goal with |- context [query_model chairman ?msgs None 120 None None] =>
    destruct (chairman_call chairman msgs env log) as (response & ext & E & Hl & Hc & Hf)
  end.
  unfold bind. rewrite E. destruct response as [r|]; unfold ret.
  - eexists. exists ext. split; [reflexivity|]. split; [exact Hl|].
    split; [reflexivity|]. split; [eexists; split; reflexivity|]. split.
    + intros H. destruct (Hc H) as [Hn _]. discriminate Hn.
    + intros pre req post Ee Hr. discriminate (Hf pre req post Ee Hr).
  - exists (stage3_fallback chairman), ext. split; [reflexivity|]. split; [exact Hl|].
    split; [reflexivity|]. split.
    + exists zero_usage. split; [reflexivity|].
      cbn [stage3_fallback s3_cost]. now rewrite calculate_cost_zero_usage.
    + split; [|reflexivity]. intros H. destruct (Hc H) as [_ ->]. now split.
Qed.

(** *** The parser of Stage 4 *)

Definition stage4_keys : list str :=
  [ lit "critique"; lit "comparison"; lit "suggested_system_prompt";
    lit "suggested_query" ].

(** A text without white space at either end. *)
Definition stripped (v : str) : Prop := head_ok isspace v /\ last_ok isspace v.

Lemma stripped_strip (s : str) : stripped (strip isspace s).
Proof. destruct (strip_spec isspace s) as (a & b & _ & _ & _ & Hh & Hl). now split. Qed.

Lemma stripped_empty : stripped [].
Proof. split; exact I. Qed.

(** The header positions found in the text, in the order of the table. *)
Definition header_positions (text : str) : list (nat * (str * str)) :=
  flat_map (fun hk => match find (fst hk) text with
                      | Some idx => [(idx, hk)]
                      | None => []
                      end) stage4_sections.

Lemma header_positions_sections (text : str) (p : nat * (str * str)) :
  In p (header_positions text) ->
  In (snd p) stage4_sections /\ find (fst (snd p)) text = Some (fst p).
Proof.
  unfold header_positions. intros H. apply in_flat_map in H as (hk & Hin & H).
  destruct (find (fst hk) text) as [idx|] eqn:E; [|contradiction].
  destruct H as [<-|[]]. now split.
Qed.

(** The key of a section names its header. *)
Lemma section_of_key (h h' k : str) :
  In (h, k) stage4_sections -> In (h', k) stage4_sections -> h = h'.
Proof.
  unfold stage4_sections. intros H H'.
  destruct H as [H|[H|[H|[H|[]]]]]; apply pair_equal_spec in H as [<- <-];
    destruct H' as [H'|[H'|[H'|[H'|[]]]]]; apply pair_equal_spec in H' as [<- E];
    try reflexivity; vm_compute in E; discriminate E.
Qed.

Lemma extract_sections_keys (text : str) (positions : list (nat * (str * str))) :
  forall parsed,
    (forall p, In p positions -> In (snd (snd p)) (dict_keys parsed)) ->
    dict_keys (extract_sections text positions parsed) = dict_keys parsed.
Proof.
  induction positions as [|[pos [header key]] rest IH]; intros parsed Hk;
    cbn [extract_sections]; [reflexivity|].
  assert (Hm : dict_mem parsed key = true).
  { unfold dict_mem. specialize (Hk _ (or_introl eq_refl)). cbn [snd] in Hk.
    apply in_keys_get in Hk. destruct (dict_get parsed key); congruence. }
  rewrite IH.
  - rewrite keys_dict_set. now rewrite Hm.
  - intros p Hp. rewrite keys_dict_set, Hm. apply Hk. now right.
Qed.

Lemma extract_sections_stripped (text : str) (positions : list (nat * (str * str))) :
  forall parsed,
    (forall k v, dict_get parsed k = Some v -> stripped v) ->
    forall k v, dict_get (extract_sections text positions parsed) k = Some v ->
                stripped v.
Proof.
  induction positions as [|[pos [header key]] rest IH]; intros parsed Hs k v H;
    cbn [extract_sections] in H; [now apply (Hs k)|].
  eapply IH; [|exact H]. intros k' v' H'.
  apply dict_get_set in H' as [->|H']; [apply stripped_strip | now apply (Hs k')].
Qed.

Lemma extract_sections_other (text : str) (positions : list (nat * (str * str)))
  (k : str) :
  forall parsed,
    ~ In k (map (fun p => snd (snd p)) positions) ->
    dict_get (extract_sections text positions parsed) k = dict_get parsed k.
Proof.
  induction positions as [|[pos [header key]] rest IH]; intros parsed Hk;
    cbn [extract_sections]; [reflexivity|].
  simpl in Hk. rewrite IH by tauto. apply dict_get_set_neq. tauto.
Qed.

Lemma stage4_empty_stripped (k v : str) :
  dict_get stage4_empty k = Some v -> stripped v.
Proof.
  intros H. unfold stage4_empty in H. cbn [dict_get] in H.
  repeat (destruct (str_eqb _ k); [injection H as <-; apply stripped_empty|]).
  discriminate H.
Qed.

Lemma parse_stage4_response_keys (text : str) :
  dict_keys (parse_stage4_response text) = stage4_keys /\
  (forall k v, dict_get (parse_stage4_response text) k = Some v -> stripped v).
Proof.
  unfold parse_stage4_response. fold (header_positions text). split.
  - destruct (header_positions text) as [|p ps] eqn:E; [reflexivity|].
    rewrite extract_sections_keys; [reflexivity|].
    intros q Hq.
    apply (Permutation_in _ (sort_by_permutation Nat.ltb fst (p :: ps))) in Hq.
    rewrite <- E in Hq. apply header_positions_sections in Hq as [Hq _].
    unfold stage4_sections in Hq. destruct (snd q) as [h k]. cbn [snd].
    repeat (destruct Hq as [Hq|Hq]; [injection Hq as <- <-; vm_compute; tauto|]).
    contradiction.
  - intros k v H. destruct (header_positions text) as [|p ps].
    + apply dict_get_set in H as [->|H];
        [apply stripped_strip | now apply (stage4_empty_stripped k)].
    + eapply extract_sections_stripped; [exact stage4_empty_stripped | exact H].
Qed.

(** [parse_stage4_response] always returns the four keys critique,
    comparison, suggested_system_prompt and suggested_query, in this
    order, and no value has white space at either end.  When the text
    holds none of the four headers, the whole text, stripped, is the
    critique and the other three values are empty.  The value of a key
    whose header does not occur is empty when another header occurs. *)
Theorem parse_stage4_response_sections (text : str) :
  dict_keys (parse_stage4_response text) = stage4_keys /\
  (forall k v, dict_get (parse_stage4_response text) k = Some v -> stripped v) /\
  ((forall header key, In (header, key) stage4_sections -> find header text = None) ->
   parse_stage4_response text
   = [ (lit "critique", strip isspace text); (lit "comparison", []);
       (lit "suggested_system_prompt", []); (lit "suggested_query", []) ]) /\
  (forall header key header' key',
      In (header, key) stage4_sections -> find header text = None ->
      In (header', key') stage4_sections -> find header' text <> None ->
      dict_get (parse_stage4_response text) key = Some []).
Proof.
  destruct (parse_stage4_response_keys text) as [Hkeys Hstripped].
  split; [exact Hkeys|]. split; [exact Hstripped|].
  unfold parse_stage4_response. fold (header_positions text). split.
  - intros Hnone. destruct (header_positions text) as [|p ps] eqn:E; [reflexivity|].
    assert (Hp : In p (header_positions text)) by (rewrite E; now left).
    apply header_positions_sections in Hp as [Hin Hf].
    destruct p as [idx [h k]]. cbn [fst snd] in Hin, Hf.
    rewrite (Hnone h k Hin) in Hf. discriminate Hf.
  - intros header key header' key' Hin Hnone Hin' Hsome.
    destruct (header_positions text) as [|p ps] eqn:E.
    + exfalso. destruct (find header' text) as [idx|] eqn:Ef; [|congruence].
      assert (Hp : In (idx, (header', key')) (header_positions text)).
      { unfold header_positions. apply in_flat_map. exists (header', key').
        split; [exact Hin'|]. cbn [fst]. rewrite Ef. now left. }
      rewrite E in Hp. contradiction.
    + rewrite extract_sections_other.
      * unfold stage4_sections in Hin. unfold stage4_empty.
        repeat (destruct Hin as [Hin|Hin]; [injection Hin as <- <-; reflexivity|]).
        contradiction.
      * intros Hk. apply in_map_iff in Hk as (q & Eq & Hq).
        apply (Permutation_in _ (sort_by_permutation Nat.ltb fst (p :: ps))) in Hq.
        rewrite <- E in Hq. apply header_positions_sections in Hq as [Hq Hf].
        destruct q as [idx [h k]]. cbn [fst snd] in *. subst k.
        rewrite (section_of_key h header key Hq Hin) in Hf. congruence.
Qed.

(** *** Stage 4 *)

Definition stage4_fallback (user_query : str) (system_prompt : option str)
  (chairman : str) : Stage4Result :=
  {| s4_model := chairman;
     s4_critique := lit "Error: Unable to generate self-reflection.";
     s4_comparison := [];
     s4_suggested_system_prompt := str_or system_prompt [];
     s4_suggested_query := user_query;
     s4_raw_response := [];
     s4_usage := zero_usage;
     s4_cost := 0%float |}.

(** Stage 4 always returns a result of the chairman model, after at most
    six requests, whose cost is [calculate_cost] of its usage.  Without a
    client for the chairman's provider, or when a request of the call is
    answered by raising, the result is the fixed critique
    "Error: Unable to generate self-reflection.", which hands the system
    prompt and the query back as the suggestions.  Otherwise the four
    sections are those that [parse_stage4_response] finds in the raw
    response, none with white space at either end. *)
Theorem stage4_always_answers (user_query : str) (system_prompt : option str)
  (stage1_results : list Stage1Result) (stage3_result : Stage3Result)
  (chairman : str) (previous : option (dict str)) (env : Env) (log : list Request) :
  exists result ext,
    stage4_self_reflection user_query system_prompt stage1_results stage3_result
                           chairman previous env log
    = (Ok result, log ++ ext) /\
    length ext <= MAX_TOOL_ROUNDS + 1 /\
    s4_model result = chairman /\
    s4_cost result = calculate_cost chairman (Some (s4_usage result)) /\
    (client_of env (get_provider chairman) = false ->
     ext = [] /\ result = stage4_fallback user_query system_prompt chairman) /\
    (forall pre req post,
        ext = pre ++ req :: post -> answer_raises env (log ++ pre) req ->
        result = stage4_fallback user_query system_prompt chairman) /\
    (result = stage4_fallback user_query system_prompt chairman \/
     (dict_get (parse_stage4_response (s4_raw_response result)) (lit "critique")
      = Some (s4_critique result) /\
      dict_get (parse_stage4_response (s4_raw_response result)) (lit "comparison")
      = Some (s4_comparison result) /\
      dict_get (parse_stage4_response (s4_raw_response result))
               (lit "suggested_system_prompt")
      = Some (s4_suggested_system_prompt result) /\
      dict_get (parse_stage4_response (s4_raw_response result)) (lit "suggested_query")
      = Some (s4_suggested_query result) /\
      stripped (s4_critique result) /\ stripped (s4_comparison result) /\
      stripped (s4_suggested_system_prompt result) /\
      stripped (s4_suggested_query result))).
Proof.
  unfold stage4_self_reflection.
  match goal with |- context [query_model chairman ?msgs None 120 None None] =>
    destruct (chairman_call chairman msgs env log) as (response & ext & E & Hl & Hc & Hf)
  end.
  unfold bind. rewrite E. destruct response as [r|]; unfold ret.
  - eexists. exists ext. split; [reflexivity|]. split; [exact Hl|].
    split; [reflexivity|]. split; [reflexivity|]. split; [|split].
    + intros H. destruct (Hc H) as [Hn _]. discriminate Hn.
    + intros pre req post Ee Hr. discriminate (Hf pre req post Ee Hr).
    + right. cbn [s4_raw_response s4_critique s4_comparison
                  s4_suggested_system_prompt s4_suggested_query].
      destruct (parse_stage4_response_keys (resp_content r)) as [Hk Hs].
      assert (Hget : forall k, In k stage4_keys ->
                exists v, dict_get (parse_stage4_response (resp_content r)) k = Some v /\
                          dict_get_default (parse_stage4_response (resp_content r)) k []
                          = v /\ stripped v).
      { intros k Hin. rewrite <- Hk in Hin. apply in_keys_get in Hin.
        unfold dict_get_default.
        destruct (dict_get (parse_stage4_response (resp_content r)) k) as [v|] eqn:Ev;
          [|congruence].
        exists v. split; [reflexivity|]. split; [reflexivity|]. now apply (Hs k). }
      destruct (Hget (lit "critique")) as (v1 & G1 & -> & S1); [vm_compute; tauto|].
      destruct (Hget (lit "comparison")) as (v2 & G2 & -> & S2); [vm_compute; tauto|].
      destruct (Hget (lit "suggested_system_prompt")) as (v3 & G3 & -> & S3);
        [vm_compute; tauto|].
      destruct (Hget (lit "suggested_query")) as (v4 & G4 & -> & S4);
        [vm_compute; tauto|].
      repeat (split; [assumption|]). assumption.
  - exists (stage4_fallback user_query system_prompt chairman), ext.
    split; [reflexivity|]. split; [exact Hl|].
    split; [reflexivity|]. split.
    + cbn [stage4_fallback s4_cost s4_usage]. now rewrite calculate_cost_zero_usage.
    + split; [|split; [reflexivity | now left]].
      intros H. destruct (Hc H) as [_ ->]. now split.
Qed.

End ChairmanFacts.

(** ** The streamed turn: connectors, requests and the cost summary *)

Module TurnFacts.

Import EffectFacts ToolLoopFacts AggregatorFacts StageFacts AdapterFacts CouncilFacts.
Import MainFacts.

(** *** The connector loop *)

(** What the connector of a configuration entry answers. *)
Definition connector_result (c : Collaborators) (cfg : ConnectorConfig)
  : outcome (option str) :=
  run_connector c (match cfg_name cfg with Some n => n | None => [] end)
                  (match cfg_config cfg with Some j => j | None => lit "{}" end).

(** The connector fails, or it returns [None] or an empty text. *)
Definition brings_nothing (c : Collaborators) (cfg : ConnectorConfig) : Prop :=
  match connector_result c cfg with
  | Returned (Some (_ :: _)) => False
  | _ => True
  end.

Lemma connector_step_grows (ctx : str) (cfg : ConnectorConfig)
  (c : Collaborators) (env : Env) (st : GState) :
  exists added,
    connector_step ctx cfg c env st = (Ok (ctx ++ added), st) /\
    (brings_nothing c cfg -> added = []).
Proof.
  unfold connector_step, gtry_except, gbind, collab, brings_nothing, connector_result.
  destruct (run_connector c _ _) as [[[|ch text]|]|cls msg];
    try (exists []; rewrite app_nil_r; split; [reflexivity | intros; reflexivity]).
  destruct (cfg_name cfg) as [n|].
  - eexists. split; [reflexivity | intros []].
  - exists []. rewrite app_nil_r. split; [reflexivity | intros; reflexivity].
Qed.

Lemma connector_loop_grows (cfgs : list ConnectorConfig) (ctx : str)
  (c : Collaborators) (env : Env) (st : GState) :
  exists added,
    connector_loop cfgs ctx c env st = (Ok (ctx ++ added), st) /\
    (Forall (brings_nothing c) cfgs -> added = []).
Proof.
  revert ctx. induction cfgs as [|cfg cfgs IH]; intros ctx; cbn [connector_loop].
  - exists []. rewrite app_nil_r. split; reflexivity.
  - unfold gbind. destruct (connector_step_grows ctx cfg c env st) as (a1 & -> & H1).
    destruct (IH (ctx ++ a1)) as (a2 & -> & H2).
    exists (a1 ++ a2). rewrite app_assoc. split; [reflexivity|].
    intros H. apply Forall_cons_iff in H as [Hc Hr].
    now rewrite (H1 Hc), (H2 Hr).
Qed.

(** The connector loop never fails, sends no request to a model and
    yields no event, whatever the connectors do.  The context it returns
    starts with the one it was given, and is that one unchanged when every
    connector fails or returns nothing. *)
Theorem connector_loop_swallows_failures (cfgs : list ConnectorConfig) (ctx : str)
  (c : Collaborators) (env : Env) (st : GState) :
  exists added,
    connector_loop cfgs ctx c env st = (Ok (ctx ++ added), st) /\
    (Forall (brings_nothing c) cfgs -> added = []).
Proof. exact (connector_loop_grows cfgs ctx c env st). Qed.

(** *** The requests of a turn *)

(** [m] keeps the requests already sent and adds at most [n]. *)
Definition gsends {A : Type} (n : nat) (m : G A) : Prop :=
  forall c env st,
  exists ext, sent (snd (m c env st)) = sent st ++ ext /\ length ext <= n.

(** [m] sends nothing. *)
Definition still {A : Type} (m : G A) : Prop :=
  forall c env st, sent (snd (m c env st)) = sent st.

Lemma gsends_still {A : Type} (n : nat) (m : G A) : still m -> gsends n m.
Proof.
  intros H c env st. exists []. rewrite app_nil_r. split; [apply H | simpl; lia].
Qed.

Lemma gsends_bind {A B : Type} (a b : nat) (m : G A) (k : A -> G B) :
  gsends a m -> (forall x, gsends b (k x)) -> gsends (a + b) (gbind m k).
Proof.
  intros Hm Hk c env st. unfold gbind.
  destruct (Hm c env st) as (e1 & E1 & L1).
  destruct (m c env st) as [[x|e] st1]; simpl in E1.
  - destruct (Hk x c env st1) as (e2 & E2 & L2).
    exists (e1 ++ e2). rewrite E2, E1, app_assoc, length_app. split; [reflexivity | lia].
  - exists e1. split; [exact E1 | lia].
Qed.

Lemma gsends_bind_still {A B : Type} (n : nat) (m : G A) (k : A -> G B) :
  still m -> (forall x, gsends n (k x)) -> gsends n (gbind m k).
Proof.
  intros Hm Hk. apply (gsends_bind 0 n); [now apply gsends_still | exact Hk].
Qed.

Lemma still_yield (ev : Event) : still (yield ev).
Proof. intros c env st. reflexivity. Qed.

Lemma still_gret {A : Type} (a : A) : still (gret a).
Proof. intros c env st. reflexivity. Qed.

Lemma still_collab {A : Type} (f : Collaborators -> outcome A) : still (collab f).
Proof. intros c env st. unfold collab. now destruct (f c). Qed.

Lemma still_gresult {A : Type} (r : result A) : still (gresult r).
Proof. intros c env st. reflexivity. Qed.

Lemma still_connector_loop (cfgs : list ConnectorConfig) (ctx : str) :
  still (connector_loop cfgs ctx).
Proof.
  intros c env st.
  destruct (connector_loop_grows cfgs ctx c env st) as (added & -> & _). reflexivity.
Qed.

Lemma gsends_await {A : Type} (P : Request -> Prop) (n : nat) (m : M A) :
  sends P n m -> gsends n (await m).
Proof.
  intros H c env st. unfold await. destruct (H env (sent st)) as (ext & E & L & _).
  destruct (m env (sent st)) as [r log]. simpl in *. now exists ext.
Qed.

Lemma gsends_create_task {A : Type} (P : Request -> Prop) (n : nat) (m : M A) :
  sends P n m -> gsends n (create_task m).
Proof.
  intros H c env st. unfold create_task. destruct (H env (sent st)) as (ext & E & L & _).
  destruct (m env (sent st)) as [r log]. simpl in *. now exists ext.
Qed.

Lemma sends_then_silent {A B : Type} (P : Request -> Prop) (n : nat)
  (m : M A) (k : A -> M B) :
  sends P n m -> (forall x, silent (k x)) -> sends P n (bind m k).
Proof.
  intros Hm Hk. apply (sends_weaken P (n + 0) n); [lia|].
  apply sends_bind; [exact Hm|]. intros x. apply sends_silent, Hk.
Qed.

Lemma silent_then_sends {A B : Type} (P : Request -> Prop) (n : nat)
  (m : M A) (k : A -> M B) :
  silent m -> (forall x, sends P n (k x)) -> sends P n (bind m k).
Proof.
  intros Hm Hk. apply (sends_bind P 0 n); [now apply sends_silent | exact Hk].
Qed.

Lemma sends_stage1 (user_query : str) (models : list str)
  (system_prompt file_context : option str)
  (image_attachments : option (list Image)) (tools : option (list ToolDefinition)) :
  sends (fun _ => True) (S MAX_TOOL_ROUNDS * length models)
    (stage1_collect_responses user_query models system_prompt file_context
                              image_attachments tools).
Proof.
  unfold stage1_collect_responses.
  apply sends_then_silent; [apply sends_query_models_parallel|].
  intros. apply silent_ret.
Qed.

Lemma sends_stage2 (user_query : str) (stage1_results : list Stage1Result)
  (models : list str) :
  sends (fun _ => True) (S MAX_TOOL_ROUNDS * length models)
    (stage2_collect_rankings user_query stage1_results models).
Proof.
  unfold stage2_collect_rankings.
  apply silent_then_sends; [apply silent_lift_result|]. intros labels.
  apply sends_then_silent; [apply sends_query_models_parallel|]. intros responses.
  apply silent_bind; [apply silent_lift_result | intros; apply silent_ret].
Qed.

Lemma sends_after_query_model {A : Type} (model : str) (messages : list Message)
  (timeout : Z) (k : option ModelResponse -> M A) :
  (forall r, silent (k r)) ->
  sends (fun _ => True) (S MAX_TOOL_ROUNDS)
    (bind (query_model model messages None timeout None None) k).
Proof.
  intros Hk. apply sends_then_silent; [eapply sends_any, sends_query_model | exact Hk].
Qed.

Lemma sends_stage3 (user_query : str) (stage1_results : list Stage1Result)
  (stage2_results : list Stage2Result) (chairman : str)
  (previous : option (dict str)) :
  sends (fun _ => True) (S MAX_TOOL_ROUNDS)
    (stage3_synthesize_final user_query stage1_results stage2_results chairman
                             previous).
Proof.
  unfold stage3_synthesize_final. apply sends_after_query_model.
  intros [r|]; apply silent_ret.
Qed.

Lemma sends_stage4 (user_query : str) (system_prompt : option str)
  (stage1_results : list Stage1Result) (stage3_result : Stage3Result)
  (chairman : str) (previous : option (dict str)) :
  sends (fun _ => True) (S MAX_TOOL_ROUNDS)
    (stage4_self_reflection user_query system_prompt stage1_results stage3_result
                            chairman previous).
Proof.
  unfold stage4_self_reflection. apply sends_after_query_model.
  intros [r|]; apply silent_ret.
Qed.

Lemma sends_title (user_query model : str) :
  sends (fun _ => True) (S MAX_TOOL_ROUNDS)
    (generate_conversation_title user_query model).
Proof.
  unfold generate_conversation_title. apply sends_after_query_model.
  intros [r|]; apply silent_ret.
Qed.

Lemma gsends_then_still {A B : Type} (n : nat) (m : G A) (k : A -> G B) :
  gsends n m -> (forall x, still (k x)) -> gsends n (gbind m k).
Proof.
  intros Hm Hk c env st. destruct (gsends_bind n 0 m k Hm
                                     (fun x => gsends_still 0 (k x) (Hk x)) c env st)
    as (ext & E & L).
  exists ext. split; [exact E | lia].
Qed.

(** The requests that a turn may send: six for the title on a first
    turn, six per council model in each of Stages 1 and 2, six in each of
    Stages 3 and 4. *)
Definition request_budget (models : nat) (is_first_message : bool) : nat :=
  (if is_first_message then S MAX_TOOL_ROUNDS else 0)
  + (S MAX_TOOL_ROUNDS * models
     + (S MAX_TOOL_ROUNDS * models + (S MAX_TOOL_ROUNDS + S MAX_TOOL_ROUNDS))).

Lemma gsends_event_generator_body (conversation_id : str)
  (request : SendMessageRequest) (is_first_message : bool) :
  gsends (request_budget (length (council_models request)) is_first_message)
         (event_generator_body conversation_id request is_first_message).
Proof.
  unfold event_generator_body, request_budget.
  apply gsends_bind_still; [apply still_collab | intros _].
  apply gsends_bind.
  { destruct is_first_message; [|apply gsends_still, still_gret].
    apply gsends_then_still; [eapply gsends_create_task, sends_title|].
    intros t. apply still_gret. }
  intros title_task. cbv zeta.
  apply gsends_bind_still; [apply still_collab | intros [file_context image_attachments]].
  apply gsends_bind_still.
  { destruct (truthy (enabled_connectors request)); [|apply still_gret].
    destruct (enabled_connectors request); [|apply still_gret].
    apply still_connector_loop. }
  intros connector_context. cbv zeta.
  apply gsends_bind_still; [intros c env st; reflexivity | intros tool_defs].
  apply gsends_bind_still; [apply still_yield | intros _].
  apply gsends_bind; [eapply gsends_await, sends_stage1 | intros stage1_results].
  apply gsends_bind_still; [apply still_yield | intros _].
  apply gsends_bind_still; [apply still_yield | intros _].
  apply gsends_bind; [eapply gsends_await, sends_stage2
                     | intros [stage2_results label_to_model]].
  apply gsends_bind_still; [apply still_gresult | intros aggregate_rankings].
  apply gsends_bind_still; [apply still_yield | intros _].
  apply gsends_bind_still; [apply still_yield | intros _].
  apply gsends_bind; [eapply gsends_await, sends_stage3 | intros stage3_result].
  apply gsends_bind_still; [apply still_yield | intros _].
  apply gsends_bind_still; [apply still_yield | intros _].
  apply (gsends_bind (S MAX_TOOL_ROUNDS) 0);
    [eapply gsends_await, sends_stage4 | intros stage4_result].
  apply gsends_bind_still; [apply still_yield | intros _].
  apply gsends_bind_still.
  { destruct title_task as [task|]; [|apply still_gret].
    intros c env st. unfold gbind, gresult.
    destruct task as [title|e]; [|reflexivity].
    unfold collab. destruct (update_conversation_title c _ _); reflexivity. }
  intros _.
  apply gsends_bind_still; [apply still_yield | intros _].
  apply gsends_bind_still; [apply still_collab | intros _].
  apply gsends_still, still_yield.
Qed.

(** A streamed turn keeps the requests sent before it and adds at most
    [6 * (2 * n + 2)] requests for [n] council models, and six more on a
    first turn (the title), whatever the providers and the collaborators
    do. *)
Theorem event_generator_request_budget (conversation_id : str)
  (request : SendMessageRequest) (is_first_message : bool)
  (c : Collaborators) (env : Env) (st : GState) :
  exists ext,
    sent (snd (event_generator conversation_id request is_first_message c env st))
    = sent st ++ ext /\
    length ext <= 6 * (2 * length (council_models request) + 2)
                  + (if is_first_message then 6 else 0).
Proof.
  destruct (gsends_event_generator_body conversation_id request is_first_message
              c env st) as (ext & E & L).
  exists ext. split.
  - unfold event_generator, gtry_except.
    destruct (event_generator_body conversation_id request is_first_message c env st)
      as [[[]|[cls msg|]] st1]; exact E.
  - unfold request_budget, MAX_TOOL_ROUNDS in L. destruct is_first_message; lia.
Qed.

(** When the storage fails to save the user message, the stream is the
    one event [error] with the message of the exception, and no request
    goes to any model. *)
Theorem event_generator_storage_failure (conversation_id : str)
  (request : SendMessageRequest) (is_first_message : bool)
  (c : Collaborators) (env : Env) (st : GState) (cls : string) (msg : str) :
  add_user_message c conversation_id (req_content request) = Failed cls msg ->
  event_generator conversation_id request is_first_message c env st
  = (Ok tt, {| sent := sent st; yielded := yielded st ++ [error msg] |}).
Proof.
  intros H. unfold event_generator, gtry_except, event_generator_body.
  unfold gbind at 1, collab. rewrite H. reflexivity.
Qed.

(** A storage that cannot be written. *)
Definition read_only_storage : Collaborators :=
  {| add_user_message := fun _ _ => Failed "OSError" (lit "Read-only file system");
     get_file_content_for_context := get_file_content_for_context working_collaborators;
     run_connector := run_connector working_collaborators;
     update_conversation_title := update_conversation_title working_collaborators;
     add_assistant_message := add_assistant_message working_collaborators;
     upper := upper working_collaborators |}.

Lemma event_generator_storage_failure_witness :
  event_generator (lit "c1") sample_request true read_only_storage provider_down_env
                  fresh_stream
  = (Ok tt, {| sent := sent fresh_stream;
               yielded := yielded fresh_stream
                          ++ [error (lit "Read-only file system")] |}).
Proof.
  apply (event_generator_storage_failure (lit "c1") sample_request true
           read_only_storage provider_down_env fresh_stream "OSError"
           (lit "Read-only file system")).
  reflexivity.
Defined.

(** *** The cost summary *)

Lemma fold_add_model_cost_keys (costs : list (str * float)) (k : str) :
  forall d,
    NoDup (dict_keys d) ->
    NoDup (dict_keys (fold_left (fun d mc => add_model_cost d (fst mc) (snd mc))
                                costs d)) /\
    (In k (dict_keys (fold_left (fun d mc => add_model_cost d (fst mc) (snd mc))
                                costs d))
     <-> In k (dict_keys d) \/ In k (map fst costs)).
Proof.
  induction costs as [|[m cost] costs IH]; intros d Hd; cbn [fold_left map fst snd].
  - split; [exact Hd | simpl; tauto].
  - unfold add_model_cost at 2 4.
    destruct (IH (dict_set d m (dict_get_default d m 0 + cost)%float)) as [Hn Hk];
      [now apply nodup_dict_set|].
    split; [exact Hn|]. rewrite Hk, keys_dict_set.
    destruct (dict_mem d m) eqn:Em.
    + unfold dict_mem in Em. split; [simpl; tauto|].
      intros [H|[<-|H]]; [tauto | | tauto].
      left. apply in_keys_get. destruct (dict_get d m); [discriminate | discriminate Em].
    + rewrite in_app_iff. simpl. tauto.
Qed.

(** The [by_model] part of the cost summary has one entry per model
    that took part: the chairman, the models of the Stage 1 results and
    those of the Stage 2 results, each once. *)
Theorem cost_summary_by_model (request : SendMessageRequest)
  (stage1_results : list Stage1Result) (stage2_results : list Stage2Result)
  (stage3_result : Stage3Result) (stage4_result : Stage4Result) :
  NoDup (dict_keys (cs_by_model (build_cost_summary request stage1_results
                                   stage2_results stage3_result stage4_result))) /\
  forall m,
    In m (dict_keys (cs_by_model (build_cost_summary request stage1_results
                                    stage2_results stage3_result stage4_result)))
    <-> m = chairman_model request \/ In m (map s1_model stage1_results)
        \/ In m (map s2_model stage2_results).
Proof.
  unfold build_cost_summary. cbv zeta. cbn [cs_by_model].
  unfold dict_keys. rewrite map_map. cbn [fst].
  change (map (fun x : str * float => fst x)) with (@dict_keys float).
  set (costs := map (fun r => (s1_model r, s1_cost r)) stage1_results
                ++ map (fun r => (s2_model r, s2_cost r)) stage2_results).
  assert (Hc : map fst costs = map s1_model stage1_results
                               ++ map s2_model stage2_results).
  { unfold costs. rewrite map_app, !map_map. reflexivity. }
  assert (Hnil : NoDup (dict_keys (@nil (str * float)))) by constructor.
  split.
  - apply nodup_dict_set.
    exact (proj1 (fold_add_model_cost_keys costs [] [] Hnil)).
  - intros m. rewrite keys_dict_set.
    pose proof (proj2 (fold_add_model_cost_keys costs m [] Hnil)) as Hk.
    pose proof (proj2 (fold_add_model_cost_keys costs (chairman_model request) []
                         Hnil)) as Hch.
    rewrite Hc, in_app_iff in Hk, Hch. cbn [dict_keys map In] in Hk, Hch.
    match goal with |- context [dict_mem ?d ?k] => destruct (dict_mem d k) eqn:Em end.
    + unfold dict_mem in Em. rewrite Hk. split; [tauto|].
      intros [->|H]; [|tauto].
      apply (proj1 Hch). apply in_keys_get.
      match type of Em with context [dict_get ?d ?k] =>
        destruct (dict_get d k); [discriminate | discriminate Em]
      end.
    + rewrite in_app_iff, Hk. simpl. intuition (subst; auto).
Qed.

End TurnFacts.

(** ** The pipeline end to end *)

Module PipelineFacts.

Import EffectFacts ToolLoopFacts AggregatorFacts StageFacts LabelFacts.
Import ParserFacts RankingFacts AdapterFacts ReplyFacts CouncilFacts ChairmanFacts.

(** *** Stage 2 on two answers *)

Lemma stage2_rankings_sound_witness :
  exists stage2_results responses ext,
    stage2_collect_rankings (lit "Which is best?")
      [numbered_result 0; numbered_result 1] [lit "gpt-4.1"; lit "claude-sonnet-4"]
      plain_env []
    = (Ok (stage2_results,
           label_entries
             (map (label_at 0) (seq 0 (length [numbered_result 0; numbered_result 1])))
             [numbered_result 0; numbered_result 1]),
       [] ++ ext) /\
    length ext <= (MAX_TOOL_ROUNDS + 1)
                  * length [lit "gpt-4.1"; lit "claude-sonnet-4"] /\
    query_models_parallel [lit "gpt-4.1"; lit "claude-sonnet-4"]
      (stage2_messages (lit "Which is best?") [numbered_result 0; numbered_result 1])
      None None None plain_env []
    = (Ok responses, [] ++ ext) /\
    (forall m response,
        dict_get responses m = Some (Some response) ->
        exists r, In r stage2_results /\ s2_model r = m /\
                  s2_ranking r = resp_content response) /\
    NoDup (map s2_model stage2_results) /\
    (forall r, In r stage2_results ->
       In (s2_model r) [lit "gpt-4.1"; lit "claude-sonnet-4"] /\
       (exists response l1 l2,
           dict_get responses (s2_model r) = Some (Some response) /\
           query_model (s2_model r)
             (stage2_messages (lit "Which is best?")
                [numbered_result 0; numbered_result 1])
             None 120 None None plain_env l1 = (Ok (Some response), l2) /\
           s2_ranking r = resp_content response /\
           s2_usage r = resp_usage response) /\
       s2_cost r = calculate_cost (s2_model r) (Some (s2_usage r)) /\
       parse_ranking_from_text (s2_ranking r) = Ok (s2_parsed_ranking r) /\
       Forall is_label (s2_parsed_ranking r)).
Proof.
  apply (stage2_rankings_sound (lit "Which is best?")
           [numbered_result 0; numbered_result 1]
           [lit "gpt-4.1"; lit "claude-sonnet-4"] plain_env []).
  simpl. lia.
Defined.

(** *** A council with a model of the Google family and a tool *)


Lemma stage1_results_sound_witness :
  fst (stage1_collect_responses (lit "What is 2 + 2?")
         [lit "gpt-4.1"; lit "gemini-2.5-pro"] None None None (Some [draft7_tool])
         strict_sdk_env [])
  = Raise (PyException "ValidationError"
             (lit "1 validation error for FunctionDeclaration")) /\
  exists stage1_results,
    fst (stage1_collect_responses (lit "What is 2 + 2?")
           [lit "gpt-4.1"; lit "gemini-2.5-pro"] None None None (Some [draft7_tool])
           plain_env []) = Ok stage1_results /\
    map s1_model stage1_results = [lit "gpt-4.1"; lit "gemini-2.5-pro"] /\
    NoDup (map s1_model stage1_results).
Proof.
  split.
  - destruct (stage1_results_sound (lit "What is 2 + 2?")
                [lit "gpt-4.1"; lit "gemini-2.5-pro"] None None None
                (Some [draft7_tool]) strict_sdk_env [])
      as (ext & _ & _ & Hr & _).
    apply (Hr (lit "gemini-2.5-pro") [draft7_tool]); try reflexivity.
    right. now left.
  - destruct (stage1_results_sound (lit "What is 2 + 2?")
                [lit "gpt-4.1"; lit "gemini-2.5-pro"] None None None
                (Some [draft7_tool]) plain_env [])
      as (ext & _ & _ & _ & Ha).
    destruct Ha as (stage1_results & E & Hn & _); [intros; reflexivity|].
    exists stage1_results. split; [exact E|]. split; [|exact Hn].
    revert E. vm_compute. intros [= <-]. reflexivity.
Defined.

(** *** The aggregate names Stage 1 models *)

Lemma label_to_model_values (labels : list N) (stage1_results : list Stage1Result)
  (label model : str) :
  dict_get (build_label_to_model labels stage1_results) label = Some model ->
  In model (map s1_model stage1_results).
Proof.
  rewrite build_label_to_model_fold. intros H.
  apply fold_dict_set_get in H as [H|H]; [|discriminate H].
  unfold label_entries in H. apply in_map_iff in H as ([c r] & E & Hin).
  injection E as _ <-. apply in_combine_r in Hin. now apply in_map.
Qed.

Lemma aggregate_entry_labelled (stage2_results : list Stage2Result)
  (label_to_model : dict str) (e : AggregateEntry) :
  In e (sort_by PrimFloat.ltb average_rank
          (aggregate_of (fold_left record
                           (all_contributions label_to_model stage2_results) []))) ->
  1 <= rankings_count e /\
  exists label, dict_get label_to_model label = Some (agg_model e).
Proof.
  set (E := all_contributions label_to_model stage2_results).
  pose proof (represents_fold E [] [] represents_nil) as R. cbn [app] in R.
  intros H. apply (Permutation_in _ (sort_by_permutation _ _ _)) in H.
  apply (in_aggregate _ _ e R) in H as [k Hk].
  unfold entry_from in Hk. destruct (count k E) as [|n] eqn:Ec; [contradiction|].
  destruct Hk as [<-|[]]. cbn [rankings_count agg_model]. split; [lia|].
  destruct (count_positive_in k E) as [p Hp]; [lia|].
  unfold E, all_contributions in Hp. apply in_flat_map in Hp as (r & _ & Hp).
  apply in_contributions in Hp as (_ & label & _ & Hl). now exists label.
Qed.

(** Over the label map that Stage 2 builds, every entry of the aggregate
    ranking names the model of a Stage 1 result and counts at least one
    mention, whatever the raters wrote. *)
Theorem aggregate_models_answered (labels : list N)
  (stage1_results : list Stage1Result) (stage2_results : list Stage2Result) :
  exists out,
    calculate_aggregate_rankings stage2_results
      (build_label_to_model labels stage1_results) = Ok out /\
    forall e, In e out ->
      In (agg_model e) (map s1_model stage1_results) /\ 1 <= rankings_count e.
Proof.
  rewrite calculate_aggregate_rankings_total. eexists. split; [reflexivity|].
  intros e He. apply aggregate_entry_labelled in He as [Hc [label Hl]].
  split; [|exact Hc]. eapply label_to_model_values. exact Hl.
Qed.

(** *** No client at all *)

Lemma query_model_without_client (model : str) (messages : list Message)
  (system_prompt : option str) (timeout : Z)
  (tools : option (list ToolDefinition)) (reasoning_effort : option str)
  (env : Env) (log : list Request) :
  client_of env (get_provider model) = false ->
  query_model model messages system_prompt timeout tools reasoning_effort env log
  = (Ok None, log).
Proof.
  intros Hc.
  destruct (query_model_abstains model messages system_prompt timeout tools
              reasoning_effort env log (refusal_no_client _ _ _ Hc))
    as (r & ext & E & Hn & _).
  destruct (Hn Hc) as [-> ->]. now rewrite app_nil_r in E.
Qed.

Lemma gather_all_none {A B : Type} (f : A -> M (option B)) (env : Env)
  (log : list Request) (l : list A) :
  (forall a, In a l -> f a env log = (Ok None, log)) ->
  gather f l env log = (Ok (map (fun _ => None) l), log).
Proof.
  induction l as [|a l IH]; intros H; cbn [gather map]; [reflexivity|].
  rewrite (H a (or_introl eq_refl)).
  rewrite IH by (intros b Hb; apply H; now right). reflexivity.
Qed.

Lemma dict_set_values {V : Type} (Q : V -> Prop) (d : dict V) (k : str) (v : V) :
  Forall (fun kv => Q (snd kv)) d -> Q v ->
  Forall (fun kv => Q (snd kv)) (dict_set d k v).
Proof.
  intros Hd Hv. induction d as [|[k0 v0] d IH]; simpl.
  - now repeat constructor.
  - apply Forall_cons_iff in Hd as [H0 Hd].
    destruct (str_eqb k0 k); constructor; auto.
Qed.

Lemma zip_dict_values {V : Type} (Q : V -> Prop) (keys : list str) (values : list V) :
  Forall Q values -> Forall (fun kv => Q (snd kv)) (zip_dict keys values).
Proof.
  intros Hv. unfold zip_dict.
  assert (G : forall kvs d,
             Forall (fun kv : str * V => Q (snd kv)) kvs ->
             Forall (fun kv => Q (snd kv)) d ->
             Forall (fun kv => Q (snd kv))
                    (fold_left (fun d kv => dict_set d (fst kv) (snd kv)) kvs d)).
  { induction kvs as [|kv kvs IH]; intros d Hk Hd; simpl; [exact Hd|].
    apply Forall_cons_iff in Hk as [H0 Hk]. apply IH; [exact Hk|].
    now apply dict_set_values. }
  apply G; [|constructor].
  apply Forall_forall. intros [k v] Hin. apply in_combine_r in Hin.
  rewrite Forall_forall in Hv. now apply Hv.
Qed.

Lemma stage1_without_clients (user_query : str) (council_models : list str)
  (system_prompt file_context : option str)
  (image_attachments : option (list Image)) (tools : option (list ToolDefinition))
  (env : Env) (log : list Request) :
  (forall m, In m council_models -> client_of env (get_provider m) = false) ->
  stage1_collect_responses user_query council_models system_prompt file_context
                           image_attachments tools env log
  = (Ok [], log).
Proof.
  intros Hc. unfold stage1_collect_responses, query_models_parallel, bind.
  rewrite gather_all_none
    by (intros m Hm; apply query_model_without_client; now apply Hc).
  unfold ret. f_equal. f_equal.
  pose proof (zip_dict_values (fun v : option ModelResponse => v = None) council_models
                (map (fun _ => None) council_models)) as Hz.
  induction (zip_dict council_models (map (fun _ => None) council_models))
    as [|[k v] d IH]; [reflexivity|].
  assert (Hall : Forall (fun kv : str * option ModelResponse => snd kv = None)
                        ((k, v) :: d)).
  { apply Hz. apply Forall_forall. intros x Hx. apply in_map_iff in Hx as (y & <- & _).
    reflexivity. }
  apply Forall_cons_iff in Hall as [Hv Hd]. cbn [snd] in Hv. subst v.
  cbn [flat_map snd app]. apply IH. intros _. exact Hd.
Qed.

(** When no council model has a client for its provider (no credentials
    at all), [run_full_council] sends no request and returns empty Stage 1
    and Stage 2 lists, the result "All models failed to respond. Please
    try again." of the model "error", and empty metadata. *)
Theorem run_full_council_without_clients (user_query : str)
  (council_models : list str) (chairman : str) (system_prompt : option str)
  (env : Env) (log : list Request) :
  (forall m, In m council_models -> client_of env (get_provider m) = false) ->
  run_full_council user_query council_models chairman system_prompt env log
  = (Ok ([], [], all_failed, None), log).
Proof.
  intros Hc. apply run_full_council_short_circuit.
  now apply stage1_without_clients.
Qed.

Lemma run_full_council_without_clients_witness :
  run_full_council (lit "What is 2 + 2?") [lit "gpt-4.1"; lit "claude-sonnet-4"]
                   (lit "gemini-2.5-pro") None offline_env []
  = (Ok ([], [], all_failed, None), []).
Proof.
  apply (run_full_council_without_clients (lit "What is 2 + 2?")
           [lit "gpt-4.1"; lit "claude-sonnet-4"] (lit "gemini-2.5-pro") None
           offline_env []).
  intros m _. destruct (get_provider m); reflexivity.
Defined.

(** *** The parser of Stage 4 on a reflection *)

Example parse_stage4_reflection :
  parse_stage4_response (lit "CRITIQUE:
 Too short.
SUGGESTED_QUERY: Ask why. ")
  = [ (lit "critique", lit "Too short."); (lit "comparison", []);
      (lit "suggested_system_prompt", []); (lit "suggested_query", lit "Ask why.") ].
Proof. vm_compute. reflexivity. Qed.

End PipelineFacts.

(** ** The JSON storage *)

Module StorageFacts.

Import AggregatorFacts Storage.

(** Every file holds the conversation of its own id. *)
Definition consistent (files : Files) : Prop :=
  forall id c, dict_get files id = Some c -> conv_id c = id.

Lemma consistent_empty : consistent [].
Proof. intros id c H. discriminate H. Qed.

Lemma consistent_set (files : Files) (id : str) (c : Conversation) :
  consistent files -> conv_id c = id -> consistent (dict_set files id c).
Proof.
  intros Hf Hc id' c' H.
  destruct (list_eq_dec N.eq_dec id id') as [E|E].
  - subst id'. rewrite dict_get_set_eq in H. now injection H as <-.
  - rewrite dict_get_set_neq in H by exact E. now apply Hf.
Qed.

(** [create_conversation] returns a conversation without messages,
    titled "New Conversation"; [get_conversation] then returns it for
    that id - in place of what the id held before - and every other
    conversation is as before. *)
Theorem create_then_get (utcnow conversation_id : str) (files : Files) :
  exists files',
    create_conversation utcnow conversation_id files
    = (Ok {| conv_id := conversation_id; conv_created_at := utcnow;
             conv_title := lit "New Conversation"; conv_messages := [] |},
       files') /\
    get_conversation conversation_id files'
    = (Ok (Some {| conv_id := conversation_id; conv_created_at := utcnow;
                   conv_title := lit "New Conversation"; conv_messages := [] |}),
       files') /\
    (forall id, id <> conversation_id ->
                get_conversation id files' = (Ok (dict_get files id), files')) /\
    (consistent files -> consistent files').
Proof.
  unfold create_conversation, get_conversation. eexists.
  split; [reflexivity|]. split; [|split].
  - now rewrite dict_get_set_eq.
  - intros id Hid. rewrite dict_get_set_neq by congruence. reflexivity.
  - intros Hf. now apply consistent_set.
Qed.

(** The conversation [id] of [files'] is [c'], the rest is as in [files]. *)
Definition replaced (files : Files) (id : str) (c' : Conversation) (files' : Files)
  : Prop :=
  dict_get files' id = Some c' /\
  (forall id', id' <> id -> dict_get files' id' = dict_get files id') /\
  consistent files'.

Lemma save_replaces (files : Files) (id : str) (c c' : Conversation) :
  consistent files -> dict_get files id = Some c -> conv_id c' = conv_id c ->
  _save_json c' files = (Ok tt, dict_set files id c') /\
  replaced files id c' (dict_set files id c').
Proof.
  intros Hf Hc Hid. pose proof (Hf id c Hc) as E.
  unfold _save_json. rewrite Hid, E. split; [reflexivity|].
  split; [apply dict_get_set_eq|]. split.
  - intros id' Hn. apply dict_get_set_neq. congruence.
  - apply consistent_set; [exact Hf | congruence].
Qed.

Definition with_message (c : Conversation) (message : StoredMessage) : Conversation :=
  {| conv_id := conv_id c; conv_created_at := conv_created_at c;
     conv_title := conv_title c; conv_messages := conv_messages c ++ [message] |}.

Definition with_title (c : Conversation) (title : str) : Conversation :=
  {| conv_id := conv_id c; conv_created_at := conv_created_at c;
     conv_title := title; conv_messages := conv_messages c |}.

Lemma add_user_message_spec (files : Files) (id content : str) :
  consistent files ->
  match dict_get files id with
  | None => add_user_message id content files = (Raise (not_found id), files)
  | Some c =>
      add_user_message id content files
      = (Ok tt, dict_set files id (with_message c (UserMessage content))) /\
      replaced files id (with_message c (UserMessage content))
               (dict_set files id (with_message c (UserMessage content)))
  end.
Proof.
  intros Hf. unfold add_user_message, get_conversation.
  destruct (dict_get files id) as [c|] eqn:E; [|reflexivity].
  exact (save_replaces files id c (with_message c (UserMessage content)) Hf E eq_refl).
Qed.

Lemma add_assistant_message_spec (files : Files) (id : str)
  (stage1 : list Stage1Result) (stage2 : list Stage2Result) (stage3 : Stage3Result)
  (stage4 : option Stage4Result) (run_config : option json) :
  consistent files ->
  match dict_get files id with
  | None =>
      add_assistant_message id stage1 stage2 stage3 stage4 run_config files
      = (Raise (not_found id), files)
  | Some c =>
      add_assistant_message id stage1 stage2 stage3 stage4 run_config files
      = (Ok tt,
         dict_set files id
           (with_message c (AssistantMessage stage1 stage2 stage3 stage4 run_config))) /\
      replaced files id
        (with_message c (AssistantMessage stage1 stage2 stage3 stage4 run_config))
        (dict_set files id
           (with_message c (AssistantMessage stage1 stage2 stage3 stage4 run_config)))
  end.
Proof.
  intros Hf. unfold add_assistant_message, get_conversation.
  destruct (dict_get files id) as [c|] eqn:E; [|reflexivity].
  exact (save_replaces files id c
           (with_message c (AssistantMessage stage1 stage2 stage3 stage4 run_config))
           Hf E eq_refl).
Qed.

Lemma update_conversation_title_spec (files : Files) (id title : str) :
  consistent files ->
  match dict_get files id with
  | None => update_conversation_title id title files = (Raise (not_found id), files)
  | Some c =>
      update_conversation_title id title files
      = (Ok tt, dict_set files id (with_title c title)) /\
      replaced files id (with_title c title) (dict_set files id (with_title c title))
  end.
Proof.
  intros Hf. unfold update_conversation_title, get_conversation.
  destruct (dict_get files id) as [c|] eqn:E; [|reflexivity].
  exact (save_replaces files id c (with_title c title) Hf E eq_refl).
Qed.

(** Over files that each hold the conversation of their own id:
    [add_user_message] and [add_assistant_message] raise
    ValueError("Conversation <id> not found") for an unknown id and
    leave the files as they are; for a known id they append exactly one
    message at the end of that conversation, keep its id, creation time,
    title and earlier messages, and leave every other conversation
    untouched. *)
Theorem add_message_appends (files : Files) (id content : str)
  (stage1 : list Stage1Result) (stage2 : list Stage2Result) (stage3 : Stage3Result)
  (stage4 : option Stage4Result) (run_config : option json) :
  consistent files ->
  match dict_get files id with
  | None =>
      add_user_message id content files = (Raise (not_found id), files) /\
      add_assistant_message id stage1 stage2 stage3 stage4 run_config files
      = (Raise (not_found id), files)
  | Some c =>
      (exists files',
          add_user_message id content files = (Ok tt, files') /\
          replaced files id (with_message c (UserMessage content)) files') /\
      (exists files',
          add_assistant_message id stage1 stage2 stage3 stage4 run_config files
          = (Ok tt, files') /\
          replaced files id
            (with_message c (AssistantMessage stage1 stage2 stage3 stage4 run_config))
            files')
  end.
Proof.
  intros Hf.
  pose proof (add_user_message_spec files id content Hf) as Hu.
  pose proof (add_assistant_message_spec files id stage1 stage2 stage3 stage4
                run_config Hf) as Ha.
  destruct (dict_get files id) as [c|]; [|now split].
  split; eexists; eassumption.
Qed.

(** Two conversations, the first with a message. *)
Definition sample_files : Files :=
  snd (add_user_message (lit "c1") (lit "What is 2 + 2?")
         (snd (create_conversation (lit "2024-05-02T09:00:00") (lit "c2")
                 (snd (create_conversation (lit "2024-05-01T09:00:00") (lit "c1") []))))).

Lemma sample_files_consistent : consistent sample_files.
Proof.
  apply consistent_set; [|reflexivity].
  apply consistent_set; [|reflexivity].
  apply consistent_set; [apply consistent_empty | reflexivity].
Qed.

Lemma add_message_appends_witness :
  (exists files',
      add_user_message (lit "c1") (lit "And 3 + 3?") sample_files = (Ok tt, files') /\
      dict_get files' (lit "c1")
      = Some {| conv_id := lit "c1"; conv_created_at := lit "2024-05-01T09:00:00";
                conv_title := lit "New Conversation";
                conv_messages := [UserMessage (lit "What is 2 + 2?");
                                  UserMessage (lit "And 3 + 3?")] |}) /\
  add_user_message (lit "c9") (lit "And 3 + 3?") sample_files
  = (Raise (not_found (lit "c9")), sample_files).
Proof.
  split.
  - pose proof (add_message_appends sample_files (lit "c1") (lit "And 3 + 3?")
                  [] [] (ChairmanFacts.stage3_fallback []) None None
                  sample_files_consistent) as H.
    change (dict_get sample_files (lit "c1"))
      with (Some {| conv_id := lit "c1"; conv_created_at := lit "2024-05-01T09:00:00";
                    conv_title := lit "New Conversation";
                    conv_messages := [UserMessage (lit "What is 2 + 2?")] |}) in H.
    destruct H as [(files' & E & Hr & _) _]. exists files'. split; [exact E | exact Hr].
  - pose proof (add_message_appends sample_files (lit "c9") (lit "And 3 + 3?")
                  [] [] (ChairmanFacts.stage3_fallback []) None None
                  sample_files_consistent) as H.
    change (dict_get sample_files (lit "c9")) with (@None Conversation) in H.
    exact (proj1 H).
Defined.

(** Over such files, [update_conversation_title] raises the same
    ValueError for an unknown id and leaves the files as they are; for a
    known id it changes the title of that conversation and nothing else. *)
Theorem update_title_only (files : Files) (id title : str) :
  consistent files ->
  match dict_get files id with
  | None => update_conversation_title id title files = (Raise (not_found id), files)
  | Some c =>
      exists files',
        update_conversation_title id title files = (Ok tt, files') /\
        replaced files id (with_title c title) files'
  end.
Proof.
  intros Hf. pose proof (update_conversation_title_spec files id title Hf) as H.
  destruct (dict_get files id) as [c|]; [|exact H].
  eexists. exact H.
Qed.

Lemma update_title_only_witness :
  exists files',
    update_conversation_title (lit "c1") (lit "Simple Sums") sample_files
    = (Ok tt, files') /\
    dict_get files' (lit "c1")
    = Some {| conv_id := lit "c1"; conv_created_at := lit "2024-05-01T09:00:00";
              conv_title := lit "Simple Sums";
              conv_messages := [UserMessage (lit "What is 2 + 2?")] |}.
Proof.
  pose proof (update_title_only sample_files (lit "c1") (lit "Simple Sums")
                sample_files_consistent) as H.
  change (dict_get sample_files (lit "c1"))
    with (Some {| conv_id := lit "c1"; conv_created_at := lit "2024-05-01T09:00:00";
                  conv_title := lit "New Conversation";
                  conv_messages := [UserMessage (lit "What is 2 + 2?")] |}) in H.
  destruct H as (files' & E & Hr & _). exists files'. split; [exact E | exact Hr].
Defined.

(** *** The list view *)

Definition metadata_of (c : Conversation) : ConversationMetadata :=
  {| meta_id := conv_id c; meta_created_at := conv_created_at c;
     meta_title := conv_title c; meta_message_count := length (conv_messages c) |}.

(** No entry is directly followed by one created later. *)
Fixpoint newest_first (l : list ConversationMetadata) : Prop :=
  match l with
  | a :: t =>
      match t with
      | b :: _ => str_ltb (meta_created_at a) (meta_created_at b) = false
      | [] => True
      end /\ newest_first t
  | [] => True
  end.

Lemma str_ltb_asym (a b : str) : str_ltb a b = true -> str_ltb b a = false.
Proof.
  revert b. induction a as [|x a IH]; intros [|y b]; simpl; try congruence.
  destruct (N.ltb_spec x y) as [Hxy|Hxy].
  - intros _. destruct (N.ltb_spec y x); [lia|].
    destruct (N.ltb_spec x y); [reflexivity | lia].
  - destruct (N.ltb_spec y x) as [Hyx|Hyx]; [discriminate|]. apply IH.
Qed.

Lemma insert_newest_first (x : ConversationMetadata) (l : list ConversationMetadata) :
  newest_first l ->
  newest_first (insert_by (fun a b => str_ltb b a) meta_created_at x l).
Proof.
  induction l as [|y t IH]; intros Hl; cbn [insert_by].
  - split; exact I.
  - destruct (str_ltb (meta_created_at x) (meta_created_at y)) eqn:E.
    + destruct Hl as [Hy Ht]. specialize (IH Ht). split; [|exact IH].
      destruct t as [|z t]; cbn [insert_by].
      * now apply str_ltb_asym.
      * destruct (str_ltb (meta_created_at x) (meta_created_at z));
          [exact Hy | now apply str_ltb_asym].
    + split; [exact E | exact Hl].
Qed.

(** [list_conversations] changes no file and returns one entry per
    stored conversation, with its id, creation time, title and its number
    of messages, the most recently created first. *)
Theorem list_conversations_newest_first (files : Files) :
  exists l,
    list_conversations files = (Ok l, files) /\
    Permutation l (map (fun kv => metadata_of (snd kv)) files) /\
    newest_first l.
Proof.
  unfold list_conversations. eexists. split; [reflexivity|]. split.
  - apply (sort_by_permutation (fun a b => str_ltb b a) meta_created_at
             (map (fun kv => metadata_of (snd kv)) files)).
  - unfold sort_by.
    induction (map _ files) as [|x l IH]; cbn [fold_right]; [exact I|].
    now apply insert_newest_first.
Qed.

End StorageFacts.

(** ** The endpoints that do not stream *)

Module ApiFacts.

Import EffectFacts AggregatorFacts StageFacts LabelFacts AdapterFacts CouncilFacts.
Import ChairmanFacts TurnFacts Storage StorageFacts Api.

Lemma send_message_unknown_conversation (conversation_id : str)
  (request : SendMessageRequest) (env : Env) (files : Files) (log : list Request) :
  dict_get files conversation_id = None ->
  send_message conversation_id request env files log
  = (Raise (HTTPException "404" (lit "Conversation not found")), files, log).
Proof.
  intros H. unfold send_message, hbind, await_storage, get_conversation.
  now rewrite H.
Qed.

(** [optimize_prompt] sends at most six requests.  It returns the
    content of the model's response; when [query_model] gives [None] -
    no client for the model's provider, or a request answered by raising -
    it raises HTTP 500 "Failed to optimize prompt". *)
Theorem optimize_prompt_fails_with_500 (prompt model_id : str)
  (env : Env) (log : list Request) :
  exists response ext,
    query_model model_id [{| role := lit "user"; content := prompt; images := [] |}]
                (Some optimizer_system_prompt) 120 None None env log
    = (Ok response, log ++ ext) /\
    optimize_prompt prompt model_id env log
    = (match response with
       | Some r => Ok (resp_content r)
       | None => Raise (HTTPException "500" (lit "Failed to optimize prompt"))
       end, log ++ ext) /\
    length ext <= MAX_TOOL_ROUNDS + 1 /\
    (client_of env (get_provider model_id) = false -> response = None /\ ext = []) /\
    (forall pre req post,
        ext = pre ++ req :: post -> answer_raises env (log ++ pre) req ->
        response = None).
Proof.
  destruct (query_model_abstains model_id
              [{| role := lit "user"; content := prompt; images := [] |}]
              (Some optimizer_system_prompt) 120 None None env log
              (refusal_no_tools env model_id))
    as (response & ext & E & Hc & Hf).
  destruct (sends_query_model model_id
              [{| role := lit "user"; content := prompt; images := [] |}]
              (Some optimizer_system_prompt) 120 None None env log)
    as (ext' & Es & Hl & _).
  rewrite E in Es. simpl in Es. apply app_inv_head in Es. subst ext'.
  exists response, ext. split; [exact E|]. split.
  - unfold optimize_prompt, bind. rewrite E. now destruct response.
  - rewrite Nat.add_1_r. split; [exact Hl|]. split; [exact Hc | exact Hf].
Qed.

(** *** A whole turn, stored *)

Lemma replaced_trans (a b d : Files) (id : str) (c1 c2 : Conversation) :
  replaced a id c1 b -> replaced b id c2 d -> replaced a id c2 d.
Proof.
  intros (_ & H1 & _) (G & H2 & C). split; [exact G|]. split; [|exact C].
  intros id' Hn. now rewrite H2, H1.
Qed.

Lemma stage2_returns (user_query : str) (stage1_results : list Stage1Result)
  (models : list str) (env : Env) (log : list Request) :
  length stage1_results <= 26 ->
  exists out log',
    stage2_collect_rankings user_query stage1_results models env log = (Ok out, log').
Proof.
  intros Hn. unfold stage2_collect_rankings.
  destruct (stage2_labels_up_to_z stage1_results Hn) as (labels & El & _).
  unfold bind at 1, lift_result. rewrite El.
  match goal with |- context [query_models_parallel _ ?msgs None None None] =>
    destruct (total_query_models_parallel models msgs None None env log)
      as (responses & l1 & E)
  end.
  unfold bind at 1. rewrite E.
  unfold bind, lift_result. rewrite stage2_records. unfold ret.
  eexists. eexists. reflexivity.
Qed.

Lemma sends_run_full_council (user_query : str) (models : list str)
  (chairman : str) (system_prompt : option str) :
  sends (fun _ => True)
    (S MAX_TOOL_ROUNDS * length models
     + (S MAX_TOOL_ROUNDS * length models + S MAX_TOOL_ROUNDS))
    (run_full_council user_query models chairman system_prompt).
Proof.
  unfold run_full_council.
  apply sends_bind; [apply sends_stage1|]. intros [|r rs]; [apply sends_silent, silent_ret|].
  apply sends_bind; [apply sends_stage2|]. intros [stage2_results label_to_model].
  apply silent_then_sends; [apply silent_lift_result|]. intros aggregate.
  apply sends_then_silent; [apply sends_stage3 | intros; apply silent_ret].
Qed.

Lemma run_full_council_returns (user_query : str) (models : list str)
  (chairman : str) (system_prompt : option str) (env : Env) (log : list Request) :
  length models <= 26 ->
  exists out ext,
    run_full_council user_query models chairman system_prompt env log
    = (Ok out, log ++ ext) /\
    length ext <= 6 * (2 * length models + 1).
Proof.
  intros Hn.
  destruct (sends_run_full_council user_query models chairman system_prompt env log)
    as (ext & Es & Hl & _).
  assert (Ht : exists out log',
             run_full_council user_query models chairman system_prompt env log
             = (Ok out, log')).
  { unfold run_full_council.
    destruct (total_stage1 user_query models system_prompt None None env log)
      as (stage1_results & l1 & E1).
    unfold bind at 1. rewrite E1.
    destruct stage1_results as [|r rs] eqn:Er; [eexists; eexists; reflexivity|].
    rewrite <- Er in *.
    apply stage1_at_most_council in E1.
    destruct (stage2_returns user_query stage1_results models env l1)
      as ([stage2_results label_to_model] & l2 & E2); [lia|].
    unfold bind at 1. rewrite E2.
    unfold bind at 1, lift_result.
    rewrite calculate_aggregate_rankings_total.
    destruct (total_stage3 user_query stage1_results stage2_results chairman None
                env l2) as (stage3_result & l3 & E3).
    unfold bind. rewrite E3. eexists. eexists. reflexivity. }
  destruct Ht as (out & log' & E). rewrite E in Es. simpl in Es. subst log'.
  exists out, ext. split; [exact E|]. unfold MAX_TOOL_ROUNDS in Hl. lia.
Qed.

Lemma generate_conversation_title_bounded (user_query model : str)
  (env : Env) (log : list Request) :
  exists title ext,
    generate_conversation_title user_query model env log = (Ok title, log ++ ext) /\
    length title <= 50 /\ length ext <= 6.
Proof.
  destruct (total_title user_query model env log) as (title & log' & E).
  destruct (sends_title user_query model env log) as (ext & Es & Hl & _).
  rewrite E in Es. simpl in Es. subst log'.
  exists title, ext. split; [exact E|]. split; [|exact Hl].
  unfold generate_conversation_title, bind in E.
  destruct (query_model model _ None 30 None None env log) as [[[r|]|e] l];
    try discriminate E; unfold ret in E; injection E as <- _.
  - apply TitleFacts.clean_title_length.
  - simpl. lia.
Qed.

(** The title step of [send_message]. *)
Lemma title_step (conversation_id : str) (request : SendMessageRequest)
  (is_first_message : bool) (c1 : Conversation) (env : Env) (files1 : Files)
  (log : list Request) :
  consistent files1 -> dict_get files1 conversation_id = Some c1 ->
  exists title files2 ext,
    (if is_first_message
     then hbind (await_model (generate_conversation_title (req_content request)
                                                          DEFAULT_TITLE_MODEL))
                (fun title =>
                   await_storage (update_conversation_title conversation_id title))
     else hret tt) env files1 log
    = (Ok tt, files2, log ++ ext) /\
    replaced files1 conversation_id
             (if is_first_message then with_title c1 title else c1) files2 /\
    length title <= 50 /\
    length ext <= (if is_first_message then 6 else 0).
Proof.
  intros Hf Hc. destruct is_first_message.
  - destruct (generate_conversation_title_bounded (req_content request)
                DEFAULT_TITLE_MODEL env log) as (title & ext & Et & Hl & He).
    pose proof (update_conversation_title_spec files1 conversation_id title Hf) as Hu.
    rewrite Hc in Hu. destruct Hu as [Eu Ru].
    exists title, (dict_set files1 conversation_id (with_title c1 title)), ext.
    unfold hbind, await_model, await_storage. rewrite Et, Eu.
    split; [reflexivity|]. split; [exact Ru|]. split; [exact Hl | exact He].
  - exists [], files1, []. rewrite app_nil_r. split; [reflexivity|].
    split; [|split; simpl; lia].
    split; [exact Hc|]. split; [reflexivity | exact Hf].
Qed.

Lemma send_message_known (conversation_id : str)
  (request : SendMessageRequest) (env : Env) (files : Files) (log : list Request)
  (c : Conversation) :
  consistent files ->
  dict_get files conversation_id = Some c ->
  length (council_models request) <= 26 ->
  exists stage1 stage2 stage3 metadata title files' ext,
    send_message conversation_id request env files log
    = (Ok (stage1, stage2, stage3, metadata), files', log ++ ext) /\
    dict_get files' conversation_id
    = Some {| conv_id := conv_id c; conv_created_at := conv_created_at c;
              conv_title := match conv_messages c with
                            | [] => title
                            | _ :: _ => conv_title c
                            end;
              conv_messages :=
                conv_messages c
                ++ [UserMessage (req_content request);
                    AssistantMessage stage1 stage2 stage3 None None] |} /\
    length title <= 50 /\
    (forall id, id <> conversation_id -> dict_get files' id = dict_get files id) /\
    length ext <= 6 * (2 * length (council_models request) + 1)
                  + match conv_messages c with [] => 6 | _ :: _ => 0 end.
Proof.
  intros Hf Hc Hn.
  unfold send_message. unfold hbind at 1, await_storage at 1, get_conversation.
  rewrite Hc. cbv zeta.
  pose proof (add_user_message_spec files conversation_id (req_content request) Hf)
    as Hu.
  rewrite Hc in Hu. destruct Hu as [Eu Ru].
  set (c1 := with_message c (UserMessage (req_content request))) in *.
  set (files1 := dict_set files conversation_id c1) in *.
  unfold hbind at 1, await_storage at 1. rewrite Eu.
  destruct Ru as (G1 & O1 & C1).
  destruct (title_step conversation_id request
              (Nat.eqb (length (conv_messages c)) 0) c1 env files1 log C1 G1)
    as (title & files2 & ext1 & Et & Rt & Hl & He).
  unfold hbind at 1. rewrite Et.
  destruct (run_full_council_returns (req_content request) (council_models request)
              (chairman_model request) (system_prompt request) env (log ++ ext1) Hn)
    as ([[[stage1 stage2] stage3] metadata] & ext2 & Er & Hr).
  unfold hbind at 1, await_model at 1. rewrite Er.
  destruct Rt as (G2 & O2 & C2).
  pose proof (add_assistant_message_spec files2 conversation_id stage1 stage2 stage3
                None None C2) as Ha.
  rewrite G2 in Ha. destruct Ha as [Ea (G3 & O3 & C3)].
  unfold hbind, await_storage, hret. rewrite Ea.
  eexists stage1, stage2, stage3, metadata, title, _, (ext1 ++ ext2).
  rewrite app_assoc. split; [reflexivity|]. split; [|split; [exact Hl|split]].
  - rewrite G3. f_equal. unfold c1, with_message, with_title.
    destruct (conv_messages c) as [|m ms]; cbn; rewrite <- ?app_assoc; reflexivity.
  - intros id Hid. rewrite O3, O2 by exact Hid. now apply O1.
  - rewrite length_app. destruct (conv_messages c); simpl in He; lia.
Qed.

(** What [send_message] stores for the conversation [c]. *)
Definition turn_stored (c : Conversation) (request : SendMessageRequest)
  (stage1 : list Stage1Result) (stage2 : list Stage2Result) (stage3 : Stage3Result)
  (title : str) : Conversation :=
  {| conv_id := conv_id c; conv_created_at := conv_created_at c;
     conv_title := match conv_messages c with
                   | [] => title
                   | _ :: _ => conv_title c
                   end;
     conv_messages :=
       conv_messages c
       ++ [UserMessage (req_content request);
           AssistantMessage stage1 stage2 stage3 None None] |}.

(** [send_message] over files that each hold the conversation of their
    own id, with at most twenty-six council models.  For an id that the
    storage does not know it raises HTTP 404 "Conversation not found",
    writes no file and sends no request.  For a stored conversation it
    returns the three stages and stores the turn: the conversation gains
    the user message and then one assistant message with the returned
    stages (no Stage 4, no run configuration); it keeps its id and its
    creation time; its title is replaced, by one of at most fifty
    characters, exactly when it had no message before; no other
    conversation changes.  At most [6 * (2 * n + 1)] requests are sent for
    [n] council models, and up to six more for the title. *)
Theorem send_message_stores_turn (conversation_id : str)
  (request : SendMessageRequest) (env : Env) (files : Files) (log : list Request) :
  consistent files ->
  length (council_models request) <= 26 ->
  match dict_get files conversation_id with
  | None =>
      send_message conversation_id request env files log
      = (Raise (HTTPException "404" (lit "Conversation not found")), files, log)
  | Some c =>
      exists stage1 stage2 stage3 metadata title files' ext,
        send_message conversation_id request env files log
        = (Ok (stage1, stage2, stage3, metadata), files', log ++ ext) /\
        dict_get files' conversation_id
        = Some (turn_stored c request stage1 stage2 stage3 title) /\
        length title <= 50 /\
        (forall id, id <> conversation_id -> dict_get files' id = dict_get files id) /\
        length ext <= 6 * (2 * length (council_models request) + 1)
                      + match conv_messages c with [] => 6 | _ :: _ => 0 end
  end.
Proof.
  intros Hf Hn. destruct (dict_get files conversation_id) as [c|] eqn:Hc.
  - exact (send_message_known conversation_id request env files log c Hf Hc Hn).
  - now apply send_message_unknown_conversation.
Qed.

Lemma send_message_stores_turn_witness :
  (exists stage1 stage2 stage3 metadata title files' ext,
      send_message (lit "c2") MainFacts.sample_request MainFacts.provider_down_env
                   sample_files []
      = (Ok (stage1, stage2, stage3, metadata), files', [] ++ ext) /\
      dict_get files' (lit "c2")
      = Some {| conv_id := lit "c2"; conv_created_at := lit "2024-05-02T09:00:00";
                conv_title := title;
                conv_messages :=
                  [UserMessage (req_content MainFacts.sample_request);
                   AssistantMessage stage1 stage2 stage3 None None] |} /\
      length title <= 50 /\
      (forall id, id <> lit "c2" -> dict_get files' id = dict_get sample_files id) /\
      length ext
      <= 6 * (2 * length (council_models MainFacts.sample_request) + 1) + 6) /\
  send_message (lit "c9") MainFacts.sample_request MainFacts.provider_down_env
               sample_files []
  = (Raise (HTTPException "404" (lit "Conversation not found")), sample_files, []).
Proof.
  assert (Hn : length (council_models MainFacts.sample_request) <= 26)
    by (simpl; lia).
  split.
  - exact (send_message_stores_turn (lit "c2") MainFacts.sample_request
             MainFacts.provider_down_env sample_files [] sample_files_consistent Hn).
  - exact (send_message_stores_turn (lit "c9") MainFacts.sample_request
             MainFacts.provider_down_env sample_files [] sample_files_consistent Hn).
Defined.

End ApiFacts.
